(** * NeoPayphone: the call state machine of NeoPhone5.ino

    A shallow embedding of the Arduino sketch [NeoPhone5.ino]: the track
    directory built from the sound module's file listing, the debounced
    key-fob reader, keypad entry, and the call state machine of [loop].

    The sketch talks to hardware.  Inputs (pin levels, keypad keys, the
    answers of the sound module, the passing of time) are read from a
    script held in the machine state; outputs (commands to the sound
    module, LCD commands, [delay] calls) are appended to an event log that
    the program can never read back. *)

From Stdlib Require Import ZArith String Ascii Lia DecimalString.
From stdpp Require Import base list strings numbers.

Open Scope Z_scope.

(** ** C integer types of the AVR target *)

Definition to_uint8 (z : Z) : Z := z mod 256.
Definition to_uint32 (z : Z) : Z := z mod 4294967296.
Definition LONG_MAX : Z := 2147483647.
Definition LONG_MIN : Z := -2147483648.

(** ** Characters and C strings *)

Definition NUL : ascii := "000"%char.

Definition isdigit (c : ascii) : bool :=
  (48 <=? Z.of_nat (nat_of_ascii c)) && (Z.of_nat (nat_of_ascii c) <=? 57).

Definition isspace (c : ascii) : bool :=
  let n := Z.of_nat (nat_of_ascii c) in (n =? 32) || ((9 <=? n) && (n <=? 13)).

Definition digit_value (c : ascii) : Z := Z.of_nat (nat_of_ascii c) - 48.

(** [strlcpy(buffer, text, 17)]: at most 16 characters are kept. *)
Fixpoint strlcpy (room : nat) (s : string) : string :=
  match room, s with
  | S room', String c s' => if Ascii.eqb c NUL then EmptyString else String c (strlcpy room' s')
  | _, _ => EmptyString
  end.

(** ** convertFilenameToInt *)

(** Step 1 of [convertFilenameToInt]: [filename + index] after the loop
    [while (filename[index] != '\0' && !isdigit(filename[index])) index++]. *)
Fixpoint skipNonNumeric (filename : string) : string :=
  match filename with
  | EmptyString => EmptyString
  | String c rest =>
      if negb (Ascii.eqb c NUL) && negb (isdigit c) then skipNonNumeric rest else filename
  end.

(** Step 2: the contents of [numStr]; [room] is [5 - numIndex]. *)
Fixpoint extractDigits (room : nat) (s : string) : string :=
  match room, s with
  | S room', String c rest =>
      if negb (Ascii.eqb c NUL) && negb (Ascii.eqb c "."%char) then
        if negb (isdigit c) then EmptyString
        else String c (extractDigits room' rest)
      else EmptyString
  | _, _ => EmptyString
  end.

(** [strtol(s, &endPtr, 10)] on a 32-bit [long]: leading white space, an
    optional sign, decimal digits, clamped to the range of [long].  Returns
    the value and the text [endPtr] points at. *)
Fixpoint strtol_space (s : string) : string :=
  match s with
  | String c rest => if isspace c then strtol_space rest else s
  | EmptyString => EmptyString
  end.

Fixpoint strtol_digits (acc : Z) (s : string) : Z * string :=
  match s with
  | String c rest =>
      if isdigit c then strtol_digits (acc * 10 + digit_value c) rest else (acc, s)
  | EmptyString => (acc, EmptyString)
  end.

Definition strtol (s : string) : Z * string :=
  let s1 := strtol_space s in
  let '(neg, s2) :=
    match s1 with
    | String "-" rest => (true, rest)
    | String "+" rest => (false, rest)
    | _ => (false, s1)
    end in
  match s2 with
  | String c _ =>
      if isdigit c then
        let '(n, endPtr) := strtol_digits 0 s2 in
        let v := if neg then - n else n in
        (Z.max LONG_MIN (Z.min LONG_MAX v), endPtr)
      else (0, s)
  | EmptyString => (0, s)
  end.

(** [filename = None] is the NULL pointer. *)
Definition convertFilenameToInt (filename : option string) : Z :=
  match filename with
  | None => -1
  | Some name =>
      let numStr := extractDigits 5 (skipNonNumeric name) in
      if (String.length numStr =? 0)%nat then -1
      else
        let '(num, endPtr) := strtol numStr in
        if negb (String.eqb endPtr EmptyString) || (num <? 0) || (99999 <? num)
        then -1 else num
  end.

(** ** Program data *)

Inductive PhoneState :=
| STATE_IDLE
| STATE_DIAL_TONE
| STATE_KEYPAD_ENTRY
| STATE_CONNECTING
| STATE_INCOMING_CALL
| STATE_RESET.

Definition PhoneState_eqb (a b : PhoneState) : bool :=
  match a, b with
  | STATE_IDLE, STATE_IDLE | STATE_DIAL_TONE, STATE_DIAL_TONE
  | STATE_KEYPAD_ENTRY, STATE_KEYPAD_ENTRY | STATE_CONNECTING, STATE_CONNECTING
  | STATE_INCOMING_CALL, STATE_INCOMING_CALL | STATE_RESET, STATE_RESET => true
  | _, _ => false
  end.

(** A digital input level.  All inputs are pulled up: [HIGH] is the idle
    level, [LOW] is "pressed", "off-hook" or "playing". *)
Inductive Level := LOW | HIGH.

Definition is_low (l : Level) : bool := match l with LOW => true | HIGH => false end.

Record KeyFobButton := mkKeyFobButton { pin : Z; number : Z; letter : ascii }.

Definition numButtons : Z := 4.

Definition keyfobButtons : list KeyFobButton :=
  [ mkKeyFobButton 16 1 "A"; mkKeyFobButton 15 2 "B";
    mkKeyFobButton 14 3 "C"; mkKeyFobButton 17 4 "D" ].

(** [keyfobButtons[i]]; every index the program uses is below [numButtons]. *)
Definition keyfobButton (i : Z) : KeyFobButton :=
  nth (Z.to_nat i) keyfobButtons (mkKeyFobButton 0 0 NUL).

Definition dialTone : Z := 1.
Definition buttonPress : Z := 2.
Definition ringingTone : Z := 3.
Definition callFinished : Z := 4.

Definition RingDelay : Z := 1000.
Definition ringTimeout : Z := 60000.
Definition sfxDelay : Z := 400.
Definition messageWait : Z := 1000.
Definition debounceDelay : Z := 2.
Definition screensaverTimeout : Z := 60000.

Definition StartMessage1 : string := "Neo Coms Network".
Definition StartMessage2 : string := "  Lift Handset".
Definition entryMessage1 : string := "  Enter Number".
Definition callingMessage : string := "    Calling".
Definition callComplete1 : string := "  Call Complete".
Definition replaceHandset : string := "Replace Handset".
Definition connectedMessage : string := "   Connected".
Definition invalidNumber : string := " Invalid Number".
Definition incomingCallMsg : string := " Incoming Call".
Definition noAnswer : string := "   No Answer".
Definition answer : string := "   Answer Me!".
Definition audioFX : string := "AudioFX".
Definition notFound : string := "Not Found".
Definition blank : string := "                ".
Definition ringError : string := "RingTone not found".
Definition errorMsg : string := "Error: ".
Definition noFiles : string := "No Sound Files!".

Record AudioFile := mkAudioFile { fileID : Z; trackNum : Z }.

Definition MAX_TRACKS : Z := 30.

(** [keypad.getKey()] returns [NO_KEY] when no key is pressed. *)
Definition NO_KEY : ascii := NUL.

(** ** Hardware inputs

    Each input is a script of the values successive reads return; a read
    past the end of its script returns the idle value: pins [HIGH] (on-hook,
    released, not playing), the keypad [NO_KEY], the sound module
    acknowledging.  [ticksIn] gives the milliseconds that pass before each
    successive [millis()] call (1 ms once the script is used up); [delay]
    adds to the same clock. *)
Record Inputs := mkInputs {
  clock : Z;
  ticksIn : list nat;
  hookIn : list Level;
  actIn : list Level;
  fobIn : list (list Level);
  keyIn : list ascii;
  playIn : list bool;
  resetIn : list bool;
  listing : list string
}.

(** The global and [static] variables of the sketch, and the inputs left. *)
Record Machine := mkMachine {
  currentState : PhoneState;
  audioFiles : list AudioFile;
  totalFiles : Z;
  startupComplete : bool;
  lastActivityTime : Z;
  screensaverActive : bool;
  screensaverLastUpdate : Z;
  screensaverPosition : Z;
  screensaverDirection : bool;
  loop_trackNum : Z;
  lastDebounceTime : Z;
  lastButtonPressed : Z;
  buttonStable : bool;
  inputs : Inputs
}.

Definition set_clock v (i : Inputs) : Inputs :=
  mkInputs v (ticksIn i) (hookIn i) (actIn i) (fobIn i) (keyIn i) (playIn i) (resetIn i) (listing i).
Definition set_ticksIn v (i : Inputs) : Inputs :=
  mkInputs (clock i) v (hookIn i) (actIn i) (fobIn i) (keyIn i) (playIn i) (resetIn i) (listing i).
Definition set_hookIn v (i : Inputs) : Inputs :=
  mkInputs (clock i) (ticksIn i) v (actIn i) (fobIn i) (keyIn i) (playIn i) (resetIn i) (listing i).
Definition set_actIn v (i : Inputs) : Inputs :=
  mkInputs (clock i) (ticksIn i) (hookIn i) v (fobIn i) (keyIn i) (playIn i) (resetIn i) (listing i).
Definition set_fobIn v (i : Inputs) : Inputs :=
  mkInputs (clock i) (ticksIn i) (hookIn i) (actIn i) v (keyIn i) (playIn i) (resetIn i) (listing i).
Definition set_keyIn v (i : Inputs) : Inputs :=
  mkInputs (clock i) (ticksIn i) (hookIn i) (actIn i) (fobIn i) v (playIn i) (resetIn i) (listing i).
Definition set_playIn v (i : Inputs) : Inputs :=
  mkInputs (clock i) (ticksIn i) (hookIn i) (actIn i) (fobIn i) (keyIn i) v (resetIn i) (listing i).
Definition set_resetIn v (i : Inputs) : Inputs :=
  mkInputs (clock i) (ticksIn i) (hookIn i) (actIn i) (fobIn i) (keyIn i) (playIn i) v (listing i).
Definition set_currentState v (m : Machine) : Machine :=
  mkMachine v (audioFiles m) (totalFiles m) (startupComplete m) (lastActivityTime m) (screensaverActive m) (screensaverLastUpdate m) (screensaverPosition m) (screensaverDirection m) (loop_trackNum m) (lastDebounceTime m) (lastButtonPressed m) (buttonStable m) (inputs m).
Definition set_audioFiles v (m : Machine) : Machine :=
  mkMachine (currentState m) v (totalFiles m) (startupComplete m) (lastActivityTime m) (screensaverActive m) (screensaverLastUpdate m) (screensaverPosition m) (screensaverDirection m) (loop_trackNum m) (lastDebounceTime m) (lastButtonPressed m) (buttonStable m) (inputs m).
Definition set_totalFiles v (m : Machine) : Machine :=
  mkMachine (currentState m) (audioFiles m) v (startupComplete m) (lastActivityTime m) (screensaverActive m) (screensaverLastUpdate m) (screensaverPosition m) (screensaverDirection m) (loop_trackNum m) (lastDebounceTime m) (lastButtonPressed m) (buttonStable m) (inputs m).
Definition set_startupComplete v (m : Machine) : Machine :=
  mkMachine (currentState m) (audioFiles m) (totalFiles m) v (lastActivityTime m) (screensaverActive m) (screensaverLastUpdate m) (screensaverPosition m) (screensaverDirection m) (loop_trackNum m) (lastDebounceTime m) (lastButtonPressed m) (buttonStable m) (inputs m).
Definition set_lastActivityTime v (m : Machine) : Machine :=
  mkMachine (currentState m) (audioFiles m) (totalFiles m) (startupComplete m) v (screensaverActive m) (screensaverLastUpdate m) (screensaverPosition m) (screensaverDirection m) (loop_trackNum m) (lastDebounceTime m) (lastButtonPressed m) (buttonStable m) (inputs m).
Definition set_screensaverActive v (m : Machine) : Machine :=
  mkMachine (currentState m) (audioFiles m) (totalFiles m) (startupComplete m) (lastActivityTime m) v (screensaverLastUpdate m) (screensaverPosition m) (screensaverDirection m) (loop_trackNum m) (lastDebounceTime m) (lastButtonPressed m) (buttonStable m) (inputs m).
Definition set_screensaverLastUpdate v (m : Machine) : Machine :=
  mkMachine (currentState m) (audioFiles m) (totalFiles m) (startupComplete m) (lastActivityTime m) (screensaverActive m) v (screensaverPosition m) (screensaverDirection m) (loop_trackNum m) (lastDebounceTime m) (lastButtonPressed m) (buttonStable m) (inputs m).
Definition set_screensaverPosition v (m : Machine) : Machine :=
  mkMachine (currentState m) (audioFiles m) (totalFiles m) (startupComplete m) (lastActivityTime m) (screensaverActive m) (screensaverLastUpdate m) v (screensaverDirection m) (loop_trackNum m) (lastDebounceTime m) (lastButtonPressed m) (buttonStable m) (inputs m).
Definition set_screensaverDirection v (m : Machine) : Machine :=
  mkMachine (currentState m) (audioFiles m) (totalFiles m) (startupComplete m) (lastActivityTime m) (screensaverActive m) (screensaverLastUpdate m) (screensaverPosition m) v (loop_trackNum m) (lastDebounceTime m) (lastButtonPressed m) (buttonStable m) (inputs m).
Definition set_loop_trackNum v (m : Machine) : Machine :=
  mkMachine (currentState m) (audioFiles m) (totalFiles m) (startupComplete m) (lastActivityTime m) (screensaverActive m) (screensaverLastUpdate m) (screensaverPosition m) (screensaverDirection m) v (lastDebounceTime m) (lastButtonPressed m) (buttonStable m) (inputs m).
Definition set_lastDebounceTime v (m : Machine) : Machine :=
  mkMachine (currentState m) (audioFiles m) (totalFiles m) (startupComplete m) (lastActivityTime m) (screensaverActive m) (screensaverLastUpdate m) (screensaverPosition m) (screensaverDirection m) (loop_trackNum m) v (lastButtonPressed m) (buttonStable m) (inputs m).
Definition set_lastButtonPressed v (m : Machine) : Machine :=
  mkMachine (currentState m) (audioFiles m) (totalFiles m) (startupComplete m) (lastActivityTime m) (screensaverActive m) (screensaverLastUpdate m) (screensaverPosition m) (screensaverDirection m) (loop_trackNum m) (lastDebounceTime m) v (buttonStable m) (inputs m).
Definition set_buttonStable v (m : Machine) : Machine :=
  mkMachine (currentState m) (audioFiles m) (totalFiles m) (startupComplete m) (lastActivityTime m) (screensaverActive m) (screensaverLastUpdate m) (screensaverPosition m) (screensaverDirection m) (loop_trackNum m) (lastDebounceTime m) (lastButtonPressed m) v (inputs m).
Definition set_inputs v (m : Machine) : Machine :=
  mkMachine (currentState m) (audioFiles m) (totalFiles m) (startupComplete m) (lastActivityTime m) (screensaverActive m) (screensaverLastUpdate m) (screensaverPosition m) (screensaverDirection m) (loop_trackNum m) (lastDebounceTime m) (lastButtonPressed m) (buttonStable m) v.

(** The state of the sketch when [setup] starts. *)
Definition boot (i : Inputs) : Machine :=
  mkMachine STATE_IDLE (replicate (Z.to_nat MAX_TRACKS) (mkAudioFile 0 0)) 0
    false 0 false 0 0 true 255 0 (-1) false i.

(** ** Outputs *)

Inductive Event :=
| EvStop
| EvPlay (n : Z) (ok : bool)
| EvModuleReset (ok : bool)
| EvVolUp
| EvListFiles
| EvDelay (ms : Z)
| EvLcdInit
| EvLcdBacklight (v : Z)
| EvLcdClear
| EvLcdSetCursor (col row : Z)
| EvLcdPrint (s : string)
| EvLcdDisplay.

(** ** The monad of the sketch

    A computation runs on a machine and yields its result (or [None] when
    it did not return: a loop used up its iteration budget, or the sketch
    halted in [while (1)]), the machine it reached and the events it
    emitted, oldest first. *)
Definition M (A : Type) : Type := Machine -> option A * Machine * list Event.

Definition ret {A} (a : A) : M A := fun m => (Some a, m, []).

Definition bind {A B} (c : M A) (k : A -> M B) : M B :=
  fun m =>
    match c m with
    | (Some a, m1, l1) =>
        match k a m1 with
        | (r, m2, l2) => (r, m2, l1 ++ l2)
        end
    | (None, m1, l1) => (None, m1, l1)
    end.

Declare Scope sketch_scope.
Delimit Scope sketch_scope with sketch.
Notation "x ← y ; z" := (bind y (fun x => z))
  (at level 20, y at level 100, z at level 200, only parsing) : sketch_scope.
Notation "' x ← y ; z" := (bind y (fun x => z))
  (at level 20, x pattern, y at level 100, z at level 200, only parsing) : sketch_scope.
Notation "x ;; z" := (bind x (fun _ => z))
  (at level 100, z at level 200, only parsing, right associativity) : sketch_scope.
Open Scope sketch_scope.

Definition stuck {A} : M A := fun m => (None, m, []).
Definition get : M Machine := fun m => (Some m, m, []).
Definition modify (f : Machine -> Machine) : M unit := fun m => (Some tt, f m, []).
Definition emit (e : Event) : M unit := fun m => (Some tt, m, [e]).
Definition when (b : bool) (c : M unit) : M unit := if b then c else ret tt.

Definition result {A} (x : option A * Machine * list Event) : option A := fst (fst x).
Definition final {A} (x : option A * Machine * list Event) : Machine := snd (fst x).
Definition events {A} (x : option A * Machine * list Event) : list Event := snd x.

(** *** Reading inputs *)

Definition modify_inputs (f : Inputs -> Inputs) : M unit :=
  modify (fun m => set_inputs (f (inputs m)) m).

Definition digitalRead_ReceiverHook : M Level :=
  m ← get;
  modify_inputs (set_hookIn (tail (hookIn (inputs m))));;
  ret (hd HIGH (hookIn (inputs m))).

Definition digitalRead_SFX_ACT : M Level :=
  m ← get;
  modify_inputs (set_actIn (tail (actIn (inputs m))));;
  ret (hd HIGH (actIn (inputs m))).

(** [digitalRead(keyfobButtons[i].pin)] *)
Definition digitalRead_keyfob (i : Z) : M Level :=
  m ← get;
  let script := nth (Z.to_nat i) (fobIn (inputs m)) [] in
  modify_inputs (set_fobIn (<[Z.to_nat i := tail script]> (fobIn (inputs m))));;
  ret (hd HIGH script).

Definition keypad_getKey : M ascii :=
  m ← get;
  modify_inputs (set_keyIn (tail (keyIn (inputs m))));;
  ret (hd NO_KEY (keyIn (inputs m))).

Definition millis : M Z :=
  m ← get;
  let now := clock (inputs m) + Z.of_nat (hd 1%nat (ticksIn (inputs m))) in
  modify_inputs (fun i => set_clock now (set_ticksIn (tail (ticksIn i)) i));;
  ret (to_uint32 now).

Definition delay (ms : Z) : M unit :=
  modify_inputs (fun i => set_clock (clock i + ms) i);;
  emit (EvDelay ms).

(** *** The sound module *)

Definition sfx_stop : M unit := emit EvStop.

Definition sfx_playTrack (n : Z) : M bool :=
  m ← get;
  let ok := hd true (playIn (inputs m)) in
  modify_inputs (set_playIn (tail (playIn (inputs m))));;
  emit (EvPlay n ok);;
  ret ok.

Definition sfx_reset : M bool :=
  m ← get;
  let ok := hd true (resetIn (inputs m)) in
  modify_inputs (set_resetIn (tail (resetIn (inputs m))));;
  emit (EvModuleReset ok);;
  ret ok.

Definition sfx_volUp : M unit := emit EvVolUp.

(** [sfx.listFiles()] returns a [uint8_t]. *)
Definition sfx_listFiles : M Z :=
  m ← get;
  emit EvListFiles;;
  ret (to_uint8 (Z.of_nat (length (listing (inputs m))))).

(** [sfx.fileName(f)]: NULL past the end of the listing. *)
Definition sfx_fileName (f : Z) : M (option string) :=
  m ← get;
  ret (listing (inputs m) !! Z.to_nat f).

(** *** The display *)

Definition lcd_init : M unit := emit EvLcdInit.
Definition lcd_backlight : M unit := emit (EvLcdBacklight 255).
Definition lcd_setBacklight (v : Z) : M unit := emit (EvLcdBacklight (to_uint8 v)).
Definition lcd_clear : M unit := emit EvLcdClear.
Definition lcd_setCursor (col row : Z) : M unit :=
  emit (EvLcdSetCursor (to_uint8 col) (to_uint8 row)).
Definition lcd_print (s : string) : M unit := emit (EvLcdPrint s).
Definition lcd_display : M unit := emit EvLcdDisplay.

(** ** Small helpers of the sketch *)

Definition isReceiverHookOff : M bool :=
  reading ← digitalRead_ReceiverHook;
  ret (is_low reading).

Definition stillPlaying : M bool :=
  reading ← digitalRead_SFX_ACT;
  ret (is_low reading).

Definition lcdClearLine : M unit := lcd_print "                ".

Definition StillLCD (text1 text2 : string) : M unit :=
  lcd_clear;;
  lcd_setCursor 0 0;;
  lcd_print (strlcpy 16 text1);;
  lcd_setCursor 0 1;;
  lcd_print (strlcpy 16 text2).

(** Same as [StillLCD]; the texts live in program memory on the target. *)
Definition StillLCD_P (text1 text2 : string) : M unit := StillLCD text1 text2.

Definition displayLCDTopMessage_P (message : string) : M unit :=
  lcd_setCursor 0 0;;
  lcdClearLine;;
  lcd_setCursor 0 0;;
  lcd_print (strlcpy 16 message).

(** [triggerSoundUART(uint8_t trackNum)]: the answer of [playTrack] is
    only logged under DEBUG. *)
Definition triggerSoundUART (n : Z) : M unit :=
  let n := to_uint8 n in
  if 0 <=? n then (_ ← sfx_playTrack n; ret tt) else ret tt.

(** ** The track directory *)

(** The [for] loop of [findTrackNumberByFilename]: [todo] is
    [totalFiles - i].  [totalFiles] never exceeds [MAX_TRACKS], the length
    of [audioFiles], so the index is always in range. *)
Fixpoint findTrack_loop (todo : nat) (i : nat) (files : list AudioFile) (trackID : Z)
  : option Z :=
  match todo with
  | O => None
  | S todo' =>
      match files !! i with
      | Some f =>
          if fileID f =? trackID then Some (trackNum f)
          else findTrack_loop todo' (S i) files trackID
      | None => findTrack_loop todo' (S i) files trackID
      end
  end.

Definition string_of_long (z : Z) : string := NilZero.string_of_int (Z.to_int z).

(** [snprintf(missingFileMsg, 17, "    %ld.OGG", trackID)] *)
Definition missingFileMsg (trackID : Z) : string :=
  strlcpy 16 ("    " ++ string_of_long trackID ++ ".OGG").

Definition findTrackNumberByFilename (trackID : Z) : M Z :=
  m ← get;
  match findTrack_loop (Z.to_nat (totalFiles m)) 0 (audioFiles m) trackID with
  | Some n => ret n
  | None =>
      StillLCD (missingFileMsg trackID) "Number Not Found";;
      delay messageWait;;
      modify (set_currentState STATE_RESET);;
      ret 255
  end.

(** The [for] loop of [scanAudioFXStorageNew]: [todo] is [files - f]. *)
Fixpoint scanAudioFXStorageNew_loop (todo : nat) (f : Z) : M unit :=
  match todo with
  | O => ret tt
  | S todo' =>
      m ← get;
      if MAX_TRACKS <=? totalFiles m then ret tt
      else
        filename ← sfx_fileName f;
        let trackID := convertFilenameToInt filename in
        if trackID =? -1 then scanAudioFXStorageNew_loop todo' (to_uint8 (f + 1))
        else
          modify (fun m =>
            set_totalFiles (to_uint8 (totalFiles m + 1))
              (set_audioFiles
                 (<[Z.to_nat (totalFiles m) := mkAudioFile trackID f]> (audioFiles m)) m));;
          scanAudioFXStorageNew_loop todo' (to_uint8 (f + 1))
  end.

Definition scanAudioFXStorageNew : M unit :=
  files ← sfx_listFiles;
  if files =? 0 then
    StillLCD_P errorMsg noFiles;;
    delay (messageWait * 3);;
    modify (set_currentState STATE_RESET)
  else
    modify (set_totalFiles 0);;
    scanAudioFXStorageNew_loop (Z.to_nat files) 0.

(** ** Hang-up monitoring *)

Fixpoint checkForHangupOrEnd (fuel : nat) : M unit :=
  match fuel with
  | O => stuck
  | S fuel' =>
      playing ← stillPlaying;
      if playing then
        off ← isReceiverHookOff;
        if negb off then
          sfx_stop;;
          modify (set_currentState STATE_RESET)
        else checkForHangupOrEnd fuel'
      else ret tt
  end.

(** ** Outbound call *)

(** The ringback burst and the start of the recording (the middle of
    [dialingPhone]). *)
Definition dialingPhone_connect (tempNum : Z) : M unit :=
  displayLCDTopMessage_P callingMessage;;
  index ← findTrackNumberByFilename ringingTone;
  sfx_stop;;
  delay sfxDelay;;
  triggerSoundUART index;;
  delay RingDelay;;
  sfx_stop;;
  delay sfxDelay;;
  displayLCDTopMessage_P connectedMessage;;
  triggerSoundUART tempNum;;
  delay sfxDelay.

(** [while (isReceiverHookOff()) { if (!stillPlaying()) { ... } }] at the
    end of [dialingPhone]. *)
Fixpoint dialingPhone_wait (fuel : nat) (index : Z) : M unit :=
  match fuel with
  | O => stuck
  | S fuel' =>
      off ← isReceiverHookOff;
      if off then
        playing ← stillPlaying;
        when (negb playing) (triggerSoundUART index;; delay sfxDelay);;
        dialingPhone_wait fuel' index
      else ret tt
  end.

Definition dialingPhone (fuel : nat) (tempNum : Z) : M unit :=
  off ← isReceiverHookOff;
  if negb off then
    sfx_stop;;
    modify (set_currentState STATE_RESET)
  else
    dialingPhone_connect tempNum;;
    checkForHangupOrEnd fuel;;
    off ← isReceiverHookOff;
    if negb off then
      sfx_stop;;
      modify (set_currentState STATE_RESET)
    else
      index ← findTrackNumberByFilename callFinished;
      triggerSoundUART index;;
      StillLCD_P callComplete1 replaceHandset;;
      dialingPhone_wait fuel index;;
      delay sfxDelay;;
      sfx_stop;;
      modify (set_currentState STATE_RESET).

(** ** Keypad entry *)

(** The locals of [GetKeyPadNumber]. *)
Record KeypadEntry := mkKeypadEntry {
  phoneNumber : list ascii;
  displayBuffer : list ascii;
  firstKeyPressed : bool;
  KeyPadCount : Z
}.

Definition space : ascii := " "%char.

Definition KeypadEntry_init : KeypadEntry :=
  mkKeypadEntry (replicate 5 space) (replicate 6 space) false 0.

(** The entry loop [while (KeyPadCount < 5)].  [Some number]: five digits
    were collected; [None]: the handset was replaced ([return 255]). *)
Fixpoint GetKeyPadNumber_entry (fuel : nat) (tempIndex : Z) (e : KeypadEntry)
  : M (option (list ascii)) :=
  match fuel with
  | O => stuck
  | S fuel' =>
      if KeyPadCount e <? 5 then
        off ← isReceiverHookOff;
        if negb off then
          modify (set_currentState STATE_RESET);;
          ret None
        else
          key ← keypad_getKey;
          if negb (Ascii.eqb key NO_KEY) then
            when (negb (firstKeyPressed e)) sfx_stop;;
            let n := KeyPadCount e in
            if isdigit key then
              triggerSoundUART tempIndex;;
              let number' := <[Z.to_nat n := key]> (phoneNumber e) in
              let display' :=
                <[Z.to_nat (n + (if 1 <? n then 1 else 0)) := key]> (displayBuffer e) in
              lcd_setCursor 5 1;;
              lcd_print (string_of_list_ascii display');;
              lcd_display;;
              GetKeyPadNumber_entry fuel' tempIndex
                (mkKeypadEntry number' display' true (to_uint8 (n + 1)))
            else if Ascii.eqb key "#" then
              let display' := replicate 6 space in
              lcd_setCursor 5 1;;
              lcd_print (string_of_list_ascii display');;
              lcd_display;;
              GetKeyPadNumber_entry fuel' tempIndex
                (mkKeypadEntry (replicate 5 space) display' true 0)
            else if Ascii.eqb key "*" then
              lcd_setCursor 5 1;;
              lcd_print "11-111";;
              lcd_display;;
              GetKeyPadNumber_entry fuel' tempIndex
                (mkKeypadEntry (list_ascii_of_string "11111") (displayBuffer e) true 5)
            else
              GetKeyPadNumber_entry fuel' tempIndex
                (mkKeypadEntry (phoneNumber e) (displayBuffer e) true n)
          else GetKeyPadNumber_entry fuel' tempIndex e
      else ret (Some (phoneNumber e))
  end.

(** [while (isReceiverHookOff())] of the "file not found" branch. *)
Fixpoint GetKeyPadNumber_invalid_wait (fuel : nat) : M unit :=
  match fuel with
  | O => stuck
  | S fuel' =>
      off ← isReceiverHookOff;
      if off then
        playing ← stillPlaying;
        when (negb playing)
          (index ← findTrackNumberByFilename callFinished; triggerSoundUART index);;
        delay 5;;
        GetKeyPadNumber_invalid_wait fuel'
      else ret tt
  end.

(** [GetKeyPadNumber] from the end of the entry loop on. *)
Definition GetKeyPadNumber_dial (fuel : nat) (number : list ascii) : M Z :=
  delay sfxDelay;;
  let trackID := convertFilenameToInt (Some (string_of_list_ascii number)) in
  found ← findTrackNumberByFilename trackID;
  let tempIndex := to_uint8 found in
  if tempIndex =? 255 then
    sfx_stop;;
    index ← findTrackNumberByFilename callFinished;
    triggerSoundUART index;;
    delay sfxDelay;;
    StillLCD_P invalidNumber replaceHandset;;
    GetKeyPadNumber_invalid_wait fuel;;
    modify (set_currentState STATE_RESET);;
    ret 255
  else
    delay sfxDelay;;
    soundPlayed ← sfx_playTrack tempIndex;
    if negb soundPlayed then
      modify (set_currentState STATE_RESET);;
      ret 255
    else ret tempIndex.

Definition GetKeyPadNumber (fuel : nat) : M Z :=
  displayLCDTopMessage_P entryMessage1;;
  found ← findTrackNumberByFilename buttonPress;
  let tempIndex := to_uint8 found in
  lcd_setCursor 0 1;;
  lcdClearLine;;
  lcd_setCursor 5 1;;
  lcd_print (string_of_list_ascii (displayBuffer KeypadEntry_init));;
  entered ← GetKeyPadNumber_entry fuel tempIndex KeypadEntry_init;
  match entered with
  | None => ret 255
  | Some number => GetKeyPadNumber_dial fuel number
  end.

(** ** Incoming call *)

(** [while (isReceiverHookOff()) delay(50)] after an answered call. *)
Fixpoint processIncomingCall_wait (fuel : nat) : M unit :=
  match fuel with
  | O => stuck
  | S fuel' =>
      off ← isReceiverHookOff;
      if off then delay 50;; processIncomingCall_wait fuel' else ret tt
  end.

(** The branch of the ring loop taken when the handset is lifted. *)
Definition processIncomingCall_answer (fuel : nat) (n : Z) : M unit :=
  sfx_stop;;
  StillLCD_P incomingCallMsg connectedMessage;;
  delay sfxDelay;;
  triggerSoundUART n;;
  delay sfxDelay;;
  checkForHangupOrEnd fuel;;
  off ← isReceiverHookOff;
  if negb off then modify (set_currentState STATE_RESET)
  else
    found ← findTrackNumberByFilename callFinished;
    triggerSoundUART (to_uint8 found);;
    StillLCD_P callComplete1 replaceHandset;;
    processIncomingCall_wait fuel;;
    modify (set_currentState STATE_RESET).

(** The ring loop [while (millis() - ringStartTime < ringTimeout)].
    [true]: the function returned from inside the loop. *)
Fixpoint processIncomingCall_ring (fuel : nat) (n index ringStartTime : Z) : M bool :=
  match fuel with
  | O => stuck
  | S fuel' =>
      now ← millis;
      if to_uint32 (now - ringStartTime) <? ringTimeout then
        off ← isReceiverHookOff;
        if off then processIncomingCall_answer fuel n;; ret true
        else
          playing ← stillPlaying;
          when (negb playing) (triggerSoundUART index);;
          delay 5;;
          processIncomingCall_ring fuel' n index ringStartTime
      else ret false
  end.

Definition processIncomingCall (fuel : nat) (n : Z) : M unit :=
  found ← findTrackNumberByFilename ringingTone;
  let index := to_uint8 found in
  if index =? 255 then
    StillLCD_P ringError blank;;
    modify (set_currentState STATE_RESET);;
    delay (messageWait * 3)
  else
    triggerSoundUART index;;
    ringStartTime ← millis;
    returned ← processIncomingCall_ring fuel n index ringStartTime;
    if returned then ret tt
    else
      now ← millis;
      if ringTimeout <=? to_uint32 (now - ringStartTime) then
        delay sfxDelay;;
        sfx_stop;;
        StillLCD_P noAnswer blank;;
        delay messageWait;;
        modify (set_currentState STATE_RESET)
      else ret tt.

(** ** The key fob *)

(** The [for] loop of [CheckForIncomingCall] from button [i] on; [todo] is
    [numButtons - i].  The three [static] variables live in the machine. *)
Fixpoint CheckForIncomingCall_loop (todo : nat) (i : Z) : M Z :=
  match todo with
  | O => ret (-1)
  | S todo' =>
      reading ← digitalRead_keyfob i;
      if is_low reading then
        m ← get;
        when (negb (lastButtonPressed m =? i))
          (now ← millis;
           modify (fun m =>
             set_buttonStable false (set_lastButtonPressed i (set_lastDebounceTime now m))));;
        now ← millis;
        m ← get;
        if debounceDelay <? to_uint32 (now - lastDebounceTime m) then
          if negb (buttonStable m) then
            modify (set_buttonStable true);;
            ret i
          else CheckForIncomingCall_loop todo' (i + 1)
        else CheckForIncomingCall_loop todo' (i + 1)
      else
        m ← get;
        when (lastButtonPressed m =? i)
          (modify (fun m => set_buttonStable false (set_lastButtonPressed (-1) m)));;
        CheckForIncomingCall_loop todo' (i + 1)
  end.

Definition CheckForIncomingCall : M Z :=
  CheckForIncomingCall_loop (Z.to_nat numButtons) 0.

(** [while (digitalRead(keyfobButtons[firstButtonIndex].pin) == LOW) delay(5)] *)
Fixpoint ProcessIncomingKeyFob_release (fuel : nat) (firstButtonIndex : Z) : M unit :=
  match fuel with
  | O => stuck
  | S fuel' =>
      reading ← digitalRead_keyfob firstButtonIndex;
      if is_low reading then delay 5;; ProcessIncomingKeyFob_release fuel' firstButtonIndex
      else ret tt
  end.

(** The [for] loop inside the second-press window, from button [i] on.
    Returns [detectedIndex] (255: none) and the locals [lastDebounceTime]
    and [lastButtonPressed]. *)
Fixpoint ProcessIncomingKeyFob_scan (todo : nat) (i lastDebounce lastButton : Z)
  : M (Z * Z * Z) :=
  match todo with
  | O => ret (255, lastDebounce, lastButton)
  | S todo' =>
      reading ← digitalRead_keyfob i;
      if is_low reading then
        '(lastDebounce', lastButton') ←
          (if negb (lastButton =? i) then now ← millis; ret (now, i)
           else ret (lastDebounce, lastButton));
        now ← millis;
        if debounceDelay <? to_uint32 (now - lastDebounce') then
          ret (i, lastDebounce', lastButton')
        else ProcessIncomingKeyFob_scan todo' (i + 1) lastDebounce' lastButton'
      else if lastButton =? i then ProcessIncomingKeyFob_scan todo' (i + 1) lastDebounce 255
      else ProcessIncomingKeyFob_scan todo' (i + 1) lastDebounce lastButton
  end.

(** [while (millis() - startTime < 5000)]: returns [detectedIndex]. *)
Fixpoint ProcessIncomingKeyFob_window (fuel : nat) (startTime lastDebounce lastButton : Z)
  : M Z :=
  match fuel with
  | O => stuck
  | S fuel' =>
      now ← millis;
      if to_uint32 (now - startTime) <? 5000 then
        '(detectedIndex, lastDebounce', lastButton') ←
          ProcessIncomingKeyFob_scan (Z.to_nat numButtons) 0 lastDebounce lastButton;
        if negb (detectedIndex =? 255) then ret detectedIndex
        else ProcessIncomingKeyFob_window fuel' startTime lastDebounce' lastButton'
      else ret 255
  end.

(** [ProcessIncomingKeyFob] up to the end of the second-press window:
    returns [detectedIndex]. *)
Definition ProcessIncomingKeyFob_capture (fuel : nat) (firstButtonIndex : Z) : M Z :=
  lcd_setCursor 0 1;;
  lcdClearLine;;
  lcd_setCursor 0 1;;
  lcd_print (String (letter (keyfobButton firstButtonIndex)) EmptyString);;
  ProcessIncomingKeyFob_release fuel firstButtonIndex;;
  startTime ← millis;
  ProcessIncomingKeyFob_window fuel startTime 0 255.

Definition ProcessIncomingKeyFob (fuel : nat) (firstButtonIndex : Z) : M Z :=
  let firstDigit := number (keyfobButton firstButtonIndex) in
  detectedIndex ← ProcessIncomingKeyFob_capture fuel firstButtonIndex;
  if negb (detectedIndex =? 255) then
    let secondDigit := number (keyfobButton detectedIndex) in
    lcd_setCursor 1 1;;
    lcd_print (String (letter (keyfobButton detectedIndex)) EmptyString);;
    delay messageWait;;
    let finalSequence := firstDigit * 10 + secondDigit in
    findTrackNumberByFilename finalSequence
  else ret 255.

(** ** Screensaver *)

Definition exitScreensaver : M unit :=
  m ← get;
  if negb (screensaverActive m) then ret tt
  else
    modify (set_screensaverActive false);;
    lcd_clear;;
    now ← millis;
    modify (set_lastActivityTime now).

(** [for (int i = 255; i > 0; i -= 25)] *)
Fixpoint activateScreensaver_dim (todo : nat) (i : Z) : M unit :=
  match todo with
  | O => ret tt
  | S todo' =>
      if 0 <? i then
        lcd_setBacklight i;;
        delay 50;;
        activateScreensaver_dim todo' (i - 25)
      else ret tt
  end.

Definition activateScreensaver : M unit :=
  modify (set_screensaverActive true);;
  now ← millis;
  modify (fun m =>
    set_screensaverDirection true
      (set_screensaverPosition 0 (set_screensaverLastUpdate now m)));;
  activateScreensaver_dim 255 255;;
  lcd_clear.

Definition runScreensaver : M unit :=
  now ← millis;
  m ← get;
  if to_uint32 (now - screensaverLastUpdate m) <? 200 then ret tt
  else
    now ← millis;
    modify (set_screensaverLastUpdate now);;
    lcd_setCursor (screensaverPosition m) 0;;
    lcd_print " ";;
    lcd_setCursor (15 - screensaverPosition m) 1;;
    lcd_print " ";;
    (if screensaverDirection m then
       modify (set_screensaverPosition (screensaverPosition m + 1));;
       when (15 <? screensaverPosition m + 1) (modify (set_screensaverDirection false))
     else
       modify (set_screensaverPosition (screensaverPosition m - 1));;
       when (screensaverPosition m - 1 <? 0) (modify (set_screensaverDirection true)));;
    m ← get;
    lcd_setCursor (screensaverPosition m) 0;;
    lcd_print "*";;
    lcd_setCursor (15 - screensaverPosition m) 1;;
    lcd_print "*";;
    off ← isReceiverHookOff;
    if off then exitScreensaver
    else
      key ← keypad_getKey;
      when (negb (Ascii.eqb key NO_KEY)) exitScreensaver.

(** ** The state machine *)

(** [while (isReceiverHookOff()) delay(10)] of [STATE_RESET]. *)
Fixpoint loop_reset_wait (fuel : nat) : M unit :=
  match fuel with
  | O => stuck
  | S fuel' =>
      off ← isReceiverHookOff;
      if off then delay 10;; loop_reset_wait fuel' else ret tt
  end.

(** The cases of the [switch (currentState)] of [loop]. *)

Definition loop_STATE_IDLE (fuel : nat) : M unit :=
  off ← isReceiverHookOff;
  if off then
    modify (set_currentState STATE_DIAL_TONE);;
    m ← get;
    when (screensaverActive m)
      (exitScreensaver;;
       StillLCD_P StartMessage1 StartMessage2;;
       delay messageWait)
  else
    buttonIndex ← CheckForIncomingCall;
    if negb (buttonIndex =? -1) then
      found ← ProcessIncomingKeyFob fuel (to_uint8 buttonIndex);
      modify (set_loop_trackNum (to_uint8 found));;
      if to_uint8 found <? 255 then
        now ← millis;
        modify (set_lastActivityTime now);;
        m ← get;
        when (screensaverActive m) exitScreensaver;;
        StillLCD_P incomingCallMsg answer;;
        modify (set_currentState STATE_INCOMING_CALL)
      else ret tt
    else ret tt.

Definition loop_STATE_DIAL_TONE : M unit :=
  found ← findTrackNumberByFilename dialTone;
  let tempNum := to_uint8 found in
  triggerSoundUART tempNum;;
  delay sfxDelay;;
  modify (set_currentState STATE_KEYPAD_ENTRY).

Definition loop_STATE_KEYPAD_ENTRY (fuel : nat) : M unit :=
  found ← GetKeyPadNumber fuel;
  modify (set_loop_trackNum found);;
  if found =? 255 then modify (set_currentState STATE_RESET)
  else modify (set_currentState STATE_CONNECTING).

Definition loop_STATE_CONNECTING (fuel : nat) : M unit :=
  off ← isReceiverHookOff;
  if negb off then
    sfx_stop;;
    modify (set_currentState STATE_RESET)
  else
    m ← get;
    dialingPhone fuel (loop_trackNum m).

Definition loop_STATE_INCOMING_CALL (fuel : nat) : M unit :=
  m ← get;
  if loop_trackNum m <? 255 then
    processIncomingCall fuel (loop_trackNum m);;
    modify (set_currentState STATE_RESET)
  else modify (set_currentState STATE_IDLE).

Definition loop_STATE_RESET (fuel : nat) : M unit :=
  sfx_stop;;
  loop_reset_wait fuel;;
  modify (set_loop_trackNum 255);;
  modify (set_startupComplete false);;
  _ ← sfx_reset;
  now ← millis;
  modify (set_lastActivityTime now);;
  modify (set_currentState STATE_IDLE).

(** The [switch (currentState)] of [loop]. *)
Definition loop_switch (fuel : nat) : M unit :=
  m ← get;
  match currentState m with
  | STATE_IDLE => loop_STATE_IDLE fuel
  | STATE_DIAL_TONE => loop_STATE_DIAL_TONE
  | STATE_KEYPAD_ENTRY => loop_STATE_KEYPAD_ENTRY fuel
  | STATE_CONNECTING => loop_STATE_CONNECTING fuel
  | STATE_INCOMING_CALL => loop_STATE_INCOMING_CALL fuel
  | STATE_RESET => loop_STATE_RESET fuel
  end.

Definition loop (fuel : nat) : M unit :=
  m ← get;
  when (negb (startupComplete m))
    (StillLCD_P StartMessage1 StartMessage2;;
     modify (set_startupComplete true));;
  m ← get;
  when (screensaverActive m) runScreensaver;;
  m ← get;
  (if negb (screensaverActive m) then
     now ← millis;
     when (screensaverTimeout <? to_uint32 (now - lastActivityTime m)) activateScreensaver
   else ret tt);;
  loop_switch fuel.

Definition setup : M unit :=
  lcd_init;;
  lcd_backlight;;
  delay messageWait;;
  ok ← sfx_reset;
  if negb ok then
    StillLCD_P audioFX notFound;;
    stuck
  else
    sfx_volUp;;
    sfx_volUp;;
    scanAudioFXStorageNew;;
    delay messageWait.

(** [loop] called [n] times in a row, as the Arduino runtime does. *)
Fixpoint loops (fuel : nat) (n : nat) : M unit :=
  match n with
  | O => ret tt
  | S n' => loop fuel;; loops fuel n'
  end.

(** The sketch from power-up: [setup], then [n] rounds of [loop]. *)
Definition sketch (fuel n : nat) (i : Inputs) : option unit * Machine * list Event :=
  (setup;; loops fuel n) (boot i).

(** ** What the display shows

    The 16x2 character display as the LCD commands of an event log leave
    it: [clear] blanks both rows, [print] overwrites characters from the
    cursor on and moves the cursor; columns past the 16th are not visible. *)
Record Lcd := mkLcd { row0 : list ascii; row1 : list ascii; cursorCol : Z; cursorRow : Z }.

Definition Lcd_blank : Lcd := mkLcd (replicate 16 space) (replicate 16 space) 0 0.

Fixpoint Lcd_write (row : list ascii) (col : Z) (s : string) : list ascii :=
  match s with
  | EmptyString => row
  | String c rest =>
      Lcd_write (if (0 <=? col) && (col <? 16) then <[Z.to_nat col := c]> row else row)
        (col + 1) rest
  end.

Definition Lcd_step (d : Lcd) (e : Event) : Lcd :=
  match e with
  | EvLcdInit | EvLcdClear => Lcd_blank
  | EvLcdSetCursor col row => mkLcd (row0 d) (row1 d) col row
  | EvLcdPrint s =>
      let col' := cursorCol d + Z.of_nat (String.length s) in
      if cursorRow d =? 0 then
        mkLcd (Lcd_write (row0 d) (cursorCol d) s) (row1 d) col' (cursorRow d)
      else if cursorRow d =? 1 then
        mkLcd (row0 d) (Lcd_write (row1 d) (cursorCol d) s) col' (cursorRow d)
      else mkLcd (row0 d) (row1 d) col' (cursorRow d)
  | _ => d
  end.

Definition render (d : Lcd) (log : list Event) : Lcd := fold_left Lcd_step log d.

(** The two visible lines. *)
Definition shown (d : Lcd) : string * string :=
  (string_of_list_ascii (row0 d), string_of_list_ascii (row1 d)).

(** ** Reference definitions for file ids *)

(** The characters of a C string: those before the first NUL. *)
Fixpoint c_chars (s : string) : list ascii :=
  match s with
  | EmptyString => []
  | String c rest => if Ascii.eqb c NUL then [] else c :: c_chars rest
  end.

Fixpoint drop_non_digits (l : list ascii) : list ascii :=
  match l with
  | [] => []
  | c :: rest => if isdigit c then l else drop_non_digits rest
  end.

Fixpoint leading_digits (l : list ascii) : list ascii :=
  match l with
  | [] => []
  | c :: rest => if isdigit c then c :: leading_digits rest else []
  end.

(** The first run of digits of a file name: what follows its non-digit
    prefix, up to the next character that is not a digit. *)
Definition first_digit_run (name : string) : list ascii :=
  leading_digits (drop_non_digits (c_chars name)).

Definition decimal_value (ds : list ascii) : Z :=
  fold_left (fun acc c => acc * 10 + digit_value c) ds 0.

(** Id extraction as the specification words it: the number written by the
    digit run when that run has at most 5 digits and does not exceed 99999,
    and "invalid" (-1) for every other file name. *)
Definition claimed_id (name : string) : Z :=
  let run := first_digit_run name in
  if (1 <=? length run)%nat && (length run <=? 5)%nat && (decimal_value run <=? 99999)
  then decimal_value run else -1.

(** ** Reference definitions for the track directory *)

(** The entries a listing gives, in listing order: one per file whose name
    carries an id, with the position of the file as its slot. *)
Fixpoint directory_from (f : nat) (names : list string) : list AudioFile :=
  match names with
  | [] => []
  | name :: rest =>
      let id := convertFilenameToInt (Some name) in
      if id =? -1 then directory_from (S f) rest
      else mkAudioFile id (Z.of_nat f) :: directory_from (S f) rest
  end.

(** How many directory entries the files listed before position [f] take. *)
Definition entries_before (names : list string) (f : nat) : nat :=
  length (directory_from 0 (take f names)).

(** The first entry with a given id. *)
Fixpoint first_match (entries : list AudioFile) (id : Z) : option Z :=
  match entries with
  | [] => None
  | e :: rest => if fileID e =? id then Some (trackNum e) else first_match rest id
  end.

(** [id] is the id of no entry in use. *)
Definition not_in_directory (m : Machine) (id : Z) : Prop :=
  forall (i : nat) (e : AudioFile),
    (i < Z.to_nat (totalFiles m))%nat -> audioFiles m !! i = Some e -> fileID e <> id.

(** The entries in use. *)
Definition dir_entries (m : Machine) : list AudioFile :=
  take (Z.to_nat (totalFiles m)) (audioFiles m).


(** The display and delay commands of a failed lookup. *)
Definition notFound_log (id : Z) : list Event :=
  [EvLcdClear; EvLcdSetCursor 0 0; EvLcdPrint (strlcpy 16 (missingFileMsg id));
   EvLcdSetCursor 0 1; EvLcdPrint "Number Not Found"; EvDelay messageWait].

(** ** Example inputs *)

Definition demo_listing : list string :=
  ["1.WAV"; "2.WAV"; "3.OGG"; "4.OGG"; "11.OGG"; "12345.OGG"; "11111.OGG"].

(** A module holding [demo_listing]; nothing is pressed or lifted. *)
Definition demo_inputs : Inputs :=
  mkInputs 0 [] [] [] [[]; []; []; []] [] [] [] demo_listing.

(** Key fob: A is held for four reads and released, B is pressed a little
    later.  "12.OGG" is not on the module. *)
Definition fob_AB_inputs : Inputs :=
  set_fobIn [ [LOW; LOW; LOW; LOW];
              replicate 6 HIGH ++ replicate 6 LOW; []; [] ] demo_inputs.

(** Key fob: A and B are both held down. *)
Definition fob_both_inputs : Inputs :=
  set_fobIn [ replicate 50 LOW; replicate 50 LOW; []; [] ] demo_inputs.

(** The handset is lifted and 12345 is dialled; the recording plays (three
    reads of the activity line) and the handset is replaced. *)
Definition dial_inputs : Inputs :=
  set_keyIn (list_ascii_of_string "12345")
    (set_hookIn (replicate 9 LOW ++ [LOW; LOW; HIGH])
       (set_actIn [LOW; LOW; LOW] demo_inputs)).

(** The same call, but the module refuses the dial tone. *)
Definition dial_tone_refused_inputs : Inputs := set_playIn [false] dial_inputs.

(** The same call, but the module refuses the ringback tone (the eighth
    play command). *)
Definition ringback_refused_inputs : Inputs :=
  set_playIn (replicate 7 true ++ [false]) dial_inputs.

(** The same call, but the hook contact bounces: it reads on-hook once
    while the recording plays, off-hook at the very next read, and settles
    on-hook after that. *)
Definition bounce_inputs : Inputs :=
  set_keyIn (list_ascii_of_string "12345")
    (set_hookIn (replicate 8 LOW ++ [HIGH; LOW; HIGH])
       (set_actIn [LOW; LOW] demo_inputs)).

(** A module on which the id 7 is listed twice. *)
Definition duplicate_inputs : Inputs :=
  mkInputs 0 [] [] [] [[]; []; []; []] [] [] []
    ["3.OGG"; "7.OGG"; "12.OGG"; "7.WAV"].

(** Key fob: A alone is held for five reads, then released. *)
Definition fob_held_inputs : Inputs :=
  set_fobIn [ replicate 5 LOW ++ [HIGH]; []; []; [] ] demo_inputs.

(** Key fob: the line of A flickers, never low for more than 2 ms. *)
Definition fob_flicker_inputs : Inputs :=
  set_fobIn [ [LOW; HIGH; LOW; LOW; HIGH]; []; []; [] ] demo_inputs.

(** The module holds 12345 and refuses the next play command. *)
Definition refusing_machine : Machine :=
  let m := final (setup (boot demo_inputs)) in
  set_inputs (set_playIn [false] (inputs m)) m.

(** A booted machine without the dial tone file, in the dial-tone state. *)
Definition no_dial_tone_machine : Machine :=
  set_currentState STATE_DIAL_TONE (final (setup (boot duplicate_inputs))).

(** A booted machine in Idle; the fob will send A then B, and the clock
    runs 3 ms between two readings. *)
Definition fob_AB_machine : Machine :=
  final (setup (boot (set_ticksIn (replicate 40 3%nat) fob_AB_inputs))).

(** A module with no file at all. *)
Definition empty_module_inputs : Inputs :=
  set_hookIn [LOW; LOW; LOW; LOW] (mkInputs 0 [] [] [] [[]; []; []; []]
    (list_ascii_of_string "12345") [] [] []).

(** ** The settle interval after a stop *)

(** Reading a log from the oldest event on: [Some t] when the last stop has
    not been followed by a play yet and [t] ms of [delay] have passed since;
    [None] otherwise.  A play is a violation when [t] is below [sfxDelay]. *)
Definition settle_step (pending : option Z) (e : Event) : option (option Z) :=
  match e with
  | EvStop => Some (Some 0)
  | EvDelay ms => Some (option_map (Z.add ms) pending)
  | EvPlay _ _ =>
      match pending with
      | Some t => if t <? sfxDelay then None else Some None
      | None => Some None
      end
  | _ => Some pending
  end.

Fixpoint settle_run (pending : option Z) (log : list Event) : bool :=
  match log with
  | [] => true
  | e :: rest =>
      match settle_step pending e with
      | Some pending' => settle_run pending' rest
      | None => false
      end
  end.

(** Every stop of the log is followed by at least [sfxDelay] ms of delay
    before the next play; [pending] describes what came before the log. *)
Definition settled (pending : option Z) (log : list Event) : Prop :=
  settle_run pending log = true.

(** The commands sent to the sound module and the delays, without the
    display traffic. *)
Definition is_sound (e : Event) : bool :=
  match e with
  | EvStop | EvPlay _ _ | EvDelay _ | EvModuleReset _ => true
  | _ => false
  end.

Definition sounds (log : list Event) : list Event := List.filter is_sound log.

Definition is_play_of (n : Z) (e : Event) : bool :=
  match e with
  | EvPlay k _ => k =? n
  | _ => false
  end.

(** ** Predicates on computations *)

(** [keeps c]: [c] changes neither the directory nor the call phase. *)
Definition keeps {A} (c : M A) : Prop :=
  forall m,
    audioFiles (final (c m)) = audioFiles m
    /\ totalFiles (final (c m)) = totalFiles m
    /\ currentState (final (c m)) = currentState m.


(** ** Machines that differ in their input scripts *)

(** [m] with the scripts of the hook, the keypad and the play answers
    replaced. *)
Definition with_scripts (hook : list Level) (keys : list ascii) (plays : list bool)
  (m : Machine) : Machine :=
  set_inputs (set_hookIn hook (set_keyIn keys (set_playIn plays (inputs m)))) m.

(** What the display is sent when a digit is typed into [displayBuffer]. *)
Definition typed_log (click : Event) (shown : string) : list Event :=
  [click; EvLcdSetCursor 5 1; EvLcdPrint shown; EvLcdDisplay].

(** ** A session without recordings *)

(** An event that cannot start a recording and does not ask the module for
    its listing again: a play command carries the "not found" value 255. *)
Definition unproductive (e : Event) : Prop :=
  match e with
  | EvPlay n _ => n = 255
  | EvListFiles => False
  | _ => True
  end.

(** The directory is empty, no track is selected, and no call is being
    connected or rung. *)
Definition dead_session (m : Machine) : Prop :=
  totalFiles m = 0
  /\ loop_trackNum m = 255
  /\ currentState m <> STATE_CONNECTING
  /\ currentState m <> STATE_INCOMING_CALL.

(** [silent c R]: on an empty directory, [c] keeps the directory empty and
    the selected track, leaves the phase alone or sets it to [STATE_RESET],
    emits unproductive events only, and its result satisfies [R]. *)
Definition silent {A} (c : M A) (R : option A -> Prop) : Prop :=
  forall m,
    totalFiles m = 0 ->
    totalFiles (final (c m)) = 0
    /\ loop_trackNum (final (c m)) = loop_trackNum m
    /\ (currentState (final (c m)) = currentState m
        \/ currentState (final (c m)) = STATE_RESET)
    /\ Forall unproductive (events (c m))
    /\ R (result (c m)).

Definition anything {A} (r : option A) : Prop := True.

(** The result of a lookup, or of a function that returns one, when the
    directory is empty. *)
Definition not_found_or_stuck (r : option Z) : Prop := r = None \/ r = Some 255.

Definition count_listFiles (log : list Event) : nat :=
  length (List.filter (fun e => match e with EvListFiles => true | _ => false end) log).

(** [dead_step c]: [c] keeps a dead session dead and emits unproductive
    events only. *)
Definition dead_step {A} (c : M A) : Prop :=
  forall m,
    dead_session m ->
    dead_session (final (c m)) /\ Forall unproductive (events (c m)).

(** ** Polling the key fob *)

(** [n] calls of [CheckForIncomingCall] in a row, with what each returned. *)
Fixpoint polls (n : nat) : M (list Z) :=
  match n with
  | O => ret []
  | S n' =>
      r ← CheckForIncomingCall;
      rs ← polls n';
      ret (r :: rs)
  end.

(** The stable-press events among the values returned. *)
Definition presses (rs : list Z) : list Z := List.filter (fun r => negb (r =? -1)) rs.

(** The readings still to come on the line of button [j]. *)
Definition line (j : Z) (m : Machine) : list Level :=
  nth (Z.to_nat j) (fobIn (inputs m)) [].

(** The machine after one read of line [j]. *)
Definition pop_line (j : Z) (m : Machine) : Machine :=
  set_inputs
    (set_fobIn (<[Z.to_nat j := tail (line j m)]> (fobIn (inputs m))) (inputs m)) m.

(** The machine after one call of [millis]. *)
Definition tick (m : Machine) : Machine :=
  set_inputs
    (set_clock (clock (inputs m) + Z.of_nat (hd 1%nat (ticksIn (inputs m))))
       (set_ticksIn (tail (ticksIn (inputs m))) (inputs m))) m.

(** The next [n] reads of a line are all [HIGH]. *)
Definition quiet_line (n : nat) (s : list Level) : Prop :=
  forall k, (k < n)%nat -> nth k s HIGH = HIGH.

(** Every line but [i] stays released for the next [n] reads. *)
Definition others_quiet (i : Z) (n : nat) (m : Machine) : Prop :=
  forall j, 0 <= j < numButtons -> j <> i -> quiet_line n (line j m).

(** Level flicker on one line, as the reader samples it: every run of
    consecutive [LOW] readings spans at most [debounceDelay] ms, measured
    from the clock reading that timestamps the first [LOW] of the run to the
    clock reading of each later check.  [ticks] are the milliseconds before
    each clock reading; [run] is the time the current run has lasted. *)
Fixpoint short_runs (readings : list Level) (ticks : list nat) (run : option Z) : Prop :=
  match readings with
  | [] => True
  | HIGH :: rest => short_runs rest ticks None
  | LOW :: rest =>
      match run with
      | None =>
          let d := Z.of_nat (hd 1%nat (tail ticks)) in
          d <= debounceDelay /\ short_runs rest (tail (tail ticks)) (Some d)
      | Some e =>
          let e' := e + Z.of_nat (hd 1%nat ticks) in
          e' <= debounceDelay /\ short_runs rest (tail ticks) (Some e')
      end
  end.

(** [m'] is [m] after the lines [lo .. hi - 1] were read once each. *)
Definition lines_read (lo hi : Z) (m m' : Machine) : Prop :=
  lastButtonPressed m' = lastButtonPressed m
  /\ lastDebounceTime m' = lastDebounceTime m
  /\ buttonStable m' = buttonStable m
  /\ clock (inputs m') = clock (inputs m)
  /\ ticksIn (inputs m') = ticksIn (inputs m)
  /\ forall k, 0 <= k ->
       line k m' = if (lo <=? k) && (k <? hi) then tail (line k m) else line k m.

(** [c] never sets the clock back. *)
Definition clock_advances {A} (c : M A) : Prop :=
  forall m, clock (inputs m) <= clock (inputs (final (c m))).

(** How far the clock is past the reading that timestamps a press found
    at the next poll of [m], once the polls [r] are done. *)
Definition held_for (m : Machine) (r : option (list Z) * Machine * list Event) : Z :=
  clock (inputs (final r)) - clock (inputs (tick m)).

(** ** The directory a listing gives *)

(** The entries kept from a listing: the first [MAX_TRACKS] files whose
    name carries an id. *)
Definition kept_entries (names : list string) : list AudioFile :=
  take (Z.to_nat MAX_TRACKS) (directory_from 0 names).

(** What a lookup returns on a list of entries: the slot of the first
    match, or 255. *)
Definition lookup_in (entries : list AudioFile) (id : Z) : Z :=
  match first_match entries id with
  | Some t => t
  | None => 255
  end.

(** ** Example inputs for the directory *)

(** The file names "1.OGG", "2.OGG", ... "n.OGG", last first. *)
Fixpoint numbered_names (n : nat) : list string :=
  match n with
  | O => []
  | S n' => (string_of_long (Z.of_nat n) ++ ".OGG")%string :: numbered_names n'
  end.

(** A module with 31 numbered files: one more than the directory holds. *)
Definition crowded_inputs : Inputs :=
  mkInputs 0 [] [] [] [[]; []; []; []] [] [] [] (rev (numbered_names 31)).

(** A module whose files carry no number. *)
Definition unnumbered_inputs : Inputs :=
  mkInputs 0 [] [] [] [[]; []; []; []] [] [] [] ["README.TXT"; "RING.OGG"].

(** ** Keypad entry *)



(** A command to the sound module (as opposed to display traffic and
    delays). *)
Definition is_module_command (e : Event) : bool :=
  match e with
  | EvStop | EvPlay _ _ | EvModuleReset _ | EvVolUp | EvListFiles => true
  | _ => false
  end.

(** The slot [GetKeyPadNumber] uses for the key click. *)
Definition click_slot (m : Machine) : Z := to_uint8 (lookup_in (dir_entries m) buttonPress).

(** A machine booted from [demo_inputs], in the keypad-entry phase. *)
Definition keypad_machine : Machine :=
  set_currentState STATE_KEYPAD_ENTRY (final (setup (boot demo_inputs))).


(** ** Calls *)

(** [m] with the scripts of the activity line and the hook replaced. *)
Definition with_lines (act hook : list Level) (m : Machine) : Machine :=
  set_inputs (set_actIn act (set_hookIn hook (inputs m))) m.

(** The slot [dialingPhone] and [processIncomingCall] use for the ring
    tone. *)
Definition ring_slot (m : Machine) : Z := to_uint8 (lookup_in (dir_entries m) ringingTone).

(** A machine booted from [demo_inputs]. *)
Definition demo_machine : Machine := final (setup (boot demo_inputs)).

(** A machine booted from [unnumbered_inputs]: its directory is empty. *)
Definition unnumbered_machine : Machine := final (setup (boot unnumbered_inputs)).

Definition is_delay (e : Event) : bool :=
  match e with
  | EvDelay _ => true
  | _ => false
  end.

(** A display command. *)
Definition is_lcd (e : Event) : bool :=
  match e with
  | EvLcdInit | EvLcdBacklight _ | EvLcdClear | EvLcdSetCursor _ _ | EvLcdPrint _
  | EvLcdDisplay => true
  | _ => false
  end.

(** ** Results of computations *)

(** [returns c P]: [c] returns on every machine, with a value in [P]. *)
Definition returns {A} (c : M A) (P : A -> Prop) : Prop :=
  forall m, exists a, result (c m) = Some a /\ P a.

(** [yields c P]: when [c] returns, its value is in [P]. *)
Definition yields {A} (c : M A) (P : A -> Prop) : Prop :=
  forall m a, result (c m) = Some a -> P a.

(** A value used as an index into [keyfobButtons]. *)
Definition button_index (v : Z) : Prop := 0 <= v < numButtons.

(** A machine booted from [demo_inputs] with the clock running 3 ms
    between two readings; the fob will send A twice. *)
Definition fob_AA_machine : Machine :=
  final (setup (boot (set_ticksIn (replicate 40 3%nat)
    (set_fobIn [ replicate 4 LOW ++ replicate 6 HIGH ++ replicate 6 LOW; []; []; [] ]
       demo_inputs)))).

(** The machine after each of the four fob lines was read once. *)
Definition pop_lines (m : Machine) : Machine :=
  pop_line 3 (pop_line 2 (pop_line 1 (pop_line 0 m))).

(** All four fob lines read released at the next read. *)
Definition all_released (m : Machine) : Prop :=
  forall k, 0 <= k < numButtons -> hd HIGH (line k m) = HIGH.

(** The four fob lines read released at every read to come. *)
Definition released_for_good (m : Machine) : Prop :=
  forall k, 0 <= k < numButtons -> Forall (fun l => l = HIGH) (line k m).

(** ** Invariants of the sketch *)

(** [preserves I c]: running [c] on a machine in [I] leaves a machine in
    [I], whether [c] returns or not. *)
Definition preserves {A} (I : Machine -> Prop) (c : M A) : Prop :=
  forall m, I m -> I (final (c m)).

(** [hoare P c Q]: from a machine in [P], the result and the final machine
    of [c] are in [Q]. *)
Definition hoare {A} (P : Machine -> Prop) (c : M A) (Q : option A -> Machine -> Prop)
  : Prop :=
  forall m, P m -> Q (result (c m)) (final (c m)).

(** [m'] has the directory, the screensaver position, the phase and the
    selected track of [m]. *)
Definition same_tables (m m' : Machine) : Prop :=
  audioFiles m' = audioFiles m
  /\ totalFiles m' = totalFiles m
  /\ screensaverPosition m' = screensaverPosition m
  /\ screensaverDirection m' = screensaverDirection m
  /\ currentState m' = currentState m
  /\ loop_trackNum m' = loop_trackNum m.

(** [I] looks at these six variables only. *)
Definition framed (I : Machine -> Prop) : Prop :=
  forall m m', same_tables m m' -> I m -> I m'.

(** The directory is the given one. *)
Definition directory_is (files : list AudioFile) (total : Z) (m : Machine) : Prop :=
  audioFiles m = files /\ totalFiles m = total.

(** The screensaver position stays within one column of the display:
    moving right it is at most 15 before a step, moving left at least 0. *)
Definition screensaver_in_range (m : Machine) : Prop :=
  (screensaverDirection m = true -> -1 <= screensaverPosition m <= 15)
  /\ (screensaverDirection m = false -> 0 <= screensaverPosition m <= 16).

Definition at_phase (s : PhoneState) (m : Machine) : Prop := currentState m = s.

Definition in_phases (l : list PhoneState) (m : Machine) : Prop := In (currentState m) l.

(** The phases one round of [loop] can lead to. *)
Definition successors (s : PhoneState) : list PhoneState :=
  match s with
  | STATE_IDLE => [STATE_IDLE; STATE_DIAL_TONE; STATE_INCOMING_CALL; STATE_RESET]
  | STATE_DIAL_TONE => [STATE_KEYPAD_ENTRY]
  | STATE_KEYPAD_ENTRY => [STATE_CONNECTING; STATE_RESET]
  | STATE_CONNECTING => [STATE_RESET]
  | STATE_INCOMING_CALL => [STATE_RESET; STATE_IDLE]
  | STATE_RESET => [STATE_IDLE]
  end.

(** A call is under way: a recording is about to be rung or connected. *)
Definition in_call (m : Machine) : Prop :=
  currentState m = STATE_INCOMING_CALL \/ currentState m = STATE_CONNECTING.

(** While a call is under way [trackNum] is a slot of the directory, not
    the 255 of "nothing selected". *)
Definition call_has_track (m : Machine) : Prop :=
  in_call m -> 0 <= loop_trackNum m < 255.

(** The screensaver position and direction are the given ones. *)
Definition saver_is (p : Z) (d : bool) (m : Machine) : Prop :=
  screensaverPosition m = p /\ screensaverDirection m = d.

(** When the computation returns the phase is one of [l]. *)
Definition ends_in {A} (l : list PhoneState) (r : option A) (m : Machine) : Prop :=
  r <> None -> in_phases l m.

Definition not_in_call (m : Machine) : Prop := ~ in_call m.

(** No call is under way and [trackNum] is [v]. *)
Definition idle_with_track (v : Z) (m : Machine) : Prop :=
  not_in_call m /\ loop_trackNum m = v.

(** Button A of the key fob is pressed twice, the clock running 3 ms a
    reading. *)
Definition fob_AA_inputs : Inputs :=
  set_ticksIn (replicate 40 3%nat)
    (set_fobIn [ replicate 4 LOW ++ replicate 6 HIGH ++ replicate 6 LOW; []; []; [] ]
       demo_inputs).

(** ** The screensaver *)

(** The next position and direction of the star. *)
Definition saver_next (p : Z) (d : bool) : Z * bool :=
  if d then (p + 1, negb (15 <? p + 1)) else (p - 1, p - 1 <? 0).

(** One animation step on the display: the star is erased at [p] and drawn
    at [p'], mirrored on the second row. *)
Definition saver_frame (p p' : Z) : list Event :=
  [EvLcdSetCursor (to_uint8 p) 0; EvLcdPrint " ";
   EvLcdSetCursor (to_uint8 (15 - p)) 1; EvLcdPrint " ";
   EvLcdSetCursor (to_uint8 p') 0; EvLcdPrint "*";
   EvLcdSetCursor (to_uint8 (15 - p')) 1; EvLcdPrint "*"].

(** The clock reading of the first [millis()] from [m]. *)
Definition now (m : Machine) : Z := to_uint32 (clock (inputs (tick m))).

(** ** Start-up and reset *)

(** The sound module does not answer the reset of [setup]. *)
Definition no_module_inputs : Inputs := set_resetIn [false] demo_inputs.

(** What [setup] sends before it halts for want of a sound module. *)
Definition no_module_log : list Event :=
  [EvLcdInit; EvLcdBacklight 255; EvDelay messageWait; EvModuleReset false;
   EvLcdClear; EvLcdSetCursor 0 0; EvLcdPrint "AudioFX";
   EvLcdSetCursor 0 1; EvLcdPrint "Not Found"].

(** A call has just ended: the phase is RESET, the handset is still up for
    two polls and the module will not answer the reset. *)
Definition reset_machine : Machine :=
  set_currentState STATE_RESET
    (set_inputs (set_resetIn [false] (set_hookIn [LOW; LOW; HIGH; LOW] (inputs demo_machine)))
       demo_machine).

(** [m] after the position update of an animation step from position [p]
    and direction [d]. *)
Definition saver_moved (p : Z) (d : bool) (m : Machine) : Machine :=
  if d then
    (if 15 <? p + 1 then set_screensaverDirection false (set_screensaverPosition (p + 1) m)
     else set_screensaverPosition (p + 1) m)
  else
    (if p - 1 <? 0 then set_screensaverDirection true (set_screensaverPosition (p - 1) m)
     else set_screensaverPosition (p - 1) m).

(** The backlight values [activateScreensaver] steps through. *)
Definition dim_levels : list Z := [255; 230; 205; 180; 155; 130; 105; 80; 55; 30; 5].

Definition dim_log : list Event :=
  flat_map (fun v => [EvLcdBacklight v; EvDelay 50]) dim_levels.

Definition blank_display : string * string :=
  ("                "%string, "                "%string).

(** [m] with [ms] milliseconds gone by. *)
Definition later (ms : Z) (m : Machine) : Machine :=
  set_inputs (set_clock (clock (inputs m) + ms) (inputs m)) m.

(** The end of [runScreensaver]: the check for user input. *)
Definition saver_poll : M unit :=
  off ← isReceiverHookOff;
  if off then exitScreensaver
  else
    key ← keypad_getKey;
    when (negb (Ascii.eqb key NO_KEY)) exitScreensaver.

(** The phone a minute after the start-up message was shown, untouched. *)
Definition idle_minute_machine : Machine := later 61000 (final (loop 1 demo_machine)).

(** The screensaver has been running for 300 ms when key 5 is pressed. *)
Definition saver_key_machine : Machine :=
  let m := later 300 (final (loop 1 idle_minute_machine)) in
  set_inputs (set_keyIn ["5"%char] (inputs m)) m.

(** ** The display helpers *)

(** A text as one row of the display shows it: its first 16 characters,
    filled up with spaces. *)
Definition fit16 (s : string) : string :=
  let l := take 16 (c_chars s) in
  string_of_list_ascii (l ++ replicate (16 - length l) space).

(** ** A round of [loop] with nothing to do before the phase *)

(** The start-up message is on the display, the screensaver is off and
    the time since the last activity does not exceed [screensaverTimeout]:
    before its [switch], [loop] only reads the clock. *)
Definition quiet_head (m : Machine) : Prop :=
  startupComplete m = true
  /\ screensaverActive m = false
  /\ to_uint32 (now m - lastActivityTime m) <= screensaverTimeout.

(** [demo_machine] after its first round of [loop], in the keypad-entry
    phase. *)
Definition keypad_round_machine : Machine :=
  set_currentState STATE_KEYPAD_ENTRY (final (loop 1 demo_machine)).

(** ** The answers of the module to play commands *)

(** [m] with other answers of the module to the play commands to come. *)
Definition with_play (ps : list bool) (m : Machine) : Machine :=
  set_inputs (set_playIn ps (inputs m)) m.

(** An event as the sketch sent it: a play command without the answer the
    module gave. *)
Definition as_sent (e : Event) : Event :=
  match e with
  | EvPlay n _ => EvPlay n true
  | _ => e
  end.

(** Two runs that differ at most in the answers of the module: the same
    result, the same final machine up to the answers not yet used, and
    the same events up to the answers recorded in the play commands. *)
Definition same_run_but_answers {A} (r r' : option A * Machine * list Event) : Prop :=
  result r' = result r
  /\ (exists qs, final r' = with_play qs (final r))
  /\ map as_sent (events r') = map as_sent (events r).

(** [c'] on a machine with other answers runs as [c] does. *)
Definition same_but_answers {A} (c c' : M A) : Prop :=
  forall (m : Machine) (ps : list bool), same_run_but_answers (c m) (c' (with_play ps m)).

(** [c] does not look at the answers of the module: whatever they are, it
    runs the same. *)
Definition answers_ignored {A} (c : M A) : Prop := same_but_answers c c.

(** * Reasoning about computations *)

Lemma bind_run {A B} (c : M A) (k : A -> M B) (m : Machine) :
  bind c k m
  = match result (c m) with
    | Some a =>
        (result (k a (final (c m))), final (k a (final (c m))),
         events (c m) ++ events (k a (final (c m))))
    | None => (None, final (c m), events (c m))
    end.
Proof.
  unfold bind, result, final, events.
  destruct (c m) as [[[a|] m1] l1]; cbn; [|reflexivity].
  destruct (k a m1) as [[r m2] l2]; reflexivity.
Qed.

Lemma run_eta {A} (x : option A * Machine * list Event) :
  x = (result x, final x, events x).
Proof. destruct x as [[r m] l]; reflexivity. Qed.

(** ** The directory lookup *)

Lemma findTrack_loop_first_match (todo i : nat) (files : list AudioFile) (id : Z) :
  findTrack_loop todo i files id = first_match (take todo (drop i files)) id.
Proof.
  revert i. induction todo as [|todo IH]; intros i; [reflexivity|].
  cbn [findTrack_loop].
  destruct (files !! i) as [e|] eqn:He.
  - rewrite (drop_S _ _ _ He). cbn [take first_match].
    destruct (fileID e =? id); [reflexivity|].
    apply IH.
  - rewrite IH. apply lookup_ge_None in He.
    rewrite !drop_ge by lia. destruct todo; reflexivity.
Qed.

Lemma first_match_None (entries : list AudioFile) (id : Z) :
  first_match entries id = None <-> Forall (fun e => fileID e <> id) entries.
Proof.
  induction entries as [|e rest IH]; cbn [first_match].
  - split; [constructor|reflexivity].
  - destruct (fileID e =? id) eqn:E.
    + split; [discriminate|]. intros H. inversion H; subst. lia.
    + rewrite IH. split; [constructor; [lia|assumption]|].
      intros H. inversion H; assumption.
Qed.

Lemma not_in_directory_lookup (m : Machine) (id : Z) :
  not_in_directory m id ->
  findTrack_loop (Z.to_nat (totalFiles m)) 0 (audioFiles m) id = None.
Proof.
  intros Hnot. rewrite findTrack_loop_first_match, drop_0.
  apply first_match_None, list.Forall_forall. intros e He.
  apply list_elem_of_lookup in He as [i Hi].
  apply lookup_take_Some in Hi as [Hi Hlt]. eapply Hnot; eauto.
Qed.

(** The two outcomes of [findTrackNumberByFilename]. *)
Lemma findTrackNumberByFilename_found (id n : Z) (m : Machine) :
  findTrack_loop (Z.to_nat (totalFiles m)) 0 (audioFiles m) id = Some n ->
  findTrackNumberByFilename id m = (Some n, m, []).
Proof. intros H. unfold findTrackNumberByFilename, bind, get. rewrite H. reflexivity. Qed.

Lemma findTrackNumberByFilename_missing (id : Z) (m : Machine) :
  findTrack_loop (Z.to_nat (totalFiles m)) 0 (audioFiles m) id = None ->
  findTrackNumberByFilename id m
  = (Some 255,
     set_currentState STATE_RESET
       (set_inputs (set_clock (clock (inputs m) + messageWait) (inputs m)) m),
     notFound_log id).
Proof. intros H. unfold findTrackNumberByFilename, bind, get. rewrite H. reflexivity. Qed.

(** ** What leaves the directory and the phase alone *)

Lemma keeps_ret {A} (a : A) : keeps (ret a).
Proof. intros m. auto. Qed.

Lemma keeps_stuck {A} : keeps (@stuck A).
Proof. intros m. auto. Qed.

Lemma keeps_bind {A B} (c : M A) (k : A -> M B) :
  keeps c -> (forall a, keeps (k a)) -> keeps (bind c k).
Proof.
  intros Hc Hk m. rewrite bind_run.
  destruct (Hc m) as (H1 & H2 & H3).
  destruct (result (c m)) as [a|]; cbn [final fst snd]; [|auto].
  destruct (Hk a (final (c m))) as (K1 & K2 & K3).
  unfold final in *. repeat split; congruence.
Qed.

Lemma keeps_when (b : bool) (c : M unit) : keeps c -> keeps (when b c).
Proof. destruct b; [auto|intros _; apply keeps_ret]. Qed.

Lemma keeps_emit (e : Event) : keeps (emit e).
Proof. intros m. auto. Qed.

Lemma keeps_get : keeps get.
Proof. intros m. auto. Qed.

Lemma keeps_modify_inputs (f : Inputs -> Inputs) : keeps (modify_inputs f).
Proof. intros m. auto. Qed.

Lemma keeps_modify (f : Machine -> Machine) :
  (forall m, audioFiles (f m) = audioFiles m /\ totalFiles (f m) = totalFiles m
             /\ currentState (f m) = currentState m) ->
  keeps (modify f).
Proof. intros H m. apply H. Qed.

Create HintDb keeps discriminated.

#[export] Hint Resolve keeps_ret keeps_stuck keeps_emit keeps_get keeps_modify_inputs
  keeps_when : keeps.

(** Works through a computation built from [bind], [if], [when] and pieces
    already known to keep the directory and the phase. *)
Ltac keeps_tac :=
  repeat first
    [ apply keeps_bind; [|intros ?]
    | apply keeps_when
    | apply keeps_modify; intros ?; cbn; solve [auto]
    | solve [auto with keeps]
    | match goal with
      | |- keeps (if ?b then _ else _) => destruct b
      | |- keeps (match ?x with _ => _ end) => destruct x
      | |- keeps (let '(_, _) := ?x in _) => destruct x
      end ].

Lemma keeps_isReceiverHookOff : keeps isReceiverHookOff.
Proof. unfold isReceiverHookOff, digitalRead_ReceiverHook. keeps_tac. Qed.

Lemma keeps_stillPlaying : keeps stillPlaying.
Proof. unfold stillPlaying, digitalRead_SFX_ACT. keeps_tac. Qed.

Lemma keeps_digitalRead_keyfob (i : Z) : keeps (digitalRead_keyfob i).
Proof. unfold digitalRead_keyfob. keeps_tac. Qed.

Lemma keeps_keypad_getKey : keeps keypad_getKey.
Proof. unfold keypad_getKey. keeps_tac. Qed.

Lemma keeps_millis : keeps millis.
Proof. unfold millis. keeps_tac. Qed.

Lemma keeps_delay (ms : Z) : keeps (delay ms).
Proof. unfold delay. keeps_tac. Qed.

Lemma keeps_sfx_stop : keeps sfx_stop.
Proof. unfold sfx_stop. keeps_tac. Qed.

Lemma keeps_sfx_playTrack (n : Z) : keeps (sfx_playTrack n).
Proof. unfold sfx_playTrack. keeps_tac. Qed.

Lemma keeps_sfx_reset : keeps sfx_reset.
Proof. unfold sfx_reset. keeps_tac. Qed.

Lemma keeps_lcd_setCursor (c r : Z) : keeps (lcd_setCursor c r).
Proof. unfold lcd_setCursor. keeps_tac. Qed.

Lemma keeps_lcd_print (s : string) : keeps (lcd_print s).
Proof. unfold lcd_print. keeps_tac. Qed.

Lemma keeps_lcd_clear : keeps lcd_clear.
Proof. unfold lcd_clear. keeps_tac. Qed.

Lemma keeps_lcd_display : keeps lcd_display.
Proof. unfold lcd_display. keeps_tac. Qed.

#[export] Hint Resolve keeps_isReceiverHookOff keeps_stillPlaying keeps_digitalRead_keyfob
  keeps_keypad_getKey keeps_millis keeps_delay keeps_sfx_stop keeps_sfx_playTrack
  keeps_sfx_reset keeps_lcd_setCursor keeps_lcd_print keeps_lcd_clear
  keeps_lcd_display : keeps.

Lemma keeps_lcdClearLine : keeps lcdClearLine.
Proof. unfold lcdClearLine. keeps_tac. Qed.

Lemma keeps_StillLCD (a b : string) : keeps (StillLCD a b).
Proof. unfold StillLCD. keeps_tac. Qed.

Lemma keeps_StillLCD_P (a b : string) : keeps (StillLCD_P a b).
Proof. apply keeps_StillLCD. Qed.

Lemma keeps_triggerSoundUART (n : Z) : keeps (triggerSoundUART n).
Proof. unfold triggerSoundUART. keeps_tac. Qed.

#[export] Hint Resolve keeps_lcdClearLine keeps_StillLCD keeps_StillLCD_P
  keeps_triggerSoundUART : keeps.

Lemma keeps_CheckForIncomingCall_loop (todo : nat) (i : Z) :
  keeps (CheckForIncomingCall_loop todo i).
Proof.
  revert i. induction todo as [|todo IH]; intros i; cbn [CheckForIncomingCall_loop];
    keeps_tac.
Qed.

Lemma keeps_CheckForIncomingCall : keeps CheckForIncomingCall.
Proof. apply keeps_CheckForIncomingCall_loop. Qed.

Lemma keeps_ProcessIncomingKeyFob_release (fuel : nat) (i : Z) :
  keeps (ProcessIncomingKeyFob_release fuel i).
Proof.
  induction fuel as [|fuel IH]; cbn [ProcessIncomingKeyFob_release]; keeps_tac.
Qed.

Lemma keeps_ProcessIncomingKeyFob_scan (todo : nat) (i ld lb : Z) :
  keeps (ProcessIncomingKeyFob_scan todo i ld lb).
Proof.
  revert i ld lb. induction todo as [|todo IH]; intros i ld lb;
    cbn [ProcessIncomingKeyFob_scan]; keeps_tac.
Qed.

#[export] Hint Resolve keeps_ProcessIncomingKeyFob_release
  keeps_ProcessIncomingKeyFob_scan keeps_CheckForIncomingCall : keeps.

Lemma keeps_ProcessIncomingKeyFob_window (fuel : nat) (st ld lb : Z) :
  keeps (ProcessIncomingKeyFob_window fuel st ld lb).
Proof.
  revert st ld lb. induction fuel as [|fuel IH]; intros st ld lb;
    cbn [ProcessIncomingKeyFob_window]; keeps_tac.
Qed.

#[export] Hint Resolve keeps_ProcessIncomingKeyFob_window : keeps.

Lemma keeps_ProcessIncomingKeyFob_capture (fuel : nat) (i : Z) :
  keeps (ProcessIncomingKeyFob_capture fuel i).
Proof. unfold ProcessIncomingKeyFob_capture. keeps_tac. Qed.

Lemma not_in_directory_keeps (m m' : Machine) (id : Z) :
  audioFiles m' = audioFiles m -> totalFiles m' = totalFiles m ->
  not_in_directory m id -> not_in_directory m' id.
Proof. unfold not_in_directory. intros -> ->. auto. Qed.

Lemma first_match_not_in_directory (m : Machine) (id : Z) :
  first_match (dir_entries m) id = None -> not_in_directory m id.
Proof.
  intros H i e Hi He. apply first_match_None in H.
  rewrite list.Forall_forall in H. apply H.
  apply list_elem_of_lookup. exists i. unfold dir_entries.
  apply lookup_take_Some. split; [exact He|lia].
Qed.

(** ** Runs of the small pieces *)

Lemma isReceiverHookOff_run (m : Machine) :
  isReceiverHookOff m
  = (Some (is_low (hd HIGH (hookIn (inputs m)))),
     set_inputs (set_hookIn (tail (hookIn (inputs m))) (inputs m)) m, []).
Proof. reflexivity. Qed.

Lemma stillPlaying_run (m : Machine) :
  stillPlaying m
  = (Some (is_low (hd HIGH (actIn (inputs m)))),
     set_inputs (set_actIn (tail (actIn (inputs m))) (inputs m)) m, []).
Proof. reflexivity. Qed.

Lemma keypad_getKey_run (m : Machine) :
  keypad_getKey m
  = (Some (hd NO_KEY (keyIn (inputs m))),
     set_inputs (set_keyIn (tail (keyIn (inputs m))) (inputs m)) m, []).
Proof. reflexivity. Qed.

Lemma triggerSoundUART_run (n : Z) (m : Machine) :
  triggerSoundUART n m
  = (Some tt,
     set_inputs (set_playIn (tail (playIn (inputs m))) (inputs m)) m,
     [EvPlay (to_uint8 n) (hd true (playIn (inputs m)))]).
Proof.
  unfold triggerSoundUART.
  assert (H : (0 <=? to_uint8 n) = true).
  { apply Z.leb_le. unfold to_uint8. apply Z.mod_pos_bound. lia. }
  rewrite H. reflexivity.
Qed.

Lemma delay_run (ms : Z) (m : Machine) :
  delay ms m
  = (Some tt, set_inputs (set_clock (clock (inputs m) + ms) (inputs m)) m, [EvDelay ms]).
Proof. reflexivity. Qed.

Lemma sfx_stop_run (m : Machine) : sfx_stop m = (Some tt, m, [EvStop]).
Proof. reflexivity. Qed.

Lemma modify_run (f : Machine -> Machine) (m : Machine) :
  modify f m = (Some tt, f m, []).
Proof. reflexivity. Qed.

(** One step of a run: open the outermost [bind] and use the run of its
    first computation. *)
Tactic Notation "step" "by" constr(H) :=
  unfold bind at 1; rewrite H; cbv beta iota.

(** Runs a stretch of straight-line code: opens the hardware operations
    and every [bind] in sight. *)
Ltac run_prims :=
  unfold isReceiverHookOff, stillPlaying, triggerSoundUART, StillLCD_P, StillLCD,
    displayLCDTopMessage_P, lcdClearLine;
  unfold digitalRead_ReceiverHook, digitalRead_SFX_ACT, digitalRead_keyfob,
    keypad_getKey, millis, delay, sfx_stop, sfx_playTrack, sfx_reset, sfx_volUp,
    sfx_listFiles, sfx_fileName, lcd_init, lcd_backlight, lcd_setBacklight,
    lcd_clear, lcd_setCursor, lcd_print, lcd_display, modify_inputs, when;
  unfold bind, ret, get, modify, emit;
  cbv beta iota.

Lemma displayLCDTopMessage_P_run (message : string) (m : Machine) :
  displayLCDTopMessage_P message m
  = (Some tt, m,
     [EvLcdSetCursor 0 0; EvLcdPrint "                "; EvLcdSetCursor 0 0;
      EvLcdPrint (strlcpy 16 message)]).
Proof. reflexivity. Qed.

Lemma StillLCD_P_run (text1 text2 : string) (m : Machine) :
  StillLCD_P text1 text2 m
  = (Some tt, m,
     [EvLcdClear; EvLcdSetCursor 0 0; EvLcdPrint (strlcpy 16 text1);
      EvLcdSetCursor 0 1; EvLcdPrint (strlcpy 16 text2)]).
Proof. reflexivity. Qed.

(** [loop_switch] runs the case of the current phase. *)
Lemma loop_switch_run (fuel : nat) (m : Machine) :
  loop_switch fuel m
  = match currentState m with
    | STATE_IDLE => loop_STATE_IDLE fuel m
    | STATE_DIAL_TONE => loop_STATE_DIAL_TONE m
    | STATE_KEYPAD_ENTRY => loop_STATE_KEYPAD_ENTRY fuel m
    | STATE_CONNECTING => loop_STATE_CONNECTING fuel m
    | STATE_INCOMING_CALL => loop_STATE_INCOMING_CALL fuel m
    | STATE_RESET => loop_STATE_RESET fuel m
    end.
Proof.
  unfold loop_switch, bind, get.
  destruct (currentState m).
  - destruct (loop_STATE_IDLE fuel m) as [[r m'] l]; reflexivity.
  - destruct (loop_STATE_DIAL_TONE m) as [[r m'] l]; reflexivity.
  - destruct (loop_STATE_KEYPAD_ENTRY fuel m) as [[r m'] l]; reflexivity.
  - destruct (loop_STATE_CONNECTING fuel m) as [[r m'] l]; reflexivity.
  - destruct (loop_STATE_INCOMING_CALL fuel m) as [[r m'] l]; reflexivity.
  - destruct (loop_STATE_RESET fuel m) as [[r m'] l]; reflexivity.
Qed.

(** With the handset on the hook the reset runs through and ends in Idle. *)
Lemma loop_STATE_RESET_on_hook (fuel : nat) (m : Machine) :
  hd HIGH (hookIn (inputs m)) = HIGH ->
  result (loop_STATE_RESET (S fuel) m) = Some tt
  /\ currentState (final (loop_STATE_RESET (S fuel) m)) = STATE_IDLE.
Proof.
  intros Hhook.
  assert (Hrun : exists m' log,
            loop_STATE_RESET (S fuel) m = (Some tt, m', log)
            /\ currentState m' = STATE_IDLE).
  { unfold loop_STATE_RESET. step by sfx_stop_run.
    cbn [loop_reset_wait]. unfold bind at 1 2.
    rewrite isReceiverHookOff_run, Hhook. cbn [is_low]. cbv beta iota.
    run_prims. do 2 eexists. split; reflexivity. }
  destruct Hrun as (m' & log & -> & Hs). split; [reflexivity|exact Hs].
Qed.

(** * File ids: [convertFilenameToInt] *)

Section FileId.

Lemma isdigit_value (c : ascii) : isdigit c = true -> 0 <= digit_value c <= 9.
Proof.
  unfold isdigit, digit_value. intros H.
  apply andb_prop in H as [H1 H2]. lia.
Qed.


Lemma isdigit_not_dot (c : ascii) : isdigit c = true -> Ascii.eqb c "."%char = false.
Proof. destruct c as [[] [] [] [] [] [] [] []]; intros H; try discriminate H; reflexivity. Qed.

(** Step 1 leaves the pointer where the reference skips to. *)
Lemma skipNonNumeric_chars (name : string) :
  c_chars (skipNonNumeric name) = drop_non_digits (c_chars name).
Proof.
  induction name as [|c rest IH]; [reflexivity|].
  cbn [skipNonNumeric c_chars].
  destruct (Ascii.eqb c NUL) eqn:Hnul; cbn [negb andb].
  - cbn [c_chars]. rewrite Hnul. reflexivity.
  - destruct (isdigit c) eqn:Hd; cbn [negb drop_non_digits]; rewrite Hd.
    + cbn [c_chars]. rewrite Hnul. reflexivity.
    + exact IH.
Qed.

(** Step 2 copies at most [room] digits of the run. *)
Lemma extractDigits_run (room : nat) (s : string) :
  list_ascii_of_string (extractDigits room s) = take room (leading_digits (c_chars s)).
Proof.
  revert s. induction room as [|room IH]; intros s.
  - destruct s; reflexivity.
  - destruct s as [|c rest]; [reflexivity|].
    cbn [extractDigits c_chars].
    destruct (Ascii.eqb c NUL) eqn:Hnul; cbn [negb andb]; [reflexivity|].
    destruct (isdigit c) eqn:Hd.
    + rewrite (isdigit_not_dot c Hd). cbn [negb leading_digits].
      rewrite Hd. cbn [list_ascii_of_string take]. f_equal. apply IH.
    + cbn [leading_digits]. rewrite Hd.
      destruct (Ascii.eqb c "."%char); reflexivity.
Qed.

Lemma leading_digits_Forall (l : list ascii) :
  Forall (fun c => isdigit c = true) (leading_digits l).
Proof.
  induction l as [|c l IH]; cbn [leading_digits]; [constructor|].
  destruct (isdigit c) eqn:Hd; constructor; assumption.
Qed.

Lemma strtol_digits_all (ds : list ascii) (acc : Z) :
  Forall (fun c => isdigit c = true) ds ->
  strtol_digits acc (string_of_list_ascii ds)
  = (fold_left (fun a c => a * 10 + digit_value c) ds acc, EmptyString).
Proof.
  revert acc. induction ds as [|c ds IH]; intros acc Hall; [reflexivity|].
  inversion Hall as [|? ? Hc Hrest]; subst.
  cbn [string_of_list_ascii strtol_digits fold_left]. rewrite Hc. apply IH, Hrest.
Qed.

Lemma fold_digits_bounds (ds : list ascii) (acc : Z) :
  Forall (fun c => isdigit c = true) ds -> 0 <= acc ->
  0 <= fold_left (fun a c => a * 10 + digit_value c) ds acc
    < (acc + 1) * 10 ^ Z.of_nat (length ds).
Proof.
  revert acc. induction ds as [|c ds IH]; intros acc Hall Hacc.
  - cbn. lia.
  - inversion Hall as [|? ? Hc Hrest]; subst.
    pose proof (isdigit_value c Hc) as Hv.
    cbn [fold_left length].
    specialize (IH (acc * 10 + digit_value c) Hrest ltac:(lia)).
    rewrite Nat2Z.inj_succ, Z.pow_succ_r by lia.
    split; [lia|].
    eapply Z.lt_le_trans; [apply IH|].
    assert (0 < 10 ^ Z.of_nat (length ds)) by (apply Z.pow_pos_nonneg; lia).
    nia.
Qed.

(** A run of at most five digits is a number of [0..99999]. *)
Lemma decimal_value_bounds (ds : list ascii) :
  Forall (fun c => isdigit c = true) ds -> (length ds <= 5)%nat ->
  0 <= decimal_value ds <= 99999.
Proof.
  intros Hall Hlen. unfold decimal_value.
  pose proof (fold_digits_bounds ds 0 Hall ltac:(lia)) as [H0 H1].
  split; [exact H0|].
  assert (10 ^ Z.of_nat (length ds) <= 10 ^ 5) by (apply Z.pow_le_mono_r; lia).
  change (10 ^ 5) with 100000 in *. lia.
Qed.

(** [strtol] reads a non-empty string of digits whole. *)
Lemma strtol_digit_string (ds : list ascii) :
  ds <> [] -> Forall (fun c => isdigit c = true) ds -> (length ds <= 5)%nat ->
  strtol (string_of_list_ascii ds) = (decimal_value ds, EmptyString).
Proof.
  intros Hne Hall Hlen.
  pose proof (decimal_value_bounds ds Hall Hlen) as Hb.
  destruct ds as [|c ds]; [congruence|].
  pose proof (strtol_digits_all (c :: ds) 0 Hall) as Hrun.
  inversion Hall as [|? ? Hc Hrest]; subst.
  fold (decimal_value (c :: ds)) in Hrun.
  cbn [string_of_list_ascii] in *.
  unfold strtol.
  assert (Hsp : strtol_space (String c (string_of_list_ascii ds))
                = String c (string_of_list_ascii ds)).
  { cbn [strtol_space].
    destruct c as [[] [] [] [] [] [] [] []]; try discriminate Hc; reflexivity. }
  rewrite Hsp.
  assert (Hsign :
    match String c (string_of_list_ascii ds) with
    | String "-" rest => (true, rest)
    | String "+" rest => (false, rest)
    | _ => (false, String c (string_of_list_ascii ds))
    end = (false, String c (string_of_list_ascii ds))).
  { destruct c as [[] [] [] [] [] [] [] []]; try discriminate Hc; reflexivity. }
  rewrite Hsign. rewrite Hc, Hrun.
  f_equal. unfold LONG_MIN, LONG_MAX. lia.
Qed.

Lemma take_leading_digits_Forall (n : nat) (l : list ascii) :
  Forall (fun c => isdigit c = true) (take n (leading_digits l)).
Proof. apply Forall_take, leading_digits_Forall. Qed.

Lemma length_string_of_list_ascii (l : list ascii) :
  String.length (string_of_list_ascii l) = length l.
Proof. induction l; cbn; congruence. Qed.

(** What [convertFilenameToInt] computes: the number written by the first
    five digits (or fewer) of the first digit run, and -1 only when the
    name has no digit. *)
Lemma convertFilenameToInt_spec (name : string) :
  convertFilenameToInt (Some name)
  = match take 5 (first_digit_run name) with
    | [] => -1
    | ds => decimal_value ds
    end.
Proof.
  unfold convertFilenameToInt, first_digit_run.
  pose proof (extractDigits_run 5 (skipNonNumeric name)) as Hrun.
  rewrite skipNonNumeric_chars in Hrun.
  set (digits := take 5 (leading_digits (drop_non_digits (c_chars name)))) in *.
  assert (Hstr : extractDigits 5 (skipNonNumeric name) = string_of_list_ascii digits).
  { rewrite <- Hrun. symmetry. apply string_of_list_ascii_of_string. }
  rewrite Hstr, length_string_of_list_ascii.
  destruct digits as [|c ds] eqn:Hd; [reflexivity|].
  cbn [length Nat.eqb].
  assert (Hall : Forall (fun c => isdigit c = true) (c :: ds)).
  { rewrite <- Hd. apply take_leading_digits_Forall. }
  assert (Hlen : (length (c :: ds) <= 5)%nat).
  { rewrite <- Hd. subst digits. rewrite length_take. lia. }
  rewrite strtol_digit_string by (assumption || congruence).
  pose proof (decimal_value_bounds _ Hall Hlen) as Hb.
  cbn [String.eqb negb orb].
  destruct (decimal_value (c :: ds) <? 0) eqn:E1; [lia|].
  destruct (99999 <? decimal_value (c :: ds)) eqn:E2; [lia|].
  reflexivity.
Qed.

End FileId.

(** C1, as stated, fails: the name "123456.OGG" has one digit run, of six
    digits and value 123456, so the claim calls it invalid; the code
    stops after five digits and returns 12345. *)
Lemma convertFilenameToInt_long_run_not_invalid :
  first_digit_run "123456.OGG" = list_ascii_of_string "123456"
  /\ claimed_id "123456.OGG" = -1
  /\ convertFilenameToInt (Some "123456.OGG"%string) = 12345
  /\ convertFilenameToInt (Some "123456.OGG"%string) <> claimed_id "123456.OGG".
Proof. repeat split; try reflexivity. vm_compute. discriminate. Qed.

(** C1 (amended): for every file name, [convertFilenameToInt] skips the
    non-digit prefix and returns the number written by the first digit run
    cut to its first five digits; it returns -1 exactly when the name has
    no digit; the result is -1 or within 0..99999; and it is the claimed id
    whenever the run has at most five digits. *)
Theorem convertFilenameToInt_first_five_digits (name : string) :
  convertFilenameToInt (Some name)
  = match take 5 (first_digit_run name) with
    | [] => -1
    | ds => decimal_value ds
    end
  /\ (convertFilenameToInt (Some name) = -1 <-> first_digit_run name = [])
  /\ (convertFilenameToInt (Some name) = -1
      \/ 0 <= convertFilenameToInt (Some name) <= 99999)
  /\ claimed_id name
     = if (length (first_digit_run name) <=? 5)%nat
       then convertFilenameToInt (Some name) else -1.
Proof.
  pose proof (convertFilenameToInt_spec name) as Hspec.
  assert (Hall : Forall (fun c => isdigit c = true) (take 5 (first_digit_run name)))
    by apply take_leading_digits_Forall.
  assert (Hlen : (length (take 5 (first_digit_run name)) <= 5)%nat)
    by (rewrite length_take; lia).
  pose proof (decimal_value_bounds _ Hall Hlen) as Hb.
  split; [exact Hspec|]. split; [|split].
  - rewrite Hspec. destruct (first_digit_run name) as [|c run] eqn:Hrun.
    + cbn. tauto.
    + cbn [take] in *. split; [lia|discriminate].
  - rewrite Hspec. destruct (take 5 (first_digit_run name)); [left; reflexivity|right; exact Hb].
  - unfold claimed_id. cbv zeta.
    destruct (length (first_digit_run name) <=? 5)%nat eqn:Hle.
    + apply Nat.leb_le in Hle.
      rewrite take_ge in Hspec, Hb by lia.
      rewrite Hspec.
      destruct (first_digit_run name) as [|c run] eqn:Hrun; [reflexivity|].
      cbn [length].
      replace (1 <=? S (length run))%nat with true by (symmetry; apply Nat.leb_le; lia).
      cbn [andb]. destruct (decimal_value (c :: run) <=? 99999) eqn:E; [reflexivity|lia].
    + rewrite andb_false_r. reflexivity.
Qed.

(** * Building the directory: [scanAudioFXStorageNew] *)

Section Directory.

Lemma to_uint8_small (z : Z) : 0 <= z < 256 -> to_uint8 z = z.
Proof. intros H. unfold to_uint8. apply Z.mod_small. exact H. Qed.

(** The scan loop appends the entries of the files still to read, up to
    the capacity of the table. *)
Lemma scanAudioFXStorageNew_loop_run (rest : list string) :
  forall (pre : list string) (f : Z) (m : Machine) (D : list AudioFile),
    listing (inputs m) = pre ++ rest ->
    (length (pre ++ rest) <= 255)%nat ->
    (rest <> [] -> f = Z.of_nat (length pre)) ->
    length (audioFiles m) = Z.to_nat MAX_TRACKS ->
    totalFiles m = Z.of_nat (length D) ->
    (length D <= Z.to_nat MAX_TRACKS)%nat ->
    take (length D) (audioFiles m) = D ->
    exists m',
      scanAudioFXStorageNew_loop (length rest) f m = (Some tt, m', [])
      /\ dir_entries m'
         = take (Z.to_nat MAX_TRACKS) (D ++ directory_from (length pre) rest)
      /\ length (audioFiles m') = Z.to_nat MAX_TRACKS
      /\ (totalFiles m' <= MAX_TRACKS)
      /\ inputs m' = inputs m
      /\ currentState m' = currentState m.
Proof.
  assert (HM : MAX_TRACKS = 30) by reflexivity.
  assert (HMn : Z.to_nat MAX_TRACKS = 30%nat) by reflexivity.
  induction rest as [|name rest IH]; intros pre f m D Hlist Hlen Hf Hfiles Htotal HD Htake.
  - exists m. cbn [length scanAudioFXStorageNew_loop directory_from].
    unfold dir_entries. rewrite Htotal, Nat2Z.id, app_nil_r, Htake.
    split; [reflexivity|]. split; [symmetry; apply take_ge; exact HD|].
    split; [exact Hfiles|]. split; [lia|].
    split; reflexivity.
  - specialize (Hf ltac:(discriminate)). subst f.
    cbn [length scanAudioFXStorageNew_loop].
    unfold bind at 1. cbn [get].
    destruct (MAX_TRACKS <=? totalFiles m) eqn:Hfull.
    + (* the table is full: break *)
      exists m. unfold dir_entries. rewrite Htotal, Nat2Z.id, Htake.
      assert (length D = Z.to_nat MAX_TRACKS) by lia.
      split; [reflexivity|].
      split; [symmetry; apply take_app_length'; congruence|].
      split; [exact Hfiles|]. split; [lia|]. split; reflexivity.
    + assert (Hname : listing (inputs m) !! Z.to_nat (Z.of_nat (length pre)) = Some name).
      { rewrite Nat2Z.id, Hlist. apply list_lookup_middle. reflexivity. }
      unfold bind at 1, sfx_fileName at 1. unfold bind at 1. cbn [get ret].
      rewrite Hname. cbn [app].
      assert (Hnext : rest <> [] ->
                to_uint8 (Z.of_nat (length pre) + 1) = Z.of_nat (length (pre ++ [name]))).
      { intros Hne. rewrite length_app in *. cbn [length] in *.
        destruct rest; [congruence|]. cbn [length] in Hlen.
        rewrite to_uint8_small; lia. }
      assert (Hlist' : listing (inputs m) = (pre ++ [name]) ++ rest)
        by (rewrite <- app_assoc; exact Hlist).
      assert (Hlen' : (length ((pre ++ [name]) ++ rest) <= 255)%nat)
        by (rewrite <- app_assoc; exact Hlen).
      assert (Hpre : length (pre ++ [name]) = S (length pre))
        by (rewrite length_app; cbn; lia).
      cbn [directory_from]. cbv zeta.
      destruct (convertFilenameToInt (Some name) =? -1) eqn:Hid.
      * (* no id in the name: continue *)
        destruct (IH (pre ++ [name]) _ m D Hlist' Hlen' Hnext Hfiles Htotal HD Htake)
          as (m' & Hrun & Hdir & Hl & Ht & Hi & Hs).
        exists m'. rewrite Hrun. rewrite Hpre in Hdir. auto 10.
      * (* store the entry *)
        set (e := mkAudioFile (convertFilenameToInt (Some name)) (Z.of_nat (length pre))).
        set (m1 := set_totalFiles (to_uint8 (totalFiles m + 1))
                     (set_audioFiles (<[Z.to_nat (totalFiles m) := e]> (audioFiles m)) m)).
        assert (Hroom : (length D < Z.to_nat MAX_TRACKS)%nat) by lia.
        assert (Htotal1 : totalFiles m1 = Z.of_nat (length (D ++ [e]))).
        { subst m1. cbn. rewrite Htotal, length_app. cbn [length].
          rewrite to_uint8_small; lia. }
        assert (Hfiles1 : length (audioFiles m1) = Z.to_nat MAX_TRACKS).
        { subst m1. cbn. rewrite length_insert. exact Hfiles. }
        assert (Htake1 : take (length (D ++ [e])) (audioFiles m1) = D ++ [e]).
        { subst m1. cbn. rewrite Htotal, Nat2Z.id, length_app. cbn [length].
          replace (length D + 1)%nat with (S (length D)) by lia.
          erewrite take_S_r by (apply list_lookup_insert_eq; lia).
          rewrite take_insert_ge by lia. rewrite Htake. reflexivity. }
        assert (HD1 : (length (D ++ [e]) <= Z.to_nat MAX_TRACKS)%nat).
        { rewrite length_app. cbn [length]. lia. }
        destruct (IH (pre ++ [name]) (to_uint8 (Z.of_nat (length pre) + 1)) m1 (D ++ [e])
                    Hlist' Hlen' Hnext Hfiles1 Htotal1 HD1 Htake1)
          as (m' & Hrun & Hdir & Hl & Ht & Hi & Hs).
        exists m'. unfold bind at 1. cbn [modify]. fold e. fold m1.
        rewrite Hrun. rewrite Hpre, <- app_assoc in Hdir. auto 10.
Qed.

(** Where the first file with a given id lands in the directory. *)
Lemma first_match_directory_from (names : list string) :
  forall (k c f : nat) (name : string) (id : Z),
    names !! f = Some name ->
    convertFilenameToInt (Some name) = id ->
    id <> -1 ->
    (forall g other, (g < f)%nat -> names !! g = Some other ->
                     convertFilenameToInt (Some other) <> id) ->
    (length (directory_from k (take f names)) < c)%nat ->
    first_match (take c (directory_from k names)) id = Some (Z.of_nat (k + f)).
Proof.
  induction names as [|n0 names IH]; intros k c f name id Hf Hid Hvalid Hfirst Hroom;
    [discriminate|].
  destruct f as [|f].
  - cbn in Hf. injection Hf as ->.
    cbn [directory_from]. cbv zeta. rewrite Hid.
    destruct (id =? -1) eqn:E; [lia|].
    destruct c; [cbn in Hroom; lia|].
    cbn [take first_match fileID trackNum]. rewrite Z.eqb_refl.
    f_equal. lia.
  - cbn in Hf.
    assert (Hne : convertFilenameToInt (Some n0) <> id)
      by (apply (Hfirst 0%nat); [lia|reflexivity]).
    assert (Hfirst' : forall g other, (g < f)%nat -> names !! g = Some other ->
                                      convertFilenameToInt (Some other) <> id).
    { intros g other Hg Hlook. apply (Hfirst (S g)); [lia|exact Hlook]. }
    cbn [take directory_from] in *. cbv zeta in *.
    destruct (convertFilenameToInt (Some n0) =? -1) eqn:E.
    + rewrite (IH (S k) c f name id Hf Hid Hvalid Hfirst' Hroom). f_equal. lia.
    + cbn [length] in Hroom. destruct c; [lia|].
      cbn [take first_match fileID].
      destruct (convertFilenameToInt (Some n0) =? id) eqn:E2; [lia|].
      rewrite (IH (S k) c f name id Hf Hid Hvalid Hfirst' ltac:(lia)). f_equal. lia.
Qed.

End Directory.

(** C2: after the directory is built from a listing, looking up the id of
    a listed file returns the position of the first listed file with that
    id, provided that file came within the 30 entries of the table.
    Later files with the same id are stored too and never reached. *)
Theorem lookup_returns_first_listed
    (m : Machine) (f : nat) (name : string) (id : Z) :
  (length (listing (inputs m)) <= 255)%nat ->
  length (audioFiles m) = Z.to_nat MAX_TRACKS ->
  listing (inputs m) !! f = Some name ->
  convertFilenameToInt (Some name) = id ->
  id <> -1 ->
  (forall g other, (g < f)%nat -> listing (inputs m) !! g = Some other ->
                   convertFilenameToInt (Some other) <> id) ->
  (entries_before (listing (inputs m)) f < Z.to_nat MAX_TRACKS)%nat ->
  let built := final (scanAudioFXStorageNew m) in
  result (scanAudioFXStorageNew m) = Some tt
  /\ findTrackNumberByFilename id built = (Some (Z.of_nat f), built, []).
Proof.
  intros Hlen Hfiles Hf Hid Hvalid Hfirst Hroom built. subst built.
  assert (Hnonempty : (0 < length (listing (inputs m)))%nat).
  { apply lookup_lt_Some in Hf. lia. }
  destruct (scanAudioFXStorageNew_loop_run (listing (inputs m)) [] 0
              (set_totalFiles 0 m) [])
    as (m' & Hrun & Hdir & Hl & Ht & Hi & Hs);
    try reflexivity; try assumption; try (cbn; lia).
  assert (Hscan : scanAudioFXStorageNew m = (Some tt, m', [EvListFiles])).
  { unfold scanAudioFXStorageNew, sfx_listFiles, bind, get, emit, ret, modify.
    rewrite to_uint8_small by lia.
    destruct (Z.of_nat (length (listing (inputs m))) =? 0) eqn:E; [lia|].
    rewrite Nat2Z.id.
    unfold bind in Hrun. rewrite Hrun. reflexivity. }
  rewrite Hscan. cbn [result final fst snd].
  split; [reflexivity|].
  apply findTrackNumberByFilename_found.
  rewrite findTrack_loop_first_match, drop_0.
  fold (dir_entries m'). rewrite Hdir. cbn [app length].
  apply (first_match_directory_from _ 0%nat _ f name id); assumption.
Qed.

(** On [duplicate_inputs] the id 7 is listed at positions 1 and 3; the
    lookup returns 1. *)
Lemma lookup_returns_first_listed_witness :
  let m := boot duplicate_inputs in
  let built := final (scanAudioFXStorageNew m) in
  listing (inputs m) !! 1%nat = Some "7.OGG"%string
  /\ listing (inputs m) !! 3%nat = Some "7.WAV"%string
  /\ result (scanAudioFXStorageNew m) = Some tt
  /\ findTrackNumberByFilename 7 built = (Some 1, built, []).
Proof.
  cbv zeta. split; [reflexivity|]. split; [reflexivity|].
  apply (lookup_returns_first_listed (boot duplicate_inputs) 1 "7.OGG" 7).
  - vm_compute. lia.
  - reflexivity.
  - reflexivity.
  - vm_compute. reflexivity.
  - discriminate.
  - intros g other Hg Hlook.
    assert (g = 0%nat) as -> by lia.
    injection Hlook as <-. vm_compute. discriminate.
  - vm_compute. lia.
Defined.

(** * A failed lookup forces a reset *)

(** C10: for every machine and every id that is not in the directory,
    [findTrackNumberByFilename] returns 255 and, besides, sets the call
    phase to [STATE_RESET] and replaces what the display shows by the
    missing file's name over "Number Not Found", whoever called it.  A
    caller that assigns the phase afterwards overwrites the reset: from
    [STATE_DIAL_TONE] with the dial tone missing, [loop] ends in
    [STATE_KEYPAD_ENTRY]. *)
Theorem findTrackNumberByFilename_missing_forces_reset
    (m : Machine) (id : Z) (d : Lcd) (fuel : nat) :
  not_in_directory m id ->
  let r := findTrackNumberByFilename id m in
  result r = Some 255
  /\ currentState (final r) = STATE_RESET
  /\ events r = notFound_log id
  /\ shown (render d (events r))
     = (string_of_list_ascii
          (Lcd_write (replicate 16 space) 0 (strlcpy 16 (missingFileMsg id))),
        "Number Not Found"%string)
  /\ audioFiles (final r) = audioFiles m
  /\ totalFiles (final r) = totalFiles m
  /\ (id = dialTone -> currentState m = STATE_DIAL_TONE ->
      result (loop_switch fuel m) = Some tt
      /\ currentState (final (loop_switch fuel m)) = STATE_KEYPAD_ENTRY
      /\ firstn 6 (events (loop_switch fuel m)) = notFound_log dialTone).
Proof.
  intros Hnot r. subst r.
  pose proof (not_in_directory_lookup m id Hnot) as Hloop.
  rewrite (findTrackNumberByFilename_missing id m Hloop).
  cbn [result final events fst snd].
  split; [reflexivity|]. split; [reflexivity|]. split; [reflexivity|].
  split; [reflexivity|]. split; [reflexivity|]. split; [reflexivity|].
  intros -> Hstate.
  assert (Hrun : exists m',
            loop_switch fuel m = (Some tt, m', notFound_log dialTone ++
                                   [EvPlay 255 (hd true (playIn (inputs m)));
                                    EvDelay sfxDelay])
            /\ currentState m' = STATE_KEYPAD_ENTRY).
  { eexists. rewrite loop_switch_run, Hstate.
    unfold loop_STATE_DIAL_TONE.
    step by (findTrackNumberByFilename_missing _ m Hloop).
    step by triggerSoundUART_run. step by delay_run.
    rewrite modify_run. split; reflexivity. }
  destruct Hrun as (m' & -> & Hs). repeat split; [exact Hs].
Qed.

(** On [no_dial_tone_machine] the dial tone is missing: the lookup
    shows its name and resets the phase, and the dial-tone round of [loop]
    ends in keypad entry all the same. *)
Lemma findTrackNumberByFilename_missing_forces_reset_witness :
  let r := findTrackNumberByFilename dialTone no_dial_tone_machine in
  first_match (dir_entries no_dial_tone_machine) dialTone = None
  /\ result r = Some 255
  /\ currentState (final r) = STATE_RESET
  /\ shown (render Lcd_blank (events r))
     = ("    1.OGG       "%string, "Number Not Found"%string)
  /\ currentState (final (loop_switch 10 no_dial_tone_machine)) = STATE_KEYPAD_ENTRY.
Proof.
  cbv zeta.
  assert (Hmiss : first_match (dir_entries no_dial_tone_machine) dialTone = None)
    by (vm_compute; reflexivity).
  pose proof (findTrackNumberByFilename_missing_forces_reset
                no_dial_tone_machine dialTone Lcd_blank 10
                (first_match_not_in_directory _ _ Hmiss)) as H.
  cbv zeta in H. destruct H as (H1 & H2 & H3 & H4 & H5 & H6 & H7).
  destruct (H7 eq_refl eq_refl) as (_ & H8 & _).
  split; [exact Hmiss|]. split; [exact H1|]. split; [exact H2|].
  split; [|exact H8]. rewrite H4. vm_compute. reflexivity.
Defined.

(** * A key-fob code without a recording *)

Section UnknownCode.

(** [ProcessIncomingKeyFob] once a second press was captured and the code
    has no entry: the lookup fails, with its forced reset. *)
Lemma ProcessIncomingKeyFob_unknown (fuel : nat) (i d : Z) (m : Machine) :
  result (ProcessIncomingKeyFob_capture fuel i m) = Some d ->
  d <> 255 ->
  not_in_directory m (number (keyfobButton i) * 10 + number (keyfobButton d)) ->
  let r := ProcessIncomingKeyFob fuel i m in
  result r = Some 255
  /\ currentState (final r) = STATE_RESET
  /\ loop_trackNum (final r)
     = loop_trackNum (final (ProcessIncomingKeyFob_capture fuel i m))
  /\ screensaverActive (final r)
     = screensaverActive (final (ProcessIncomingKeyFob_capture fuel i m))
  /\ hookIn (inputs (final r))
     = hookIn (inputs (final (ProcessIncomingKeyFob_capture fuel i m)))
  /\ exists pre,
       events r
       = pre ++ notFound_log (number (keyfobButton i) * 10 + number (keyfobButton d)).
Proof.
  intros Hcap Hd Hnot r. subst r.
  set (id := number (keyfobButton i) * 10 + number (keyfobButton d)) in *.
  destruct (keeps_ProcessIncomingKeyFob_capture fuel i m) as (Ka & Kt & Ks).
  unfold ProcessIncomingKeyFob. cbv zeta. rewrite bind_run, Hcap.
  set (c := ProcessIncomingKeyFob_capture fuel i m) in *.
  assert (Hne : negb (d =? 255) = true) by (apply negb_true_iff, Z.eqb_neq; exact Hd).
  rewrite Hne.
  unfold lcd_setCursor, lcd_print, delay, modify_inputs, emit, modify, bind.
  cbv beta iota.
  match goal with
  | |- context [findTrackNumberByFilename _ ?x] => set (m4 := x)
  end.
  assert (Hnot4 : not_in_directory m4 id).
  { apply (not_in_directory_keeps m); [subst m4; cbn; exact Ka
                                      |subst m4; cbn; exact Kt|exact Hnot]. }
  fold id. rewrite (findTrackNumberByFilename_missing id m4 (not_in_directory_lookup _ _ Hnot4)).
  cbn [result final events fst snd].
  repeat split; try reflexivity.
  exists (events c ++ [EvLcdSetCursor (to_uint8 1) (to_uint8 1);
                       EvLcdPrint (String (letter (keyfobButton d)) EmptyString);
                       EvDelay messageWait]).
  cbn [app]. rewrite <- (app_assoc (events c)). reflexivity.
Qed.

End UnknownCode.

(** C3, as stated, fails.  From power-up with [fob_AB_inputs]: the first
    round of [loop] leaves the phase Idle; in the second round button A is
    stable, B follows within the window, the code 12 has no entry, and the
    round ends in [STATE_RESET], not in Idle. *)
Lemma unknown_fob_code_leaves_idle :
  first_match (dir_entries (final (sketch 100 1 fob_AB_inputs))) 12 = None
  /\ currentState (final (sketch 100 1 fob_AB_inputs)) = STATE_IDLE
  /\ result (sketch 100 2 fob_AB_inputs) = Some tt
  /\ shown (render Lcd_blank (events (sketch 100 2 fob_AB_inputs)))
     = ("    12.OGG      "%string, "Number Not Found"%string)
  /\ currentState (final (sketch 100 2 fob_AB_inputs)) = STATE_RESET
  /\ currentState (final (sketch 100 2 fob_AB_inputs)) <> STATE_IDLE.
Proof. repeat split; try (vm_compute; reflexivity). vm_compute. discriminate. Qed.

(** C3 (amended): in Idle with the handset on the hook, when a first press
    is stable, a second press is captured within the window and the code
    [first * 10 + second] has no directory entry, the round of [loop]
    starts no incoming call: the failed lookup shows "Number Not Found" and
    sets the phase to [STATE_RESET], and the Idle branch leaves it there.
    The machine is back in Idle after the next round, which runs the
    reset. *)
Theorem idle_unknown_code_resets (fuel : nat) (m : Machine) (b d : Z) :
  currentState m = STATE_IDLE ->
  hd HIGH (hookIn (inputs m)) = HIGH ->
  let m1 := final (isReceiverHookOff m) in
  result (CheckForIncomingCall m1) = Some b ->
  b <> -1 ->
  let m2 := final (CheckForIncomingCall m1) in
  result (ProcessIncomingKeyFob_capture fuel (to_uint8 b) m2) = Some d ->
  d <> 255 ->
  not_in_directory m
    (number (keyfobButton (to_uint8 b)) * 10 + number (keyfobButton d)) ->
  let r := loop_switch fuel m in
  result r = Some tt
  /\ currentState (final r) = STATE_RESET
  /\ loop_trackNum (final r) = 255
  /\ (exists pre,
        events r
        = pre ++ notFound_log
                   (number (keyfobButton (to_uint8 b)) * 10 + number (keyfobButton d)))
  /\ (hd HIGH (hookIn (inputs (final r))) = HIGH -> (0 < fuel)%nat ->
      result (loop_switch fuel (final r)) = Some tt
      /\ currentState (final (loop_switch fuel (final r))) = STATE_IDLE).
Proof.
  intros Hidle Hhook m1 Hcheck Hb m2 Hcap Hd Hnot r.
  set (id := number (keyfobButton (to_uint8 b)) * 10 + number (keyfobButton d)) in *.
  destruct (keeps_isReceiverHookOff m) as (Ka1 & Kt1 & Ks1).
  destruct (keeps_CheckForIncomingCall m1) as (Ka2 & Kt2 & Ks2).
  fold m1 in Ka1, Kt1, Ks1. fold m2 in Ka2, Kt2, Ks2.
  assert (Hnot2 : not_in_directory m2 id).
  { apply (not_in_directory_keeps m); [congruence|congruence|exact Hnot]. }
  destruct (ProcessIncomingKeyFob_unknown fuel (to_uint8 b) d m2 Hcap Hd Hnot2)
    as (Pr & Ps & Pt & Pa & Ph & pre & Pe).
  assert (Hne : negb (b =? -1) = true) by (apply negb_true_iff, Z.eqb_neq; exact Hb).
  assert (Hrun : r = (Some tt,
                      set_loop_trackNum 255
                        (final (ProcessIncomingKeyFob fuel (to_uint8 b) m2)),
                      events (CheckForIncomingCall m1)
                      ++ events (ProcessIncomingKeyFob fuel (to_uint8 b) m2))).
  { subst r. rewrite loop_switch_run, Hidle.
    unfold loop_STATE_IDLE, bind, get, modify, ret.
    rewrite isReceiverHookOff_run, Hhook. cbn [is_low].
    change (set_inputs (set_hookIn (tail (hookIn (inputs m))) (inputs m)) m) with m1.
    subst m2.
    destruct (CheckForIncomingCall m1) as [[rb m2] l2].
    cbn [result final events fst snd] in *. subst rb. rewrite Hne.
    destruct (ProcessIncomingKeyFob fuel (to_uint8 b) m2) as [[rp m3] l3].
    cbn [result final events fst snd] in *. subst rp.
    change (to_uint8 255 <? 255) with false. cbv beta iota.
    cbn [app]. rewrite ?app_nil_r. reflexivity. }
  rewrite Hrun. cbn [result final events fst snd].
  split; [reflexivity|]. split; [exact Ps|]. split; [reflexivity|].
  split.
  - exists (events (CheckForIncomingCall m1) ++ pre). rewrite Pe, app_assoc. reflexivity.
  - intros Hhook' Hfuel. destruct fuel as [|fuel]; [lia|].
    set (m3 := set_loop_trackNum 255 _) in *.
    assert (Hs3 : currentState m3 = STATE_RESET) by exact Ps.
    rewrite loop_switch_run, Hs3.
    apply loop_STATE_RESET_on_hook. exact Hhook'.
Qed.

(** On [fob_AB_machine] the code 12 is captured in one round of [loop];
    the round ends in [STATE_RESET] and the next one in Idle. *)
Lemma idle_unknown_code_resets_witness :
  let r := loop_switch 100 fob_AB_machine in
  currentState fob_AB_machine = STATE_IDLE
  /\ result r = Some tt
  /\ currentState (final r) = STATE_RESET
  /\ loop_trackNum (final r) = 255
  /\ currentState (final (loop_switch 100 (final r))) = STATE_IDLE.
Proof.
  cbv zeta.
  assert (Hidle : currentState fob_AB_machine = STATE_IDLE)
    by (vm_compute; reflexivity).
  pose proof (idle_unknown_code_resets 100 fob_AB_machine 0 1 Hidle) as H.
  cbv zeta in H.
  destruct H as (H1 & H2 & H3 & _ & H5).
  - vm_compute. reflexivity.
  - vm_compute. reflexivity.
  - discriminate.
  - vm_compute. reflexivity.
  - discriminate.
  - apply first_match_not_in_directory. vm_compute. reflexivity.
  - destruct H5 as (_ & H6); [vm_compute; reflexivity|lia|].
    repeat split; assumption.
Defined.

(** * Which computations look at the answers of the module *)

Lemma same_but_answers_ret {A} (a : A) : same_but_answers (ret a) (ret a).
Proof. intros m ps. split; [reflexivity|]. split; [exists ps|]; reflexivity. Qed.

Lemma same_but_answers_stuck {A} : same_but_answers (@stuck A) (@stuck A).
Proof. intros m ps. split; [reflexivity|]. split; [exists ps|]; reflexivity. Qed.

Lemma same_but_answers_emit (e : Event) : same_but_answers (emit e) (emit e).
Proof. intros m ps. split; [reflexivity|]. split; [exists ps|]; reflexivity. Qed.

Lemma same_but_answers_bind {A B} (c c' : M A) (k k' : A -> M B) :
  same_but_answers c c' ->
  (forall a, same_but_answers (k a) (k' a)) ->
  same_but_answers (bind c k) (bind c' k').
Proof.
  intros Hc Hk m ps. unfold same_run_but_answers. rewrite !bind_run.
  destruct (Hc m ps) as (Hr & [qs Hf] & He). rewrite Hr.
  destruct (result (c m)) as [a|]; cbn [result final events fst snd].
  - rewrite Hf. destruct (Hk a (final (c m)) qs) as (Hr2 & [qs2 Hf2] & He2).
    split; [exact Hr2|]. split; [exists qs2; exact Hf2|].
    rewrite !map_app, He, He2. reflexivity.
  - split; [reflexivity|]. split; [exists qs; exact Hf|exact He].
Qed.

(** A computation that starts by reading the machine: what follows may
    use every variable but the answers to come. *)
Lemma same_but_answers_get {B} (k k' : Machine -> M B) :
  (forall a ps, same_but_answers (k a) (k' (with_play ps a))) ->
  same_but_answers (bind get k) (bind get k').
Proof.
  intros H m ps. unfold same_run_but_answers. rewrite !bind_run.
  cbn [get result final events fst snd app]. apply (H m ps m ps).
Qed.

Lemma same_but_answers_when (b : bool) (c c' : M unit) :
  same_but_answers c c' -> same_but_answers (when b c) (when b c').
Proof. destruct b; [auto|intros _; apply same_but_answers_ret]. Qed.

Lemma same_but_answers_modify (f : Machine -> Machine) :
  (forall m ps, exists qs, f (with_play ps m) = with_play qs (f m)) ->
  same_but_answers (modify f) (modify f).
Proof. intros H m ps. split; [reflexivity|]. split; [apply H|reflexivity]. Qed.

(** [triggerSoundUART] drops the answer of [playTrack]. *)
Lemma same_but_answers_triggerSoundUART (n : Z) :
  same_but_answers (triggerSoundUART n) (triggerSoundUART n).
Proof.
  intros m ps. unfold same_run_but_answers. rewrite !triggerSoundUART_run.
  split; [reflexivity|]. split; [exists (tail ps)|]; reflexivity.
Qed.

Create HintDb answers discriminated.

#[export] Hint Resolve same_but_answers_ret same_but_answers_stuck same_but_answers_emit
  same_but_answers_triggerSoundUART : answers.

(** Brings the variables read from a machine with other answers back to
    those of the machine itself. *)
Ltac other_answers :=
  cbv beta;
  cbn [with_play set_inputs set_playIn inputs currentState audioFiles totalFiles
       startupComplete lastActivityTime screensaverActive screensaverLastUpdate
       screensaverPosition screensaverDirection loop_trackNum lastDebounceTime
       lastButtonPressed buttonStable clock ticksIn hookIn actIn fobIn keyIn resetIn
       listing].

(** Works through a computation built from [bind], [if], [when] and pieces
    already known not to look at the answers. *)
Ltac answers_tac :=
  repeat first
    [ solve [auto with answers]
    | apply same_but_answers_get; intros ? ?; other_answers
    | apply same_but_answers_bind; [|intros ?]
    | apply same_but_answers_when
    | apply same_but_answers_modify; intros ? ?; eexists; reflexivity
    | match goal with
      | |- same_but_answers (if ?b then _ else _) _ => destruct b
      | |- same_but_answers (match ?x with _ => _ end) _ => destruct x
      end ].

Lemma answers_isReceiverHookOff : same_but_answers isReceiverHookOff isReceiverHookOff.
Proof. unfold isReceiverHookOff, digitalRead_ReceiverHook, modify_inputs. answers_tac. Qed.

Lemma answers_stillPlaying : same_but_answers stillPlaying stillPlaying.
Proof. unfold stillPlaying, digitalRead_SFX_ACT, modify_inputs. answers_tac. Qed.

Lemma answers_keypad_getKey : same_but_answers keypad_getKey keypad_getKey.
Proof. unfold keypad_getKey, modify_inputs. answers_tac. Qed.

Lemma answers_millis : same_but_answers millis millis.
Proof. unfold millis, modify_inputs. cbv zeta. answers_tac. Qed.

Lemma answers_delay (ms : Z) : same_but_answers (delay ms) (delay ms).
Proof. unfold delay, modify_inputs. answers_tac. Qed.

Lemma answers_sfx_stop : same_but_answers sfx_stop sfx_stop.
Proof. unfold sfx_stop. answers_tac. Qed.

Lemma answers_lcd_setCursor (c r : Z) :
  same_but_answers (lcd_setCursor c r) (lcd_setCursor c r).
Proof. unfold lcd_setCursor. answers_tac. Qed.

Lemma answers_lcd_print (s : string) : same_but_answers (lcd_print s) (lcd_print s).
Proof. unfold lcd_print. answers_tac. Qed.

Lemma answers_lcd_clear : same_but_answers lcd_clear lcd_clear.
Proof. unfold lcd_clear. answers_tac. Qed.

Lemma answers_lcd_display : same_but_answers lcd_display lcd_display.
Proof. unfold lcd_display. answers_tac. Qed.

#[export] Hint Resolve answers_isReceiverHookOff answers_stillPlaying
  answers_keypad_getKey answers_millis answers_delay answers_sfx_stop
  answers_lcd_setCursor answers_lcd_print answers_lcd_clear answers_lcd_display
  : answers.

Lemma answers_lcdClearLine : same_but_answers lcdClearLine lcdClearLine.
Proof. unfold lcdClearLine. answers_tac. Qed.

Lemma answers_StillLCD (a b : string) : same_but_answers (StillLCD a b) (StillLCD a b).
Proof. unfold StillLCD. answers_tac. Qed.

Lemma answers_StillLCD_P (a b : string) :
  same_but_answers (StillLCD_P a b) (StillLCD_P a b).
Proof. apply answers_StillLCD. Qed.

Lemma answers_displayLCDTopMessage_P (a : string) :
  same_but_answers (displayLCDTopMessage_P a) (displayLCDTopMessage_P a).
Proof. unfold displayLCDTopMessage_P, lcdClearLine. answers_tac. Qed.

#[export] Hint Resolve answers_lcdClearLine answers_StillLCD answers_StillLCD_P
  answers_displayLCDTopMessage_P : answers.

Lemma answers_findTrackNumberByFilename (id : Z) :
  same_but_answers (findTrackNumberByFilename id) (findTrackNumberByFilename id).
Proof. unfold findTrackNumberByFilename. answers_tac. Qed.

#[export] Hint Resolve answers_findTrackNumberByFilename : answers.

Lemma answers_checkForHangupOrEnd (fuel : nat) :
  same_but_answers (checkForHangupOrEnd fuel) (checkForHangupOrEnd fuel).
Proof. induction fuel as [|fuel IH]; cbn [checkForHangupOrEnd]; answers_tac. Qed.

Lemma answers_dialingPhone_connect (n : Z) :
  same_but_answers (dialingPhone_connect n) (dialingPhone_connect n).
Proof. unfold dialingPhone_connect. answers_tac. Qed.

Lemma answers_dialingPhone_wait (fuel : nat) (index : Z) :
  same_but_answers (dialingPhone_wait fuel index) (dialingPhone_wait fuel index).
Proof. induction fuel as [|fuel IH]; cbn [dialingPhone_wait]; answers_tac. Qed.

#[export] Hint Resolve answers_checkForHangupOrEnd answers_dialingPhone_connect
  answers_dialingPhone_wait : answers.

Lemma answers_dialingPhone (fuel : nat) (n : Z) :
  same_but_answers (dialingPhone fuel n) (dialingPhone fuel n).
Proof. unfold dialingPhone. answers_tac. Qed.

Lemma answers_GetKeyPadNumber_entry (fuel : nat) :
  forall t e,
    same_but_answers (GetKeyPadNumber_entry fuel t e) (GetKeyPadNumber_entry fuel t e).
Proof.
  induction fuel as [|fuel IH]; intros t e; cbn [GetKeyPadNumber_entry]; cbv zeta;
    answers_tac.
Qed.

Lemma answers_GetKeyPadNumber_invalid_wait (fuel : nat) :
  same_but_answers (GetKeyPadNumber_invalid_wait fuel) (GetKeyPadNumber_invalid_wait fuel).
Proof. induction fuel as [|fuel IH]; cbn [GetKeyPadNumber_invalid_wait]; answers_tac. Qed.

Lemma answers_processIncomingCall_wait (fuel : nat) :
  same_but_answers (processIncomingCall_wait fuel) (processIncomingCall_wait fuel).
Proof. induction fuel as [|fuel IH]; cbn [processIncomingCall_wait]; answers_tac. Qed.

#[export] Hint Resolve answers_dialingPhone answers_GetKeyPadNumber_entry
  answers_GetKeyPadNumber_invalid_wait answers_processIncomingCall_wait : answers.

Lemma answers_processIncomingCall_answer (fuel : nat) (n : Z) :
  same_but_answers (processIncomingCall_answer fuel n) (processIncomingCall_answer fuel n).
Proof. unfold processIncomingCall_answer. answers_tac. Qed.

#[export] Hint Resolve answers_processIncomingCall_answer : answers.

Lemma answers_processIncomingCall_ring (fuel : nat) :
  forall n index start,
    same_but_answers (processIncomingCall_ring fuel n index start)
      (processIncomingCall_ring fuel n index start).
Proof.
  induction fuel as [|fuel IH]; intros n index start; cbn [processIncomingCall_ring];
    answers_tac.
Qed.

#[export] Hint Resolve answers_processIncomingCall_ring : answers.

Lemma answers_processIncomingCall (fuel : nat) (n : Z) :
  same_but_answers (processIncomingCall fuel n) (processIncomingCall fuel n).
Proof. unfold processIncomingCall. cbv zeta. answers_tac. Qed.

Lemma answers_loop_STATE_DIAL_TONE :
  same_but_answers loop_STATE_DIAL_TONE loop_STATE_DIAL_TONE.
Proof. unfold loop_STATE_DIAL_TONE. cbv zeta. answers_tac. Qed.

(** What [GetKeyPadNumber] does once the lookup of the dialled number has
    failed. *)
Lemma answers_GetKeyPadNumber_invalid (fuel : nat) :
  same_but_answers
    (sfx_stop;;
     index ← findTrackNumberByFilename callFinished;
     triggerSoundUART index;;
     delay sfxDelay;;
     StillLCD_P invalidNumber replaceHandset;;
     GetKeyPadNumber_invalid_wait fuel;;
     modify (set_currentState STATE_RESET);;
     ret 255)
    (sfx_stop;;
     index ← findTrackNumberByFilename callFinished;
     triggerSoundUART index;;
     delay sfxDelay;;
     StillLCD_P invalidNumber replaceHandset;;
     GetKeyPadNumber_invalid_wait fuel;;
     modify (set_currentState STATE_RESET);;
     ret 255).
Proof. answers_tac. Qed.

(** * When the module refuses a play command *)

(** C7, as stated, fails.  With [dial_tone_refused_inputs] the module
    answers false to the dial tone; [loop] goes on to keypad entry all the
    same and the call to 12345 is connected.  With
    [ringback_refused_inputs] the module answers false to the ringback tone
    in [STATE_CONNECTING]; [dialingPhone] carries on and starts the
    recording (slot 5). *)
Lemma refused_dial_tone_call_goes_on :
  sounds (events (sketch 100 2 dial_tone_refused_inputs))
  = [EvDelay 1000; EvModuleReset true; EvDelay 1000; EvPlay 0 false; EvDelay 400]
  /\ currentState (final (sketch 100 2 dial_tone_refused_inputs)) = STATE_KEYPAD_ENTRY
  /\ currentState (final (sketch 100 3 dial_tone_refused_inputs)) = STATE_CONNECTING
  /\ currentState (final (sketch 100 3 dial_tone_refused_inputs)) <> STATE_RESET
  /\ currentState (final (sketch 100 3 ringback_refused_inputs)) = STATE_CONNECTING
  /\ sounds (events (loop 100 (final (sketch 100 3 ringback_refused_inputs))))
     = [EvStop; EvDelay 400; EvPlay 2 false; EvDelay 1000; EvStop;
        EvDelay 400; EvPlay 5 true; EvDelay 400; EvStop].
Proof.
  split; [vm_compute; reflexivity|]. split; [vm_compute; reflexivity|].
  split; [vm_compute; reflexivity|]. split; [vm_compute; discriminate|].
  split; vm_compute; reflexivity.
Qed.

(** [GetKeyPadNumber] from the end of the entry loop on, when the number
    dialled has no entry: the answers of the module are not looked at. *)
Lemma GetKeyPadNumber_dial_missing_answers
    (fuel : nat) (number : list ascii) (m : Machine) (ps : list bool) :
  findTrack_loop (Z.to_nat (totalFiles m)) 0 (audioFiles m)
    (convertFilenameToInt (Some (string_of_list_ascii number))) = None ->
  same_run_but_answers (GetKeyPadNumber_dial fuel number m)
    (GetKeyPadNumber_dial fuel number (with_play ps m)).
Proof.
  intros Hmiss.
  set (id := convertFilenameToInt (Some (string_of_list_ascii number))) in *.
  set (m1 := set_inputs (set_clock (clock (inputs m) + sfxDelay) (inputs m)) m).
  set (m2 := set_currentState STATE_RESET
               (set_inputs (set_clock (clock (inputs m1) + messageWait) (inputs m1)) m1)).
  assert (Hrun : forall qs,
    GetKeyPadNumber_dial fuel number (with_play qs m)
    = (let r :=
         (sfx_stop;;
          index ← findTrackNumberByFilename callFinished;
          triggerSoundUART index;;
          delay sfxDelay;;
          StillLCD_P invalidNumber replaceHandset;;
          GetKeyPadNumber_invalid_wait fuel;;
          modify (set_currentState STATE_RESET);;
          ret 255) (with_play qs m2) in
       (result r, final r, EvDelay sfxDelay :: notFound_log id ++ events r))).
  { intros qs. unfold GetKeyPadNumber_dial. cbv zeta. fold id.
    step by delay_run.
    unfold bind at 1.
    rewrite (findTrackNumberByFilename_missing id) by exact Hmiss.
    cbv beta iota. change (to_uint8 255 =? 255) with true. cbv iota.
    match goal with
    | |- context [bind sfx_stop ?k ?x] => change x with (with_play qs m2)
    end.
    destruct (bind sfx_stop _ (with_play qs m2)) as [[r m'] l]. reflexivity. }
  assert (Hsame : with_play (playIn (inputs m)) m = m)
    by (destruct m as [? ? ? ? ? ? ? ? ? ? ? ? ? []]; reflexivity).
  pose proof (Hrun (playIn (inputs m))) as Hrun0. rewrite Hsame in Hrun0.
  rewrite Hrun0, (Hrun ps). cbv zeta.
  change (with_play ps m2) with (with_play ps (with_play (playIn (inputs m)) m2)).
  destruct (answers_GetKeyPadNumber_invalid fuel (with_play (playIn (inputs m)) m2) ps)
    as (Hr & Hf & He).
  split; [exact Hr|]. split; [exact Hf|].
  cbn [events snd]. cbn [map]. rewrite !map_app, He. reflexivity.
Qed.

(** C7 (amended): only the play command that [GetKeyPadNumber] itself
    sends for the dialled recording is checked: when the number has an
    entry and the module refuses that command, [GetKeyPadNumber] sets the
    phase to [STATE_RESET] and returns 255, the value it returns for a
    missing recording.  Every other play command goes through
    [triggerSoundUART], which drops the answer: the caller gets the same
    result and the same machine whatever the module answered.  So the
    dial-tone state always goes on to keypad entry, and the dial-tone
    round, the entry loop of [GetKeyPadNumber] (key click), its
    invalid-number path (call-finished), [dialingPhone] (ringback,
    recording, call-finished) and [processIncomingCall] (ring tone,
    recording, call-finished) run the same whatever the module answers to
    their play commands: the same result, the same final machine and the
    same commands. *)
Theorem play_failure_only_checked_for_dialled_recording
    (fuel : nat) (m : Machine) (number : list ascii) (t : Z) (ps : list bool) :
  findTrack_loop (Z.to_nat (totalFiles m)) 0 (audioFiles m)
    (convertFilenameToInt (Some (string_of_list_ascii number))) = Some t ->
  to_uint8 t <> 255 ->
  playIn (inputs m) = false :: ps ->
  let r := GetKeyPadNumber_dial fuel number m in
  (result r = Some 255
   /\ currentState (final r) = STATE_RESET
   /\ events r = [EvDelay sfxDelay; EvDelay sfxDelay; EvPlay (to_uint8 t) false])
  /\ (forall (n : Z) (m' : Machine),
        result (triggerSoundUART n m') = Some tt
        /\ final (triggerSoundUART n m')
           = set_inputs (set_playIn (tail (playIn (inputs m'))) (inputs m')) m'
        /\ events (triggerSoundUART n m')
           = [EvPlay (to_uint8 n) (hd true (playIn (inputs m')))])
  /\ (forall (m' : Machine),
        currentState m' = STATE_DIAL_TONE ->
        result (loop_switch fuel m') = Some tt
        /\ currentState (final (loop_switch fuel m')) = STATE_KEYPAD_ENTRY)
  /\ (answers_ignored loop_STATE_DIAL_TONE
      /\ (forall f tempIndex e, answers_ignored (GetKeyPadNumber_entry f tempIndex e))
      /\ (forall f tempNum, answers_ignored (dialingPhone f tempNum))
      /\ (forall f trackNum, answers_ignored (processIncomingCall f trackNum))
      /\ (forall f number' m' ps',
            findTrack_loop (Z.to_nat (totalFiles m')) 0 (audioFiles m')
              (convertFilenameToInt (Some (string_of_list_ascii number'))) = None ->
            same_run_but_answers (GetKeyPadNumber_dial f number' m')
              (GetKeyPadNumber_dial f number' (with_play ps' m')))).
Proof.
  intros Hfound Ht Hplay r. split; [|split; [|split]].
  - assert (Hrun : exists m',
              r = (Some 255, m',
                   [EvDelay sfxDelay; EvDelay sfxDelay; EvPlay (to_uint8 t) false])
              /\ currentState m' = STATE_RESET).
    { subst r. eexists. unfold GetKeyPadNumber_dial. cbv zeta.
      step by delay_run.
      set (m1 := set_inputs _ m).
      step by (findTrackNumberByFilename_found _ t m1 Hfound).
      assert (Hne : (to_uint8 t =? 255) = false) by (apply Z.eqb_neq; exact Ht).
      rewrite Hne.
      step by delay_run.
      run_prims. cbn [inputs set_inputs set_clock playIn m1]. rewrite Hplay.
      split; reflexivity. }
    destruct Hrun as (m' & -> & Hstate). repeat split; [exact Hstate].
  - intros n m'. rewrite triggerSoundUART_run. repeat split; reflexivity.
  - intros m' Hstate. rewrite loop_switch_run, Hstate.
    unfold loop_STATE_DIAL_TONE, bind.
    destruct (findTrack_loop (Z.to_nat (totalFiles m')) 0 (audioFiles m') dialTone)
      as [n|] eqn:Hl.
    + rewrite (findTrackNumberByFilename_found _ n m' Hl).
      rewrite triggerSoundUART_run. split; reflexivity.
    + rewrite (findTrackNumberByFilename_missing _ m' Hl).
      rewrite triggerSoundUART_run. split; reflexivity.
  - split; [exact answers_loop_STATE_DIAL_TONE|].
    split; [intros f tempIndex e; apply answers_GetKeyPadNumber_entry|].
    split; [intros f tempNum; apply answers_dialingPhone|].
    split; [intros f trackNum; apply answers_processIncomingCall|].
    intros f number' m' ps' Hmiss.
    apply GetKeyPadNumber_dial_missing_answers. exact Hmiss.
Qed.

(** On [refusing_machine] the recording of 12345 (slot 5) is refused. *)
Lemma play_failure_only_checked_for_dialled_recording_witness :
  let r := GetKeyPadNumber_dial 10 (list_ascii_of_string "12345") refusing_machine in
  playIn (inputs refusing_machine) = [false]
  /\ result r = Some 255
  /\ currentState (final r) = STATE_RESET
  /\ events r = [EvDelay sfxDelay; EvDelay sfxDelay; EvPlay 5 false].
Proof.
  cbv zeta. split; [reflexivity|].
  apply (play_failure_only_checked_for_dialled_recording
           10 refusing_machine (list_ascii_of_string "12345") 5 []).
  - vm_compute. reflexivity.
  - vm_compute. discriminate.
  - reflexivity.
Defined.

(** * The settle interval after a stop *)

(** C4, as stated, fails.  Dialling 12345 with [dial_inputs]: at the first
    key [GetKeyPadNumber] stops the dial tone and plays the key click at
    once, with no delay between the two commands. *)
Lemma keypad_click_follows_stop_without_delay :
  firstn 7 (sounds (events (sketch 100 3 dial_inputs)))
  = [EvDelay 1000; EvModuleReset true; EvDelay 1000;
     EvPlay 0 true; EvDelay 400; EvStop; EvPlay 1 true]
  /\ settle_run None (events (sketch 100 3 dial_inputs)) = false
  /\ ~ settled None (events (sketch 100 3 dial_inputs)).
Proof.
  split; [vm_compute; reflexivity|].
  split; [vm_compute; reflexivity|].
  unfold settled. vm_compute. discriminate.
Qed.

(** C4 (amended): in the outbound call sequence of [dialingPhone] (the
    ringback burst and the start of the recording) every stop is followed
    by a delay of [sfxDelay] before the next play, whatever was sent before
    the sequence and whether or not the ring tone is found.  In
    [GetKeyPadNumber] the stop sent at the first key press is followed by
    the play of the key click with no delay. *)
Theorem outbound_sequence_settles_after_stop
    (tempNum : Z) (m : Machine) (pending : option Z) (fuel : nat) (tempIndex : Z) :
  result (dialingPhone_connect tempNum m) = Some tt
  /\ settled pending (events (dialingPhone_connect tempNum m))
  /\ (hd HIGH (hookIn (inputs m)) = LOW ->
      isdigit (hd NO_KEY (keyIn (inputs m))) = true ->
      exists rest,
        events (GetKeyPadNumber_entry (S fuel) tempIndex KeypadEntry_init m)
        = EvStop :: EvPlay (to_uint8 tempIndex) (hd true (playIn (inputs m))) :: rest).
Proof.
  assert (Hconn : exists m' log,
            dialingPhone_connect tempNum m = (Some tt, m', log)
            /\ settle_run pending log = true).
  { unfold dialingPhone_connect.
    step by displayLCDTopMessage_P_run.
    destruct (findTrack_loop (Z.to_nat (totalFiles m)) 0 (audioFiles m) ringingTone)
      as [n|] eqn:Hring.
    - step by (findTrackNumberByFilename_found _ n m Hring).
      step by sfx_stop_run. step by delay_run. step by triggerSoundUART_run.
      step by delay_run. step by sfx_stop_run. step by delay_run.
      step by displayLCDTopMessage_P_run. step by triggerSoundUART_run.
      rewrite delay_run. do 2 eexists. split; reflexivity.
    - step by (findTrackNumberByFilename_missing _ m Hring).
      step by sfx_stop_run. step by delay_run. step by triggerSoundUART_run.
      step by delay_run. step by sfx_stop_run. step by delay_run.
      step by displayLCDTopMessage_P_run. step by triggerSoundUART_run.
      rewrite delay_run. do 2 eexists. split; reflexivity. }
  destruct Hconn as (m' & log & Hrun & Hsettled).
  assert (H1 : result (dialingPhone_connect tempNum m) = Some tt)
    by (rewrite Hrun; reflexivity).
  assert (H2 : settled pending (events (dialingPhone_connect tempNum m)))
    by (rewrite Hrun; exact Hsettled).
  clear Hrun Hsettled m' log.
  split; [exact H1|]. split; [exact H2|].
  intros Hhook Hkey.
  assert (Hnokey : negb (Ascii.eqb (hd NO_KEY (keyIn (inputs m))) NO_KEY) = true).
  { destruct (hd NO_KEY (keyIn (inputs m))) as [[] [] [] [] [] [] [] []];
      try discriminate Hkey; reflexivity. }
  cbn [GetKeyPadNumber_entry KeypadEntry_init KeyPadCount firstKeyPressed].
  change (0 <? 5) with true. cbv iota.
  step by isReceiverHookOff_run. rewrite Hhook. cbn [is_low negb].
  step by keypad_getKey_run.
  cbn [inputs set_inputs set_hookIn keyIn].
  rewrite Hnokey, Hkey. cbn [negb when].
  step by sfx_stop_run. step by triggerSoundUART_run.
  cbn [inputs set_inputs set_hookIn set_keyIn playIn app].
  unfold lcd_setCursor, lcd_print, lcd_display, emit.
  do 3 (unfold bind at 1; cbv beta iota).
  match goal with
  | |- context [GetKeyPadNumber_entry ?f ?t ?e ?mm] =>
      destruct (GetKeyPadNumber_entry f t e mm) as [[r1 m1] l1]
  end.
  eexists. reflexivity.
Qed.

(** * The [*] shortcut *)

Section Shortcut.

(** One round of the entry loop when the handset is up and [*] is read:
    the buffer becomes 11111 and the loop ends at its next test. *)
Lemma GetKeyPadNumber_entry_star (fuel : nat) (tempIndex : Z) (e : KeypadEntry)
    (hs : list Level) (ks : list ascii) (ps : list bool) (m : Machine) :
  KeyPadCount e < 5 ->
  GetKeyPadNumber_entry (S (S fuel)) tempIndex e
    (with_scripts (LOW :: hs) ("*"%char :: ks) ps m)
  = (Some (Some (list_ascii_of_string "11111")), with_scripts hs ks ps m,
     (if firstKeyPressed e then [] else [EvStop])
     ++ [EvLcdSetCursor 5 1; EvLcdPrint "11-111"; EvLcdDisplay]).
Proof.
  intros Hcount.
  cbn [GetKeyPadNumber_entry].
  assert (Hlt : (KeyPadCount e <? 5) = true) by (apply Z.ltb_lt; exact Hcount).
  rewrite Hlt.
  step by isReceiverHookOff_run. cbn [with_scripts inputs set_inputs hookIn set_hookIn hd is_low negb].
  step by keypad_getKey_run. cbn [inputs set_inputs keyIn set_keyIn set_hookIn hd].
  change (negb (Ascii.eqb "*" NO_KEY)) with true.
  change (isdigit "*") with false.
  change (Ascii.eqb "*" "#") with false.
  change (Ascii.eqb "*" "*") with true.
  cbv iota.
  destruct (firstKeyPressed e); cbn [negb when];
    run_prims; cbn [KeyPadCount]; change (5 <? 5) with false; cbv iota; reflexivity.
Qed.

(** One round of the entry loop when the handset is up and a digit is
    read. *)
Lemma GetKeyPadNumber_entry_digit (fuel : nat) (tempIndex : Z) (e : KeypadEntry)
    (c : ascii) (hs : list Level) (ks : list ascii) (p : bool) (ps : list bool)
    (m : Machine) :
  KeyPadCount e < 5 ->
  isdigit c = true ->
  let n := KeyPadCount e in
  let display' :=
    <[Z.to_nat (n + (if 1 <? n then 1 else 0)) := c]> (displayBuffer e) in
  let e' :=
    mkKeypadEntry (<[Z.to_nat n := c]> (phoneNumber e)) display' true (to_uint8 (n + 1)) in
  let next := GetKeyPadNumber_entry fuel tempIndex e' (with_scripts hs ks ps m) in
  GetKeyPadNumber_entry (S fuel) tempIndex e
    (with_scripts (LOW :: hs) (c :: ks) (p :: ps) m)
  = (result next, final next,
     (if firstKeyPressed e then [] else [EvStop])
     ++ typed_log (EvPlay (to_uint8 tempIndex) p) (string_of_list_ascii display')
     ++ events next).
Proof.
  intros Hcount Hdigit n display' e' next.
  cbn [GetKeyPadNumber_entry].
  assert (Hlt : (KeyPadCount e <? 5) = true) by (apply Z.ltb_lt; exact Hcount).
  rewrite Hlt.
  step by isReceiverHookOff_run.
  cbn [with_scripts inputs set_inputs hookIn set_hookIn hd is_low negb].
  step by keypad_getKey_run. cbn [inputs set_inputs keyIn set_keyIn set_hookIn hd].
  assert (Hnokey : negb (Ascii.eqb c NO_KEY) = true).
  { destruct c as [[] [] [] [] [] [] [] []]; try discriminate Hdigit; reflexivity. }
  rewrite Hnokey, Hdigit. cbv zeta.
  fold n. fold display'. fold e'.
  assert (Hrest :
    forall m0 pre,
      playIn (inputs m0) = p :: ps ->
      set_inputs (set_playIn ps (inputs m0)) m0 = with_scripts hs ks ps m ->
      (let (p0, l2) :=
         bind (triggerSoundUART tempIndex)
           (fun _ => bind (lcd_setCursor 5 1)
              (fun _ => bind (lcd_print (string_of_list_ascii display'))
                 (fun _ => bind lcd_display
                    (fun _ => GetKeyPadNumber_entry fuel tempIndex e')))) m0 in
       let (r, m2) := p0 in (r, m2, pre ++ l2))
      = (result next, final next,
         pre ++ typed_log (EvPlay (to_uint8 tempIndex) p) (string_of_list_ascii display')
         ++ events next)).
  { intros m0 pre Hp Hm0.
    step by triggerSoundUART_run. rewrite Hp. cbn [tail hd]. rewrite Hm0.
    unfold lcd_setCursor, lcd_print, lcd_display, emit.
    do 3 (unfold bind at 1; cbv beta iota).
    fold next. rewrite (run_eta next) at 1. reflexivity. }
  destruct (firstKeyPressed e); cbn [negb when].
  - unfold bind at 1. cbn [ret]. cbv beta iota.
    rewrite (Hrest _ []); reflexivity.
  - step by sfx_stop_run.
    rewrite (Hrest _ [EvStop]); reflexivity.
Qed.

(** Typing 1 five times from the start of entry. *)
Lemma GetKeyPadNumber_entry_typed (fuel : nat) (tempIndex : Z)
    (hs : list Level) (ks : list ascii) (p1 p2 p3 p4 p5 : bool) (ps : list bool)
    (m : Machine) :
  exists log,
    GetKeyPadNumber_entry (6 + fuel) tempIndex KeypadEntry_init
      (with_scripts (replicate 5 LOW ++ hs) (list_ascii_of_string "11111" ++ ks)
         ([p1; p2; p3; p4; p5] ++ ps) m)
    = (Some (Some (list_ascii_of_string "11111")), with_scripts hs ks ps m, log).
Proof.
  cbn [replicate app list_ascii_of_string Nat.add].
  rewrite GetKeyPadNumber_entry_digit by (cbn; (lia || reflexivity)).
  cbn [KeypadEntry_init KeyPadCount phoneNumber displayBuffer firstKeyPressed].
  change (to_uint8 (0 + 1)) with 1.
  rewrite GetKeyPadNumber_entry_digit by (cbn; (lia || reflexivity)).
  cbn [KeyPadCount phoneNumber displayBuffer firstKeyPressed].
  change (to_uint8 (1 + 1)) with 2.
  rewrite GetKeyPadNumber_entry_digit by (cbn; (lia || reflexivity)).
  cbn [KeyPadCount phoneNumber displayBuffer firstKeyPressed].
  change (to_uint8 (2 + 1)) with 3.
  rewrite GetKeyPadNumber_entry_digit by (cbn; (lia || reflexivity)).
  cbn [KeyPadCount phoneNumber displayBuffer firstKeyPressed].
  change (to_uint8 (3 + 1)) with 4.
  rewrite GetKeyPadNumber_entry_digit by (cbn; (lia || reflexivity)).
  cbn [KeyPadCount phoneNumber displayBuffer firstKeyPressed].
  change (to_uint8 (4 + 1)) with 5.
  cbn [GetKeyPadNumber_entry KeyPadCount]. change (5 <? 5) with false. cbv iota.
  eexists. reflexivity.
Qed.

(** [GetKeyPadNumber] up to the entry loop does not look at the hook, the
    keypad or the play answers: what it passes to the loop is the same
    whatever these scripts hold. *)
Lemma GetKeyPadNumber_after_entry (fuel : nat) (m : Machine) :
  exists (t : Z) (m0 : Machine) (pre : list Event),
    forall (h : list Level) (k : list ascii) (p : list bool)
           (num : list ascii) (m' : Machine) (log : list Event),
      GetKeyPadNumber_entry fuel t KeypadEntry_init (with_scripts h k p m0)
      = (Some (Some num), m', log) ->
      GetKeyPadNumber fuel (with_scripts h k p m)
      = (result (GetKeyPadNumber_dial fuel num m'),
         final (GetKeyPadNumber_dial fuel num m'),
         pre ++ log ++ events (GetKeyPadNumber_dial fuel num m')).
Proof.
  destruct (findTrack_loop (Z.to_nat (totalFiles m)) 0 (audioFiles m) buttonPress)
    as [n|] eqn:Hclick.
  - exists (to_uint8 n), m.
    exists ([EvLcdSetCursor 0 0; EvLcdPrint "                "; EvLcdSetCursor 0 0;
             EvLcdPrint (strlcpy 16 entryMessage1)]
            ++ [EvLcdSetCursor 0 1; EvLcdPrint "                "; EvLcdSetCursor 5 1;
             EvLcdPrint (string_of_list_ascii (displayBuffer KeypadEntry_init))]).
    intros h k p num m' log Hentry.
    unfold GetKeyPadNumber.
    step by displayLCDTopMessage_P_run.
    step by (findTrackNumberByFilename_found _ n (with_scripts h k p m) Hclick).
    unfold lcdClearLine, lcd_setCursor, lcd_print, emit.
    do 4 (unfold bind at 1; cbv beta iota).
    step by Hentry.
    rewrite (run_eta (GetKeyPadNumber_dial fuel num m')) at 1.
    reflexivity.
  - exists 255.
    exists (set_currentState STATE_RESET
              (set_inputs (set_clock (clock (inputs m) + messageWait) (inputs m)) m)).
    exists ([EvLcdSetCursor 0 0; EvLcdPrint "                "; EvLcdSetCursor 0 0;
             EvLcdPrint (strlcpy 16 entryMessage1)]
            ++ notFound_log buttonPress
            ++ [EvLcdSetCursor 0 1; EvLcdPrint "                "; EvLcdSetCursor 5 1;
             EvLcdPrint (string_of_list_ascii (displayBuffer KeypadEntry_init))]).
    intros h k p num m' log Hentry.
    unfold GetKeyPadNumber.
    step by displayLCDTopMessage_P_run.
    step by (findTrackNumberByFilename_missing _ (with_scripts h k p m) Hclick).
    unfold lcdClearLine, lcd_setCursor, lcd_print, emit.
    do 4 (unfold bind at 1; cbv beta iota).
    change (to_uint8 255) with 255.
    unfold bind at 1.
    match goal with
    | |- context [GetKeyPadNumber_entry fuel 255 KeypadEntry_init ?x] =>
        change x with
          (with_scripts h k p
             (set_currentState STATE_RESET
                (set_inputs (set_clock (clock (inputs m) + messageWait) (inputs m)) m)))
    end.
    rewrite Hentry. cbv beta iota.
    rewrite (run_eta (GetKeyPadNumber_dial fuel num m')) at 1.
    reflexivity.
Qed.

End Shortcut.

(** C6: during digit entry, reading [*] with the handset up fills the
    buffer with 11111 and ends the entry loop, whatever had been typed
    before.  From the end of the loop on, [GetKeyPadNumber] started with
    [*] and [GetKeyPadNumber] started with 1 typed five times run the same
    code on the same machine: the same lookup of 11111, the same events
    after the entry loop, the same result and the same final machine. *)
Theorem star_shortcut_same_as_typed
    (fuel : nat) (m : Machine) (hs : list Level) (ks : list ascii)
    (p1 p2 p3 p4 p5 : bool) (ps : list bool) :
  (6 <= fuel)%nat ->
  let star := GetKeyPadNumber fuel (with_scripts (LOW :: hs) ("*"%char :: ks) ps m) in
  let typed :=
    GetKeyPadNumber fuel
      (with_scripts (replicate 5 LOW ++ hs) (list_ascii_of_string "11111" ++ ks)
         ([p1; p2; p3; p4; p5] ++ ps) m) in
  (forall (t : Z) (e : KeypadEntry) (m0 : Machine),
      KeyPadCount e < 5 ->
      result (GetKeyPadNumber_entry fuel t e
                (with_scripts (LOW :: hs) ("*"%char :: ks) ps m0))
      = Some (Some (list_ascii_of_string "11111")))
  /\ exists (m' : Machine) (pre_star pre_typed : list Event),
       let dial := GetKeyPadNumber_dial fuel (list_ascii_of_string "11111") m' in
       hookIn (inputs m') = hs /\ keyIn (inputs m') = ks /\ playIn (inputs m') = ps
       /\ star = (result dial, final dial, pre_star ++ events dial)
       /\ typed = (result dial, final dial, pre_typed ++ events dial).
Proof.
  intros Hfuel star typed.
  assert (Hsplit : exists f, fuel = (6 + f)%nat) by (exists (fuel - 6)%nat; lia).
  destruct Hsplit as (f & ->). clear Hfuel.
  assert (Hstar : forall (t : Z) (e : KeypadEntry) (m0 : Machine),
             KeyPadCount e < 5 ->
             GetKeyPadNumber_entry (6 + f) t e
               (with_scripts (LOW :: hs) ("*"%char :: ks) ps m0)
             = (Some (Some (list_ascii_of_string "11111")), with_scripts hs ks ps m0,
                (if firstKeyPressed e then [] else [EvStop])
                ++ [EvLcdSetCursor 5 1; EvLcdPrint "11-111"; EvLcdDisplay])).
  { intros t e m0 Hcount.
    exact (GetKeyPadNumber_entry_star (4 + f) t e hs ks ps m0 Hcount). }
  split.
  - intros t e m0 Hcount. rewrite (Hstar t e m0 Hcount). reflexivity.
  - destruct (GetKeyPadNumber_after_entry (6 + f) m) as (t & m0 & pre & Hafter).
    destruct (GetKeyPadNumber_entry_typed f t hs ks p1 p2 p3 p4 p5 ps m0)
      as (log_typed & Htyped).
    specialize (Hstar t KeypadEntry_init m0 ltac:(cbn; lia)).
    exists (with_scripts hs ks ps m0). do 2 eexists. cbv zeta.
    split; [reflexivity|]. split; [reflexivity|]. split; [reflexivity|].
    split.
    + subst star. rewrite (Hafter _ _ _ _ _ _ Hstar). rewrite app_assoc. reflexivity.
    + subst typed. rewrite (Hafter _ _ _ _ _ _ Htyped). rewrite app_assoc. reflexivity.
Qed.

(** On a machine booted from [demo_inputs], [*] and 11111 typed by hand
    return the same slot and leave the same machine. *)
Lemma star_shortcut_same_as_typed_witness :
  let m := final (setup (boot demo_inputs)) in
  let star := GetKeyPadNumber 6 (with_scripts [LOW] ["*"%char] [] m) in
  let typed :=
    GetKeyPadNumber 6
      (with_scripts (replicate 5 LOW) (list_ascii_of_string "11111")
         [true; true; true; true; true] m) in
  result star = result typed /\ final star = final typed.
Proof.
  cbv zeta.
  pose proof (star_shortcut_same_as_typed 6 (final (setup (boot demo_inputs)))
                [] [] true true true true true [] (le_n 6)) as H.
  cbv zeta in H. destruct H as (_ & m' & pre_star & pre_typed & _ & _ & _ & Hs & Ht).
  rewrite !app_nil_r in Ht. rewrite Hs, Ht. split; reflexivity.
Defined.

(** * A module without files *)

Section EmptyDirectory.

Lemma silent_weaken {A} (c : M A) (R R' : option A -> Prop) :
  silent c R -> (forall r, R r -> R' r) -> silent c R'.
Proof.
  intros Hc HR m Hm. destruct (Hc m Hm) as (H1 & H2 & H3 & H4 & H5). auto 10.
Qed.

Lemma silent_ret {A} (a : A) (R : option A -> Prop) : R (Some a) -> silent (ret a) R.
Proof. intros HR m Hm. cbn. auto 10. Qed.

Lemma silent_stuck {A} (R : option A -> Prop) : R None -> silent (@stuck A) R.
Proof. intros HR m Hm. cbn. auto 10. Qed.

Lemma silent_bind {A B} (c : M A) (k : A -> M B)
    (R1 : option A -> Prop) (R : option B -> Prop) :
  silent c R1 ->
  (forall a, R1 (Some a) -> silent (k a) R) ->
  (R1 None -> R None) ->
  silent (bind c k) R.
Proof.
  intros Hc Hk Hnone m Hm. rewrite bind_run.
  destruct (Hc m Hm) as (H1 & H2 & H3 & H4 & H5).
  destruct (result (c m)) as [a|]; cbn [result final events fst snd].
  - destruct (Hk a H5 (final (c m)) H1) as (K1 & K2 & K3 & K4 & K5).
    split; [exact K1|]. split; [congruence|].
    split; [destruct K3 as [K3|K3]; [rewrite K3; exact H3|right; exact K3]|].
    split; [apply Forall_app; split; assumption|exact K5].
  - auto 10.
Qed.

(** The common case: nothing is needed of the first result. *)
Lemma silent_seq {A B} (c : M A) (k : A -> M B) (R : option B -> Prop) :
  silent c anything -> (forall a, silent (k a) R) -> R None -> silent (bind c k) R.
Proof. intros Hc Hk Hn. apply (silent_bind c k anything R); auto. Qed.

Lemma silent_when (b : bool) (c : M unit) :
  silent c anything -> silent (when b c) anything.
Proof. destruct b; [auto|intros _; apply silent_ret; exact I]. Qed.

Lemma silent_emit (e : Event) : unproductive e -> silent (emit e) anything.
Proof.
  intros He m Hm. cbn. repeat split; auto.
Qed.

Lemma silent_get : silent get anything.
Proof. intros m Hm. cbn. repeat split; auto. Qed.

Lemma silent_modify_inputs (f : Inputs -> Inputs) : silent (modify_inputs f) anything.
Proof. intros m Hm. cbn. repeat split; auto. Qed.

Lemma silent_modify (f : Machine -> Machine) :
  (forall m, totalFiles (f m) = totalFiles m
             /\ loop_trackNum (f m) = loop_trackNum m
             /\ (currentState (f m) = currentState m \/ currentState (f m) = STATE_RESET)) ->
  silent (modify f) anything.
Proof.
  intros Hf m Hm. destruct (Hf m) as (H1 & H2 & H3). cbn.
  repeat split; auto. congruence.
Qed.

End EmptyDirectory.

Create HintDb silent discriminated.

#[export] Hint Resolve silent_get silent_modify_inputs silent_when : silent.
#[export] Hint Extern 1 (silent (ret _) anything) => apply silent_ret; exact I : silent.
#[export] Hint Extern 1 (silent stuck anything) => apply silent_stuck; exact I : silent.
#[export] Hint Extern 1 (silent (emit _) anything) => apply silent_emit; exact I : silent.
#[export] Hint Extern 1 (anything _) => exact I : silent.

(** Replaced below, once lookups are known to fail on an empty directory. *)
Ltac silent_lookup := fail.

(** Works through a computation whose pieces are silent. *)
Ltac silent_tac :=
  repeat first
    [ solve [auto with silent]
    | silent_lookup
    | apply silent_seq; [|intros ?|first [exact I|left; reflexivity]]
    | apply silent_when
    | apply silent_modify; intros ?; cbn; solve [auto]
    | match goal with
      | |- silent (if ?b then _ else _) _ => destruct b
      | |- silent (match ?x with _ => _ end) _ => destruct x
      end ].

Section EmptyDirectoryRuns.

Lemma silent_isReceiverHookOff : silent isReceiverHookOff anything.
Proof. unfold isReceiverHookOff, digitalRead_ReceiverHook. silent_tac. Qed.

Lemma silent_stillPlaying : silent stillPlaying anything.
Proof. unfold stillPlaying, digitalRead_SFX_ACT. silent_tac. Qed.

Lemma silent_digitalRead_keyfob (i : Z) : silent (digitalRead_keyfob i) anything.
Proof. unfold digitalRead_keyfob. silent_tac. Qed.

Lemma silent_keypad_getKey : silent keypad_getKey anything.
Proof. unfold keypad_getKey. silent_tac. Qed.

Lemma silent_millis : silent millis anything.
Proof. unfold millis. silent_tac. Qed.

Lemma silent_delay (ms : Z) : silent (delay ms) anything.
Proof. unfold delay. silent_tac. Qed.

Lemma silent_sfx_stop : silent sfx_stop anything.
Proof. unfold sfx_stop. silent_tac. Qed.

Lemma silent_sfx_reset : silent sfx_reset anything.
Proof. unfold sfx_reset. silent_tac. Qed.

Lemma silent_lcd_setCursor (c r : Z) : silent (lcd_setCursor c r) anything.
Proof. unfold lcd_setCursor. silent_tac. Qed.

Lemma silent_lcd_print (s : string) : silent (lcd_print s) anything.
Proof. unfold lcd_print. silent_tac. Qed.

Lemma silent_lcd_clear : silent lcd_clear anything.
Proof. unfold lcd_clear. silent_tac. Qed.

Lemma silent_lcd_display : silent lcd_display anything.
Proof. unfold lcd_display. silent_tac. Qed.

Lemma silent_lcd_setBacklight (v : Z) : silent (lcd_setBacklight v) anything.
Proof. unfold lcd_setBacklight. silent_tac. Qed.

End EmptyDirectoryRuns.

#[export] Hint Resolve silent_isReceiverHookOff silent_stillPlaying
  silent_digitalRead_keyfob silent_keypad_getKey silent_millis silent_delay
  silent_sfx_stop silent_sfx_reset silent_lcd_setCursor silent_lcd_print
  silent_lcd_clear silent_lcd_display silent_lcd_setBacklight : silent.

Section EmptyDirectoryCalls.

Lemma silent_lcdClearLine : silent lcdClearLine anything.
Proof. unfold lcdClearLine. silent_tac. Qed.

Lemma silent_StillLCD (a b : string) : silent (StillLCD a b) anything.
Proof. unfold StillLCD. silent_tac. Qed.

Lemma silent_StillLCD_P (a b : string) : silent (StillLCD_P a b) anything.
Proof. apply silent_StillLCD. Qed.

Lemma silent_displayLCDTopMessage_P (a : string) :
  silent (displayLCDTopMessage_P a) anything.
Proof. unfold displayLCDTopMessage_P, lcdClearLine. silent_tac. Qed.

Lemma silent_triggerSoundUART (n : Z) :
  to_uint8 n = 255 -> silent (triggerSoundUART n) anything.
Proof.
  intros Hn m Hm. rewrite triggerSoundUART_run, Hn. cbn.
  repeat split; auto. constructor; [reflexivity|constructor].
Qed.

(** On an empty directory every lookup fails. *)
Lemma silent_findTrackNumberByFilename (id : Z) :
  silent (findTrackNumberByFilename id) (fun r => r = Some 255).
Proof.
  intros m Hm.
  assert (Hnone : findTrack_loop (Z.to_nat (totalFiles m)) 0 (audioFiles m) id = None)
    by (rewrite Hm; reflexivity).
  rewrite (findTrackNumberByFilename_missing id m Hnone).
  cbn [result final events fst snd]. cbn.
  repeat split; auto. repeat constructor.
Qed.

Lemma silent_lookup_then {B} (id : Z) (k : Z -> M B) (R : option B -> Prop) :
  silent (k 255) R -> silent (bind (findTrackNumberByFilename id) k) R.
Proof.
  intros Hk.
  apply (silent_bind _ _ (fun r => r = Some 255));
    [apply silent_findTrackNumberByFilename| |discriminate].
  intros a Ha. injection Ha as ->. exact Hk.
Qed.

End EmptyDirectoryCalls.

#[export] Hint Resolve silent_lcdClearLine silent_StillLCD silent_StillLCD_P
  silent_displayLCDTopMessage_P : silent.

Ltac silent_lookup ::=
  apply silent_lookup_then; cbv beta; change (to_uint8 255) with 255.
#[export] Hint Extern 1 (silent (triggerSoundUART _) anything) =>
  apply silent_triggerSoundUART; reflexivity : silent.

Section EmptyDirectoryLoops.

Lemma silent_checkForHangupOrEnd (fuel : nat) :
  silent (checkForHangupOrEnd fuel) anything.
Proof. induction fuel as [|fuel IH]; cbn [checkForHangupOrEnd]; silent_tac. Qed.

Lemma silent_GetKeyPadNumber_entry (fuel : nat) (e : KeypadEntry) :
  silent (GetKeyPadNumber_entry fuel 255 e) anything.
Proof.
  revert e. induction fuel as [|fuel IH]; intros e; cbn [GetKeyPadNumber_entry];
    silent_tac.
Qed.

Lemma silent_GetKeyPadNumber_invalid_wait (fuel : nat) :
  silent (GetKeyPadNumber_invalid_wait fuel) anything.
Proof.
  induction fuel as [|fuel IH]; cbn [GetKeyPadNumber_invalid_wait]; silent_tac.
Qed.

Lemma silent_GetKeyPadNumber_dial (fuel : nat) (number : list ascii) :
  silent (GetKeyPadNumber_dial fuel number) not_found_or_stuck.
Proof.
  pose proof (silent_GetKeyPadNumber_invalid_wait fuel) as Hwait.
  unfold GetKeyPadNumber_dial. cbv zeta.
  apply silent_seq; [silent_tac| |left; reflexivity]. intros _.
  apply silent_lookup_then. change (to_uint8 255 =? 255) with true. cbv iota.
  apply silent_seq; [silent_tac| |left; reflexivity]. intros _.
  apply silent_lookup_then.
  apply silent_seq; [silent_tac| |left; reflexivity]. intros _.
  apply silent_seq; [silent_tac| |left; reflexivity]. intros _.
  apply silent_seq; [silent_tac| |left; reflexivity]. intros _.
  apply silent_seq; [exact Hwait| |left; reflexivity]. intros _.
  apply silent_seq; [silent_tac| |left; reflexivity]. intros _.
  apply silent_ret. right. reflexivity.
Qed.

Lemma silent_GetKeyPadNumber (fuel : nat) :
  silent (GetKeyPadNumber fuel) not_found_or_stuck.
Proof.
  pose proof (silent_GetKeyPadNumber_entry fuel KeypadEntry_init) as Hentry.
  unfold GetKeyPadNumber.
  apply silent_seq; [silent_tac| |left; reflexivity]. intros _.
  apply silent_lookup_then. change (to_uint8 255) with 255.
  apply silent_seq; [silent_tac| |left; reflexivity]. intros _.
  apply silent_seq; [silent_tac| |left; reflexivity]. intros _.
  apply silent_seq; [silent_tac| |left; reflexivity]. intros _.
  apply silent_seq; [silent_tac| |left; reflexivity]. intros _.
  apply silent_seq; [exact Hentry| |left; reflexivity]. intros [number|].
  - apply silent_GetKeyPadNumber_dial.
  - apply silent_ret. right. reflexivity.
Qed.

Lemma silent_CheckForIncomingCall_loop (todo : nat) (i : Z) :
  silent (CheckForIncomingCall_loop todo i) anything.
Proof.
  revert i. induction todo as [|todo IH]; intros i; cbn [CheckForIncomingCall_loop];
    silent_tac.
Qed.

Lemma silent_ProcessIncomingKeyFob_release (fuel : nat) (i : Z) :
  silent (ProcessIncomingKeyFob_release fuel i) anything.
Proof.
  induction fuel as [|fuel IH]; cbn [ProcessIncomingKeyFob_release]; silent_tac.
Qed.

Lemma silent_ProcessIncomingKeyFob_scan (todo : nat) (i ld lb : Z) :
  silent (ProcessIncomingKeyFob_scan todo i ld lb) anything.
Proof.
  revert i ld lb. induction todo as [|todo IH]; intros i ld lb;
    cbn [ProcessIncomingKeyFob_scan]; silent_tac.
Qed.

Lemma silent_ProcessIncomingKeyFob_window (fuel : nat) (st ld lb : Z) :
  silent (ProcessIncomingKeyFob_window fuel st ld lb) anything.
Proof.
  pose proof silent_ProcessIncomingKeyFob_scan as Hscan.
  revert st ld lb. induction fuel as [|fuel IH]; intros st ld lb;
    cbn [ProcessIncomingKeyFob_window]; silent_tac.
Qed.

Lemma silent_ProcessIncomingKeyFob_capture (fuel : nat) (i : Z) :
  silent (ProcessIncomingKeyFob_capture fuel i) anything.
Proof.
  pose proof silent_ProcessIncomingKeyFob_release as Hrel.
  pose proof silent_ProcessIncomingKeyFob_window as Hwin.
  unfold ProcessIncomingKeyFob_capture. silent_tac.
Qed.

Lemma silent_ProcessIncomingKeyFob (fuel : nat) (i : Z) :
  silent (ProcessIncomingKeyFob fuel i) not_found_or_stuck.
Proof.
  unfold ProcessIncomingKeyFob. cbv zeta.
  apply silent_seq; [apply silent_ProcessIncomingKeyFob_capture| |left; reflexivity].
  intros d. destruct (negb (d =? 255)).
  - apply silent_seq; [silent_tac| |left; reflexivity]. intros _.
    apply silent_seq; [silent_tac| |left; reflexivity]. intros _.
    apply silent_seq; [silent_tac| |left; reflexivity]. intros _.
    apply (silent_weaken _ (fun r => r = Some 255));
      [apply silent_findTrackNumberByFilename|intros r ->; right; reflexivity].
  - apply silent_ret. right. reflexivity.
Qed.

Lemma silent_exitScreensaver : silent exitScreensaver anything.
Proof. unfold exitScreensaver. silent_tac. Qed.

Lemma silent_activateScreensaver_dim (todo : nat) (i : Z) :
  silent (activateScreensaver_dim todo i) anything.
Proof.
  revert i. induction todo as [|todo IH]; intros i; cbn [activateScreensaver_dim];
    silent_tac.
Qed.

Lemma silent_activateScreensaver : silent activateScreensaver anything.
Proof.
  pose proof silent_activateScreensaver_dim as Hdim.
  unfold activateScreensaver. silent_tac.
Qed.

Lemma silent_runScreensaver : silent runScreensaver anything.
Proof.
  pose proof silent_exitScreensaver as Hexit.
  unfold runScreensaver. silent_tac.
Qed.

Lemma silent_loop_reset_wait (fuel : nat) : silent (loop_reset_wait fuel) anything.
Proof. induction fuel as [|fuel IH]; cbn [loop_reset_wait]; silent_tac. Qed.

End EmptyDirectoryLoops.

Section DeadSession.

Lemma dead_step_silent {A} (c : M A) (R : option A -> Prop) :
  silent c R -> dead_step c.
Proof.
  intros Hc m (Ht & Hn & Hc1 & Hc2).
  destruct (Hc m Ht) as (H1 & H2 & H3 & H4 & _).
  split; [|exact H4].
  repeat split; try congruence; destruct H3 as [H3|H3]; rewrite H3;
    (assumption || discriminate).
Qed.

Lemma dead_step_bind {A B} (c : M A) (k : A -> M B) (R1 : option A -> Prop) :
  silent c R1 -> (forall a, R1 (Some a) -> dead_step (k a)) -> dead_step (bind c k).
Proof.
  intros Hc Hk m Hm.
  destruct (dead_step_silent c R1 Hc m Hm) as [Hdead Hev].
  destruct Hm as (Ht & _).
  destruct (Hc m Ht) as (_ & _ & _ & _ & HR).
  rewrite bind_run.
  destruct (result (c m)) as [a|]; cbn [final events fst snd]; [|auto].
  destruct (Hk a HR (final (c m)) Hdead) as [Kdead Kev].
  split; [exact Kdead|apply Forall_app; split; assumption].
Qed.

Lemma dead_step_seq {A B} (c : M A) (k : A -> M B) :
  dead_step c -> (forall a, dead_step (k a)) -> dead_step (bind c k).
Proof.
  intros Hc Hk m Hm. destruct (Hc m Hm) as [Hdead Hev].
  rewrite bind_run.
  destruct (result (c m)) as [a|]; cbn [final events fst snd]; [|auto].
  destruct (Hk a (final (c m)) Hdead) as [Kdead Kev].
  split; [exact Kdead|apply Forall_app; split; assumption].
Qed.

Lemma dead_step_modify (f : Machine -> Machine) :
  (forall m, dead_session m -> dead_session (f m)) -> dead_step (modify f).
Proof. intros Hf m Hm. cbn. split; [apply Hf, Hm|constructor]. Qed.

Lemma dead_step_ret {A} (a : A) : dead_step (ret a).
Proof. intros m Hm. cbn. split; [exact Hm|constructor]. Qed.

(** Setting the phase to anything but Connecting or IncomingRing. *)
Lemma dead_set_currentState (s : PhoneState) (m : Machine) :
  s <> STATE_CONNECTING -> s <> STATE_INCOMING_CALL ->
  dead_session m -> dead_session (set_currentState s m).
Proof. intros H1 H2 (Ht & Hn & _ & _). repeat split; assumption. Qed.

Lemma dead_set_loop_trackNum (m : Machine) :
  dead_session m -> dead_session (set_loop_trackNum 255 m).
Proof. intros (Ht & Hn & H1 & H2). repeat split; assumption. Qed.

Lemma dead_step_loop_STATE_IDLE (fuel : nat) : dead_step (loop_STATE_IDLE fuel).
Proof.
  pose proof silent_exitScreensaver as Hexit.
  unfold loop_STATE_IDLE.
  apply (dead_step_bind _ _ anything); [silent_tac|]. intros off _.
  destruct off.
  - apply dead_step_seq.
    + apply dead_step_modify. intros m. apply dead_set_currentState; discriminate.
    + intros _. apply (dead_step_silent _ anything). silent_tac.
  - apply (dead_step_bind _ _ anything);
      [apply silent_CheckForIncomingCall_loop|]. intros b _.
    destruct (negb (b =? -1)); [|apply dead_step_ret].
    apply (dead_step_bind _ _ not_found_or_stuck);
      [apply silent_ProcessIncomingKeyFob|].
    intros found [Hf|Hf]; [discriminate|]. injection Hf as ->.
    change (to_uint8 255) with 255. change (255 <? 255) with false. cbv iota.
    apply dead_step_seq; [|intros _; apply dead_step_ret].
    apply dead_step_modify. exact dead_set_loop_trackNum.
Qed.

Lemma dead_step_loop_STATE_DIAL_TONE : dead_step loop_STATE_DIAL_TONE.
Proof.
  unfold loop_STATE_DIAL_TONE.
  apply (dead_step_bind _ _ (fun r => r = Some 255));
    [apply silent_findTrackNumberByFilename|].
  intros found Hf. injection Hf as ->. cbv zeta.
  apply (dead_step_bind _ _ anything); [silent_tac|]. intros _ _.
  apply (dead_step_bind _ _ anything); [silent_tac|]. intros _ _.
  apply dead_step_modify. intros m. apply dead_set_currentState; discriminate.
Qed.

Lemma dead_step_loop_STATE_KEYPAD_ENTRY (fuel : nat) :
  dead_step (loop_STATE_KEYPAD_ENTRY fuel).
Proof.
  unfold loop_STATE_KEYPAD_ENTRY.
  apply (dead_step_bind _ _ not_found_or_stuck); [apply silent_GetKeyPadNumber|].
  intros found [Hf|Hf]; [discriminate|]. injection Hf as ->.
  change (255 =? 255) with true. cbv iota.
  apply dead_step_seq.
  - apply dead_step_modify. exact dead_set_loop_trackNum.
  - intros _. apply dead_step_modify. intros m.
    apply dead_set_currentState; discriminate.
Qed.

Lemma dead_step_loop_STATE_RESET (fuel : nat) : dead_step (loop_STATE_RESET fuel).
Proof.
  pose proof (silent_loop_reset_wait fuel) as Hwait.
  unfold loop_STATE_RESET.
  apply (dead_step_bind _ _ anything); [silent_tac|]. intros _ _.
  apply (dead_step_bind _ _ anything); [exact Hwait|]. intros _ _.
  apply dead_step_seq;
    [apply dead_step_modify; exact dead_set_loop_trackNum|]. intros _.
  apply (dead_step_bind _ _ anything); [silent_tac|]. intros _ _.
  apply (dead_step_bind _ _ anything); [silent_tac|]. intros _ _.
  apply (dead_step_bind _ _ anything); [silent_tac|]. intros now _.
  apply (dead_step_bind _ _ anything); [silent_tac|]. intros _ _.
  apply dead_step_modify. intros m. apply dead_set_currentState; discriminate.
Qed.

(** One round of the state machine keeps a dead session dead. *)
Lemma dead_step_loop_switch (fuel : nat) : dead_step (loop_switch fuel).
Proof.
  intros m Hm. pose proof Hm as (Ht & Hn & Hc1 & Hc2).
  rewrite loop_switch_run.
  destruct (currentState m) eqn:Hstate; try congruence.
  - apply dead_step_loop_STATE_IDLE, Hm.
  - apply dead_step_loop_STATE_DIAL_TONE, Hm.
  - apply dead_step_loop_STATE_KEYPAD_ENTRY, Hm.
  - apply dead_step_loop_STATE_RESET, Hm.
Qed.

Lemma dead_step_loop (fuel : nat) : dead_step (loop fuel).
Proof.
  pose proof silent_runScreensaver as Hrun.
  pose proof silent_activateScreensaver as Hact.
  unfold loop.
  apply (dead_step_bind _ _ anything); [silent_tac|]. intros m0 _.
  apply (dead_step_bind _ _ anything); [silent_tac|]. intros _ _.
  apply (dead_step_bind _ _ anything); [silent_tac|]. intros m1 _.
  apply (dead_step_bind _ _ anything); [silent_tac|]. intros _ _.
  apply (dead_step_bind _ _ anything); [silent_tac|]. intros m2 _.
  apply (dead_step_bind _ _ anything); [silent_tac|]. intros _ _.
  apply dead_step_loop_switch.
Qed.

Lemma dead_step_loops (fuel n : nat) : dead_step (loops fuel n).
Proof.
  induction n as [|n IH]; cbn [loops]; [apply dead_step_ret|].
  apply dead_step_seq; [apply dead_step_loop|intros _; exact IH].
Qed.

End DeadSession.

(** What [setup] does when the module answers the reset and lists no file. *)
Lemma setup_empty_listing (i : Inputs) :
  listing i = [] ->
  hd true (resetIn i) = true ->
  exists m',
    setup (boot i)
    = (Some tt, m',
       [EvLcdInit; EvLcdBacklight 255; EvDelay 1000; EvModuleReset true; EvVolUp;
        EvVolUp; EvListFiles; EvLcdClear; EvLcdSetCursor 0 0; EvLcdPrint "Error: ";
        EvLcdSetCursor 0 1; EvLcdPrint "No Sound Files!"; EvDelay 3000; EvDelay 1000])
    /\ dead_session m'
    /\ currentState m' = STATE_RESET.
Proof.
  intros Hlisting Hreset. eexists.
  unfold setup, scanAudioFXStorageNew. run_prims.
  cbn [boot inputs set_inputs set_clock set_resetIn resetIn listing].
  rewrite Hreset. cbn [negb]. cbv beta iota.
  cbn [boot inputs set_inputs set_clock set_resetIn resetIn listing].
  rewrite Hlisting. cbn.
  split; [reflexivity|]. split; [|reflexivity].
  repeat split; (reflexivity || discriminate).
Qed.

(** C5: when the module reports no file at boot, the directory build
    leaves zero entries, shows "Error: " over "No Sound Files!" and sets the
    phase to [STATE_RESET]; the listing is asked for once and never again;
    and in every later round of [loop], whatever the inputs, the directory
    stays empty, every lookup fails, no call is ever connected or rung, and
    the only play commands sent carry the "not found" value 255. *)
Theorem empty_listing_ends_productive_operation (fuel n : nat) (i : Inputs) :
  listing i = [] ->
  hd true (resetIn i) = true ->
  let booted := setup (boot i) in
  result booted = Some tt
  /\ totalFiles (final booted) = 0
  /\ currentState (final booted) = STATE_RESET
  /\ shown (render Lcd_blank (events booted))
     = ("Error:          "%string, "No Sound Files! "%string)
  /\ count_listFiles (events booted) = 1%nat
  /\ (exists rest,
        events (sketch fuel n i) = events booted ++ rest
        /\ Forall unproductive rest)
  /\ dead_session (final (sketch fuel n i))
  /\ (forall id,
        result (findTrackNumberByFilename id (final (sketch fuel n i))) = Some 255).
Proof.
  intros Hlisting Hreset booted.
  destruct (setup_empty_listing i Hlisting Hreset) as (m' & Hboot & Hdead & Hstate).
  destruct (dead_step_loops fuel n m' Hdead) as [Hdead' Hquiet].
  assert (Hsketch : sketch fuel n i
                    = (result (loops fuel n m'), final (loops fuel n m'),
                       events booted ++ events (loops fuel n m'))).
  { unfold sketch. subst booted. rewrite bind_run, Hboot. reflexivity. }
  subst booted. rewrite Hsketch, Hboot. cbn [result final events fst snd].
  split; [reflexivity|]. split; [apply Hdead|]. split; [exact Hstate|].
  split; [reflexivity|]. split; [reflexivity|].
  split; [exists (events (loops fuel n m')); split; [reflexivity|exact Hquiet]|].
  split; [exact Hdead'|].
  intros id. destruct Hdead' as (Ht & _).
  destruct (silent_findTrackNumberByFilename id _ Ht) as (_ & _ & _ & _ & Hr).
  exact Hr.
Qed.

(** Four rounds of [loop] on [empty_module_inputs], with the handset
    lifted and 12345 typed. *)
Lemma empty_listing_ends_productive_operation_witness :
  let booted := setup (boot empty_module_inputs) in
  let later := sketch 20 4 empty_module_inputs in
  result booted = Some tt
  /\ totalFiles (final booted) = 0
  /\ currentState (final booted) = STATE_RESET
  /\ count_listFiles (events later) = 1%nat
  /\ dead_session (final later)
  /\ result (findTrackNumberByFilename 12345 (final later)) = Some 255.
Proof.
  cbv zeta.
  pose proof (empty_listing_ends_productive_operation 20 4 empty_module_inputs
                eq_refl eq_refl) as H.
  cbv zeta in H. destruct H as (H1 & H2 & H3 & _ & _ & _ & H7 & H8).
  split; [exact H1|]. split; [exact H2|]. split; [exact H3|].
  split; [vm_compute; reflexivity|]. split; [exact H7|]. apply H8.
Defined.

(** * Hanging up during an outbound call *)

Section HangUp.

Variables (fuel : nat) (tempNum : Z).

Lemma dialingPhone_connect_returns (m : Machine) :
  result (dialingPhone_connect tempNum m) = Some tt.
Proof.
  assert (Hrun : exists m' log, dialingPhone_connect tempNum m = (Some tt, m', log)).
  { unfold dialingPhone_connect.
    step by displayLCDTopMessage_P_run.
    destruct (findTrack_loop (Z.to_nat (totalFiles m)) 0 (audioFiles m) ringingTone)
      as [n|] eqn:Hring;
      [step by (findTrackNumberByFilename_found _ n m Hring)
      |step by (findTrackNumberByFilename_missing _ m Hring)];
      step by sfx_stop_run; step by delay_run; step by triggerSoundUART_run;
      step by delay_run; step by sfx_stop_run; step by delay_run;
      step by displayLCDTopMessage_P_run; step by triggerSoundUART_run;
      rewrite delay_run; do 2 eexists; reflexivity. }
  destruct Hrun as (m' & log & ->). reflexivity.
Qed.

(** The handset is back on the hook when [dialingPhone] starts: the sound
    is stopped and nothing is played. *)
Lemma dialingPhone_on_hook_at_entry (m : Machine) :
  hd HIGH (hookIn (inputs m)) = HIGH ->
  dialingPhone fuel tempNum m
  = (Some tt,
     set_currentState STATE_RESET
       (set_inputs (set_hookIn (tail (hookIn (inputs m))) (inputs m)) m),
     [EvStop]).
Proof.
  intros Hhook. unfold dialingPhone.
  step by isReceiverHookOff_run. rewrite Hhook. cbn [is_low negb].
  step by sfx_stop_run. rewrite modify_run. reflexivity.
Qed.

(** During playback [checkForHangupOrEnd] finds the handset replaced: it
    stops the sound, sets the phase and returns. *)
Lemma checkForHangupOrEnd_hang_up (m : Machine) :
  hd HIGH (actIn (inputs m)) = LOW ->
  hd HIGH (hookIn (inputs m)) = HIGH ->
  result (checkForHangupOrEnd (S fuel) m) = Some tt
  /\ currentState (final (checkForHangupOrEnd (S fuel) m)) = STATE_RESET
  /\ events (checkForHangupOrEnd (S fuel) m) = [EvStop]
  /\ hookIn (inputs (final (checkForHangupOrEnd (S fuel) m))) = tail (hookIn (inputs m)).
Proof.
  intros Hact Hhook.
  assert (Hrun : exists m',
            checkForHangupOrEnd (S fuel) m = (Some tt, m', [EvStop])
            /\ currentState m' = STATE_RESET
            /\ hookIn (inputs m') = tail (hookIn (inputs m))).
  { cbn [checkForHangupOrEnd].
    step by stillPlaying_run. rewrite Hact. cbn [is_low].
    step by isReceiverHookOff_run.
    cbn [inputs set_inputs set_actIn hookIn]. rewrite Hhook. cbn [is_low negb].
    step by sfx_stop_run. rewrite modify_run.
    eexists. split; [reflexivity|]. split; reflexivity. }
  destruct Hrun as (m' & -> & Hs & Hh). repeat split; assumption.
Qed.

(** The check that follows [checkForHangupOrEnd] reads on-hook: the sound
    is stopped and [dialingPhone] returns; the call-finished track is not
    looked up and not played. *)
Lemma dialingPhone_on_hook_after_playback (m : Machine) :
  hd HIGH (hookIn (inputs m)) = LOW ->
  let connect :=
    dialingPhone_connect tempNum
      (set_inputs (set_hookIn (tail (hookIn (inputs m))) (inputs m)) m) in
  let monitor := checkForHangupOrEnd fuel (final connect) in
  result monitor = Some tt ->
  hd HIGH (hookIn (inputs (final monitor))) = HIGH ->
  dialingPhone fuel tempNum m
  = (Some tt,
     set_currentState STATE_RESET
       (set_inputs
          (set_hookIn (tail (hookIn (inputs (final monitor)))) (inputs (final monitor)))
          (final monitor)),
     events connect ++ events monitor ++ [EvStop]).
Proof.
  intros Hhook connect monitor Hmonitor Hrecheck. subst connect monitor.
  unfold dialingPhone.
  step by isReceiverHookOff_run. rewrite Hhook. cbn [is_low negb].
  pose proof (dialingPhone_connect_returns
                (set_inputs (set_hookIn (tail (hookIn (inputs m))) (inputs m)) m))
    as Hconnect.
  unfold bind at 1.
  destruct (dialingPhone_connect tempNum _) as [[r1 m1] l1].
  cbn [result final events fst snd] in *. subst r1.
  unfold bind at 1.
  destruct (checkForHangupOrEnd fuel m1) as [[r2 m2] l2].
  cbn [result final events fst snd] in *. subst r2.
  step by isReceiverHookOff_run. rewrite Hrecheck. cbn [is_low negb].
  step by sfx_stop_run. rewrite modify_run. cbn [app]. reflexivity.
Qed.

End HangUp.

(** C8 fails on the code when the hook contact bounces.  With
    [bounce_inputs] the machine is in [STATE_CONNECTING] after three rounds
    of [loop].  In the fourth round the hook reads off-hook at both checks
    before the recording, on-hook once while the recording plays
    ([checkForHangupOrEnd] stops the sound and sets [STATE_RESET]), and
    off-hook at the check that follows: [dialingPhone] then plays the
    call-finished track (slot 3) although a hang-up was detected. *)
Theorem hook_bounce_plays_completion_jingle :
  let before := final (sketch 100 3 bounce_inputs) in
  currentState before = STATE_CONNECTING
  /\ hookIn (inputs before) = [LOW; LOW; HIGH; LOW; HIGH]
  /\ first_match (dir_entries before) callFinished = Some 3
  /\ result (loop 100 before) = Some tt
  /\ sounds (events (loop 100 before))
     = [EvStop; EvDelay 400; EvPlay 2 true; EvDelay 1000; EvStop; EvDelay 400;
        EvPlay 5 true; EvDelay 400; EvStop; EvPlay 3 true; EvDelay 400; EvStop]
  /\ existsb (is_play_of 3) (events (loop 100 before)) = true
  /\ currentState (final (loop 100 before)) = STATE_RESET.
Proof. cbv zeta. repeat split; vm_compute; reflexivity. Qed.

(** * The debounced key-fob reader: [CheckForIncomingCall] *)

Section Debounce.

Lemma digitalRead_keyfob_run (j : Z) (m : Machine) :
  digitalRead_keyfob j m = (Some (hd HIGH (line j m)), pop_line j m, []).
Proof. reflexivity. Qed.

Lemma millis_run (m : Machine) :
  millis m = (Some (to_uint32 (clock (inputs (tick m)))), tick m, []).
Proof. reflexivity. Qed.

(** *** One iteration of the [for] loop *)

(** A released button that is not the tracked one: nothing happens. *)
Lemma CheckForIncomingCall_iter_idle (todo : nat) (j : Z) (m : Machine) :
  hd HIGH (line j m) = HIGH ->
  lastButtonPressed m <> j ->
  CheckForIncomingCall_loop (S todo) j m
  = CheckForIncomingCall_loop todo (j + 1) (pop_line j m).
Proof.
  intros Hhigh Hlast. cbn [CheckForIncomingCall_loop].
  step by digitalRead_keyfob_run. rewrite Hhigh. cbn [is_low].
  unfold bind at 1. cbn [get]. cbv beta iota.
  change (lastButtonPressed (pop_line j m)) with (lastButtonPressed m).
  assert (Hne : (lastButtonPressed m =? j) = false) by (apply Z.eqb_neq; exact Hlast).
  rewrite Hne. unfold when.
  unfold bind at 1. cbn [ret]. cbv beta iota.
  destruct (CheckForIncomingCall_loop todo (j + 1) (pop_line j m)) as [[r m'] l].
  reflexivity.
Qed.

(** The tracked button reads released: tracking is cleared. *)
Lemma CheckForIncomingCall_iter_release (todo : nat) (j : Z) (m : Machine) :
  hd HIGH (line j m) = HIGH ->
  lastButtonPressed m = j ->
  CheckForIncomingCall_loop (S todo) j m
  = CheckForIncomingCall_loop todo (j + 1)
      (set_buttonStable false (set_lastButtonPressed (-1) (pop_line j m))).
Proof.
  intros Hhigh Hlast. cbn [CheckForIncomingCall_loop].
  step by digitalRead_keyfob_run. rewrite Hhigh. cbn [is_low].
  unfold bind at 1. cbn [get]. cbv beta iota.
  change (lastButtonPressed (pop_line j m)) with (lastButtonPressed m).
  assert (Heq : (lastButtonPressed m =? j) = true) by (apply Z.eqb_eq; exact Hlast).
  rewrite Heq. unfold when.
  step by modify_run.
  match goal with
  | |- context [CheckForIncomingCall_loop todo (j + 1) ?x] =>
      destruct (CheckForIncomingCall_loop todo (j + 1) x) as [[r m'] l]
  end.
  reflexivity.
Qed.

(** The tracked button still reads pressed: one clock reading, and a
    stable press is reported when the debounce time has passed and none
    was reported yet. *)
Lemma CheckForIncomingCall_iter_held (todo : nat) (j : Z) (m : Machine) :
  hd HIGH (line j m) = LOW ->
  lastButtonPressed m = j ->
  let m1 := tick (pop_line j m) in
  let elapsed := to_uint32 (to_uint32 (clock (inputs m1)) - lastDebounceTime m) in
  CheckForIncomingCall_loop (S todo) j m
  = if (debounceDelay <? elapsed) && negb (buttonStable m)
    then (Some j, set_buttonStable true m1, [])
    else CheckForIncomingCall_loop todo (j + 1) m1.
Proof.
  intros Hlow Hlast m1 elapsed. cbn [CheckForIncomingCall_loop].
  step by digitalRead_keyfob_run. rewrite Hlow. cbn [is_low].
  unfold bind at 1. cbn [get]. cbv beta iota.
  change (lastButtonPressed (pop_line j m)) with (lastButtonPressed m).
  assert (Heq : (lastButtonPressed m =? j) = true) by (apply Z.eqb_eq; exact Hlast).
  rewrite Heq. cbn [negb when].
  unfold bind at 1. cbn [ret]. cbv beta iota.
  step by millis_run. fold m1.
  unfold bind at 1. cbn [get]. cbv beta iota.
  change (lastDebounceTime m1) with (lastDebounceTime m).
  change (buttonStable m1) with (buttonStable m).
  fold elapsed.
  destruct (debounceDelay <? elapsed); cbn [andb].
  - destruct (buttonStable m); cbn [negb].
    + destruct (CheckForIncomingCall_loop todo (j + 1) m1) as [[r m'] l]. reflexivity.
    + reflexivity.
  - destruct (CheckForIncomingCall_loop todo (j + 1) m1) as [[r m'] l]. reflexivity.
Qed.

(** Another button than the tracked one reads pressed: it becomes the
    tracked one, with a fresh timestamp. *)
Lemma CheckForIncomingCall_iter_new (todo : nat) (j : Z) (m : Machine) :
  hd HIGH (line j m) = LOW ->
  lastButtonPressed m <> j ->
  let m1 := tick (pop_line j m) in
  let stamp := to_uint32 (clock (inputs m1)) in
  let m2 :=
    tick (set_buttonStable false
            (set_lastButtonPressed j (set_lastDebounceTime stamp m1))) in
  let elapsed := to_uint32 (to_uint32 (clock (inputs m2)) - stamp) in
  CheckForIncomingCall_loop (S todo) j m
  = if debounceDelay <? elapsed
    then (Some j, set_buttonStable true m2, [])
    else CheckForIncomingCall_loop todo (j + 1) m2.
Proof.
  intros Hlow Hlast m1 stamp m2 elapsed. cbn [CheckForIncomingCall_loop].
  step by digitalRead_keyfob_run. rewrite Hlow. cbn [is_low].
  unfold bind at 1. cbn [get]. cbv beta iota.
  change (lastButtonPressed (pop_line j m)) with (lastButtonPressed m).
  assert (Hne : (lastButtonPressed m =? j) = false) by (apply Z.eqb_neq; exact Hlast).
  rewrite Hne. cbn [negb when].
  unfold bind at 1 2. rewrite millis_run. cbv beta iota. fold m1. fold stamp.
  rewrite modify_run. cbv beta iota.
  step by millis_run. fold m2.
  unfold bind at 1. cbn [get]. cbv beta iota.
  change (lastDebounceTime m2) with stamp.
  change (buttonStable m2) with false.
  fold elapsed. cbn [negb].
  destruct (debounceDelay <? elapsed).
  - reflexivity.
  - destruct (CheckForIncomingCall_loop todo (j + 1) m2) as [[r m'] l]. reflexivity.
Qed.

(** *** Lines and reads *)

Lemma line_pop_line_same (j : Z) (m : Machine) :
  line j (pop_line j m) = tail (line j m).
Proof.
  unfold line at 1, pop_line. cbn [inputs set_inputs fobIn set_fobIn].
  rewrite nth_lookup.
  destruct (decide (Z.to_nat j < length (fobIn (inputs m)))%nat) as [Hlt|Hge].
  - rewrite list_lookup_insert_eq by exact Hlt. reflexivity.
  - rewrite list_insert_ge by lia.
    unfold line. rewrite nth_lookup.
    rewrite (proj2 (lookup_ge_None _ _)) by lia. reflexivity.
Qed.

Lemma line_pop_line_other (j k : Z) (m : Machine) :
  0 <= j -> 0 <= k -> k <> j -> line k (pop_line j m) = line k m.
Proof.
  intros Hj Hk Hne. unfold line at 1, pop_line.
  cbn [inputs set_inputs fobIn set_fobIn].
  rewrite nth_lookup, list_lookup_insert_ne by lia.
  unfold line. rewrite nth_lookup. reflexivity.
Qed.

Lemma quiet_line_S (n : nat) (s : list Level) :
  quiet_line (S n) s -> hd HIGH s = HIGH /\ quiet_line n s /\ quiet_line n (tail s).
Proof.
  intros H. split; [|split].
  - specialize (H 0%nat ltac:(lia)). destruct s; [reflexivity|exact H].
  - intros k Hk. apply H. lia.
  - intros k Hk. specialize (H (S k) ltac:(lia)).
    destruct s as [|x s]; [destruct k; reflexivity|exact H].
Qed.

Lemma lines_read_pop (j : Z) (m : Machine) :
  0 <= j -> lines_read j (j + 1) m (pop_line j m).
Proof.
  intros Hj. repeat split. intros k Hk.
  destruct (Z.eq_dec k j) as [->|Hne].
  - rewrite line_pop_line_same.
    replace ((j <=? j) && (j <? j + 1)) with true; [reflexivity|].
    symmetry. apply andb_true_iff. split; [apply Z.leb_le|apply Z.ltb_lt]; lia.
  - rewrite line_pop_line_other by assumption.
    replace ((j <=? k) && (k <? j + 1)) with false; [reflexivity|].
    symmetry. apply andb_false_iff.
    destruct (Z.lt_ge_cases k j); [left; apply Z.leb_gt|right; apply Z.ltb_ge]; lia.
Qed.

Lemma lines_read_trans (lo mid hi : Z) (m m1 m2 : Machine) :
  lo <= mid <= hi ->
  lines_read lo mid m m1 -> lines_read mid hi m1 m2 -> lines_read lo hi m m2.
Proof.
  intros Hord (A1 & A2 & A3 & A4 & A5 & A6) (B1 & B2 & B3 & B4 & B5 & B6).
  repeat split; try congruence.
  intros k Hk. rewrite (B6 k Hk), (A6 k Hk).
  destruct (lo <=? k) eqn:E1; destruct (k <? mid) eqn:E2;
    destruct (mid <=? k) eqn:E3; destruct (k <? hi) eqn:E4;
    cbn [andb]; try reflexivity; lia.
Qed.

Lemma lines_read_refl (lo : Z) (m : Machine) : lines_read lo lo m m.
Proof.
  repeat split. intros k Hk.
  replace ((lo <=? k) && (k <? lo)) with false; [reflexivity|].
  symmetry. apply andb_false_iff.
  destruct (Z.lt_ge_cases k lo); [left; apply Z.leb_gt|right; apply Z.ltb_ge]; lia.
Qed.

(** A stretch of released buttons, none of them tracked, is read through. *)
Lemma CheckForIncomingCall_idle_span (count : nat) :
  forall (todo : nat) (j : Z) (m : Machine),
    0 <= j ->
    (forall k, j <= k < j + Z.of_nat count -> hd HIGH (line k m) = HIGH) ->
    (forall k, j <= k < j + Z.of_nat count -> lastButtonPressed m <> k) ->
    exists m',
      CheckForIncomingCall_loop (count + todo) j m
      = CheckForIncomingCall_loop todo (j + Z.of_nat count) m'
      /\ lines_read j (j + Z.of_nat count) m m'.
Proof.
  induction count as [|count IH]; intros todo j m Hj Hhigh Hlast.
  - exists m. cbn [Nat.add]. rewrite Z.add_0_r. split; [reflexivity|apply lines_read_refl].
  - cbn [Nat.add].
    rewrite CheckForIncomingCall_iter_idle by (apply Hhigh || apply Hlast; lia).
    destruct (IH todo (j + 1) (pop_line j m)) as (m' & Hrun & Hread).
    + lia.
    + intros k Hk. rewrite line_pop_line_other by lia. apply Hhigh. lia.
    + intros k Hk. apply Hlast. lia.
    + exists m'. rewrite Hrun. split.
      * f_equal. lia.
      * replace (j + Z.of_nat (S count)) with (j + 1 + Z.of_nat count) by lia.
        apply (lines_read_trans j (j + 1) _ m (pop_line j m) m');
          [lia|apply lines_read_pop; exact Hj|exact Hread].
Qed.

(** *** What setters, reads and ticks leave alone *)

Lemma clock_tick (m : Machine) :
  clock (inputs (tick m))
  = clock (inputs m) + Z.of_nat (hd 1%nat (ticksIn (inputs m))).
Proof. reflexivity. Qed.

Lemma ticksIn_tick (m : Machine) :
  ticksIn (inputs (tick m)) = tail (ticksIn (inputs m)).
Proof. reflexivity. Qed.

Lemma line_tick (k : Z) (m : Machine) : line k (tick m) = line k m.
Proof. reflexivity. Qed.

Lemma clock_pop_line (j : Z) (m : Machine) :
  clock (inputs (pop_line j m)) = clock (inputs m).
Proof. reflexivity. Qed.

Lemma ticksIn_pop_line (j : Z) (m : Machine) :
  ticksIn (inputs (pop_line j m)) = ticksIn (inputs m).
Proof. reflexivity. Qed.

Lemma line_set_buttonStable (k : Z) (b : bool) (m : Machine) :
  line k (set_buttonStable b m) = line k m.
Proof. reflexivity. Qed.

Lemma line_set_lastButtonPressed (k v : Z) (m : Machine) :
  line k (set_lastButtonPressed v m) = line k m.
Proof. reflexivity. Qed.

Lemma line_set_lastDebounceTime (k v : Z) (m : Machine) :
  line k (set_lastDebounceTime v m) = line k m.
Proof. reflexivity. Qed.

End Debounce.

Create Rewrite HintDb fob.

#[export] Hint Rewrite clock_tick ticksIn_tick line_tick clock_pop_line ticksIn_pop_line
  line_set_buttonStable line_set_lastButtonPressed line_set_lastDebounceTime
  line_pop_line_same : fob.

Section DebouncePolls.

Lemma lines_read_outside (lo hi k : Z) (m m' : Machine) :
  lines_read lo hi m m' -> 0 <= k -> (k < lo \/ hi <= k) -> line k m' = line k m.
Proof.
  intros (_ & _ & _ & _ & _ & H) Hk Hout. rewrite (H k Hk).
  replace ((lo <=? k) && (k <? hi)) with false; [reflexivity|].
  symmetry. apply andb_false_iff.
  destruct Hout; [left; apply Z.leb_gt|right; apply Z.ltb_ge]; lia.
Qed.

Lemma lines_read_either (lo hi k : Z) (m m' : Machine) :
  lines_read lo hi m m' -> 0 <= k ->
  line k m' = line k m \/ line k m' = tail (line k m).
Proof.
  intros (_ & _ & _ & _ & _ & H) Hk. rewrite (H k Hk).
  destruct ((lo <=? k) && (k <? hi)); [right|left]; reflexivity.
Qed.

(** One poll while the tracked button [i] is still held and every other
    button is released. *)
Lemma poll_tracked_held (i : Z) (m : Machine) :
  0 <= i < numButtons ->
  lastButtonPressed m = i ->
  hd HIGH (line i m) = LOW ->
  (forall k, 0 <= k < numButtons -> k <> i -> hd HIGH (line k m) = HIGH) ->
  let elapsed := to_uint32 (to_uint32 (clock (inputs (tick m))) - lastDebounceTime m) in
  let fired := (debounceDelay <? elapsed) && negb (buttonStable m) in
  exists m',
    CheckForIncomingCall m = (Some (if fired then i else -1), m', [])
    /\ lastButtonPressed m' = i
    /\ lastDebounceTime m' = lastDebounceTime m
    /\ buttonStable m' = buttonStable m || fired
    /\ clock (inputs m') = clock (inputs (tick m))
    /\ ticksIn (inputs m') = tail (ticksIn (inputs m))
    /\ line i m' = tail (line i m)
    /\ (forall k, 0 <= k -> k <> i ->
          line k m' = line k m \/ line k m' = tail (line k m)).
Proof.
  intros Hi Hlast Hlow Hothers elapsed fired.
  unfold numButtons in *.
  unfold CheckForIncomingCall. change (Z.to_nat numButtons) with 4%nat.
  replace 4%nat with (Z.to_nat i + S (3 - Z.to_nat i))%nat by lia.
  destruct (CheckForIncomingCall_idle_span (Z.to_nat i) (S (3 - Z.to_nat i)) 0 m)
    as (ma & Hrun & Hread); [lia| | |].
  { intros k Hk. apply Hothers; lia. }
  { intros k Hk. lia. }
  rewrite Hrun. replace (0 + Z.of_nat (Z.to_nat i)) with i in * by lia.
  pose proof Hread as (A1 & A2 & A3 & A4 & A5 & A6).
  assert (Hline_a : line i ma = line i m)
    by (apply (lines_read_outside 0 i); [exact Hread|lia|lia]).
  rewrite CheckForIncomingCall_iter_held by congruence.
  cbv zeta. autorewrite with fob. rewrite A2, A3, A4, A5.
  change (to_uint32
            (to_uint32 (clock (inputs m) + Z.of_nat (hd 1%nat (ticksIn (inputs m))))
             - lastDebounceTime m)) with elapsed.
  fold fired.
  destruct fired eqn:Hfired.
  - exists (set_buttonStable true (tick (pop_line i ma))).
    split; [reflexivity|].
    split; [transitivity (lastButtonPressed ma); [reflexivity|congruence]|].
    split; [transitivity (lastDebounceTime ma); [reflexivity|congruence]|].
    split; [rewrite orb_true_r; reflexivity|].
    split; [transitivity (clock (inputs ma) + Z.of_nat (hd 1%nat (ticksIn (inputs ma))));
            [reflexivity|rewrite ?clock_tick; congruence]|].
    split; [transitivity (tail (ticksIn (inputs ma))); [reflexivity|congruence]|].
    split; [rewrite line_set_buttonStable; autorewrite with fob; congruence|].
    intros k Hk Hne. rewrite line_set_buttonStable. autorewrite with fob.
    rewrite line_pop_line_other by lia.
    apply (lines_read_either 0 i); assumption.
  - set (mb := tick (pop_line i ma)).
    destruct (CheckForIncomingCall_idle_span (3 - Z.to_nat i) 0 (i + 1) mb)
      as (mc & Hrun2 & Hread2); [lia| | |].
    { intros k Hk. subst mb. autorewrite with fob.
      rewrite line_pop_line_other by lia.
      rewrite (lines_read_outside 0 i k m ma) by (assumption || lia).
      apply Hothers; lia. }
    { intros k Hk.
      change (lastButtonPressed mb) with (lastButtonPressed ma). lia. }
    rewrite Nat.add_0_r in Hrun2. rewrite Hrun2. cbn [CheckForIncomingCall_loop ret].
    pose proof Hread2 as (B1 & B2 & B3 & B4 & B5 & B6).
    exists mc. split; [reflexivity|].
    split; [rewrite B1; transitivity (lastButtonPressed ma); [reflexivity|congruence]|].
    split; [rewrite B2; transitivity (lastDebounceTime ma); [reflexivity|congruence]|].
    split; [rewrite B3, orb_false_r;
            transitivity (buttonStable ma); [reflexivity|congruence]|].
    split; [rewrite B4; subst mb; autorewrite with fob; congruence|].
    split; [rewrite B5; subst mb; autorewrite with fob; congruence|].
    split.
    + rewrite (lines_read_outside _ _ i mb mc Hread2) by lia.
      subst mb. autorewrite with fob. congruence.
    + intros k Hk Hne. rewrite (B6 k Hk). subst mb. autorewrite with fob.
      rewrite line_pop_line_other by lia. rewrite (A6 k Hk).
      destruct (i + 1 <=? k) eqn:E1; destruct (k <? i + 1 + Z.of_nat (3 - Z.to_nat i)) eqn:E2;
        destruct (0 <=? k) eqn:E3; destruct (k <? i) eqn:E4; cbn [andb]; auto; lia.
Qed.

(** One poll in which button [i] is found newly pressed and every other
    button is released. *)
Lemma poll_new_press (i : Z) (m : Machine) :
  0 <= i < numButtons ->
  lastButtonPressed m = -1 ->
  hd HIGH (line i m) = LOW ->
  (forall k, 0 <= k < numButtons -> k <> i -> hd HIGH (line k m) = HIGH) ->
  let stamp := to_uint32 (clock (inputs (tick m))) in
  let elapsed := to_uint32 (to_uint32 (clock (inputs (tick (tick m)))) - stamp) in
  let fired := debounceDelay <? elapsed in
  exists m',
    CheckForIncomingCall m = (Some (if fired then i else -1), m', [])
    /\ lastButtonPressed m' = i
    /\ lastDebounceTime m' = stamp
    /\ buttonStable m' = fired
    /\ clock (inputs m') = clock (inputs (tick (tick m)))
    /\ ticksIn (inputs m') = tail (tail (ticksIn (inputs m)))
    /\ line i m' = tail (line i m)
    /\ (forall k, 0 <= k -> k <> i ->
          line k m' = line k m \/ line k m' = tail (line k m)).
Proof.
  intros Hi Hlast Hlow Hothers stamp elapsed fired.
  unfold numButtons in *.
  unfold CheckForIncomingCall. change (Z.to_nat numButtons) with 4%nat.
  replace 4%nat with (Z.to_nat i + S (3 - Z.to_nat i))%nat by lia.
  destruct (CheckForIncomingCall_idle_span (Z.to_nat i) (S (3 - Z.to_nat i)) 0 m)
    as (ma & Hrun & Hread); [lia| | |].
  { intros k Hk. apply Hothers; lia. }
  { intros k Hk. lia. }
  rewrite Hrun. replace (0 + Z.of_nat (Z.to_nat i)) with i in * by lia.
  pose proof Hread as (A1 & A2 & A3 & A4 & A5 & A6).
  assert (Hline_a : line i ma = line i m)
    by (apply (lines_read_outside 0 i); [exact Hread|lia|lia]).
  rewrite CheckForIncomingCall_iter_new by (congruence || lia).
  cbv zeta.
  set (m1 := tick (pop_line i ma)).
  set (m2 := tick (set_buttonStable false
                     (set_lastButtonPressed i
                        (set_lastDebounceTime (to_uint32 (clock (inputs m1))) m1)))).
  assert (Hc1 : clock (inputs m1) = clock (inputs (tick m))).
  { subst m1. rewrite !clock_tick, clock_pop_line, ticksIn_pop_line. congruence. }
  assert (Ht1 : ticksIn (inputs m1) = tail (ticksIn (inputs m))).
  { subst m1. rewrite ticksIn_tick, ticksIn_pop_line. congruence. }
  assert (Hc2 : clock (inputs m2) = clock (inputs (tick (tick m)))).
  { transitivity (clock (inputs m1) + Z.of_nat (hd 1%nat (ticksIn (inputs m1))));
      [reflexivity|]. rewrite Hc1, Ht1. reflexivity. }
  assert (Ht2 : ticksIn (inputs m2) = tail (tail (ticksIn (inputs m)))).
  { transitivity (tail (ticksIn (inputs m1))); [reflexivity|]. rewrite Ht1. reflexivity. }
  assert (Hl2 : forall k, line k m2 = line k (pop_line i ma)) by reflexivity.
  rewrite Hc1, Hc2. fold stamp. fold elapsed. fold fired.
  destruct fired eqn:Hfired.
  - exists (set_buttonStable true m2).
    split; [reflexivity|]. split; [reflexivity|].
    split; [transitivity (to_uint32 (clock (inputs m1))); [reflexivity|rewrite Hc1; reflexivity]|].
    split; [reflexivity|].
    split; [exact Hc2|]. split; [exact Ht2|].
    split; [rewrite line_set_buttonStable, Hl2, line_pop_line_same; congruence|].
    intros k Hk Hne. rewrite line_set_buttonStable, Hl2.
    rewrite line_pop_line_other by lia.
    apply (lines_read_either 0 i); assumption.
  - destruct (CheckForIncomingCall_idle_span (3 - Z.to_nat i) 0 (i + 1) m2)
      as (mc & Hrun2 & Hread2); [lia| | |].
    { intros k Hk. rewrite Hl2, line_pop_line_other by lia.
      rewrite (lines_read_outside 0 i k m ma) by (assumption || lia).
      apply Hothers; lia. }
    { intros k Hk. change (lastButtonPressed m2) with i. lia. }
    rewrite Nat.add_0_r in Hrun2. rewrite Hrun2. cbn [CheckForIncomingCall_loop ret].
    pose proof Hread2 as (B1 & B2 & B3 & B4 & B5 & B6).
    exists mc. split; [reflexivity|].
    split; [rewrite B1; reflexivity|].
    split; [rewrite B2; transitivity (to_uint32 (clock (inputs m1)));
            [reflexivity|rewrite Hc1; reflexivity]|].
    split; [rewrite B3; reflexivity|].
    split; [rewrite B4; exact Hc2|].
    split; [rewrite B5; exact Ht2|].
    split.
    + rewrite (lines_read_outside _ _ i m2 mc Hread2) by lia.
      rewrite Hl2, line_pop_line_same. congruence.
    + intros k Hk Hne. rewrite (B6 k Hk), Hl2.
      rewrite line_pop_line_other by lia. rewrite (A6 k Hk).
      destruct (i + 1 <=? k) eqn:E1; destruct (k <? i + 1 + Z.of_nat (3 - Z.to_nat i)) eqn:E2;
        destruct (0 <=? k) eqn:E3; destruct (k <? i) eqn:E4; cbn [andb]; auto; lia.
Qed.

(** One poll in which every button reads released; button [i] may have
    been the tracked one. *)
Lemma poll_released (i : Z) (m : Machine) :
  0 <= i < numButtons ->
  lastButtonPressed m = -1 \/ lastButtonPressed m = i ->
  (forall k, 0 <= k < numButtons -> hd HIGH (line k m) = HIGH) ->
  exists m',
    CheckForIncomingCall m = (Some (-1), m', [])
    /\ lastButtonPressed m' = -1
    /\ clock (inputs m') = clock (inputs m)
    /\ ticksIn (inputs m') = ticksIn (inputs m)
    /\ line i m' = tail (line i m)
    /\ (forall k, 0 <= k -> k <> i ->
          line k m' = line k m \/ line k m' = tail (line k m)).
Proof.
  intros Hi Hlast Hhigh. unfold numButtons in *.
  unfold CheckForIncomingCall. change (Z.to_nat numButtons) with 4%nat.
  destruct Hlast as [Hlast|Hlast].
  - (* nothing is tracked *)
    destruct (CheckForIncomingCall_idle_span 4 0 0 m) as (ma & Hrun & Hread); [lia| | |].
    { intros k Hk. apply Hhigh. lia. }
    { intros k Hk. lia. }
    change (4 + 0)%nat with 4%nat in Hrun. rewrite Hrun.
    cbn [CheckForIncomingCall_loop ret].
    pose proof Hread as (A1 & A2 & A3 & A4 & A5 & A6).
    exists ma. split; [reflexivity|]. split; [congruence|].
    split; [exact A4|]. split; [exact A5|]. split.
    + rewrite (A6 i ltac:(lia)).
      replace ((0 <=? i) && (i <? 0 + Z.of_nat 4)) with true; [reflexivity|].
      symmetry. apply andb_true_iff. split; [apply Z.leb_le|apply Z.ltb_lt]; lia.
    + intros k Hk Hne. apply (lines_read_either 0 (0 + Z.of_nat 4)); assumption.
  - (* button [i] was tracked: its release clears the tracking *)
    replace 4%nat with (Z.to_nat i + S (3 - Z.to_nat i))%nat by lia.
    destruct (CheckForIncomingCall_idle_span (Z.to_nat i) (S (3 - Z.to_nat i)) 0 m)
      as (ma & Hrun & Hread); [lia| | |].
    { intros k Hk. apply Hhigh; lia. }
    { intros k Hk. lia. }
    rewrite Hrun. replace (0 + Z.of_nat (Z.to_nat i)) with i in * by lia.
    pose proof Hread as (A1 & A2 & A3 & A4 & A5 & A6).
    assert (Hline_a : line i ma = line i m)
      by (apply (lines_read_outside 0 i); [exact Hread|lia|lia]).
    rewrite CheckForIncomingCall_iter_release
      by (try congruence; rewrite Hline_a; apply Hhigh; lia).
    set (mb := set_buttonStable false (set_lastButtonPressed (-1) (pop_line i ma))).
    assert (Hlb : forall k, line k mb = line k (pop_line i ma)) by reflexivity.
    destruct (CheckForIncomingCall_idle_span (3 - Z.to_nat i) 0 (i + 1) mb)
      as (mc & Hrun2 & Hread2); [lia| | |].
    { intros k Hk. rewrite Hlb, line_pop_line_other by lia.
      rewrite (lines_read_outside 0 i k m ma) by (assumption || lia).
      apply Hhigh; lia. }
    { intros k Hk. change (lastButtonPressed mb) with (-1). lia. }
    rewrite Nat.add_0_r in Hrun2. rewrite Hrun2. cbn [CheckForIncomingCall_loop ret].
    pose proof Hread2 as (B1 & B2 & B3 & B4 & B5 & B6).
    exists mc. split; [reflexivity|].
    split; [rewrite B1; reflexivity|].
    split; [rewrite B4; transitivity (clock (inputs ma)); [reflexivity|exact A4]|].
    split; [rewrite B5; transitivity (ticksIn (inputs ma)); [reflexivity|exact A5]|].
    split.
    + rewrite (lines_read_outside _ _ i mb mc Hread2) by lia.
      rewrite Hlb, line_pop_line_same. congruence.
    + intros k Hk Hne. rewrite (B6 k Hk), Hlb.
      rewrite line_pop_line_other by lia. rewrite (A6 k Hk).
      destruct (i + 1 <=? k) eqn:E1; destruct (k <? i + 1 + Z.of_nat (3 - Z.to_nat i)) eqn:E2;
        destruct (0 <=? k) eqn:E3; destruct (k <? i) eqn:E4; cbn [andb]; auto; lia.
Qed.

End DebouncePolls.

Section ClockAdvances.

Lemma clock_advances_ret {A} (a : A) : clock_advances (ret a).
Proof. intros m. cbn. lia. Qed.

Lemma clock_advances_bind {A B} (c : M A) (k : A -> M B) :
  clock_advances c -> (forall a, clock_advances (k a)) -> clock_advances (bind c k).
Proof.
  intros Hc Hk m. rewrite bind_run. specialize (Hc m).
  destruct (result (c m)) as [a|]; cbn [final fst snd]; [|exact Hc].
  specialize (Hk a (final (c m))). unfold final in *. lia.
Qed.

Lemma clock_advances_when (b : bool) (c : M unit) :
  clock_advances c -> clock_advances (when b c).
Proof. destruct b; [auto|intros _; apply clock_advances_ret]. Qed.

Lemma clock_advances_get : clock_advances get.
Proof. intros m. cbn. lia. Qed.

Lemma clock_advances_modify (f : Machine -> Machine) :
  (forall m, clock (inputs (f m)) = clock (inputs m)) -> clock_advances (modify f).
Proof. intros Hf m. cbn. rewrite Hf. lia. Qed.

Lemma clock_advances_digitalRead_keyfob (i : Z) : clock_advances (digitalRead_keyfob i).
Proof. intros m. rewrite digitalRead_keyfob_run. cbn. lia. Qed.

Lemma clock_advances_millis : clock_advances millis.
Proof. intros m. rewrite millis_run. cbn [final fst snd]. rewrite clock_tick. lia. Qed.

Lemma clock_advances_CheckForIncomingCall_loop (todo : nat) (i : Z) :
  clock_advances (CheckForIncomingCall_loop todo i).
Proof.
  revert i. induction todo as [|todo IH]; intros i; cbn [CheckForIncomingCall_loop].
  - apply clock_advances_ret.
  - apply clock_advances_bind; [apply clock_advances_digitalRead_keyfob|].
    intros reading. destruct (is_low reading).
    + apply clock_advances_bind; [apply clock_advances_get|]. intros m0.
      apply clock_advances_bind.
      * apply clock_advances_when.
        apply clock_advances_bind; [apply clock_advances_millis|]. intros now.
        apply clock_advances_modify. reflexivity.
      * intros _. apply clock_advances_bind; [apply clock_advances_millis|]. intros now.
        apply clock_advances_bind; [apply clock_advances_get|]. intros m1.
        destruct (debounceDelay <? _); [|apply IH].
        destruct (negb _); [|apply IH].
        apply clock_advances_bind; [apply clock_advances_modify; reflexivity|].
        intros _. apply clock_advances_ret.
    + apply clock_advances_bind; [apply clock_advances_get|]. intros m0.
      apply clock_advances_bind; [|intros _; apply IH].
      apply clock_advances_when. apply clock_advances_modify. reflexivity.
Qed.

Lemma clock_advances_polls (n : nat) : clock_advances (polls n).
Proof.
  induction n as [|n IH]; cbn [polls]; [apply clock_advances_ret|].
  apply clock_advances_bind; [apply clock_advances_CheckForIncomingCall_loop|].
  intros r. apply clock_advances_bind; [exact IH|].
  intros rs. apply clock_advances_ret.
Qed.

End ClockAdvances.

Section DebounceRuns.

Lemma polls_S (n : nat) (m m' : Machine) (r : Z) :
  CheckForIncomingCall m = (Some r, m', []) ->
  polls (S n) m
  = (option_map (cons r) (result (polls n m')), final (polls n m'),
     events (polls n m')).
Proof.
  intros Hcheck. cbn [polls]. unfold bind. rewrite Hcheck.
  destruct (polls n m') as [[[rs|] m2] l2]; cbn; rewrite ?app_nil_r; reflexivity.
Qed.

Lemma to_uint32_diff (a b : Z) :
  0 <= a - b < 4294967296 -> to_uint32 (to_uint32 a - to_uint32 b) = a - b.
Proof.
  intros H. unfold to_uint32. rewrite <- Zminus_mod. apply Z.mod_small. exact H.
Qed.

Lemma others_quiet_step (i : Z) (n : nat) (m m' : Machine) :
  others_quiet i (S n) m ->
  (forall k, 0 <= k -> k <> i -> line k m' = line k m \/ line k m' = tail (line k m)) ->
  others_quiet i n m'.
Proof.
  intros Hq Hstep j Hj Hne.
  destruct (quiet_line_S n (line j m) (Hq j Hj Hne)) as (_ & H1 & H2).
  destruct (Hstep j ltac:(lia) Hne) as [E|E]; rewrite E; assumption.
Qed.

Lemma others_quiet_heads (i : Z) (n : nat) (m : Machine) :
  others_quiet i (S n) m ->
  forall k, 0 <= k < numButtons -> k <> i -> hd HIGH (line k m) = HIGH.
Proof.
  intros Hq k Hk Hne.
  destruct (quiet_line_S n (line k m) (Hq k Hk Hne)) as (H & _ & _). exact H.
Qed.

Lemma presses_cons (r : Z) (rs : list Z) :
  presses (r :: rs) = (if r =? -1 then [] else [r]) ++ presses rs.
Proof. unfold presses. cbn [List.filter]. destruct (r =? -1); reflexivity. Qed.

(** While the tracked button stays down and the others stay up, one press
    is reported, at the first poll that finds the debounce time passed, and
    none after it. *)
Lemma polls_while_held (i : Z) (rest : list Level) (t0 : Z) (n : nat) :
  forall m,
    0 <= i < numButtons ->
    lastButtonPressed m = i ->
    lastDebounceTime m = to_uint32 t0 ->
    t0 <= clock (inputs m) ->
    (buttonStable m = false -> clock (inputs m) - t0 <= debounceDelay) ->
    line i m = replicate n LOW ++ rest ->
    others_quiet i n m ->
    clock (inputs (final (polls n m))) - t0 < 4294967296 ->
    exists rs,
      result (polls n m) = Some rs
      /\ events (polls n m) = []
      /\ presses rs
         = if buttonStable m then []
           else if debounceDelay <? clock (inputs (final (polls n m))) - t0
                then [i] else [].
Proof.
  induction n as [|n IH]; intros m Hi Hlast Hstamp Ht0 Hfresh Hline Hquiet Hbound.
  - exists []. cbn [polls ret result final events fst snd] in *.
    split; [reflexivity|]. split; [reflexivity|].
    destruct (buttonStable m); [reflexivity|].
    specialize (Hfresh eq_refl).
    destruct (debounceDelay <? clock (inputs m) - t0) eqn:E; [lia|reflexivity].
  - cbn [replicate app] in Hline.
    destruct (poll_tracked_held i m Hi Hlast)
      as (m' & Hcheck & Hl' & Hs' & Hb' & Hc' & Ht' & Hline' & Hothers').
    { rewrite Hline. reflexivity. }
    { apply (others_quiet_heads i n). exact Hquiet. }
    rewrite (polls_S n m m' _ Hcheck) in *. cbn [result final events fst snd] in *.
    pose proof (clock_advances_polls n m') as Hmono.
    rewrite clock_tick in Hc'.
    assert (Hd : 0 <= Z.of_nat (hd 1%nat (ticksIn (inputs m)))) by lia.
    assert (Helapsed :
      to_uint32 (to_uint32 (clock (inputs (tick m))) - lastDebounceTime m)
      = clock (inputs m') - t0).
    { rewrite Hstamp, clock_tick, to_uint32_diff by lia. lia. }
    rewrite Helapsed in *.
    destruct (IH m') as (rs & Hres & Hev & Hpress); try assumption.
    + rewrite Hs'. exact Hstamp.
    + lia.
    + rewrite Hb'. intros Hfalse. apply orb_false_iff in Hfalse as [Hst Hfired].
      rewrite Hst in Hfired. cbn [negb] in Hfired. rewrite andb_true_r in Hfired.
      apply Z.ltb_ge in Hfired. exact Hfired.
    + rewrite Hline', Hline. reflexivity.
    + apply (others_quiet_step i n m); assumption.
    + exists ((if (debounceDelay <? clock (inputs m') - t0) && negb (buttonStable m)
               then i else -1) :: rs).
      rewrite Hres. split; [reflexivity|]. split; [exact Hev|].
      rewrite presses_cons, Hpress, Hb'.
      destruct (buttonStable m); cbn [negb orb].
      * rewrite andb_false_r. reflexivity.
      * rewrite andb_true_r.
        destruct (debounceDelay <? clock (inputs m') - t0) eqn:E1.
        -- assert (Hi1 : (i =? -1) = false) by (apply Z.eqb_neq; unfold numButtons in *; lia).
           rewrite Hi1. cbn [app].
           destruct (debounceDelay <? clock (inputs (final (polls n m'))) - t0) eqn:E2;
             [reflexivity|lia].
        -- reflexivity.
Qed.

End DebounceRuns.

Section DebounceClaims.

(** A button pressed alone and held: exactly one press is reported when
    the hold outlasts the debounce time, none otherwise. *)
Lemma polls_one_press_when_held (i : Z) (m : Machine) (n : nat) (rest : list Level) :
  0 <= i < numButtons ->
  lastButtonPressed m = -1 ->
  line i m = replicate n LOW ++ rest ->
  others_quiet i n m ->
  held_for m (polls n m) < 4294967296 ->
  exists rs,
    result (polls n m) = Some rs
    /\ events (polls n m) = []
    /\ presses rs = if debounceDelay <? held_for m (polls n m) then [i] else [].
Proof.
  intros Hi Hlast Hline Hquiet Hbound. unfold held_for in *.
  destruct n as [|n].
  - exists []. cbn [polls ret result final events fst snd] in *.
    split; [reflexivity|]. split; [reflexivity|].
    rewrite clock_tick.
    destruct (debounceDelay <? _) eqn:E; [|reflexivity].
    apply Z.ltb_lt in E. unfold debounceDelay in E. lia.
  - cbn [replicate app] in Hline.
    destruct (poll_new_press i m Hi Hlast)
      as (m' & Hcheck & Hl' & Hs' & Hb' & Hc' & Ht' & Hline' & Hothers').
    { rewrite Hline. reflexivity. }
    { apply (others_quiet_heads i n). exact Hquiet. }
    rewrite (polls_S n m m' _ Hcheck) in *. cbn [result final events fst snd] in *.
    pose proof (clock_advances_polls n m') as Hmono.
    set (t0 := clock (inputs (tick m))) in *.
    assert (Hd : t0 <= clock (inputs m')).
    { rewrite Hc', clock_tick. fold t0. lia. }
    assert (Helapsed :
      to_uint32 (to_uint32 (clock (inputs (tick (tick m)))) - to_uint32 t0)
      = clock (inputs m') - t0).
    { rewrite <- Hc'. apply to_uint32_diff. lia. }
    rewrite Helapsed in *.
    destruct (polls_while_held i rest t0 n m') as (rs & Hres & Hev & Hpress);
      try assumption.
    + intros Hfalse. rewrite Hb' in Hfalse. apply Z.ltb_ge in Hfalse. exact Hfalse.
    + rewrite Hline', Hline. reflexivity.
    + apply (others_quiet_step i n m); assumption.
    + exists ((if debounceDelay <? clock (inputs m') - t0 then i else -1) :: rs).
      rewrite Hres. split; [reflexivity|]. split; [exact Hev|].
      rewrite presses_cons, Hpress, Hb'.
      destruct (debounceDelay <? clock (inputs m') - t0) eqn:E1.
      * assert (Hi1 : (i =? -1) = false) by (apply Z.eqb_neq; unfold numButtons in *; lia).
        rewrite Hi1. cbn [app].
        destruct (debounceDelay <? clock (inputs (final (polls n m'))) - t0) eqn:E2;
          [reflexivity|lia].
      * reflexivity.
Qed.

(** Flicker on one line: no press is reported. *)
Lemma polls_flicker (i : Z) (readings : list Level) :
  forall (m : Machine) (run : option Z) (rest : list Level),
    0 <= i < numButtons ->
    match run with
    | None => lastButtonPressed m = -1
    | Some e =>
        lastButtonPressed m = i /\ 0 <= e
        /\ lastDebounceTime m = to_uint32 (clock (inputs m) - e)
    end ->
    line i m = readings ++ rest ->
    others_quiet i (length readings) m ->
    short_runs readings (ticksIn (inputs m)) run ->
    exists rs,
      result (polls (length readings) m) = Some rs
      /\ events (polls (length readings) m) = []
      /\ presses rs = [].
Proof.
  induction readings as [|reading readings IH];
    intros m run rest Hi Hstate Hline Hquiet Hshort.
  - exists []. repeat split; reflexivity.
  - cbn [length app] in *.
    pose proof (others_quiet_heads i _ m Hquiet) as Hheads.
    destruct reading.
    + (* the line reads LOW *)
      destruct run as [e|].
      * (* the run goes on *)
        destruct Hstate as (Hlast & He & Hstamp).
        cbn [short_runs] in Hshort. destruct Hshort as [Hle Hshort].
        destruct (poll_tracked_held i m Hi Hlast)
          as (m' & Hcheck & Hl' & Hs' & Hb' & Hc' & Ht' & Hline' & Hothers').
        { rewrite Hline. reflexivity. }
        { exact Hheads. }
        assert (Helapsed :
          to_uint32 (to_uint32 (clock (inputs (tick m))) - lastDebounceTime m)
          = e + Z.of_nat (hd 1%nat (ticksIn (inputs m)))).
        { rewrite Hstamp, clock_tick, to_uint32_diff; unfold debounceDelay in *; lia. }
        rewrite Helapsed in *.
        assert (Hnot : (debounceDelay <? e + Z.of_nat (hd 1%nat (ticksIn (inputs m))))
                       = false) by (apply Z.ltb_ge; exact Hle).
        rewrite Hnot in *. cbn [andb] in *.
        destruct (IH m' (Some (e + Z.of_nat (hd 1%nat (ticksIn (inputs m))))) rest)
          as (rs & Hres & Hev & Hpress); try assumption.
        -- split; [exact Hl'|]. split; [lia|].
           rewrite Hs', Hstamp, Hc', clock_tick. f_equal. lia.
        -- rewrite Hline', Hline. reflexivity.
        -- apply (others_quiet_step i _ m); assumption.
        -- rewrite Ht'. exact Hshort.
        -- exists (-1 :: rs). rewrite (polls_S _ m m' _ Hcheck).
           cbn [result final events fst snd]. rewrite Hres.
           split; [reflexivity|]. split; [exact Hev|].
           rewrite presses_cons, Hpress. reflexivity.
      * (* a new run starts *)
        cbn [short_runs] in Hshort. destruct Hshort as [Hle Hshort].
        destruct (poll_new_press i m Hi Hstate)
          as (m' & Hcheck & Hl' & Hs' & Hb' & Hc' & Ht' & Hline' & Hothers').
        { rewrite Hline. reflexivity. }
        { exact Hheads. }
        assert (Hstep : clock (inputs (tick (tick m)))
                        = clock (inputs (tick m))
                          + Z.of_nat (hd 1%nat (tail (ticksIn (inputs m)))))
          by reflexivity.
        assert (Helapsed :
          to_uint32 (to_uint32 (clock (inputs (tick (tick m))))
                     - to_uint32 (clock (inputs (tick m))))
          = Z.of_nat (hd 1%nat (tail (ticksIn (inputs m))))).
        { rewrite to_uint32_diff; rewrite Hstep; unfold debounceDelay in *; lia. }
        rewrite Helapsed in *.
        assert (Hnot : (debounceDelay <? Z.of_nat (hd 1%nat (tail (ticksIn (inputs m)))))
                       = false) by (apply Z.ltb_ge; exact Hle).
        rewrite Hnot in *.
        destruct (IH m' (Some (Z.of_nat (hd 1%nat (tail (ticksIn (inputs m)))))) rest)
          as (rs & Hres & Hev & Hpress); try assumption.
        -- split; [exact Hl'|]. split; [lia|].
           rewrite Hs', Hc', Hstep. f_equal. lia.
        -- rewrite Hline', Hline. reflexivity.
        -- apply (others_quiet_step i _ m); assumption.
        -- rewrite Ht'. exact Hshort.
        -- exists (-1 :: rs). rewrite (polls_S _ m m' _ Hcheck).
           cbn [result final events fst snd]. rewrite Hres.
           split; [reflexivity|]. split; [exact Hev|].
           rewrite presses_cons, Hpress. reflexivity.
    + (* the line reads HIGH *)
      cbn [short_runs] in Hshort.
      destruct (poll_released i m Hi)
        as (m' & Hcheck & Hl' & Hc' & Ht' & Hline' & Hothers').
      { destruct run as [e|]; [right; apply Hstate|left; exact Hstate]. }
      { intros k Hk. destruct (Z.eq_dec k i) as [->|Hne];
          [rewrite Hline; reflexivity|apply Hheads; assumption]. }
      destruct (IH m' None rest) as (rs & Hres & Hev & Hpress); try assumption.
      * rewrite Hline', Hline. reflexivity.
      * apply (others_quiet_step i _ m); assumption.
      * rewrite Ht'. exact Hshort.
      * exists (-1 :: rs). rewrite (polls_S _ m m' _ Hcheck).
        cbn [result final events fst snd]. rewrite Hres.
        split; [reflexivity|]. split; [exact Hev|].
        rewrite presses_cons, Hpress. reflexivity.
Qed.

End DebounceClaims.

(** C9, as stated, fails when two buttons are down together.  With
    [fob_both_inputs] A and B both read LOW at each of 40 polls, over 160
    ms; each poll finds "another" button pressed and restarts the debounce
    time, and no press is ever reported for either line. *)
Lemma two_buttons_held_report_nothing :
  let r := polls 40 (boot fob_both_inputs) in
  take 40 (line 0 (boot fob_both_inputs)) = replicate 40 LOW
  /\ take 40 (line 1 (boot fob_both_inputs)) = replicate 40 LOW
  /\ clock (inputs (final r)) - clock (inputs (boot fob_both_inputs)) = 160
  /\ result r = Some (replicate 40 (-1))
  /\ (forall rs, result r = Some rs -> presses rs = []).
Proof.
  cbv zeta. split; [reflexivity|]. split; [reflexivity|].
  split; [vm_compute; reflexivity|]. split; [vm_compute; reflexivity|].
  intros rs Hrs. vm_compute in Hrs. injection Hrs as <-. reflexivity.
Qed.

(** C9 (amended): for a key-fob line pressed while no press is being
    tracked and while the other three lines read released: if the line
    reads LOW at [n] polls in a row, the polls report exactly one press of
    that button when the time from the reading that timestamps the press
    to the last reading exceeds the debounce interval, and none otherwise
    (so none again while the button stays down); and if every run of LOW
    readings on the line is shorter than the debounce interval, the polls
    report no press at all. *)
Theorem debounce_single_line
    (i : Z) (m : Machine) (n : nat) (rest : list Level) :
  0 <= i < numButtons ->
  lastButtonPressed m = -1 ->
  (line i m = replicate n LOW ++ rest ->
   others_quiet i n m ->
   held_for m (polls n m) < 4294967296 ->
   exists rs,
     result (polls n m) = Some rs
     /\ presses rs = if debounceDelay <? held_for m (polls n m) then [i] else [])
  /\ (others_quiet i (length (line i m)) m ->
      short_runs (line i m) (ticksIn (inputs m)) None ->
      exists rs,
        result (polls (length (line i m)) m) = Some rs /\ presses rs = []).
Proof.
  intros Hi Hlast. split.
  - intros Hline Hquiet Hbound.
    destruct (polls_one_press_when_held i m n rest Hi Hlast Hline Hquiet Hbound)
      as (rs & Hres & _ & Hpress).
    exists rs. split; assumption.
  - intros Hquiet Hshort.
    destruct (polls_flicker i (line i m) m None [] Hi Hlast) as (rs & Hres & _ & Hpress).
    + rewrite app_nil_r. reflexivity.
    + exact Hquiet.
    + exact Hshort.
    + exists rs. split; assumption.
Qed.

(** Button A held for five polls is reported once; a line that flickers
    is never reported. *)
Lemma debounce_single_line_witness :
  (exists rs,
     result (polls 5 (boot fob_held_inputs)) = Some rs /\ presses rs = [0])
  /\ (exists rs,
        result (polls 5 (boot fob_flicker_inputs)) = Some rs /\ presses rs = []).
Proof.
  assert (Hquiet : forall (n : nat) (m : Machine),
             line 1 m = [] -> line 2 m = [] -> line 3 m = [] -> others_quiet 0 n m).
  { intros n m H1 H2 H3 j Hj Hne k _. unfold numButtons in Hj.
    assert (Hcases : j = 1 \/ j = 2 \/ j = 3) by lia.
    destruct Hcases as [Hj1|[Hj2|Hj3]]; subst j;
      rewrite ?H1, ?H2, ?H3; destruct k; reflexivity. }
  split.
  - destruct (debounce_single_line 0 (boot fob_held_inputs) 5 [HIGH])
      as [Hheld _]; [unfold numButtons; lia|reflexivity|].
    destruct Hheld as (rs & Hres & Hpress).
    + reflexivity.
    + apply Hquiet; reflexivity.
    + vm_compute. reflexivity.
    + exists rs. split; [exact Hres|]. rewrite Hpress. vm_compute. reflexivity.
  - destruct (debounce_single_line 0 (boot fob_flicker_inputs) 0 [])
      as [_ Hflicker]; [unfold numButtons; lia|reflexivity|].
    apply Hflicker.
    + apply Hquiet; reflexivity.
    + change (short_runs [LOW; HIGH; LOW; LOW; HIGH] [] None).
      simpl. unfold debounceDelay. lia.
Defined.

(** * More runs of the small pieces *)

Section Lookups.

Variables (m : Machine) (id : Z).

Lemma lookup_hit (t : Z) :
  first_match (dir_entries m) id = Some t ->
  findTrackNumberByFilename id m = (Some t, m, []).
Proof.
  intros H. apply findTrackNumberByFilename_found.
  rewrite findTrack_loop_first_match, drop_0. exact H.
Qed.

Lemma lookup_miss :
  first_match (dir_entries m) id = None ->
  findTrackNumberByFilename id m
  = (Some 255,
     set_currentState STATE_RESET
       (set_inputs (set_clock (clock (inputs m) + messageWait) (inputs m)) m),
     notFound_log id).
Proof.
  intros H. apply findTrackNumberByFilename_missing.
  rewrite findTrack_loop_first_match, drop_0. exact H.
Qed.

Lemma lookup_result :
  result (findTrackNumberByFilename id m) = Some (lookup_in (dir_entries m) id).
Proof.
  unfold lookup_in.
  destruct (first_match (dir_entries m) id) as [t|] eqn:H.
  - rewrite (lookup_hit t H). reflexivity.
  - rewrite (lookup_miss H). reflexivity.
Qed.

End Lookups.


Lemma sfx_reset_run (m : Machine) :
  sfx_reset m
  = (Some (hd true (resetIn (inputs m))),
     set_inputs (set_resetIn (tail (resetIn (inputs m))) (inputs m)) m,
     [EvModuleReset (hd true (resetIn (inputs m)))]).
Proof. reflexivity. Qed.

Lemma get_run (m : Machine) : get m = (Some m, m, []).
Proof. reflexivity. Qed.

Lemma ret_run {A} (a : A) (m : Machine) : ret a m = (Some a, m, []).
Proof. reflexivity. Qed.

Lemma emit_run (e : Event) (m : Machine) : emit e m = (Some tt, m, [e]).
Proof. reflexivity. Qed.

Lemma filter_commands_none (log : list Event) :
  Forall (fun e => is_module_command e = false) log ->
  List.filter is_module_command log = [].
Proof.
  induction 1 as [|e log He _ IH]; [reflexivity|].
  cbn [List.filter]. rewrite He. exact IH.
Qed.

Lemma with_scripts_same (m : Machine) :
  with_scripts (hookIn (inputs m)) (keyIn (inputs m)) (playIn (inputs m)) m = m.
Proof. destruct m as [? ? ? ? ? ? ? ? ? ? ? ? ? []]. reflexivity. Qed.

Lemma with_lines_same (m : Machine) :
  with_lines (actIn (inputs m)) (hookIn (inputs m)) m = m.
Proof. destruct m as [? ? ? ? ? ? ? ? ? ? ? ? ? []]. reflexivity. Qed.

Lemma to_uint8_idem (z : Z) : to_uint8 (to_uint8 z) = to_uint8 z.
Proof. unfold to_uint8. apply Z.mod_mod. lia. Qed.

Lemma filter_replicate_keep {A} (f : A -> bool) (a : A) (n : nat) :
  f a = true -> List.filter f (replicate n a) = replicate n a.
Proof.
  intros Ha. induction n as [|n IH]; [reflexivity|].
  cbn [replicate List.filter]. rewrite Ha, IH. reflexivity.
Qed.

Lemma filter_replicate_drop {A} (f : A -> bool) (a : A) (n : nat) :
  f a = false -> List.filter f (replicate n a) = [].
Proof.
  intros Ha. induction n as [|n IH]; [reflexivity|].
  cbn [replicate List.filter]. rewrite Ha, IH. reflexivity.
Qed.

(** Delays leave the display as it is. *)
Lemma render_delays (d : Lcd) (n : nat) (ms : Z) :
  render d (replicate n (EvDelay ms)) = d.
Proof. induction n as [|n IH]; [reflexivity|]. exact IH. Qed.

Lemma fold_delays (d : Lcd) (n : nat) (ms : Z) :
  fold_left Lcd_step (replicate n (EvDelay ms)) d = d.
Proof. apply render_delays. Qed.

(** Events that are not display commands leave the display as it is. *)
Lemma render_no_lcd (log : list Event) :
  forall d, Forall (fun e => is_lcd e = false) log -> render d log = d.
Proof.
  induction log as [|e log IH]; intros d Hall; [reflexivity|].
  inversion Hall as [|? ? He Hrest]; subst.
  change (render d (e :: log)) with (render (Lcd_step d e) log).
  rewrite (IH _ Hrest). destruct e; try discriminate He; reflexivity.
Qed.

Lemma render_app (d : Lcd) (l1 l2 : list Event) :
  render d (l1 ++ l2) = render (render d l1) l2.
Proof. apply fold_left_app. Qed.

(** A round of [loop] with a quiet head is its [switch] run after one
    reading of the clock. *)
Lemma loop_quiet_head (fuel : nat) (m : Machine) :
  quiet_head m -> loop fuel m = loop_switch fuel (tick m).
Proof.
  intros (Hstart & Hsaver & Hdue). apply Z.ltb_ge in Hdue.
  unfold loop.
  step by get_run. rewrite Hstart. cbn [negb when].
  unfold bind at 1. cbn [ret]. cbv beta iota.
  step by get_run. rewrite Hsaver. cbn [when].
  unfold bind at 1. cbn [ret]. cbv beta iota.
  step by get_run. rewrite Hsaver. cbn [negb].
  unfold bind at 1 2. rewrite millis_run. cbv beta iota.
  fold (now m). rewrite Hdue. cbn [when ret]. cbv beta iota.
  destruct (loop_switch fuel (tick m)) as [[r m'] l]. reflexivity.
Qed.

(** * The directory as a whole *)

Section WholeDirectory.

Lemma scanAudioFXStorageNew_loop_total (todo : nat) :
  forall (f : Z) (m : Machine),
    0 <= totalFiles m ->
    0 <= totalFiles (final (scanAudioFXStorageNew_loop todo f m)).
Proof.
  induction todo as [|todo IH]; intros f m Hm; [exact Hm|].
  cbn [scanAudioFXStorageNew_loop]. unfold bind at 1. cbn [get].
  destruct (MAX_TRACKS <=? totalFiles m); [exact Hm|].
  unfold bind at 1, sfx_fileName at 1. unfold bind at 1. cbn [get ret app].
  destruct (convertFilenameToInt _ =? -1).
  - rewrite (run_eta (scanAudioFXStorageNew_loop _ _ _)). cbn [final fst snd].
    apply IH. exact Hm.
  - unfold bind at 1. cbn [modify].
    rewrite (run_eta (scanAudioFXStorageNew_loop _ _ _)). cbn [final fst snd].
    apply IH. cbn. unfold to_uint8. apply Z.mod_pos_bound. lia.
Qed.

Lemma scanAudioFXStorageNew_run (m : Machine) :
  listing (inputs m) <> [] ->
  (length (listing (inputs m)) <= 255)%nat ->
  length (audioFiles m) = Z.to_nat MAX_TRACKS ->
  exists m',
    scanAudioFXStorageNew m = (Some tt, m', [EvListFiles])
    /\ dir_entries m' = kept_entries (listing (inputs m))
    /\ 0 <= totalFiles m' <= MAX_TRACKS
    /\ length (audioFiles m') = Z.to_nat MAX_TRACKS
    /\ inputs m' = inputs m
    /\ currentState m' = currentState m.
Proof.
  intros Hne Hlen Hfiles.
  assert (Hnonempty : (0 < length (listing (inputs m)))%nat).
  { destruct (listing (inputs m)); [congruence|cbn; lia]. }
  destruct (scanAudioFXStorageNew_loop_run (listing (inputs m)) [] 0
              (set_totalFiles 0 m) [])
    as (m' & Hrun & Hdir & Hl & Ht & Hi & Hs);
    try reflexivity; try assumption; try (cbn; lia).
  pose proof (scanAudioFXStorageNew_loop_total (length (listing (inputs m))) 0
                (set_totalFiles 0 m)) as Hpos.
  rewrite Hrun in Hpos. cbn [final fst snd] in Hpos.
  exists m'.
  split.
  { unfold scanAudioFXStorageNew, sfx_listFiles, bind, get, emit, ret, modify.
    rewrite to_uint8_small by lia.
    destruct (Z.of_nat (length (listing (inputs m))) =? 0) eqn:E; [lia|].
    rewrite Nat2Z.id.
    unfold bind in Hrun. rewrite Hrun. reflexivity. }
  split; [exact Hdir|]. split; [split; [apply Hpos; cbn; lia|exact Ht]|].
  split; [exact Hl|]. split; [exact Hi|exact Hs].
Qed.

End WholeDirectory.

(** X1: for a listing of 1 to 255 files, [scanAudioFXStorageNew] returns
    after asking the module for its listing once; the directory then holds
    exactly the first [MAX_TRACKS] (30) files whose name carries an id, in
    listing order, each with its listing position as slot; the count stays
    within 0..30, the table keeps its 30 cells, and the call phase is not
    touched.  Files past the capacity are dropped without any message. *)
Theorem scanAudioFXStorageNew_keeps_first_entries (m : Machine) :
  listing (inputs m) <> [] ->
  (length (listing (inputs m)) <= 255)%nat ->
  length (audioFiles m) = Z.to_nat MAX_TRACKS ->
  let r := scanAudioFXStorageNew m in
  result r = Some tt
  /\ events r = [EvListFiles]
  /\ dir_entries (final r) = kept_entries (listing (inputs m))
  /\ 0 <= totalFiles (final r) <= MAX_TRACKS
  /\ length (audioFiles (final r)) = Z.to_nat MAX_TRACKS
  /\ currentState (final r) = currentState m.
Proof.
  intros Hne Hlen Hfiles r. subst r.
  destruct (scanAudioFXStorageNew_run m Hne Hlen Hfiles)
    as (m' & -> & Hdir & Htotal & Hcells & _ & Hstate).
  cbn [result final events fst snd]. auto 10.
Qed.

(** On [crowded_inputs] the 31 files all carry an id; 30 are kept. *)
Lemma scanAudioFXStorageNew_keeps_first_entries_witness :
  let r := scanAudioFXStorageNew (boot crowded_inputs) in
  length (directory_from 0 (listing crowded_inputs)) = 31%nat
  /\ result r = Some tt
  /\ events r = [EvListFiles]
  /\ dir_entries (final r) = kept_entries (listing crowded_inputs)
  /\ 0 <= totalFiles (final r) <= MAX_TRACKS
  /\ length (audioFiles (final r)) = Z.to_nat MAX_TRACKS
  /\ currentState (final r) = STATE_IDLE.
Proof.
  cbv zeta. split; [vm_compute; reflexivity|].
  apply (scanAudioFXStorageNew_keeps_first_entries (boot crowded_inputs)).
  - discriminate.
  - vm_compute. lia.
  - reflexivity.
Defined.

(** X2: after the directory is built from a listing of 1 to 255 files, a
    lookup of any id returns the slot of the first file among the 30 kept
    that carries the id, and 255 when none does; a lookup that succeeds
    changes nothing and emits nothing. *)
Theorem lookup_after_build (m : Machine) (id : Z) :
  listing (inputs m) <> [] ->
  (length (listing (inputs m)) <= 255)%nat ->
  length (audioFiles m) = Z.to_nat MAX_TRACKS ->
  let built := final (scanAudioFXStorageNew m) in
  let r := findTrackNumberByFilename id built in
  result r = Some (lookup_in (kept_entries (listing (inputs m))) id)
  /\ (first_match (kept_entries (listing (inputs m))) id <> None ->
      final r = built /\ events r = [])
  /\ (first_match (kept_entries (listing (inputs m))) id = None ->
      currentState (final r) = STATE_RESET /\ events r = notFound_log id).
Proof.
  intros Hne Hlen Hfiles built r. subst r built.
  destruct (scanAudioFXStorageNew_run m Hne Hlen Hfiles)
    as (m' & -> & Hdir & _). cbn [final fst snd].
  pose proof (findTrack_loop_first_match (Z.to_nat (totalFiles m')) 0 (audioFiles m') id)
    as Hloop.
  rewrite drop_0 in Hloop. fold (dir_entries m') in Hloop. rewrite Hdir in Hloop.
  unfold lookup_in.
  destruct (first_match (kept_entries (listing (inputs m))) id) as [t|] eqn:Hmatch.
  - rewrite (findTrackNumberByFilename_found id t m' Hloop).
    split; [reflexivity|]. split; [intros _; split; reflexivity|discriminate].
  - rewrite (findTrackNumberByFilename_missing id m' Hloop).
    split; [reflexivity|]. split; [congruence|intros _; split; reflexivity].
Qed.

(** On [crowded_inputs] the file "30.OGG" is found in slot 29 and the file
    "31.OGG", listed last, is not found. *)
Lemma lookup_after_build_witness :
  let built := final (scanAudioFXStorageNew (boot crowded_inputs)) in
  listing crowded_inputs !! 30%nat = Some "31.OGG"%string
  /\ result (findTrackNumberByFilename 30 built) = Some 29
  /\ final (findTrackNumberByFilename 30 built) = built
  /\ result (findTrackNumberByFilename 31 built) = Some 255
  /\ currentState (final (findTrackNumberByFilename 31 built)) = STATE_RESET.
Proof.
  cbv zeta. split; [vm_compute; reflexivity|].
  destruct (lookup_after_build (boot crowded_inputs) 30) as (H1 & H2 & _);
    [discriminate|vm_compute; lia|reflexivity|].
  destruct (lookup_after_build (boot crowded_inputs) 31) as (H3 & _ & H4);
    [discriminate|vm_compute; lia|reflexivity|].
  cbv zeta in *.
  split; [rewrite H1; vm_compute; reflexivity|].
  split; [apply H2; vm_compute; discriminate|].
  split; [rewrite H3; vm_compute; reflexivity|].
  apply H4. vm_compute. reflexivity.
Defined.

(** X3: when the module lists files but no name carries a digit, the build
    ends with an empty directory and shows nothing: no error message, no
    change of phase.  (The error message is shown only when the module
    lists no file at all.) *)
Theorem scanAudioFXStorageNew_unnumbered_files (m : Machine) :
  listing (inputs m) <> [] ->
  (length (listing (inputs m)) <= 255)%nat ->
  length (audioFiles m) = Z.to_nat MAX_TRACKS ->
  Forall (fun name => first_digit_run name = []) (listing (inputs m)) ->
  let r := scanAudioFXStorageNew m in
  result r = Some tt
  /\ totalFiles (final r) = 0
  /\ events r = [EvListFiles]
  /\ currentState (final r) = currentState m
  /\ (forall id, result (findTrackNumberByFilename id (final r)) = Some 255).
Proof.
  intros Hne Hlen Hfiles Hnames r. subst r.
  destruct (scanAudioFXStorageNew_run m Hne Hlen Hfiles)
    as (m' & -> & Hdir & Htotal & Hcells & _ & Hstate).
  cbn [result final events fst snd].
  assert (Hnone : forall k names,
             Forall (fun name => first_digit_run name = []) names ->
             directory_from k names = []).
  { intros k names. revert k. induction names as [|name names IH]; intros k Hall;
      [reflexivity|].
    inversion Hall as [|? ? Hname Hrest]; subst. cbn [directory_from]. cbv zeta.
    rewrite convertFilenameToInt_spec, Hname. cbn [take]. cbn. apply IH. exact Hrest. }
  unfold kept_entries in Hdir. rewrite (Hnone _ _ Hnames), take_nil in Hdir.
  assert (Hzero : totalFiles m' = 0).
  { unfold dir_entries in Hdir.
    apply (f_equal length) in Hdir. rewrite length_take in Hdir. cbn [length] in Hdir.
    assert (Z.to_nat MAX_TRACKS = 30%nat) by reflexivity. lia. }
  split; [reflexivity|]. split; [exact Hzero|]. split; [reflexivity|].
  split; [exact Hstate|].
  intros id.
  rewrite (findTrackNumberByFilename_missing id m'); [reflexivity|].
  rewrite Hzero. reflexivity.
Qed.

Lemma scanAudioFXStorageNew_unnumbered_files_witness :
  let r := scanAudioFXStorageNew (boot unnumbered_inputs) in
  result r = Some tt
  /\ totalFiles (final r) = 0
  /\ events r = [EvListFiles]
  /\ currentState (final r) = STATE_IDLE
  /\ (forall id, result (findTrackNumberByFilename id (final r)) = Some 255).
Proof.
  apply (scanAudioFXStorageNew_unnumbered_files (boot unnumbered_inputs)).
  - discriminate.
  - vm_compute. lia.
  - reflexivity.
  - repeat constructor.
Defined.

(** * Keypad entry: [GetKeyPadNumber] *)

Section KeypadEntryRuns.

Variables (fuel : nat) (tempIndex : Z).



(** One round of the entry loop when the handset is found replaced. *)
Lemma GetKeyPadNumber_entry_hang_up (e : KeypadEntry) (m : Machine) :
  KeyPadCount e < 5 ->
  hd HIGH (hookIn (inputs m)) = HIGH ->
  GetKeyPadNumber_entry (S fuel) tempIndex e m
  = (Some None,
     set_currentState STATE_RESET
       (set_inputs (set_hookIn (tail (hookIn (inputs m))) (inputs m)) m),
     []).
Proof.
  intros Hcount Hhook.
  cbn [GetKeyPadNumber_entry].
  assert (Hlt : (KeyPadCount e <? 5) = true) by (apply Z.ltb_lt; exact Hcount).
  rewrite Hlt.
  step by isReceiverHookOff_run. rewrite Hhook. cbn [is_low negb].
  step by modify_run. reflexivity.
Qed.

End KeypadEntryRuns.

Section DialledNumber.





End DialledNumber.

Section WholeEntry.

(** [GetKeyPadNumber] around its entry loop: the lookup of the key click
    comes first and does not read the scripts; what follows the loop
    depends on how the loop ended. *)
Lemma GetKeyPadNumber_run (fuel : nat) (m : Machine) :
  exists (m0 : Machine) (pre : list Event),
    dir_entries m0 = dir_entries m
    /\ Forall (fun e => is_module_command e = false) pre
    /\ forall (h : list Level) (k : list ascii) (p : list bool),
         let entry :=
           GetKeyPadNumber_entry fuel (click_slot m) KeypadEntry_init
             (with_scripts h k p m0) in
         GetKeyPadNumber fuel (with_scripts h k p m)
         = match result entry with
           | Some (Some number) =>
               let dial := GetKeyPadNumber_dial fuel number (final entry) in
               (result dial, final dial, pre ++ events entry ++ events dial)
           | Some None => (Some 255, final entry, pre ++ events entry)
           | None => (None, final entry, pre ++ events entry)
           end.
Proof.
  unfold click_slot, lookup_in.
  destruct (first_match (dir_entries m) buttonPress) as [n|] eqn:Hclick.
  - exists m.
    exists ([EvLcdSetCursor 0 0; EvLcdPrint "                "; EvLcdSetCursor 0 0;
             EvLcdPrint (strlcpy 16 entryMessage1)]
            ++ [EvLcdSetCursor 0 1; EvLcdPrint "                "; EvLcdSetCursor 5 1;
             EvLcdPrint (string_of_list_ascii (displayBuffer KeypadEntry_init))]).
    split; [reflexivity|]. split; [repeat constructor|].
    intros h k p.
    unfold GetKeyPadNumber.
    step by displayLCDTopMessage_P_run.
    step by (lookup_hit (with_scripts h k p m) buttonPress n Hclick).
    unfold lcdClearLine, lcd_setCursor, lcd_print, emit.
    do 4 (unfold bind at 1; cbv beta iota).
    unfold bind at 1.
    destruct (GetKeyPadNumber_entry fuel _ KeypadEntry_init _) as [[[[number|]|] m1] l1];
      cbn [result final events fst snd ret];
      cbv beta iota zeta; cbn [app]; rewrite ?app_nil_r; try reflexivity.
    destruct (GetKeyPadNumber_dial fuel number m1) as [[r2 m2] l2].
    cbn [result final events fst snd app]. reflexivity.
  - exists (set_currentState STATE_RESET
              (set_inputs (set_clock (clock (inputs m) + messageWait) (inputs m)) m)).
    exists ([EvLcdSetCursor 0 0; EvLcdPrint "                "; EvLcdSetCursor 0 0;
             EvLcdPrint (strlcpy 16 entryMessage1)]
            ++ notFound_log buttonPress
            ++ [EvLcdSetCursor 0 1; EvLcdPrint "                "; EvLcdSetCursor 5 1;
             EvLcdPrint (string_of_list_ascii (displayBuffer KeypadEntry_init))]).
    split; [reflexivity|]. split; [repeat constructor|].
    intros h k p.
    unfold GetKeyPadNumber.
    step by displayLCDTopMessage_P_run.
    step by (lookup_miss (with_scripts h k p m) buttonPress Hclick).
    unfold lcdClearLine, lcd_setCursor, lcd_print, emit.
    do 4 (unfold bind at 1; cbv beta iota).
    unfold bind at 1.
    match goal with
    | |- context [GetKeyPadNumber_entry fuel _ KeypadEntry_init ?x] =>
        change x with
          (with_scripts h k p
             (set_currentState STATE_RESET
                (set_inputs (set_clock (clock (inputs m) + messageWait) (inputs m)) m)))
    end.
    change (to_uint8 255) with 255 in *.
    destruct (GetKeyPadNumber_entry fuel _ KeypadEntry_init _) as [[[[number|]|] m1] l1];
      cbn [result final events fst snd ret];
      cbv beta iota zeta; cbn [app]; rewrite ?app_nil_r; try reflexivity.
    destruct (GetKeyPadNumber_dial fuel number m1) as [[r2 m2] l2].
    cbn [result final events fst snd app]. reflexivity.
Qed.

End WholeEntry.






(** X6: a round of [loop] in the keypad-entry phase, with nothing to do
    before the [switch] (start-up message shown, screensaver off and not
    due), in which the hook reads on-hook at the test the entry loop makes
    before it reads a key.  The round ends in [STATE_RESET] with no track
    selected; the hook is read once, no key is read and nothing is sent to
    the sound module (the dial tone is not stopped in this round).  The
    same test ends the entry loop at any later point of entry, whatever
    was typed. *)
Theorem keypad_hang_up_resets (fuel : nat) (m : Machine) :
  currentState m = STATE_KEYPAD_ENTRY ->
  quiet_head m ->
  hd HIGH (hookIn (inputs m)) = HIGH ->
  let r := loop (S fuel) m in
  (result r = Some tt
   /\ currentState (final r) = STATE_RESET
   /\ loop_trackNum (final r) = 255
   /\ hookIn (inputs (final r)) = tail (hookIn (inputs m))
   /\ keyIn (inputs (final r)) = keyIn (inputs m)
   /\ List.filter is_module_command (events r) = [])
  /\ (forall (t : Z) (e : KeypadEntry),
        KeyPadCount e < 5 ->
        result (GetKeyPadNumber_entry (S fuel) t e m) = Some None
        /\ currentState (final (GetKeyPadNumber_entry (S fuel) t e m)) = STATE_RESET
        /\ events (GetKeyPadNumber_entry (S fuel) t e m) = []).
Proof.
  intros Hstate Hquiet Hhook r. subst r.
  split.
  - rewrite loop_quiet_head by exact Hquiet.
    destruct (GetKeyPadNumber_run (S fuel) (tick m)) as (m0 & pre & Hdir & Hpre & Hrun).
    specialize (Hrun (hookIn (inputs m)) (keyIn (inputs m)) (playIn (inputs m))).
    change (with_scripts (hookIn (inputs m)) (keyIn (inputs m)) (playIn (inputs m)) (tick m))
      with (with_scripts (hookIn (inputs (tick m))) (keyIn (inputs (tick m)))
              (playIn (inputs (tick m))) (tick m)) in Hrun.
    rewrite with_scripts_same in Hrun. cbv zeta in Hrun.
    rewrite GetKeyPadNumber_entry_hang_up in Hrun by (cbn; (lia || exact Hhook)).
    cbn [result final events fst snd] in Hrun.
    assert (Hloop : exists m',
              loop_STATE_KEYPAD_ENTRY (S fuel) (tick m)
              = (Some tt, m', pre ++ [])
              /\ currentState m' = STATE_RESET
              /\ loop_trackNum m' = 255
              /\ hookIn (inputs m') = tail (hookIn (inputs m))
              /\ keyIn (inputs m') = keyIn (inputs m)).
    { unfold loop_STATE_KEYPAD_ENTRY.
      step by Hrun. step by modify_run. change (255 =? 255) with true. cbv iota.
      rewrite modify_run. cbn [app]. rewrite ?app_nil_r.
      eexists. split; [reflexivity|]. repeat split; reflexivity. }
    destruct Hloop as (m' & Hloop & H1 & H2 & H3 & H4).
    rewrite loop_switch_run.
    change (currentState (tick m)) with (currentState m).
    rewrite Hstate, Hloop. cbn [result final events fst snd].
    rewrite app_nil_r, (filter_commands_none pre Hpre).
    repeat split; assumption.
  - intros t e Hcount.
    rewrite (GetKeyPadNumber_entry_hang_up fuel t e m Hcount Hhook).
    repeat split; reflexivity.
Qed.

(** On [keypad_round_machine] the hook script is empty: the handset is on
    the hook. *)
Lemma keypad_hang_up_resets_witness :
  let r := loop 1 keypad_round_machine in
  result r = Some tt
  /\ currentState (final r) = STATE_RESET
  /\ loop_trackNum (final r) = 255
  /\ List.filter is_module_command (events r) = [].
Proof.
  cbv zeta.
  assert (Hquiet : quiet_head keypad_round_machine).
  { split; [reflexivity|]. split; [reflexivity|]. vm_compute. discriminate. }
  destruct (keypad_hang_up_resets 0 keypad_round_machine eq_refl Hquiet eq_refl)
    as ((H1 & H2 & H3 & _ & _ & H6) & _).
  repeat split; assumption.
Defined.

(** X7: when the number dialled has no directory entry (and the
    call-finished sound has one), the end of [GetKeyPadNumber] returns 255
    with the phase [STATE_RESET] once the handset is found replaced.  The
    failed lookup shows "Number Not Found" for a second; then the module is
    sent a stop followed at once by the play of the call-finished sound,
    and the display is left on "Invalid Number" over "Replace Handset". *)
Theorem dialled_number_without_recording
    (fuel : nat) (number : list ascii) (m : Machine) (j : Z) (d : Lcd) :
  first_match (dir_entries m)
    (convertFilenameToInt (Some (string_of_list_ascii number))) = None ->
  first_match (dir_entries m) callFinished = Some j ->
  hd HIGH (hookIn (inputs m)) = HIGH ->
  let r := GetKeyPadNumber_dial (S fuel) number m in
  result r = Some 255
  /\ currentState (final r) = STATE_RESET
  /\ dir_entries (final r) = dir_entries m
  /\ List.filter is_module_command (events r)
     = [EvStop; EvPlay (to_uint8 j) (hd true (playIn (inputs m)))]
  /\ firstn 7 (events r)
     = EvDelay sfxDelay
       :: notFound_log (convertFilenameToInt (Some (string_of_list_ascii number)))
  /\ shown (render d (events r))
     = (" Invalid Number "%string, "Replace Handset "%string).
Proof.
  intros Hmiss Hfinished Hhook r. subst r.
  assert (Hrun : exists m' log,
            GetKeyPadNumber_dial (S fuel) number m = (Some 255, m', log)
            /\ currentState m' = STATE_RESET
            /\ dir_entries m' = dir_entries m
            /\ List.filter is_module_command log
               = [EvStop; EvPlay (to_uint8 j) (hd true (playIn (inputs m)))]
            /\ firstn 7 log
               = EvDelay sfxDelay
                 :: notFound_log
                      (convertFilenameToInt (Some (string_of_list_ascii number)))
            /\ shown (render d log)
               = (" Invalid Number "%string, "Replace Handset "%string)).
  { unfold GetKeyPadNumber_dial.
    step by delay_run.
    set (m1 := set_inputs _ m).
    step by (lookup_miss m1 _ Hmiss).
    change (to_uint8 255 =? 255) with true. cbv iota.
    step by sfx_stop_run.
    set (m2 := set_currentState STATE_RESET _).
    step by (lookup_hit m2 callFinished j Hfinished).
    step by triggerSoundUART_run.
    step by delay_run.
    step by StillLCD_P_run.
    cbn [GetKeyPadNumber_invalid_wait].
    unfold bind at 1 2. rewrite isReceiverHookOff_run.
    cbn [inputs set_inputs set_clock set_playIn hookIn m1 m2 set_currentState].
    rewrite Hhook. cbn [is_low]. cbv beta iota.
    cbn [ret]. cbv beta iota.
    step by modify_run. cbn [ret]. cbv beta iota.
    do 2 eexists. split; [reflexivity|].
    split; [reflexivity|]. split; [reflexivity|].
    split; [reflexivity|]. split; [reflexivity|].
    vm_compute. reflexivity. }
  destruct Hrun as (m' & log & -> & H1 & H2 & H3 & H4 & H5).
  cbn [result final events fst snd]. auto 10.
Qed.

(** Dialling 99999 on [keypad_machine]: no such file; the call-finished
    sound is in slot 3. *)
Lemma dialled_number_without_recording_witness :
  let r := GetKeyPadNumber_dial 1 (list_ascii_of_string "99999") keypad_machine in
  result r = Some 255
  /\ currentState (final r) = STATE_RESET
  /\ List.filter is_module_command (events r) = [EvStop; EvPlay 3 true]
  /\ shown (render Lcd_blank (events r))
     = (" Invalid Number "%string, "Replace Handset "%string).
Proof.
  cbv zeta.
  destruct (dialled_number_without_recording 0 (list_ascii_of_string "99999")
              keypad_machine 3 Lcd_blank)
    as (H1 & H2 & _ & H4 & _ & H6).
  - vm_compute. reflexivity.
  - vm_compute. reflexivity.
  - reflexivity.
  - repeat split; assumption.
Defined.

(** * Monitoring a call: [checkForHangupOrEnd] and [dialingPhone] *)

Section Monitor.

(** While the track plays and the handset is up the loop goes round and
    sends nothing. *)
Lemma checkForHangupOrEnd_playing (k : nat) :
  forall (fuel : nat) (acts hooks : list Level) (m : Machine),
    checkForHangupOrEnd (k + fuel)
      (with_lines (replicate k LOW ++ acts) (replicate k LOW ++ hooks) m)
    = checkForHangupOrEnd fuel (with_lines acts hooks m).
Proof.
  induction k as [|k IH]; intros fuel acts hooks m; [reflexivity|].
  change (S k + fuel)%nat with (S (k + fuel)).
  cbn [checkForHangupOrEnd replicate app].
  unfold bind at 1. rewrite stillPlaying_run.
  cbn [with_lines inputs set_inputs set_actIn actIn hd is_low]. cbv beta iota.
  unfold bind at 1. rewrite isReceiverHookOff_run.
  cbn [inputs set_inputs set_actIn set_hookIn hookIn hd is_low negb]. cbv beta iota.
  rewrite <- (IH fuel acts hooks m).
  destruct (checkForHangupOrEnd (k + fuel) _) as [[r m'] l]. reflexivity.
Qed.

(** The same runs, for a machine whose scripts start as required and a
    budget that covers the polls. *)
Lemma checkForHangupOrEnd_track_ends
    (k fuel : nat) (acts hooks : list Level) (m : Machine) :
  (k < fuel)%nat ->
  actIn (inputs m) = replicate k LOW ++ HIGH :: acts ->
  hookIn (inputs m) = replicate k LOW ++ hooks ->
  checkForHangupOrEnd fuel m = (Some tt, with_lines acts hooks m, []).
Proof.
  intros Hfuel Hact Hhook.
  replace fuel with (k + S (fuel - k - 1))%nat by lia.
  rewrite <- (with_lines_same m) at 1. rewrite Hact, Hhook.
  rewrite checkForHangupOrEnd_playing. reflexivity.
Qed.

Lemma checkForHangupOrEnd_handset_replaced
    (k fuel : nat) (acts hooks : list Level) (m : Machine) :
  (k < fuel)%nat ->
  actIn (inputs m) = replicate k LOW ++ LOW :: acts ->
  hookIn (inputs m) = replicate k LOW ++ HIGH :: hooks ->
  checkForHangupOrEnd fuel m
  = (Some tt, set_currentState STATE_RESET (with_lines acts hooks m), [EvStop]).
Proof.
  intros Hfuel Hact Hhook.
  replace fuel with (k + S (fuel - k - 1))%nat by lia.
  rewrite <- (with_lines_same m) at 1. rewrite Hact, Hhook.
  rewrite checkForHangupOrEnd_playing. reflexivity.
Qed.

(** The two ways out of the loop, after [k] polls with the track playing
    and the handset up. *)
Lemma checkForHangupOrEnd_polls
    (k fuel : nat) (acts hooks : list Level) (m : Machine) :
  checkForHangupOrEnd (k + S fuel)
    (with_lines (replicate k LOW ++ HIGH :: acts) (replicate k LOW ++ hooks) m)
  = (Some tt, with_lines acts hooks m, [])
  /\ checkForHangupOrEnd (k + S fuel)
       (with_lines (replicate k LOW ++ LOW :: acts) (replicate k LOW ++ HIGH :: hooks) m)
     = (Some tt, set_currentState STATE_RESET (with_lines acts hooks m), [EvStop]).
Proof. split; rewrite checkForHangupOrEnd_playing; reflexivity. Qed.

End Monitor.

(** X8: [checkForHangupOrEnd] polls the activity line and, while it reads
    "playing", the hook.  After [k] rounds with the track playing and the
    handset up: when the next read of the activity line says the track
    ended, it returns with nothing sent and the phase untouched; when the
    track still plays and the hook reads on-hook, it sends one stop, sets
    [STATE_RESET] and returns.  There is no time-out: as long as both lines
    keep reading "playing" and "off-hook" it does not return. *)
Theorem checkForHangupOrEnd_outcomes
    (k fuel : nat) (acts hooks : list Level) (m : Machine) :
  checkForHangupOrEnd (k + S fuel)
    (with_lines (replicate k LOW ++ HIGH :: acts) (replicate k LOW ++ hooks) m)
  = (Some tt, with_lines acts hooks m, [])
  /\ checkForHangupOrEnd (k + S fuel)
       (with_lines (replicate k LOW ++ LOW :: acts) (replicate k LOW ++ HIGH :: hooks) m)
     = (Some tt, set_currentState STATE_RESET (with_lines acts hooks m), [EvStop])
  /\ result
       (checkForHangupOrEnd k
          (with_lines (replicate k LOW ++ acts) (replicate k LOW ++ hooks) m))
     = None.
Proof.
  split; [|split].
  - rewrite checkForHangupOrEnd_playing. reflexivity.
  - rewrite checkForHangupOrEnd_playing. reflexivity.
  - rewrite <- (Nat.add_0_r k) at 1. rewrite checkForHangupOrEnd_playing. reflexivity.
Qed.

Section OutboundCall.

Variable tempNum : Z.

(** The ringback burst and the start of the recording read neither the
    activity line nor the hook. *)
Lemma dialingPhone_connect_lines (m : Machine) :
  exists (m1 : Machine) (log : list Event),
    (forall acts hooks,
        dialingPhone_connect tempNum (with_lines acts hooks m)
        = (Some tt, with_lines acts hooks m1, log))
    /\ dir_entries m1 = dir_entries m
    /\ playIn (inputs m1) = tail (tail (playIn (inputs m)))
    /\ List.filter is_module_command log
       = [EvStop; EvPlay (ring_slot m) (hd true (playIn (inputs m)));
          EvStop; EvPlay (to_uint8 tempNum) (hd true (tail (playIn (inputs m))))].
Proof.
  unfold ring_slot, lookup_in.
  destruct (first_match (dir_entries m) ringingTone) as [n|] eqn:Hring.
  - exists (set_inputs
              (set_playIn (tail (tail (playIn (inputs m))))
                 (set_clock (clock (inputs m) + sfxDelay + RingDelay + sfxDelay + sfxDelay)
                    (inputs m))) m).
    eexists. split; [|split; [|split]].
    + intros acts hooks. unfold dialingPhone_connect.
      step by displayLCDTopMessage_P_run.
      step by (lookup_hit (with_lines acts hooks m) ringingTone n Hring).
      step by sfx_stop_run. step by delay_run. step by triggerSoundUART_run.
      step by delay_run. step by sfx_stop_run. step by delay_run.
      step by displayLCDTopMessage_P_run. step by triggerSoundUART_run.
      rewrite delay_run. cbn [app with_lines inputs set_inputs set_clock set_playIn
        set_actIn set_hookIn clock playIn actIn hookIn ticksIn fobIn keyIn resetIn listing].
      reflexivity.
    + reflexivity.
    + reflexivity.
    + reflexivity.
  - exists (set_currentState STATE_RESET
              (set_inputs
                 (set_playIn (tail (tail (playIn (inputs m))))
                    (set_clock
                       (clock (inputs m) + messageWait + sfxDelay + RingDelay + sfxDelay
                        + sfxDelay)
                       (inputs m))) m)).
    eexists. split; [|split; [|split]].
    + intros acts hooks. unfold dialingPhone_connect.
      step by displayLCDTopMessage_P_run.
      step by (lookup_miss (with_lines acts hooks m) ringingTone Hring).
      step by sfx_stop_run. step by delay_run. step by triggerSoundUART_run.
      step by delay_run. step by sfx_stop_run. step by delay_run.
      step by displayLCDTopMessage_P_run. step by triggerSoundUART_run.
      rewrite delay_run. cbn [app with_lines inputs set_inputs set_clock set_playIn
        set_actIn set_hookIn clock playIn actIn hookIn ticksIn fobIn keyIn resetIn listing
        set_currentState].
      reflexivity.
    + reflexivity.
    + reflexivity.
    + reflexivity.
Qed.

End OutboundCall.

(** Uses the run of a lookup that succeeds, on whatever machine the goal
    has reached. *)
Ltac step_lookup_hit id j H :=
  unfold bind at 1;
  match goal with
  | |- context [findTrackNumberByFilename id ?x] => rewrite (lookup_hit x id j H)
  end;
  cbv beta iota.

(** X9: an outbound call that plays to its end.  The handset is up at the
    check on entry, the track plays through [k] polls with the handset up
    and then ends, the handset is still up at the next check and is
    replaced after that: [dialingPhone] returns in [STATE_RESET]; the
    module is sent, in this order, stop, ringback, stop, the recording,
    the call-finished sound and a final stop; the display ends on "Call
    Complete" over "Replace Handset". *)
Theorem outbound_call_plays_to_end
    (tempNum : Z) (k fuel : nat) (acts hooks : list Level) (m : Machine) (j : Z)
    (d : Lcd) :
  first_match (dir_entries m) callFinished = Some j ->
  let r :=
    dialingPhone (k + S fuel) tempNum
      (with_lines (replicate k LOW ++ HIGH :: acts)
         (LOW :: replicate k LOW ++ LOW :: HIGH :: hooks) m) in
  result r = Some tt
  /\ currentState (final r) = STATE_RESET
  /\ actIn (inputs (final r)) = acts
  /\ hookIn (inputs (final r)) = hooks
  /\ List.filter is_module_command (events r)
     = [EvStop; EvPlay (ring_slot m) (hd true (playIn (inputs m)));
        EvStop; EvPlay (to_uint8 tempNum) (hd true (tail (playIn (inputs m))));
        EvPlay (to_uint8 j) (hd true (tail (tail (playIn (inputs m)))));
        EvStop]
  /\ shown (render d (events r)) = ("  Call Complete "%string, "Replace Handset "%string).
Proof.
  intros Hj r. subst r.
  destruct (dialingPhone_connect_lines tempNum m) as (m1 & log & Hconnect & Hdir & Hplay & Hlog).
  assert (Hj1 : first_match (dir_entries m1) callFinished = Some j)
    by (rewrite Hdir; exact Hj).
  destruct (checkForHangupOrEnd_polls k fuel acts (LOW :: HIGH :: hooks) m1)
    as (Hend & _).
  assert (HF : (k + S fuel)%nat = S (k + fuel)) by lia.
  assert (Hrun : exists m' tail_log,
            dialingPhone (k + S fuel) tempNum
              (with_lines (replicate k LOW ++ HIGH :: acts)
                 (LOW :: replicate k LOW ++ LOW :: HIGH :: hooks) m)
            = (Some tt, m', log ++ tail_log)
            /\ currentState m' = STATE_RESET
            /\ actIn (inputs m') = acts
            /\ hookIn (inputs m') = hooks
            /\ List.filter is_module_command tail_log
               = [EvPlay (to_uint8 j) (hd true (playIn (inputs m1))); EvStop]
            /\ (forall d0, shown (render d0 tail_log)
                = ("  Call Complete "%string, "Replace Handset "%string))).
  { unfold dialingPhone.
    step by isReceiverHookOff_run.
    cbn [with_lines inputs set_inputs set_actIn set_hookIn hookIn hd is_low negb].
    unfold bind at 1.
    match goal with
    | |- context [dialingPhone_connect tempNum ?x] =>
        change x with
          (with_lines (replicate k LOW ++ HIGH :: acts)
             (replicate k LOW ++ LOW :: HIGH :: hooks) m)
    end.
    rewrite Hconnect. cbv beta iota. step by Hend.
    step by isReceiverHookOff_run.
    cbn [with_lines inputs set_inputs set_actIn set_hookIn hookIn hd is_low negb].
    step_lookup_hit callFinished j Hj1.
    step by triggerSoundUART_run. step by StillLCD_P_run.
    rewrite HF. cbn [dialingPhone_wait].
    unfold bind at 1 2. rewrite isReceiverHookOff_run.
    cbn [with_lines inputs set_inputs set_actIn set_hookIn set_playIn hookIn tail hd
      is_low].
    cbv beta iota. cbn [ret]. cbv beta iota.
    step by delay_run. step by sfx_stop_run. rewrite modify_run.
    do 2 eexists. split; [reflexivity|].
    split; [reflexivity|]. split; [reflexivity|]. split; [reflexivity|].
    split; [reflexivity|]. intros d0. vm_compute. reflexivity. }
  destruct Hrun as (m' & tail_log & -> & H1 & H2 & H3 & H4 & H5).
  cbn [result final events fst snd].
  split; [reflexivity|]. split; [exact H1|]. split; [exact H2|]. split; [exact H3|].
  split.
  - rewrite List.filter_app, Hlog, H4, Hplay. reflexivity.
  - unfold render. rewrite fold_left_app. apply H5.
Qed.

(** On [demo_machine], calling slot 5: the track plays through two polls. *)
Lemma outbound_call_plays_to_end_witness :
  let r :=
    dialingPhone 3 5
      (with_lines [LOW; LOW; HIGH] [LOW; LOW; LOW; LOW; HIGH] demo_machine) in
  result r = Some tt
  /\ currentState (final r) = STATE_RESET
  /\ List.filter is_module_command (events r)
     = [EvStop; EvPlay 2 true; EvStop; EvPlay 5 true; EvPlay 3 true; EvStop]
  /\ shown (render Lcd_blank (events r))
     = ("  Call Complete "%string, "Replace Handset "%string).
Proof.
  cbv zeta.
  assert (Hj : first_match (dir_entries demo_machine) callFinished = Some 3)
    by (vm_compute; reflexivity).
  destruct (outbound_call_plays_to_end 5 2 0 [] [] demo_machine 3 Lcd_blank Hj)
    as (H1 & H2 & _ & _ & H5 & H6).
  split; [exact H1|]. split; [exact H2|]. split; [|exact H6].
  etransitivity; [exact H5|]. vm_compute. reflexivity.
Defined.

(** X10: an outbound call that is hung up while the track plays.  The
    track plays through [k] polls with the handset up; at the next poll the
    hook reads on-hook, and on-hook again at the check that follows:
    [dialingPhone] returns in [STATE_RESET]; after the recording was
    started the module is sent two stops and nothing else, so the
    call-finished sound is neither looked up nor played. *)
Theorem outbound_call_hung_up_during_playback
    (tempNum : Z) (k fuel : nat) (acts hooks : list Level) (m : Machine) :
  let r :=
    dialingPhone (k + S fuel) tempNum
      (with_lines (replicate k LOW ++ LOW :: acts)
         (LOW :: replicate k LOW ++ HIGH :: HIGH :: hooks) m) in
  let connect :=
    dialingPhone_connect tempNum
      (with_lines (replicate k LOW ++ LOW :: acts)
         (replicate k LOW ++ HIGH :: HIGH :: hooks) m) in
  result r = Some tt
  /\ currentState (final r) = STATE_RESET
  /\ actIn (inputs (final r)) = acts
  /\ hookIn (inputs (final r)) = hooks
  /\ events r = events connect ++ [EvStop; EvStop]
  /\ List.filter is_module_command (events r)
     = [EvStop; EvPlay (ring_slot m) (hd true (playIn (inputs m)));
        EvStop; EvPlay (to_uint8 tempNum) (hd true (tail (playIn (inputs m))));
        EvStop; EvStop].
Proof.
  intros r connect. subst r connect.
  destruct (dialingPhone_connect_lines tempNum m) as (m1 & log & Hconnect & Hdir & Hplay & Hlog).
  destruct (checkForHangupOrEnd_polls k fuel acts (HIGH :: hooks) m1)
    as (_ & Hhang).
  assert (Hrun : exists m',
            dialingPhone (k + S fuel) tempNum
              (with_lines (replicate k LOW ++ LOW :: acts)
                 (LOW :: replicate k LOW ++ HIGH :: HIGH :: hooks) m)
            = (Some tt, m', log ++ [EvStop; EvStop])
            /\ currentState m' = STATE_RESET
            /\ actIn (inputs m') = acts
            /\ hookIn (inputs m') = hooks).
  { unfold dialingPhone.
    step by isReceiverHookOff_run.
    cbn [with_lines inputs set_inputs set_actIn set_hookIn hookIn hd is_low negb].
    unfold bind at 1.
    match goal with
    | |- context [dialingPhone_connect tempNum ?x] =>
        change x with
          (with_lines (replicate k LOW ++ LOW :: acts)
             (replicate k LOW ++ HIGH :: HIGH :: hooks) m)
    end.
    rewrite Hconnect. cbv beta iota. step by Hhang.
    step by isReceiverHookOff_run.
    cbn [with_lines inputs set_inputs set_actIn set_hookIn hookIn hd is_low negb
      set_currentState].
    step by sfx_stop_run. rewrite modify_run.
    eexists. split; [reflexivity|]. repeat split; reflexivity. }
  destruct Hrun as (m' & -> & H1 & H2 & H3).
  rewrite Hconnect.
  cbn [result final events fst snd].
  split; [reflexivity|]. split; [exact H1|]. split; [exact H2|]. split; [exact H3|].
  split; [reflexivity|].
  rewrite List.filter_app, Hlog. reflexivity.
Qed.

(** * Incoming calls: [processIncomingCall] *)

(** X11: when the ring tone has no directory entry, [processIncomingCall]
    gives the call up: nothing is sent to the sound module (the recording
    of the call is not played), the phase is set to [STATE_RESET], and after
    the lookup's "Number Not Found" the display shows the first 16
    characters of "RingTone not found" for three seconds.  The hook is not
    read. *)
Theorem incoming_call_without_ring_tone (fuel : nat) (n : Z) (m : Machine) (d : Lcd) :
  first_match (dir_entries m) ringingTone = None ->
  let r := processIncomingCall fuel n m in
  result r = Some tt
  /\ currentState (final r) = STATE_RESET
  /\ List.filter is_module_command (events r) = []
  /\ List.filter (fun e => match e with EvDelay _ => true | _ => false end) (events r)
     = [EvDelay messageWait; EvDelay (messageWait * 3)]
  /\ shown (render d (events r)) = ("RingTone not fou"%string, "                "%string)
  /\ hookIn (inputs (final r)) = hookIn (inputs m)
  /\ playIn (inputs (final r)) = playIn (inputs m)
  /\ dir_entries (final r) = dir_entries m.
Proof.
  intros Hmiss r. subst r.
  assert (Hrun : exists m' log,
            processIncomingCall fuel n m = (Some tt, m', log)
            /\ currentState m' = STATE_RESET
            /\ List.filter is_module_command log = []
            /\ List.filter (fun e => match e with EvDelay _ => true | _ => false end) log
               = [EvDelay messageWait; EvDelay (messageWait * 3)]
            /\ shown (render d log) = ("RingTone not fou"%string, "                "%string)
            /\ hookIn (inputs m') = hookIn (inputs m)
            /\ playIn (inputs m') = playIn (inputs m)
            /\ dir_entries m' = dir_entries m).
  { unfold processIncomingCall.
    step by (lookup_miss m ringingTone Hmiss).
    change (to_uint8 255 =? 255) with true. cbv iota.
    step by StillLCD_P_run. step by modify_run. rewrite delay_run.
    do 2 eexists. split; [reflexivity|].
    split; [reflexivity|]. split; [reflexivity|]. split; [reflexivity|].
    split; [vm_compute; reflexivity|]. repeat split; reflexivity. }
  destruct Hrun as (m' & log & -> & H). split; [reflexivity|exact H].
Qed.

(** On [unnumbered_machine] the directory is empty. *)
Lemma incoming_call_without_ring_tone_witness :
  let r := processIncomingCall 10 1 unnumbered_machine in
  result r = Some tt
  /\ currentState (final r) = STATE_RESET
  /\ List.filter is_module_command (events r) = []
  /\ shown (render Lcd_blank (events r))
     = ("RingTone not fou"%string, "                "%string).
Proof.
  cbv zeta.
  destruct (incoming_call_without_ring_tone 10 1 unnumbered_machine Lcd_blank)
    as (H1 & H2 & H3 & _ & H5 & _).
  - vm_compute. reflexivity.
  - repeat split; assumption.
Defined.

Section AnsweredCall.

(** [while (isReceiverHookOff()) delay(50)]: [w] rounds with the handset
    up, then the handset is replaced. *)
Lemma processIncomingCall_wait_run (w : nat) :
  forall (fuel : nat) (hooks : list Level) (m : Machine),
    (w < fuel)%nat ->
    hookIn (inputs m) = replicate w LOW ++ HIGH :: hooks ->
    processIncomingCall_wait fuel m
    = (Some tt,
       set_inputs
         (set_hookIn hooks (set_clock (clock (inputs m) + 50 * Z.of_nat w) (inputs m))) m,
       replicate w (EvDelay 50)).
Proof.
  induction w as [|w IH]; intros fuel hooks m Hfuel Hhook;
    (destruct fuel as [|fuel]; [lia|]); cbn [processIncomingCall_wait replicate].
  - step by isReceiverHookOff_run. rewrite Hhook. cbn [replicate app hd tail is_low].
    cbn [ret]. destruct m as [? ? ? ? ? ? ? ? ? ? ? ? ? []]. cbn in *.
    rewrite Z.add_0_r. reflexivity.
  - step by isReceiverHookOff_run. rewrite Hhook. cbn [replicate app hd tail is_low].
    step by delay_run.
    rewrite (IH fuel hooks) by (lia || reflexivity).
    assert (Hc : clock (inputs m) + 50 + 50 * Z.of_nat w
                 = clock (inputs m) + 50 * Z.of_nat (S w)) by lia.
    rewrite <- Hc. reflexivity.
Qed.

(** The call once the handset is lifted: the recording plays through [k]
    polls and ends, the handset is still up at the next check and is
    replaced [w] polls later. *)
Lemma processIncomingCall_answer_run
    (fuel k w : nat) (n j : Z) (acts hooks : list Level) (m : Machine) :
  first_match (dir_entries m) callFinished = Some j ->
  actIn (inputs m) = replicate k LOW ++ HIGH :: acts ->
  hookIn (inputs m) = replicate k LOW ++ LOW :: replicate w LOW ++ HIGH :: hooks ->
  (k < fuel)%nat -> (w < fuel)%nat ->
  exists (m' : Machine) (log : list Event),
    processIncomingCall_answer fuel n m = (Some tt, m', log)
    /\ currentState m' = STATE_RESET
    /\ actIn (inputs m') = acts
    /\ hookIn (inputs m') = hooks
    /\ dir_entries m' = dir_entries m
    /\ List.filter is_module_command log
       = [EvStop; EvPlay (to_uint8 n) (hd true (playIn (inputs m)));
          EvPlay (to_uint8 j) (hd true (tail (playIn (inputs m))))]
    /\ List.filter is_delay log
       = [EvDelay sfxDelay; EvDelay sfxDelay] ++ replicate w (EvDelay 50)
    /\ (forall d, shown (render d log)
        = ("  Call Complete "%string, "Replace Handset "%string)).
Proof.
  intros Hj Hact Hhook Hk Hw.
  unfold processIncomingCall_answer.
  step by sfx_stop_run. step by StillLCD_P_run. step by delay_run.
  step by triggerSoundUART_run. step by delay_run.
  unfold bind at 1.
  match goal with
  | |- context [checkForHangupOrEnd fuel ?x] =>
      rewrite (checkForHangupOrEnd_track_ends k fuel acts
                 (LOW :: replicate w LOW ++ HIGH :: hooks) x Hk)
        by (cbn; (exact Hact || exact Hhook))
  end.
  cbv beta iota.
  step by isReceiverHookOff_run.
  cbn [with_lines inputs set_inputs set_actIn set_hookIn hookIn hd tail is_low negb].
  step_lookup_hit callFinished j Hj.
  step by triggerSoundUART_run. step by StillLCD_P_run.
  unfold bind at 1.
  match goal with
  | |- context [processIncomingCall_wait fuel ?x] =>
      rewrite (processIncomingCall_wait_run w fuel hooks x Hw) by reflexivity
  end.
  cbv beta iota. rewrite modify_run.
  do 2 eexists. split; [reflexivity|].
  split; [reflexivity|]. split; [reflexivity|]. split; [reflexivity|].
  split; [reflexivity|].
  split; [|split].
  - cbn [app List.filter is_module_command]. rewrite List.filter_app.
    rewrite (filter_replicate_drop is_module_command) by reflexivity.
    rewrite to_uint8_idem. reflexivity.
  - cbn [app List.filter is_delay]. rewrite List.filter_app.
    rewrite (filter_replicate_keep is_delay) by reflexivity.
    rewrite app_nil_r. reflexivity.
  - intros d. unfold render. cbn [app fold_left].
    rewrite app_nil_r, fold_delays. vm_compute. reflexivity.
Qed.

(** One round of the ring loop when the handset is lifted in time. *)
Lemma processIncomingCall_ring_answered
    (fuel : nat) (n index ringStartTime : Z) (m : Machine) :
  to_uint32 (to_uint32 (clock (inputs (tick m))) - ringStartTime) < ringTimeout ->
  hd HIGH (hookIn (inputs m)) = LOW ->
  let answer :=
    processIncomingCall_answer (S fuel) n
      (set_inputs (set_hookIn (tail (hookIn (inputs m))) (inputs (tick m))) (tick m)) in
  processIncomingCall_ring (S fuel) n index ringStartTime m
  = (match result answer with Some _ => Some true | None => None end,
     final answer, events answer).
Proof.
  intros Htime Hhook answer.
  cbn [processIncomingCall_ring].
  step by millis_run.
  assert (Hlt : (to_uint32 (to_uint32 (clock (inputs (tick m))) - ringStartTime)
                 <? ringTimeout) = true) by (apply Z.ltb_lt; exact Htime).
  rewrite Hlt.
  step by isReceiverHookOff_run.
  change (hookIn (inputs (tick m))) with (hookIn (inputs m)).
  rewrite Hhook. cbn [is_low].
  unfold bind at 1. fold answer.
  destruct answer as [[[[]|] m1] l1]; cbn [ret result final events fst snd app];
    rewrite ?app_nil_r; reflexivity.
Qed.

End AnsweredCall.

(** X12: an incoming call that is answered.  The ring tone has an entry,
    the handset is lifted at the first round of the ring loop, the
    recording plays through [k] polls and ends, the handset is still up at
    the next check and is replaced [w] polls later: [processIncomingCall]
    returns in [STATE_RESET]; the module is sent, in this order, the ring
    tone, a stop, the recording and the call-finished sound (no final
    stop); it waits 50 ms per poll for the handset, and the display ends on
    "Call Complete" over "Replace Handset". *)
Theorem incoming_call_answered
    (fuel k w : nat) (n i j : Z) (acts hooks : list Level) (m : Machine) (d : Lcd) :
  first_match (dir_entries m) ringingTone = Some i ->
  to_uint8 i <> 255 ->
  first_match (dir_entries m) callFinished = Some j ->
  Z.of_nat (hd 1%nat (tail (ticksIn (inputs m)))) < ringTimeout ->
  actIn (inputs m) = replicate k LOW ++ HIGH :: acts ->
  hookIn (inputs m)
  = LOW :: replicate k LOW ++ LOW :: replicate w LOW ++ HIGH :: hooks ->
  (k < fuel)%nat -> (w < fuel)%nat ->
  let r := processIncomingCall fuel n m in
  result r = Some tt
  /\ currentState (final r) = STATE_RESET
  /\ actIn (inputs (final r)) = acts
  /\ hookIn (inputs (final r)) = hooks
  /\ List.filter is_module_command (events r)
     = [EvPlay (to_uint8 i) (hd true (playIn (inputs m)));
        EvStop;
        EvPlay (to_uint8 n) (hd true (tail (playIn (inputs m))));
        EvPlay (to_uint8 j) (hd true (tail (tail (playIn (inputs m)))))]
  /\ List.filter is_delay (events r)
     = [EvDelay sfxDelay; EvDelay sfxDelay] ++ replicate w (EvDelay 50)
  /\ shown (render d (events r))
     = ("  Call Complete "%string, "Replace Handset "%string).
Proof.
  intros Hring Hi Hj Htick Hact Hhook Hk Hw r. subst r.
  destruct fuel as [|f]; [lia|].
  set (m1 := set_inputs (set_playIn (tail (playIn (inputs m))) (inputs m)) m).
  set (m3 := set_inputs (set_hookIn (tail (hookIn (inputs (tick m1))))
                           (inputs (tick (tick m1)))) (tick (tick m1))).
  destruct (processIncomingCall_answer_run (S f) k w n j acts hooks m3)
    as (m' & log & Hanswer & H1 & H2 & H3 & H4 & H5 & H6 & H7);
    try assumption.
  { subst m3 m1. cbn. rewrite Hhook. reflexivity. }
  assert (Helapsed :
    to_uint32 (to_uint32 (clock (inputs (tick (tick m1))))
               - to_uint32 (clock (inputs (tick m1))))
    = Z.of_nat (hd 1%nat (tail (ticksIn (inputs m))))).
  { rewrite to_uint32_diff; subst m1; cbn; unfold ringTimeout in Htick; lia. }
  assert (Hrun :
    processIncomingCall (S f) n m
    = (Some tt, m', EvPlay (to_uint8 i) (hd true (playIn (inputs m))) :: log)).
  { unfold processIncomingCall.
    step by (lookup_hit m ringingTone i Hring).
    assert (Hne : (to_uint8 i =? 255) = false) by (apply Z.eqb_neq; exact Hi).
    rewrite Hne.
    step by triggerSoundUART_run. fold m1. step by millis_run.
    unfold bind at 1.
    rewrite (processIncomingCall_ring_answered f n (to_uint8 i) _ (tick m1))
      by (rewrite ?Helapsed; try exact Htick; subst m1; cbn; rewrite Hhook; reflexivity).
    fold m3. rewrite Hanswer.
    cbn [result final events fst snd ret app]. cbv beta iota.
    rewrite to_uint8_idem, app_nil_r. reflexivity. }
  rewrite Hrun. cbn [result final events fst snd].
  split; [reflexivity|]. split; [exact H1|]. split; [exact H2|]. split; [exact H3|].
  split; [|split].
  - cbn [List.filter is_module_command]. rewrite H5. reflexivity.
  - cbn [List.filter is_delay]. exact H6.
  - apply (H7 (Lcd_step d (EvPlay (to_uint8 i) (hd true (playIn (inputs m)))))).
Qed.

(** On [demo_machine]: fob code 11 (slot 4) rings, is answered, plays
    through two polls; the handset is replaced after three more. *)
Lemma incoming_call_answered_witness :
  let r :=
    processIncomingCall 4 4
      (with_lines [LOW; LOW; HIGH] [LOW; LOW; LOW; LOW; LOW; LOW; LOW; HIGH]
         demo_machine) in
  result r = Some tt
  /\ currentState (final r) = STATE_RESET
  /\ List.filter is_module_command (events r)
     = [EvPlay 2 true; EvStop; EvPlay 4 true; EvPlay 3 true]
  /\ List.filter is_delay (events r)
     = [EvDelay 400; EvDelay 400; EvDelay 50; EvDelay 50; EvDelay 50]
  /\ shown (render Lcd_blank (events r))
     = ("  Call Complete "%string, "Replace Handset "%string).
Proof.
  cbv zeta.
  destruct (incoming_call_answered 4 2 3 4 2 3 [] []
              (with_lines [LOW; LOW; HIGH] [LOW; LOW; LOW; LOW; LOW; LOW; LOW; HIGH]
                 demo_machine) Lcd_blank)
    as (H1 & H2 & _ & _ & H5 & H6 & H7).
  - vm_compute. reflexivity.
  - discriminate.
  - vm_compute. reflexivity.
  - vm_compute. reflexivity.
  - reflexivity.
  - reflexivity.
  - lia.
  - lia.
  - split; [exact H1|]. split; [exact H2|]. split; [exact H5|]. split; [exact H6|exact H7].
Defined.

Section UnansweredCall.

Variables (n index : Z).

(** The ring loop when nobody lifts the handset, with [r] rounds to go
    before the time-out: it returns false; only the ring tone is played. *)
Lemma processIncomingCall_ring_unanswered (r : nat) :
  forall (fuel : nat) (start : Z) (m : Machine),
    ticksIn (inputs m) = [] ->
    hookIn (inputs m) = [] ->
    (r < fuel)%nat ->
    clock (inputs m) - start = ringTimeout - 6 * Z.of_nat r ->
    Z.of_nat r <= 10000 ->
    exists (m' : Machine) (log : list Event) (plays : list bool),
      processIncomingCall_ring fuel n index (to_uint32 start) m = (Some false, m', log)
      /\ ticksIn (inputs m') = []
      /\ hookIn (inputs m') = []
      /\ clock (inputs m') - start = ringTimeout + 1
      /\ currentState m' = currentState m
      /\ dir_entries m' = dir_entries m
      /\ List.filter is_module_command log = map (EvPlay (to_uint8 index)) plays
      /\ Forall (fun e => is_lcd e = false) log.
Proof.
  unfold ringTimeout.
  induction r as [|r IH]; intros fuel start m Hticks Hhook Hfuel Hclock Hr;
    (destruct fuel as [|fuel]; [lia|]); cbn [processIncomingCall_ring].
  - (* the time is up *)
    assert (Helapsed : to_uint32 (to_uint32 (clock (inputs (tick m))) - to_uint32 start)
                       = 60001).
    { rewrite to_uint32_diff; rewrite clock_tick, Hticks; cbn [hd]; lia. }
    exists (tick m), [], [].
    split.
    { step by millis_run. rewrite Helapsed. reflexivity. }
    split; [rewrite ticksIn_tick, Hticks; reflexivity|].
    split; [exact Hhook|].
    split; [rewrite clock_tick, Hticks; cbn [hd]; unfold ringTimeout; lia|].
    repeat split; constructor.
  - (* one more round *)
    assert (Helapsed : to_uint32 (to_uint32 (clock (inputs (tick m))) - to_uint32 start)
                       = 60001 - 6 * Z.of_nat (S r)).
    { rewrite to_uint32_diff; rewrite clock_tick, Hticks; cbn [hd]; lia. }
    assert (Hlt : (60001 - 6 * Z.of_nat (S r) <? ringTimeout) = true)
      by (apply Z.ltb_lt; unfold ringTimeout; lia).
    set (m1 := set_inputs (set_hookIn (tail (hookIn (inputs (tick m)))) (inputs (tick m)))
                 (tick m)).
    set (m2 := set_inputs (set_actIn (tail (actIn (inputs m1))) (inputs m1)) m1).
    assert (Hnext : forall m3,
              ticksIn (inputs m3) = [] -> hookIn (inputs m3) = [] ->
              clock (inputs m3) = clock (inputs m) + 1 ->
              currentState m3 = currentState m -> dir_entries m3 = dir_entries m ->
              exists m' log plays,
                bind (delay 5)
                  (fun _ => processIncomingCall_ring fuel n index (to_uint32 start)) m3
                = (Some false, m', EvDelay 5 :: log)
                /\ ticksIn (inputs m') = []
                /\ hookIn (inputs m') = []
                /\ clock (inputs m') - start = 60000 + 1
                /\ currentState m' = currentState m
                /\ dir_entries m' = dir_entries m
                /\ List.filter is_module_command log = map (EvPlay (to_uint8 index)) plays
                /\ Forall (fun e => is_lcd e = false) log).
    { intros m3 Ht3 Hh3 Hc3 Hs3 Hd3.
      destruct (IH fuel start
                  (set_inputs (set_clock (clock (inputs m3) + 5) (inputs m3)) m3))
        as (m' & log & plays & Hrun & H1 & H2 & H3 & H4 & H5 & H6 & H7);
        try assumption; try lia.
      { cbn. lia. }
      exists m', log, plays.
      split; [step by delay_run; rewrite Hrun; reflexivity|].
      split; [exact H1|]. split; [exact H2|]. split; [exact H3|].
      split; [rewrite H4; exact Hs3|]. split; [rewrite H5; exact Hd3|].
      split; assumption. }
    assert (Hm2t : ticksIn (inputs m2) = []) by (subst m2 m1; cbn; rewrite Hticks; reflexivity).
    assert (Hm2h : hookIn (inputs m2) = []) by (subst m2 m1; cbn; rewrite Hhook; reflexivity).
    assert (Hm2c : clock (inputs m2) = clock (inputs m) + 1)
      by (subst m2 m1; cbn; rewrite Hticks; reflexivity).
    assert (Hon : is_low (hd HIGH (hookIn (inputs (tick m)))) = false).
    { change (hookIn (inputs (tick m))) with (hookIn (inputs m)). rewrite Hhook.
      reflexivity. }
    destruct (is_low (hd HIGH (actIn (inputs m)))) eqn:Hplaying.
    + (* the ring tone still plays *)
      destruct (Hnext m2 Hm2t Hm2h Hm2c eq_refl eq_refl)
        as (m' & log & plays & Hrun & H1 & H2 & H3 & H4 & H5 & H6 & H7).
      exists m', (EvDelay 5 :: log), plays.
      split.
      { step by millis_run. rewrite Helapsed, Hlt.
        step by isReceiverHookOff_run.
        rewrite Hon. cbv iota.
        step by stillPlaying_run.
        match goal with
        | |- context [is_low (hd HIGH (actIn (inputs ?x)))] =>
            change (actIn (inputs x)) with (actIn (inputs m))
        end.
        rewrite Hplaying. cbn [negb when].
        unfold bind at 1. cbn [ret]. cbv beta iota.
        match goal with
        | |- context [bind (delay 5) ?k ?x] =>
            change (bind (delay 5) k x) with (bind (delay 5) k m2)
        end.
        rewrite Hrun. reflexivity. }
      split; [exact H1|]. split; [exact H2|]. split; [exact H3|].
      split; [exact H4|]. split; [exact H5|].
      split; [exact H6|constructor; [reflexivity|exact H7]].
    + (* the ring tone ended: it is started again *)
      set (m3 := set_inputs (set_playIn (tail (playIn (inputs m2))) (inputs m2)) m2).
      destruct (Hnext m3) as (m' & log & plays & Hrun & H1 & H2 & H3 & H4 & H5 & H6 & H7);
        try (subst m3; cbn; assumption); try reflexivity.
      exists m', (EvPlay (to_uint8 index) (hd true (playIn (inputs m2))) :: EvDelay 5 :: log),
        (hd true (playIn (inputs m2)) :: plays).
      split.
      { step by millis_run. rewrite Helapsed, Hlt.
        step by isReceiverHookOff_run.
        rewrite Hon. cbv iota.
        step by stillPlaying_run.
        match goal with
        | |- context [is_low (hd HIGH (actIn (inputs ?x)))] =>
            change (actIn (inputs x)) with (actIn (inputs m))
        end.
        rewrite Hplaying. cbn [negb when].
        step by triggerSoundUART_run.
        match goal with
        | |- context [bind (delay 5) ?k ?x] =>
            change (bind (delay 5) k x) with (bind (delay 5) k m3)
        end.
        rewrite Hrun. reflexivity. }
      split; [exact H1|]. split; [exact H2|]. split; [exact H3|].
      split; [exact H4|]. split; [exact H5|].
      split.
      * cbn [List.filter is_module_command map]. rewrite H6. reflexivity.
      * constructor; [reflexivity|]. constructor; [reflexivity|exact H7].
Qed.

End UnansweredCall.

(** X13: an incoming call that nobody answers.  The ring tone has an
    entry, the hook reads on-hook throughout, and every [millis()] call
    finds the clock 1 ms further ([delay] adds its own time): the ring loop
    runs 10000 rounds of 6 ms, then [processIncomingCall] stops the sound,
    shows "No Answer" and returns in [STATE_RESET], 61403 ms after it was
    called.  The module is only ever sent the ring tone (again each time
    the activity line reads "not playing") and the final stop: the
    recording of the call is not played. *)
Theorem incoming_call_unanswered
    (fuel : nat) (n i : Z) (m : Machine) (d : Lcd) :
  first_match (dir_entries m) ringingTone = Some i ->
  to_uint8 i <> 255 ->
  ticksIn (inputs m) = [] ->
  hookIn (inputs m) = [] ->
  10000 < Z.of_nat fuel ->
  let r := processIncomingCall fuel n m in
  result r = Some tt
  /\ currentState (final r) = STATE_RESET
  /\ clock (inputs (final r)) = clock (inputs m) + 61403
  /\ dir_entries (final r) = dir_entries m
  /\ (exists plays : list bool,
        List.filter is_module_command (events r)
        = map (EvPlay (to_uint8 i)) plays ++ [EvStop])
  /\ shown (render d (events r)) = ("   No Answer    "%string, "                "%string).
Proof.
  intros Hring Hi Hticks Hhook Hfuel r. subst r.
  set (m1 := set_inputs (set_playIn (tail (playIn (inputs m))) (inputs m)) m).
  destruct (processIncomingCall_ring_unanswered n (to_uint8 i) (Z.to_nat 10000) fuel
              (clock (inputs (tick m1))) (tick m1))
    as (m' & log & plays & Hloop & H1 & H2 & H3 & H4 & H5 & H6 & H7).
  { change (ticksIn (inputs (tick m1))) with (tail (ticksIn (inputs m))).
    rewrite Hticks. reflexivity. }
  { exact Hhook. }
  { lia. }
  { unfold ringTimeout. lia. }
  { lia. }
  assert (Hover : (ringTimeout
                   <=? to_uint32 (to_uint32 (clock (inputs (tick m')))
                                  - to_uint32 (clock (inputs (tick m1))))) = true).
  { rewrite to_uint32_diff; rewrite clock_tick, H1; cbn [hd];
      [apply Z.leb_le|]; unfold ringTimeout in *; lia. }
  assert (Hrun : exists m'',
    processIncomingCall fuel n m
    = (Some tt, m'',
       EvPlay (to_uint8 i) (hd true (playIn (inputs m))) :: log
       ++ [EvDelay sfxDelay; EvStop; EvLcdClear; EvLcdSetCursor 0 0;
           EvLcdPrint (strlcpy 16 noAnswer); EvLcdSetCursor 0 1;
           EvLcdPrint (strlcpy 16 blank); EvDelay messageWait])
    /\ currentState m'' = STATE_RESET
    /\ clock (inputs m'') = clock (inputs (tick m')) + sfxDelay + messageWait
    /\ dir_entries m'' = dir_entries m').
  { unfold processIncomingCall.
    step by (lookup_hit m ringingTone i Hring).
    assert (Hne : (to_uint8 i =? 255) = false) by (apply Z.eqb_neq; exact Hi).
    rewrite Hne.
    step by triggerSoundUART_run. fold m1. step by millis_run.
    step by Hloop. step by millis_run. rewrite Hover.
    step by delay_run. step by sfx_stop_run. step by StillLCD_P_run.
    step by delay_run. rewrite modify_run.
    eexists. split.
    { rewrite to_uint8_idem. cbn [app]. rewrite ?app_nil_r. reflexivity. }
    split; [reflexivity|]. split; reflexivity. }
  rewrite to_uint8_idem in H6.
  destruct Hrun as (m'' & -> & Hs & Hc & Hd).
  cbn [result final events fst snd].
  split; [reflexivity|]. split; [exact Hs|].
  split.
  { rewrite Hc, clock_tick, H1. cbn [hd]. unfold sfxDelay, messageWait.
    assert (Hm1 : clock (inputs (tick m1)) = clock (inputs m) + 1)
      by (subst m1; cbn; rewrite Hticks; reflexivity).
    unfold ringTimeout in H3. lia. }
  split; [rewrite Hd, H5; reflexivity|].
  split.
  - exists (hd true (playIn (inputs m)) :: plays).
    cbn [List.filter is_module_command map app].
    rewrite List.filter_app, H6. reflexivity.
  - rewrite (app_comm_cons log).
    rewrite (render_app d (EvPlay (to_uint8 i) (hd true (playIn (inputs m))) :: log)).
    rewrite (render_no_lcd (EvPlay (to_uint8 i) (hd true (playIn (inputs m))) :: log))
      by (constructor; [reflexivity|exact H7]).
    vm_compute. reflexivity.
Qed.

(** On [demo_machine] nothing is lifted and the clock script is empty. *)
Lemma incoming_call_unanswered_witness :
  let r := processIncomingCall (Z.to_nat 10001) 4 demo_machine in
  result r = Some tt
  /\ currentState (final r) = STATE_RESET
  /\ clock (inputs (final r)) = clock (inputs demo_machine) + 61403
  /\ shown (render Lcd_blank (events r))
     = ("   No Answer    "%string, "                "%string).
Proof.
  assert (Hring : first_match (dir_entries demo_machine) ringingTone = Some 2)
    by (vm_compute; reflexivity).
  assert (Hslot : to_uint8 2 <> 255) by discriminate.
  assert (Hticks : ticksIn (inputs demo_machine) = []) by (vm_compute; reflexivity).
  assert (Hhook : hookIn (inputs demo_machine) = []) by (vm_compute; reflexivity).
  assert (Hfuel : 10000 < Z.of_nat (Z.to_nat 10001)) by (rewrite Z2Nat.id; lia).
  pose proof (incoming_call_unanswered (Z.to_nat 10001) 4 2 demo_machine Lcd_blank
                Hring Hslot Hticks Hhook Hfuel) as H.
  exact (conj (proj1 H)
           (conj (proj1 (proj2 H))
              (conj (proj1 (proj2 (proj2 H)))
                 (proj2 (proj2 (proj2 (proj2 (proj2 H)))))))).
Defined.

(** * The key fob: codes, bounds and the Idle phase *)

Section KnownCode.

(** [ProcessIncomingKeyFob] once a second press was captured and the code
    has an entry. *)
Lemma ProcessIncomingKeyFob_known (fuel : nat) (i d t : Z) (m : Machine) :
  result (ProcessIncomingKeyFob_capture fuel i m) = Some d ->
  d <> 255 ->
  first_match (dir_entries m)
    (number (keyfobButton i) * 10 + number (keyfobButton d)) = Some t ->
  exists m',
    ProcessIncomingKeyFob fuel i m
    = (Some t, m',
       events (ProcessIncomingKeyFob_capture fuel i m)
       ++ [EvLcdSetCursor 1 1; EvLcdPrint (String (letter (keyfobButton d)) EmptyString);
           EvDelay messageWait])
    /\ currentState m' = currentState m
    /\ dir_entries m' = dir_entries m
    /\ screensaverActive m'
       = screensaverActive (final (ProcessIncomingKeyFob_capture fuel i m))
    /\ hookIn (inputs m')
       = hookIn (inputs (final (ProcessIncomingKeyFob_capture fuel i m))).
Proof.
  intros Hcap Hd Hfound.
  destruct (keeps_ProcessIncomingKeyFob_capture fuel i m) as (Ka & Kt & Ks).
  unfold ProcessIncomingKeyFob. cbv zeta. rewrite bind_run, Hcap.
  set (c := ProcessIncomingKeyFob_capture fuel i m) in *.
  assert (Hne : negb (d =? 255) = true) by (apply negb_true_iff, Z.eqb_neq; exact Hd).
  rewrite Hne.
  unfold lcd_setCursor, lcd_print, delay, modify_inputs, emit, modify, bind.
  cbv beta iota.
  match goal with
  | |- context [findTrackNumberByFilename _ ?x] => set (m4 := x)
  end.
  assert (Hdir4 : dir_entries m4 = dir_entries m).
  { transitivity (dir_entries (final c)); [reflexivity|].
    unfold dir_entries. rewrite Ka, Kt. reflexivity. }
  rewrite (lookup_hit m4 _ t) by (rewrite Hdir4; exact Hfound).
  cbn [result final events fst snd].
  exists m4. split; [|split; [|split; [|split]]].
  - cbn [app]. rewrite ?app_nil_r. reflexivity.
  - exact Ks.
  - exact Hdir4.
  - reflexivity.
  - reflexivity.
Qed.

End KnownCode.

(** X14: in Idle with the handset on the hook, when a first press is
    stable, a second press is captured within the window and the code
    [first * 10 + second] has a directory entry, the round of [loop] ends
    in [STATE_INCOMING_CALL] with the entry's slot selected, the
    screensaver off and the display on "Incoming Call" over "Answer Me!".
    The directory is not changed. *)
Theorem idle_known_code_rings (fuel : nat) (m : Machine) (b d t : Z) (lcd : Lcd) :
  currentState m = STATE_IDLE ->
  hd HIGH (hookIn (inputs m)) = HIGH ->
  let m1 := final (isReceiverHookOff m) in
  result (CheckForIncomingCall m1) = Some b ->
  b <> -1 ->
  let m2 := final (CheckForIncomingCall m1) in
  result (ProcessIncomingKeyFob_capture fuel (to_uint8 b) m2) = Some d ->
  d <> 255 ->
  first_match (dir_entries m)
    (number (keyfobButton (to_uint8 b)) * 10 + number (keyfobButton d)) = Some t ->
  to_uint8 t <> 255 ->
  let r := loop_switch fuel m in
  result r = Some tt
  /\ currentState (final r) = STATE_INCOMING_CALL
  /\ loop_trackNum (final r) = to_uint8 t
  /\ screensaverActive (final r) = false
  /\ dir_entries (final r) = dir_entries m
  /\ shown (render lcd (events r)) = (" Incoming Call  "%string, "   Answer Me!   "%string).
Proof.
  intros Hidle Hhook m1 Hcheck Hb m2 Hcap Hd Hfound Ht r.
  destruct (keeps_isReceiverHookOff m) as (Ka1 & Kt1 & Ks1).
  destruct (keeps_CheckForIncomingCall m1) as (Ka2 & Kt2 & Ks2).
  fold m1 in Ka1, Kt1, Ks1. fold m2 in Ka2, Kt2, Ks2.
  assert (Hdir2 : dir_entries m2 = dir_entries m).
  { unfold dir_entries. rewrite Ka2, Kt2, Ka1, Kt1. reflexivity. }
  destruct (ProcessIncomingKeyFob_known fuel (to_uint8 b) d t m2 Hcap Hd)
    as (m3 & Hknown & Hs3 & Hd3 & _ & _).
  { rewrite Hdir2. exact Hfound. }
  assert (Hne : negb (b =? -1) = true) by (apply negb_true_iff, Z.eqb_neq; exact Hb).
  assert (Hlt : (to_uint8 t <? 255) = true).
  { apply Z.ltb_lt. unfold to_uint8 in *.
    pose proof (Z.mod_pos_bound t 256 ltac:(lia)). lia. }
  assert (Hrun : exists m' log,
            r = (Some tt, m', log)
            /\ currentState m' = STATE_INCOMING_CALL
            /\ loop_trackNum m' = to_uint8 t
            /\ screensaverActive m' = false
            /\ dir_entries m' = dir_entries m3
            /\ shown (render lcd log)
               = (" Incoming Call  "%string, "   Answer Me!   "%string)).
  { subst r. rewrite loop_switch_run, Hidle.
    unfold loop_STATE_IDLE.
    step by isReceiverHookOff_run. rewrite Hhook. cbn [is_low].
    change (set_inputs (set_hookIn (tail (hookIn (inputs m))) (inputs m)) m) with m1.
    unfold bind at 1. subst m2.
    destruct (CheckForIncomingCall m1) as [[rb m2] l2].
    cbn [result final events fst snd] in *. subst rb. rewrite Hne.
    step by Hknown. step by modify_run. rewrite Hlt.
    step by millis_run. step by modify_run. step by get_run.
    cbn [screensaverActive set_lastActivityTime set_loop_trackNum tick set_inputs].
    destruct (screensaverActive m3) eqn:Hsaver; cbn [when].
    - unfold exitScreensaver at 1.
      unfold bind at 1 2. rewrite get_run. cbv beta iota.
      cbn [screensaverActive set_lastActivityTime set_loop_trackNum tick set_inputs].
      rewrite Hsaver. cbn [negb].
      step by modify_run. unfold lcd_clear. step by emit_run.
      step by millis_run. rewrite modify_run. cbv beta iota.
      step by StillLCD_P_run. rewrite modify_run.
      do 2 eexists. split; [reflexivity|].
      split; [reflexivity|]. split; [reflexivity|]. split; [reflexivity|].
      split; [reflexivity|].
      cbn [app]. rewrite ?app_nil_r. rewrite !render_app.
      vm_compute. reflexivity.
    - unfold bind at 1. cbn [ret]. cbv beta iota.
      step by StillLCD_P_run. rewrite modify_run.
      do 2 eexists. split; [reflexivity|].
      split; [reflexivity|]. split; [reflexivity|]. split; [exact Hsaver|].
      split; [reflexivity|].
      cbn [app]. rewrite ?app_nil_r. rewrite !render_app.
      vm_compute. reflexivity. }
  destruct Hrun as (m' & log & -> & H1 & H2 & H3 & H4 & H5).
  cbn [result final events fst snd].
  split; [reflexivity|]. split; [exact H1|]. split; [exact H2|]. split; [exact H3|].
  split; [rewrite H4, Hd3; exact Hdir2|exact H5].
Qed.

(** Button A is pressed twice on [fob_AA_machine]; "11.OGG" is in slot 4. *)
Lemma idle_known_code_rings_witness :
  let r := loop_switch 100 fob_AA_machine in
  result r = Some tt
  /\ currentState (final r) = STATE_INCOMING_CALL
  /\ loop_trackNum (final r) = 4
  /\ shown (render Lcd_blank (events r))
     = (" Incoming Call  "%string, "   Answer Me!   "%string).
Proof.
  cbv zeta.
  destruct (idle_known_code_rings 100 fob_AA_machine 0 0 4 Lcd_blank)
    as (H1 & H2 & H3 & _ & _ & H6).
  - vm_compute. reflexivity.
  - vm_compute. reflexivity.
  - vm_compute. reflexivity.
  - discriminate.
  - vm_compute. reflexivity.
  - discriminate.
  - vm_compute. reflexivity.
  - discriminate.
  - split; [exact H1|]. split; [exact H2|]. split; [exact H3|exact H6].
Defined.

Section Results.

Lemma result_bind {A B} (c : M A) (k : A -> M B) (m : Machine) :
  result (bind c k m)
  = match result (c m) with
    | Some a => result (k a (final (c m)))
    | None => None
    end.
Proof. rewrite bind_run. destruct (result (c m)); reflexivity. Qed.

Lemma returns_bind {A B} (c : M A) (k : A -> M B) (P : A -> Prop) (Q : B -> Prop) :
  returns c P -> (forall a, P a -> returns (k a) Q) -> returns (bind c k) Q.
Proof.
  intros Hc Hk m. destruct (Hc m) as (a & Ha & HP).
  rewrite result_bind, Ha. apply (Hk a HP).
Qed.

Lemma returns_ret {A} (a : A) (P : A -> Prop) : P a -> returns (ret a) P.
Proof. intros HP m. exists a. split; [reflexivity|exact HP]. Qed.

Lemma returns_any {A} (c : M A) (P : A -> Prop) :
  returns c P -> returns c (fun _ => True).
Proof. intros Hc m. destruct (Hc m) as (a & Ha & _). exists a. auto. Qed.

Lemma yields_bind {A B} (c : M A) (k : A -> M B) (P : A -> Prop) (Q : B -> Prop) :
  yields c P -> (forall a, P a -> yields (k a) Q) -> yields (bind c k) Q.
Proof.
  intros Hc Hk m b. rewrite result_bind.
  destruct (result (c m)) as [a|] eqn:Ha; [|discriminate].
  apply (Hk a (Hc m a Ha)).
Qed.

Lemma yields_any {A} (c : M A) : yields c (fun _ => True).
Proof. intros m a _. exact I. Qed.

Lemma yields_ret {A} (a : A) (P : A -> Prop) : P a -> yields (ret a) P.
Proof. intros HP m b Hb. injection Hb as <-. exact HP. Qed.

Lemma yields_stuck {A} (P : A -> Prop) : yields stuck P.
Proof. intros m a Ha. discriminate Ha. Qed.

Lemma returns_when (b : bool) (c : M unit) :
  returns c (fun _ => True) -> returns (when b c) (fun _ => True).
Proof. destruct b; [auto|intros _; apply returns_ret; exact I]. Qed.

Lemma returns_prim {A} (c : M A) :
  (forall m, exists a m' l, c m = (Some a, m', l)) -> returns c (fun _ => True).
Proof. intros H m. destruct (H m) as (a & m' & l & ->). exists a. auto. Qed.

(** The [for] loop of [CheckForIncomingCall] returns -1 or the index of
    one of the buttons it still has to read. *)
Lemma CheckForIncomingCall_loop_returns (todo : nat) :
  forall i, returns (CheckForIncomingCall_loop todo i)
              (fun v => v = -1 \/ i <= v < i + Z.of_nat todo).
Proof.
  induction todo as [|todo IH]; intros i; cbn [CheckForIncomingCall_loop].
  - apply returns_ret. left. reflexivity.
  - assert (Hnext : returns (CheckForIncomingCall_loop todo (i + 1))
                      (fun v => v = -1 \/ i <= v < i + Z.of_nat (S todo))).
    { intros m. destruct (IH (i + 1) m) as (v & Hv & Hr). exists v. split; [exact Hv|lia]. }
    apply (returns_bind _ _ (fun _ => True)).
    { apply returns_prim. intros m. rewrite digitalRead_keyfob_run. eauto. }
    intros reading _. destruct (is_low reading).
    + apply (returns_bind _ _ (fun _ => True)).
      { apply returns_prim. intros m. rewrite get_run. eauto. }
      intros m0 _.
      apply (returns_bind _ _ (fun _ => True)).
      { apply returns_when. apply (returns_bind _ _ (fun _ => True)).
        - apply returns_prim. intros m. rewrite millis_run. eauto.
        - intros now _. apply returns_prim. intros m. rewrite modify_run. eauto. }
      intros _ _.
      apply (returns_bind _ _ (fun _ => True)).
      { apply returns_prim. intros m. rewrite millis_run. eauto. }
      intros now _.
      apply (returns_bind _ _ (fun _ => True)).
      { apply returns_prim. intros m. rewrite get_run. eauto. }
      intros m1 _.
      destruct (debounceDelay <? _); [|exact Hnext].
      destruct (negb (buttonStable m1)); [|exact Hnext].
      apply (returns_bind _ _ (fun _ => True)).
      { apply returns_prim. intros m. rewrite modify_run. eauto. }
      intros _ _. apply returns_ret. right. lia.
    + apply (returns_bind _ _ (fun _ => True)).
      { apply returns_prim. intros m. rewrite get_run. eauto. }
      intros m0 _.
      apply (returns_bind _ _ (fun _ => True)); [|intros _ _; exact Hnext].
      apply returns_when. apply returns_prim. intros m. rewrite modify_run. eauto.
Qed.

(** The [for] loop of the second-press window yields 255 or the index of a
    button. *)
Lemma ProcessIncomingKeyFob_scan_yields (todo : nat) :
  forall i ld lb,
    0 <= i -> i + Z.of_nat todo <= numButtons ->
    yields (ProcessIncomingKeyFob_scan todo i ld lb)
      (fun '(d, _, _) => d = 255 \/ button_index d).
Proof.
  unfold button_index.
  induction todo as [|todo IH]; intros i ld lb Hi Hend;
    cbn [ProcessIncomingKeyFob_scan].
  - apply yields_ret. left. reflexivity.
  - apply (yields_bind _ _ (fun _ => True)); [apply yields_any|].
    intros reading _. destruct (is_low reading).
    + apply (yields_bind _ _ (fun _ => True)); [apply yields_any|].
      intros [ld' lb'] _.
      apply (yields_bind _ _ (fun _ => True)); [apply yields_any|].
      intros now _.
      destruct (debounceDelay <? _).
      * apply yields_ret. right. lia.
      * apply IH; lia.
    + destruct (lb =? i); apply IH; lia.
Qed.

Lemma ProcessIncomingKeyFob_window_yields (fuel : nat) :
  forall st ld lb,
    yields (ProcessIncomingKeyFob_window fuel st ld lb)
      (fun d => d = 255 \/ button_index d).
Proof.
  induction fuel as [|fuel IH]; intros st ld lb; cbn [ProcessIncomingKeyFob_window].
  - apply yields_stuck.
  - apply (yields_bind _ _ (fun _ => True)); [apply yields_any|].
    intros now _. destruct (_ <? 5000).
    + apply (yields_bind _ _ (fun '(d, _, _) => d = 255 \/ button_index d)).
      { apply ProcessIncomingKeyFob_scan_yields; unfold numButtons; cbn; lia. }
      intros [[d ld'] lb'] Hd.
      destruct (negb (d =? 255)) eqn:E.
      * apply yields_ret. exact Hd.
      * apply IH.
    + apply yields_ret. left. reflexivity.
Qed.

End Results.

(** X15: every index into [keyfobButtons] is in range.
    [CheckForIncomingCall] always returns, and returns -1 or one of 0..3;
    and the second button [ProcessIncomingKeyFob] reads its digit and
    letter from is one of 0..3 whenever a second press was detected (the
    value is not 255). *)
Theorem key_fob_indices_in_range :
  (forall m, exists b,
      result (CheckForIncomingCall m) = Some b /\ (b = -1 \/ button_index b))
  /\ (forall fuel i m d,
        result (ProcessIncomingKeyFob_capture fuel i m) = Some d ->
        d = 255 \/ button_index d).
Proof.
  split.
  - intros m. destruct (CheckForIncomingCall_loop_returns (Z.to_nat numButtons) 0 m)
      as (b & Hb & Hr).
    exists b. split; [exact Hb|]. unfold button_index, numButtons in *. cbn in Hr. lia.
  - intros fuel i m d.
    assert (Hy : yields (ProcessIncomingKeyFob_capture fuel i)
                   (fun d => d = 255 \/ button_index d)).
    { unfold ProcessIncomingKeyFob_capture.
      repeat (apply (yields_bind _ _ (fun _ => True)); [apply yields_any|intros ? _]).
      apply ProcessIncomingKeyFob_window_yields. }
    apply Hy.
Qed.

Section NothingPressed.

Lemma all_released_pop (j : Z) (m : Machine) :
  forall k, 0 <= j -> 0 <= k -> k <> j -> hd HIGH (line k m) = HIGH ->
            hd HIGH (line k (pop_line j m)) = HIGH.
Proof. intros k Hj Hk Hne H. rewrite line_pop_line_other by assumption. exact H. Qed.

(** A poll with no press tracked and every line released. *)
Lemma CheckForIncomingCall_all_released (m : Machine) :
  lastButtonPressed m = -1 ->
  all_released m ->
  CheckForIncomingCall m = (Some (-1), pop_lines m, []).
Proof.
  intros Hlast Hall. unfold all_released, numButtons in Hall.
  unfold CheckForIncomingCall. change (Z.to_nat numButtons) with 4%nat.
  assert (H0 := Hall 0 ltac:(lia)). assert (H1 := Hall 1 ltac:(lia)).
  assert (H2 := Hall 2 ltac:(lia)). assert (H3 := Hall 3 ltac:(lia)).
  rewrite CheckForIncomingCall_iter_idle; [|exact H0|rewrite Hlast; lia].
  rewrite CheckForIncomingCall_iter_idle;
    [|rewrite line_pop_line_other by lia; exact H1
     |change (lastButtonPressed (pop_line 0 m)) with (lastButtonPressed m);
      rewrite Hlast; lia].
  rewrite CheckForIncomingCall_iter_idle;
    [|rewrite !line_pop_line_other by lia; exact H2
     |change (lastButtonPressed (pop_line (0 + 1) (pop_line 0 m)))
        with (lastButtonPressed m);
      rewrite Hlast; lia].
  rewrite CheckForIncomingCall_iter_idle;
    [|rewrite !line_pop_line_other by lia; exact H3
     |change (lastButtonPressed
                (pop_line (0 + 1 + 1) (pop_line (0 + 1) (pop_line 0 m))))
        with (lastButtonPressed m);
      rewrite Hlast; lia].
  reflexivity.
Qed.

End NothingPressed.

(** X16: a round of [loop] in Idle when nothing happens.  The start-up
    message is on the display, the screensaver is off and not yet due, the
    handset is on the hook, no press is being tracked and the four fob
    lines read released: the round reads the clock once, the hook once and
    each fob line once, emits nothing and changes no variable of the
    sketch. *)
Theorem idle_round_without_input (fuel : nat) (m : Machine) :
  startupComplete m = true ->
  screensaverActive m = false ->
  currentState m = STATE_IDLE ->
  to_uint32 (to_uint32 (clock (inputs (tick m))) - lastActivityTime m)
  <= screensaverTimeout ->
  hd HIGH (hookIn (inputs m)) = HIGH ->
  lastButtonPressed m = -1 ->
  all_released m ->
  loop fuel m
  = (Some tt,
     pop_lines
       (set_inputs (set_hookIn (tail (hookIn (inputs m))) (inputs (tick m))) (tick m)),
     []).
Proof.
  intros Hstart Hsaver Hidle Hdue Hhook Hlast Hall.
  assert (Hnot : (screensaverTimeout
                  <? to_uint32 (to_uint32 (clock (inputs (tick m))) - lastActivityTime m))
                 = false) by (apply Z.ltb_ge; exact Hdue).
  unfold loop.
  step by get_run. rewrite Hstart. cbn [negb when].
  unfold bind at 1. cbn [ret]. cbv beta iota.
  step by get_run. rewrite Hsaver. cbn [when].
  unfold bind at 1. cbn [ret]. cbv beta iota.
  step by get_run. rewrite Hsaver. cbn [negb].
  unfold bind at 1 2. rewrite millis_run. cbv beta iota.
  rewrite Hnot. cbn [when ret]. cbv beta iota.
  rewrite loop_switch_run.
  change (currentState (tick m)) with (currentState m). rewrite Hidle.
  unfold loop_STATE_IDLE.
  step by isReceiverHookOff_run.
  change (hookIn (inputs (tick m))) with (hookIn (inputs m)) at 1.
  rewrite Hhook. cbn [is_low].
  unfold bind at 1.
  rewrite CheckForIncomingCall_all_released by (exact Hlast || exact Hall).
  cbv beta iota. change (negb (-1 =? -1)) with false. cbv iota.
  cbn [ret app]. reflexivity.
Qed.

(** On [demo_machine] after one round of [loop]: the start-up message is
    shown, and nothing is lifted or pressed. *)
Lemma idle_round_without_input_witness :
  let m := final (loop 1 demo_machine) in
  result (loop 1 m) = Some tt
  /\ events (loop 1 m) = []
  /\ currentState (final (loop 1 m)) = STATE_IDLE.
Proof.
  cbv zeta.
  rewrite (idle_round_without_input 1 (final (loop 1 demo_machine))).
  - repeat split; reflexivity.
  - vm_compute. reflexivity.
  - vm_compute. reflexivity.
  - vm_compute. reflexivity.
  - vm_compute. discriminate.
  - vm_compute. reflexivity.
  - vm_compute. reflexivity.
  - intros k Hk. unfold numButtons in Hk.
    assert (Hcases : k = 0 \/ k = 1 \/ k = 2 \/ k = 3) by lia.
    destruct Hcases as [->|[->|[->| ->]]]; vm_compute; reflexivity.
Defined.

Section NoSecondPress.

Lemma released_for_good_now (m : Machine) : released_for_good m -> all_released m.
Proof.
  intros H k Hk. specialize (H k Hk). destruct (line k m); [reflexivity|].
  inversion H; subst. reflexivity.
Qed.

Lemma released_for_good_pop (j : Z) (m : Machine) :
  0 <= j -> released_for_good m -> released_for_good (pop_line j m).
Proof.
  intros Hj H k Hk. specialize (H k Hk).
  destruct (Z.eq_dec k j) as [->|Hne].
  - rewrite line_pop_line_same. destruct (line j m); [constructor|].
    inversion H; subst. assumption.
  - rewrite line_pop_line_other by lia. exact H.
Qed.

Lemma released_for_good_pop_lines (m : Machine) :
  released_for_good m -> released_for_good (pop_lines m).
Proof.
  intros H. unfold pop_lines. repeat (apply released_for_good_pop; [lia|]). exact H.
Qed.

(** One round of the [for] loop of the window on a released line, with no
    press tracked. *)
Lemma ProcessIncomingKeyFob_scan_iter_idle (todo : nat) (j ld : Z) (m : Machine) :
  hd HIGH (line j m) = HIGH ->
  j <> 255 ->
  ProcessIncomingKeyFob_scan (S todo) j ld 255 m
  = ProcessIncomingKeyFob_scan todo (j + 1) ld 255 (pop_line j m).
Proof.
  intros Hhigh Hj. cbn [ProcessIncomingKeyFob_scan].
  step by digitalRead_keyfob_run. rewrite Hhigh. cbn [is_low].
  assert (Hne : (255 =? j) = false) by (apply Z.eqb_neq; lia).
  rewrite Hne.
  destruct (ProcessIncomingKeyFob_scan todo (j + 1) ld 255 (pop_line j m)) as [[r m'] l].
  reflexivity.
Qed.

Lemma ProcessIncomingKeyFob_scan_all_released (ld : Z) (m : Machine) :
  all_released m ->
  ProcessIncomingKeyFob_scan (Z.to_nat numButtons) 0 ld 255 m
  = (Some (255, ld, 255), pop_lines m, []).
Proof.
  intros Hall. unfold all_released, numButtons in Hall.
  change (Z.to_nat numButtons) with 4%nat.
  assert (H0 := Hall 0 ltac:(lia)). assert (H1 := Hall 1 ltac:(lia)).
  assert (H2 := Hall 2 ltac:(lia)). assert (H3 := Hall 3 ltac:(lia)).
  rewrite ProcessIncomingKeyFob_scan_iter_idle; [|exact H0|lia].
  rewrite ProcessIncomingKeyFob_scan_iter_idle;
    [|rewrite line_pop_line_other by lia; exact H1|lia].
  rewrite ProcessIncomingKeyFob_scan_iter_idle;
    [|rewrite !line_pop_line_other by lia; exact H2|lia].
  rewrite ProcessIncomingKeyFob_scan_iter_idle;
    [|rewrite !line_pop_line_other by lia; exact H3|lia].
  reflexivity.
Qed.

(** The window with [r] scans to go before its 5 s are over. *)
Lemma ProcessIncomingKeyFob_window_times_out (r : nat) :
  forall (fuel : nat) (start ld : Z) (m : Machine),
    ticksIn (inputs m) = [] ->
    released_for_good m ->
    (r < fuel)%nat ->
    clock (inputs m) - start = 4999 - Z.of_nat r ->
    Z.of_nat r <= 4999 ->
    exists m',
      ProcessIncomingKeyFob_window fuel (to_uint32 start) ld 255 m = (Some 255, m', [])
      /\ clock (inputs m') - start = 5000
      /\ currentState m' = currentState m
      /\ dir_entries m' = dir_entries m
      /\ loop_trackNum m' = loop_trackNum m
      /\ hookIn (inputs m') = hookIn (inputs m).
Proof.
  induction r as [|r IH]; intros fuel start ld m Hticks Hquiet Hfuel Hclock Hr;
    (destruct fuel as [|fuel]; [lia|]); cbn [ProcessIncomingKeyFob_window].
  - assert (Helapsed : to_uint32 (to_uint32 (clock (inputs (tick m))) - to_uint32 start)
                       = 5000).
    { rewrite to_uint32_diff; rewrite clock_tick, Hticks; cbn [hd]; lia. }
    exists (tick m). split.
    { step by millis_run. rewrite Helapsed. reflexivity. }
    split; [rewrite clock_tick, Hticks; cbn [hd]; lia|].
    repeat split; reflexivity.
  - assert (Helapsed : to_uint32 (to_uint32 (clock (inputs (tick m))) - to_uint32 start)
                       = 5000 - Z.of_nat (S r)).
    { rewrite to_uint32_diff; rewrite clock_tick, Hticks; cbn [hd]; lia. }
    assert (Hlt : (5000 - Z.of_nat (S r) <? 5000) = true) by (apply Z.ltb_lt; lia).
    destruct (IH fuel start ld (pop_lines (tick m)))
      as (m' & Hrun & H1 & H2 & H3 & H4 & H5).
    { change (ticksIn (inputs (pop_lines (tick m)))) with (tail (ticksIn (inputs m))).
      rewrite Hticks. reflexivity. }
    { apply released_for_good_pop_lines. exact Hquiet. }
    { lia. }
    { change (clock (inputs (pop_lines (tick m)))) with (clock (inputs (tick m))).
      rewrite clock_tick, Hticks. cbn [hd]. lia. }
    { lia. }
    exists m'. split.
    { step by millis_run. rewrite Helapsed, Hlt.
      unfold bind at 1.
      rewrite ProcessIncomingKeyFob_scan_all_released
        by (apply released_for_good_now; exact Hquiet).
      cbv beta iota. change (negb (255 =? 255)) with false. cbv iota.
      rewrite Hrun. reflexivity. }
    split; [exact H1|]. split; [exact H2|]. split; [exact H3|]. split; [exact H4|exact H5].
Qed.

End NoSecondPress.

(** X17: a first press that is not followed by a second one.  The fob
    lines read released from now on and every [millis()] call finds the
    clock 1 ms further: [ProcessIncomingKeyFob] shows the letter of the
    first button on a blanked second row, scans the lines for 5 s (4999
    scans) and returns 255.  No lookup is made, so the phase is not
    touched and nothing more is shown: the letter stays on the display. *)
Theorem fob_second_press_times_out (fuel : nat) (i : Z) (m : Machine) :
  ticksIn (inputs m) = [] ->
  released_for_good m ->
  5000 <= Z.of_nat fuel ->
  0 <= i < numButtons ->
  let r := ProcessIncomingKeyFob fuel i m in
  result r = Some 255
  /\ events r
     = [EvLcdSetCursor 0 1; EvLcdPrint "                "; EvLcdSetCursor 0 1;
        EvLcdPrint (String (letter (keyfobButton i)) EmptyString)]
  /\ clock (inputs (final r)) = clock (inputs m) + 5001
  /\ currentState (final r) = currentState m
  /\ loop_trackNum (final r) = loop_trackNum m
  /\ dir_entries (final r) = dir_entries m.
Proof.
  intros Hticks Hquiet Hfuel Hi r. subst r.
  destruct fuel as [|fuel]; [lia|].
  set (m1 := tick (pop_line i m)).
  destruct (ProcessIncomingKeyFob_window_times_out (Z.to_nat 4999) (S fuel)
              (clock (inputs m1)) 0 m1)
    as (m' & Hwindow & H1 & H2 & H3 & H4 & H5).
  { subst m1. change (ticksIn (inputs (tick (pop_line i m))))
      with (tail (ticksIn (inputs m))). rewrite Hticks. reflexivity. }
  { subst m1. intros k Hk. change (line k (tick (pop_line i m))) with (line k (pop_line i m)).
    apply released_for_good_pop; [lia|exact Hquiet|exact Hk]. }
  { lia. }
  { lia. }
  { lia. }
  assert (Hrun :
    ProcessIncomingKeyFob (S fuel) i m
    = (Some 255, m',
       [EvLcdSetCursor 0 1; EvLcdPrint "                "; EvLcdSetCursor 0 1;
        EvLcdPrint (String (letter (keyfobButton i)) EmptyString)])).
  { unfold ProcessIncomingKeyFob, ProcessIncomingKeyFob_capture. cbv zeta.
    unfold lcdClearLine, lcd_setCursor, lcd_print, emit.
    do 5 (unfold bind at 1; cbv beta iota).
    cbn [ProcessIncomingKeyFob_release].
    unfold bind at 1 2. rewrite digitalRead_keyfob_run.
    rewrite (released_for_good_now m Hquiet i Hi). cbn [is_low]. cbv beta iota.
    cbn [ret]. cbv beta iota.
    unfold bind at 1. rewrite millis_run. cbv beta iota. fold m1.
    rewrite Hwindow. cbn [app]. change (negb (255 =? 255)) with false. cbv iota.
    cbn [ret app]. reflexivity. }
  rewrite Hrun. cbn [result final events fst snd].
  split; [reflexivity|]. split; [reflexivity|].
  split.
  { assert (Hm1 : clock (inputs m1) = clock (inputs m) + 1)
      by (subst m1; rewrite clock_tick; cbn; rewrite Hticks; reflexivity).
    lia. }
  split; [exact H2|]. split; [exact H4|exact H3].
Qed.

(** On [demo_machine] no fob line is ever pressed; the first button was A. *)
Lemma fob_second_press_times_out_witness :
  let r := ProcessIncomingKeyFob (Z.to_nat 5000) 0 demo_machine in
  result r = Some 255
  /\ events r
     = [EvLcdSetCursor 0 1; EvLcdPrint "                "; EvLcdSetCursor 0 1;
        EvLcdPrint "A"]
  /\ currentState (final r) = currentState demo_machine.
Proof.
  assert (Hticks : ticksIn (inputs demo_machine) = []) by (vm_compute; reflexivity).
  assert (Hquiet : released_for_good demo_machine).
  { intros k Hk. unfold numButtons in Hk.
    assert (Hcases : k = 0 \/ k = 1 \/ k = 2 \/ k = 3) by lia.
    destruct Hcases as [->|[->|[->| ->]]]; vm_compute; constructor. }
  assert (Hfuel : 5000 <= Z.of_nat (Z.to_nat 5000)) by (rewrite Z2Nat.id; lia).
  assert (Hi : 0 <= 0 < numButtons) by (unfold numButtons; lia).
  pose proof (fob_second_press_times_out (Z.to_nat 5000) 0 demo_machine
                Hticks Hquiet Hfuel Hi) as H.
  exact (conj (proj1 H)
           (conj (proj1 (proj2 H)) (proj1 (proj2 (proj2 (proj2 H)))))).
Defined.

(** * Invariants: what a whole run keeps *)

Lemma preserves_ret {A} (I : Machine -> Prop) (a : A) : preserves I (ret a).
Proof. intros m H. exact H. Qed.

Lemma preserves_stuck {A} (I : Machine -> Prop) : preserves I (@stuck A).
Proof. intros m H. exact H. Qed.

Lemma preserves_get (I : Machine -> Prop) : preserves I get.
Proof. intros m H. exact H. Qed.

Lemma preserves_emit (I : Machine -> Prop) (e : Event) : preserves I (emit e).
Proof. intros m H. exact H. Qed.

Lemma preserves_bind {A B} (I : Machine -> Prop) (c : M A) (k : A -> M B) :
  preserves I c -> (forall a, preserves I (k a)) -> preserves I (bind c k).
Proof.
  intros Hc Hk m Hm. rewrite bind_run.
  destruct (result (c m)) as [a|]; cbn [final fst snd].
  - apply Hk, Hc, Hm.
  - apply Hc, Hm.
Qed.

Lemma preserves_when (I : Machine -> Prop) (b : bool) (c : M unit) :
  preserves I c -> preserves I (when b c).
Proof. destruct b; [auto|intros _; apply preserves_ret]. Qed.

Lemma preserves_modify_direct (I : Machine -> Prop) (f : Machine -> Machine) :
  (forall m, I m -> I (f m)) -> preserves I (modify f).
Proof. intros H m Hm. apply H, Hm. Qed.

Lemma preserves_modify (I : Machine -> Prop) (f : Machine -> Machine) :
  framed I -> (forall m, same_tables m (f m)) -> preserves I (modify f).
Proof. intros Hframe H m Hm. apply (Hframe m), Hm. apply H. Qed.

Lemma preserves_modify_inputs (I : Machine -> Prop) (f : Inputs -> Inputs) :
  framed I -> preserves I (modify_inputs f).
Proof.
  intros Hframe. apply preserves_modify; [exact Hframe|].
  intros m. repeat split; reflexivity.
Qed.

Create HintDb preserves discriminated.

#[export] Hint Resolve preserves_ret preserves_stuck preserves_get preserves_emit
  preserves_modify_inputs : preserves.

(** Works through a computation built from [bind], [if], [when] and pieces
    already known to keep the invariant; [leaf] closes the assignments to
    the variables the invariant looks at. *)
Ltac preserves_with leaf :=
  repeat first
    [ solve [auto with preserves]
    | apply preserves_bind; [|intros ?]
    | apply preserves_when
    | apply preserves_modify; [solve [auto with preserves]|intros ?; repeat split; reflexivity]
    | apply preserves_modify_direct; solve [leaf]
    | match goal with
      | |- preserves _ (if ?b then _ else _) => destruct b
      | |- preserves _ (match ?x with _ => _ end) => destruct x
      end ].

Ltac preserves_tac := preserves_with ltac:(auto).

(** ** The pins, the clock, the module and the display *)

Section PreservesBasics.

Variable I : Machine -> Prop.
Hypothesis I_framed : framed I.

Lemma preserves_isReceiverHookOff : preserves I isReceiverHookOff.
Proof. unfold isReceiverHookOff, digitalRead_ReceiverHook. preserves_tac. Qed.

Lemma preserves_stillPlaying : preserves I stillPlaying.
Proof. unfold stillPlaying, digitalRead_SFX_ACT. preserves_tac. Qed.

Lemma preserves_digitalRead_keyfob (i : Z) : preserves I (digitalRead_keyfob i).
Proof. unfold digitalRead_keyfob. preserves_tac. Qed.

Lemma preserves_keypad_getKey : preserves I keypad_getKey.
Proof. unfold keypad_getKey. preserves_tac. Qed.

Lemma preserves_millis : preserves I millis.
Proof. unfold millis. preserves_tac. Qed.

Lemma preserves_delay (ms : Z) : preserves I (delay ms).
Proof. unfold delay. preserves_tac. Qed.

Lemma preserves_sfx_stop : preserves I sfx_stop.
Proof. unfold sfx_stop. preserves_tac. Qed.

Lemma preserves_sfx_volUp : preserves I sfx_volUp.
Proof. unfold sfx_volUp. preserves_tac. Qed.

Lemma preserves_sfx_playTrack (n : Z) : preserves I (sfx_playTrack n).
Proof. unfold sfx_playTrack. preserves_tac. Qed.

Lemma preserves_sfx_reset : preserves I sfx_reset.
Proof. unfold sfx_reset. preserves_tac. Qed.

Lemma preserves_sfx_listFiles : preserves I sfx_listFiles.
Proof. unfold sfx_listFiles. preserves_tac. Qed.

Lemma preserves_sfx_fileName (f : Z) : preserves I (sfx_fileName f).
Proof. unfold sfx_fileName. preserves_tac. Qed.

Lemma preserves_lcd_init : preserves I lcd_init.
Proof. unfold lcd_init. preserves_tac. Qed.

Lemma preserves_lcd_backlight : preserves I lcd_backlight.
Proof. unfold lcd_backlight. preserves_tac. Qed.

Lemma preserves_lcd_setBacklight (v : Z) : preserves I (lcd_setBacklight v).
Proof. unfold lcd_setBacklight. preserves_tac. Qed.

Lemma preserves_lcd_setCursor (c r : Z) : preserves I (lcd_setCursor c r).
Proof. unfold lcd_setCursor. preserves_tac. Qed.

Lemma preserves_lcd_print (s : string) : preserves I (lcd_print s).
Proof. unfold lcd_print. preserves_tac. Qed.

Lemma preserves_lcd_clear : preserves I lcd_clear.
Proof. unfold lcd_clear. preserves_tac. Qed.

Lemma preserves_lcd_display : preserves I lcd_display.
Proof. unfold lcd_display. preserves_tac. Qed.

#[local] Hint Resolve preserves_isReceiverHookOff preserves_stillPlaying
  preserves_digitalRead_keyfob preserves_keypad_getKey preserves_millis preserves_delay
  preserves_sfx_stop preserves_sfx_playTrack preserves_sfx_reset preserves_lcd_setCursor
  preserves_lcd_print preserves_lcd_clear preserves_lcd_display preserves_lcd_setBacklight
  : preserves.

Lemma preserves_lcdClearLine : preserves I lcdClearLine.
Proof. unfold lcdClearLine. preserves_tac. Qed.

Lemma preserves_StillLCD (a b : string) : preserves I (StillLCD a b).
Proof. unfold StillLCD. preserves_tac. Qed.

Lemma preserves_StillLCD_P (a b : string) : preserves I (StillLCD_P a b).
Proof. apply preserves_StillLCD. Qed.

Lemma preserves_displayLCDTopMessage_P (a : string) :
  preserves I (displayLCDTopMessage_P a).
Proof. unfold displayLCDTopMessage_P, lcdClearLine. preserves_tac. Qed.

Lemma preserves_triggerSoundUART (n : Z) : preserves I (triggerSoundUART n).
Proof. unfold triggerSoundUART. cbv zeta. preserves_tac. Qed.

Lemma preserves_exitScreensaver : preserves I exitScreensaver.
Proof. unfold exitScreensaver. preserves_tac. Qed.

Lemma preserves_activateScreensaver_dim (todo : nat) :
  forall i, preserves I (activateScreensaver_dim todo i).
Proof.
  induction todo as [|todo IH]; intros i; cbn [activateScreensaver_dim]; preserves_tac.
Qed.

End PreservesBasics.

#[export] Hint Resolve preserves_isReceiverHookOff preserves_stillPlaying
  preserves_digitalRead_keyfob preserves_keypad_getKey preserves_millis preserves_delay
  preserves_sfx_stop preserves_sfx_volUp preserves_sfx_playTrack preserves_sfx_reset
  preserves_sfx_listFiles preserves_sfx_fileName preserves_lcd_init preserves_lcd_backlight
  preserves_lcd_setBacklight preserves_lcd_setCursor preserves_lcd_print preserves_lcd_clear
  preserves_lcd_display preserves_lcdClearLine preserves_StillLCD preserves_StillLCD_P
  preserves_displayLCDTopMessage_P preserves_triggerSoundUART preserves_exitScreensaver
  preserves_activateScreensaver_dim : preserves.

(** ** The functions [loop] calls

    They assign to [currentState] only to set [STATE_RESET]. *)

Section PreservedByCalls.

Variable I : Machine -> Prop.
Hypothesis I_framed : framed I.
Hypothesis I_reset : forall m, I m -> I (set_currentState STATE_RESET m).

Lemma preserves_findTrackNumberByFilename (id : Z) :
  preserves I (findTrackNumberByFilename id).
Proof. unfold findTrackNumberByFilename. preserves_tac. Qed.

#[local] Hint Resolve preserves_findTrackNumberByFilename : preserves.

Lemma preserves_checkForHangupOrEnd (fuel : nat) : preserves I (checkForHangupOrEnd fuel).
Proof. induction fuel as [|fuel IH]; cbn [checkForHangupOrEnd]; preserves_tac. Qed.

Lemma preserves_dialingPhone_connect (n : Z) : preserves I (dialingPhone_connect n).
Proof. unfold dialingPhone_connect. preserves_tac. Qed.

Lemma preserves_dialingPhone_wait (fuel : nat) (index : Z) :
  preserves I (dialingPhone_wait fuel index).
Proof. induction fuel as [|fuel IH]; cbn [dialingPhone_wait]; preserves_tac. Qed.

#[local] Hint Resolve preserves_checkForHangupOrEnd preserves_dialingPhone_connect
  preserves_dialingPhone_wait : preserves.

Lemma preserves_dialingPhone (fuel : nat) (n : Z) : preserves I (dialingPhone fuel n).
Proof. unfold dialingPhone. preserves_tac. Qed.

Lemma preserves_GetKeyPadNumber_entry (fuel : nat) :
  forall t e, preserves I (GetKeyPadNumber_entry fuel t e).
Proof.
  induction fuel as [|fuel IH]; intros t e; cbn [GetKeyPadNumber_entry]; preserves_tac.
Qed.

Lemma preserves_GetKeyPadNumber_invalid_wait (fuel : nat) :
  preserves I (GetKeyPadNumber_invalid_wait fuel).
Proof. induction fuel as [|fuel IH]; cbn [GetKeyPadNumber_invalid_wait]; preserves_tac. Qed.

#[local] Hint Resolve preserves_dialingPhone preserves_GetKeyPadNumber_entry
  preserves_GetKeyPadNumber_invalid_wait : preserves.

Lemma preserves_GetKeyPadNumber_dial (fuel : nat) (number : list ascii) :
  preserves I (GetKeyPadNumber_dial fuel number).
Proof. unfold GetKeyPadNumber_dial. cbv zeta. preserves_tac. Qed.

#[local] Hint Resolve preserves_GetKeyPadNumber_dial : preserves.

Lemma preserves_GetKeyPadNumber (fuel : nat) : preserves I (GetKeyPadNumber fuel).
Proof. unfold GetKeyPadNumber. cbv zeta. preserves_tac. Qed.

Lemma preserves_processIncomingCall_wait (fuel : nat) :
  preserves I (processIncomingCall_wait fuel).
Proof. induction fuel as [|fuel IH]; cbn [processIncomingCall_wait]; preserves_tac. Qed.

#[local] Hint Resolve preserves_GetKeyPadNumber preserves_processIncomingCall_wait
  : preserves.

Lemma preserves_processIncomingCall_answer (fuel : nat) (n : Z) :
  preserves I (processIncomingCall_answer fuel n).
Proof. unfold processIncomingCall_answer. preserves_tac. Qed.

#[local] Hint Resolve preserves_processIncomingCall_answer : preserves.

Lemma preserves_processIncomingCall_ring (fuel : nat) :
  forall n index start, preserves I (processIncomingCall_ring fuel n index start).
Proof.
  induction fuel as [|fuel IH]; intros n index start; cbn [processIncomingCall_ring];
    preserves_tac.
Qed.

#[local] Hint Resolve preserves_processIncomingCall_ring : preserves.

Lemma preserves_processIncomingCall (fuel : nat) (n : Z) :
  preserves I (processIncomingCall fuel n).
Proof. unfold processIncomingCall. cbv zeta. preserves_tac. Qed.

Lemma preserves_CheckForIncomingCall_loop (todo : nat) :
  forall i, preserves I (CheckForIncomingCall_loop todo i).
Proof.
  induction todo as [|todo IH]; intros i; cbn [CheckForIncomingCall_loop]; preserves_tac.
Qed.

Lemma preserves_CheckForIncomingCall : preserves I CheckForIncomingCall.
Proof. apply preserves_CheckForIncomingCall_loop. Qed.

Lemma preserves_ProcessIncomingKeyFob_release (fuel : nat) (i : Z) :
  preserves I (ProcessIncomingKeyFob_release fuel i).
Proof. induction fuel as [|fuel IH]; cbn [ProcessIncomingKeyFob_release]; preserves_tac. Qed.

Lemma preserves_ProcessIncomingKeyFob_scan (todo : nat) :
  forall i ld lb, preserves I (ProcessIncomingKeyFob_scan todo i ld lb).
Proof.
  induction todo as [|todo IH]; intros i ld lb; cbn [ProcessIncomingKeyFob_scan];
    preserves_tac.
Qed.

#[local] Hint Resolve preserves_ProcessIncomingKeyFob_release
  preserves_ProcessIncomingKeyFob_scan : preserves.

Lemma preserves_ProcessIncomingKeyFob_window (fuel : nat) :
  forall st ld lb, preserves I (ProcessIncomingKeyFob_window fuel st ld lb).
Proof.
  induction fuel as [|fuel IH]; intros st ld lb; cbn [ProcessIncomingKeyFob_window];
    preserves_tac.
Qed.

#[local] Hint Resolve preserves_ProcessIncomingKeyFob_window : preserves.

Lemma preserves_ProcessIncomingKeyFob (fuel : nat) (i : Z) :
  preserves I (ProcessIncomingKeyFob fuel i).
Proof.
  unfold ProcessIncomingKeyFob, ProcessIncomingKeyFob_capture. cbv zeta. preserves_tac.
Qed.

Lemma preserves_loop_reset_wait (fuel : nat) : preserves I (loop_reset_wait fuel).
Proof. induction fuel as [|fuel IH]; cbn [loop_reset_wait]; preserves_tac. Qed.

End PreservedByCalls.

#[export] Hint Resolve preserves_findTrackNumberByFilename preserves_checkForHangupOrEnd
  preserves_dialingPhone preserves_GetKeyPadNumber preserves_processIncomingCall
  preserves_CheckForIncomingCall preserves_ProcessIncomingKeyFob preserves_loop_reset_wait
  : preserves.

(** ** [loop] *)

Section PreservedByLoop.

Variable I : Machine -> Prop.
Hypothesis I_framed : framed I.
Hypothesis I_phase : forall s m, I m -> I (set_currentState s m).
Hypothesis I_track : forall n m, I m -> I (set_loop_trackNum n m).
Hypothesis I_activate : preserves I activateScreensaver.
Hypothesis I_run : preserves I runScreensaver.

Lemma preserves_loop_switch (fuel : nat) : preserves I (loop_switch fuel).
Proof.
  unfold loop_switch, loop_STATE_IDLE, loop_STATE_DIAL_TONE, loop_STATE_KEYPAD_ENTRY,
    loop_STATE_CONNECTING, loop_STATE_INCOMING_CALL, loop_STATE_RESET.
  cbv zeta. preserves_tac.
Qed.

#[local] Hint Resolve preserves_loop_switch : preserves.

Lemma preserves_loop (fuel : nat) : preserves I (loop fuel).
Proof. unfold loop. preserves_tac. Qed.

Lemma preserves_loops (fuel n : nat) : preserves I (loops fuel n).
Proof.
  induction n as [|n IH]; cbn [loops]; [apply preserves_ret|].
  apply preserves_bind; [apply preserves_loop|intros _; exact IH].
Qed.

End PreservedByLoop.

(** ** Triples *)

Lemma hoare_bind {A B} (P : Machine -> Prop) (R : option A -> Machine -> Prop)
    (Q : option B -> Machine -> Prop) (c : M A) (k : A -> M B) :
  hoare P c R ->
  (forall a, hoare (R (Some a)) (k a) Q) ->
  (forall m, R None m -> Q None m) ->
  hoare P (bind c k) Q.
Proof.
  intros Hc Hk Hnone m Hm. rewrite bind_run.
  specialize (Hc m Hm).
  destruct (result (c m)) as [a|]; cbn [result final fst snd].
  - apply (Hk a), Hc.
  - apply Hnone, Hc.
Qed.

Lemma hoare_preserves {A} (I : Machine -> Prop) (c : M A) :
  preserves I c -> hoare I c (fun _ => I).
Proof. intros H m Hm. apply H, Hm. Qed.

Lemma hoare_weaken {A} (P P' : Machine -> Prop) (Q Q' : option A -> Machine -> Prop)
    (c : M A) :
  hoare P' c Q' -> (forall m, P m -> P' m) -> (forall r m, Q' r m -> Q r m) ->
  hoare P c Q.
Proof. intros H HP HQ m Hm. apply HQ, H, HP, Hm. Qed.

Lemma hoare_conj {A} (P : Machine -> Prop) (Q Q' : option A -> Machine -> Prop) (c : M A) :
  hoare P c Q -> hoare P c Q' -> hoare P c (fun r m => Q r m /\ Q' r m).
Proof. intros H H' m Hm. split; [apply H|apply H']; exact Hm. Qed.

(** * What [loop] keeps from round to round *)

(** ** The directory *)

Lemma framed_directory_is (files : list AudioFile) (total : Z) :
  framed (directory_is files total).
Proof. intros m m' (H1 & H2 & _) [Ha Hb]. split; congruence. Qed.

#[export] Hint Resolve framed_directory_is : preserves.

Lemma activateScreensaver_directory (files : list AudioFile) (total : Z) :
  preserves (directory_is files total) activateScreensaver.
Proof. unfold activateScreensaver. preserves_with ltac:(intros ? ?; assumption). Qed.

Lemma runScreensaver_directory (files : list AudioFile) (total : Z) :
  preserves (directory_is files total) runScreensaver.
Proof. unfold runScreensaver. preserves_with ltac:(intros ? ?; assumption). Qed.

(** X18: Once [setup] has built the directory nothing changes it: after
    any number of rounds of [loop], from any machine, [audioFiles] and
    [totalFiles] are what they were, so every number resolves to the
    slot it resolved to at the start. *)
Theorem directory_fixed_after_setup (fuel n : nat) (m : Machine) :
  let m' := final (loops fuel n m) in
  audioFiles m' = audioFiles m
  /\ totalFiles m' = totalFiles m
  /\ forall id, result (findTrackNumberByFilename id m')
                = result (findTrackNumberByFilename id m).
Proof.
  intros m'.
  assert (H : directory_is (audioFiles m) (totalFiles m) m').
  { apply preserves_loops.
    - apply framed_directory_is.
    - intros s m0 H. exact H.
    - intros k m0 H. exact H.
    - apply activateScreensaver_directory.
    - apply runScreensaver_directory.
    - split; reflexivity. }
  destruct H as [Ha Ht]. split; [exact Ha|]. split; [exact Ht|].
  intros id. rewrite !lookup_result. unfold dir_entries. rewrite Ha, Ht. reflexivity.
Qed.

(** ** The screensaver position *)

Lemma framed_saver_is (p : Z) (d : bool) : framed (saver_is p d).
Proof. intros m m' (_ & _ & H1 & H2 & _) [Ha Hb]. split; congruence. Qed.

Lemma framed_screensaver_in_range : framed screensaver_in_range.
Proof.
  intros m m' (_ & _ & H1 & H2 & _) [Ha Hb]. unfold screensaver_in_range.
  rewrite H1, H2. split; assumption.
Qed.

#[export] Hint Resolve framed_saver_is framed_screensaver_in_range : preserves.

Lemma preserves_snapshot {B} (I : Machine -> Prop) (k : Machine -> M B) :
  (forall a, I a -> hoare (eq a) (k a) (fun _ => I)) -> preserves I (bind get k).
Proof. intros H m Hm. rewrite bind_run. cbn. apply (H m Hm m eq_refl). Qed.

Lemma activateScreensaver_in_range : preserves screensaver_in_range activateScreensaver.
Proof.
  unfold activateScreensaver.
  preserves_with ltac:(intros ? _; unfold screensaver_in_range; cbn; split; intros; lia).
Qed.

(** The position update of [runScreensaver]. *)
Lemma screensaver_step_in_range (p : Z) (d : bool) :
  ((d = true -> -1 <= p <= 15) /\ (d = false -> 0 <= p <= 16)) ->
  hoare (saver_is p d)
    (if d then
       modify (set_screensaverPosition (p + 1));;
       when (15 <? p + 1) (modify (set_screensaverDirection false))
     else
       modify (set_screensaverPosition (p - 1));;
       when (p - 1 <? 0) (modify (set_screensaverDirection true)))
    (fun _ => screensaver_in_range).
Proof.
  intros [Ht Hf] m [Hp Hd]. unfold screensaver_in_range. destruct d.
  - specialize (Ht eq_refl). rewrite bind_run. cbn.
    destruct (Z.ltb_spec 15 (p + 1)); cbn; rewrite ?Hd; split; intros; try discriminate; lia.
  - specialize (Hf eq_refl). rewrite bind_run. cbn.
    destruct (Z.ltb_spec (p - 1) 0); cbn; rewrite ?Hd; split; intros; try discriminate; lia.
Qed.

Lemma runScreensaver_in_range : preserves screensaver_in_range runScreensaver.
Proof.
  unfold runScreensaver.
  apply preserves_bind; [preserves_tac|intros now].
  apply preserves_snapshot. intros a Ha.
  set (p := screensaverPosition a). set (d := screensaverDirection a).
  assert (Hsub : forall m, saver_is p d m -> screensaver_in_range m).
  { intros m [Hp Hd]. unfold screensaver_in_range. rewrite Hp, Hd. exact Ha. }
  apply (hoare_weaken (eq a) (saver_is p d) (fun _ => screensaver_in_range)
           (fun _ => screensaver_in_range));
    [|intros m <-; split; reflexivity|auto].
  destruct (_ <? 200); [intros m Hm; apply Hsub, Hm|].
  do 6 (eapply (hoare_bind _ (fun _ => saver_is p d));
          [apply hoare_preserves; preserves_tac|intros ?|intros ?; apply Hsub]).
  eapply (hoare_bind _ (fun _ => screensaver_in_range));
    [apply screensaver_step_in_range; exact Ha|intros ?|auto].
  apply hoare_preserves. preserves_tac.
Qed.

Lemma scanAudioFXStorageNew_loop_in_range (todo : nat) :
  forall f, preserves screensaver_in_range (scanAudioFXStorageNew_loop todo f).
Proof.
  induction todo as [|todo IH]; intros f; cbn [scanAudioFXStorageNew_loop]; cbv zeta;
    preserves_with ltac:(intros ? ?; assumption).
Qed.

Lemma setup_in_range : preserves screensaver_in_range setup.
Proof.
  pose proof scanAudioFXStorageNew_loop_in_range.
  unfold setup, scanAudioFXStorageNew. preserves_with ltac:(intros ? ?; assumption).
Qed.

(** X19: From power-up, whatever the inputs and however many rounds of
    [loop] have run, the screensaver position is between -1 and 16: it is
    16 only while moving left and -1 only while moving right.  So the
    column the star is drawn at runs one step past each edge of the
    16-column display. *)
Theorem screensaver_position_in_range (fuel n : nat) (i : Inputs) :
  let m := final (sketch fuel n i) in
  -1 <= screensaverPosition m <= 16
  /\ (screensaverDirection m = true -> screensaverPosition m <> 16)
  /\ (screensaverDirection m = false -> screensaverPosition m <> -1).
Proof.
  intros m.
  assert (H : screensaver_in_range m).
  { unfold m, sketch. apply preserves_bind.
    - apply setup_in_range.
    - intros _. apply preserves_loops.
      + apply framed_screensaver_in_range.
      + intros s m0 H. exact H.
      + intros k m0 H. exact H.
      + apply activateScreensaver_in_range.
      + apply runScreensaver_in_range.
    - unfold screensaver_in_range. cbn. split; intros; [lia|discriminate]. }
  destruct H as [Ht Hf].
  destruct (screensaverDirection m).
  - specialize (Ht eq_refl). repeat split; intros; try discriminate; lia.
  - specialize (Hf eq_refl). repeat split; intros; try discriminate; lia.
Qed.

(** ** The phases *)

Lemma framed_at_phase (s : PhoneState) : framed (at_phase s).
Proof. intros m m' (_ & _ & _ & _ & H & _) Hm. unfold at_phase in *. congruence. Qed.

Lemma framed_in_phases (l : list PhoneState) : framed (in_phases l).
Proof. intros m m' (_ & _ & _ & _ & H & _) Hm. unfold in_phases in *. rewrite H. exact Hm. Qed.

#[export] Hint Resolve framed_at_phase framed_in_phases : preserves.

Lemma activateScreensaver_at_phase (s : PhoneState) :
  preserves (at_phase s) activateScreensaver.
Proof. unfold activateScreensaver. preserves_with ltac:(intros ? ?; assumption). Qed.

Lemma runScreensaver_at_phase (s : PhoneState) : preserves (at_phase s) runScreensaver.
Proof. unfold runScreensaver. preserves_with ltac:(intros ? ?; assumption). Qed.

Lemma ends_bind_last {A B} (P : Machine -> Prop) (l : list PhoneState) (c : M A)
    (k : A -> M B) :
  (forall a, hoare (fun _ => True) (k a) (ends_in l)) -> hoare P (bind c k) (ends_in l).
Proof.
  intros Hk. apply (hoare_bind P (fun _ _ => True)).
  - intros m _. exact Logic.I.
  - exact Hk.
  - intros m _ Hnone. destruct Hnone. reflexivity.
Qed.

Lemma ends_modify (P : Machine -> Prop) (l : list PhoneState) (s : PhoneState) :
  In s l -> hoare P (modify (set_currentState s)) (ends_in l).
Proof. intros Hs m _ _. exact Hs. Qed.

Lemma ends_stuck {A} (P : Machine -> Prop) (l : list PhoneState) :
  hoare P (@stuck A) (ends_in l).
Proof. intros m _ Hnone. destruct Hnone. reflexivity. Qed.

(** Closes a computation all of whose ways out assign [currentState]. *)
Ltac ends_tac :=
  repeat first
    [ apply ends_modify; cbn; tauto
    | apply ends_stuck
    | apply ends_bind_last; intros ?
    | match goal with
      | |- hoare _ (if ?b then _ else _) _ => destruct b
      | |- hoare _ (match ?x with _ => _ end) _ => destruct x
      end ].

Lemma dialingPhone_ends (P : Machine -> Prop) (fuel : nat) (n : Z) :
  hoare P (dialingPhone fuel n) (ends_in [STATE_RESET]).
Proof. unfold dialingPhone. ends_tac. Qed.

Lemma loop_STATE_DIAL_TONE_ends (P : Machine -> Prop) :
  hoare P loop_STATE_DIAL_TONE (ends_in (successors STATE_DIAL_TONE)).
Proof. unfold loop_STATE_DIAL_TONE. cbv zeta. ends_tac. Qed.

Lemma loop_STATE_KEYPAD_ENTRY_ends (P : Machine -> Prop) (fuel : nat) :
  hoare P (loop_STATE_KEYPAD_ENTRY fuel) (ends_in (successors STATE_KEYPAD_ENTRY)).
Proof. unfold loop_STATE_KEYPAD_ENTRY. ends_tac. Qed.

Lemma loop_STATE_CONNECTING_ends (P : Machine -> Prop) (fuel : nat) :
  hoare P (loop_STATE_CONNECTING fuel) (ends_in (successors STATE_CONNECTING)).
Proof.
  unfold loop_STATE_CONNECTING.
  apply ends_bind_last. intros off. destruct (negb off); [ends_tac|].
  apply ends_bind_last. intros m. apply dialingPhone_ends.
Qed.

Lemma loop_STATE_INCOMING_CALL_ends (P : Machine -> Prop) (fuel : nat) :
  hoare P (loop_STATE_INCOMING_CALL fuel) (ends_in (successors STATE_INCOMING_CALL)).
Proof. unfold loop_STATE_INCOMING_CALL. ends_tac. Qed.

Lemma loop_STATE_RESET_ends (P : Machine -> Prop) (fuel : nat) :
  hoare P (loop_STATE_RESET fuel) (ends_in (successors STATE_RESET)).
Proof. unfold loop_STATE_RESET. ends_tac. Qed.

Lemma in_phases_idle_reset (m : Machine) :
  in_phases (successors STATE_IDLE) m ->
  in_phases (successors STATE_IDLE) (set_currentState STATE_RESET m).
Proof. intros _. unfold in_phases. cbn. tauto. Qed.

Lemma loop_STATE_IDLE_phases (fuel : nat) :
  preserves (in_phases (successors STATE_IDLE)) (loop_STATE_IDLE fuel).
Proof.
  pose proof in_phases_idle_reset.
  unfold loop_STATE_IDLE.
  preserves_with ltac:(intros ? ?; first [assumption|unfold in_phases; cbn; tauto]).
Qed.

Lemma loop_switch_phases (fuel : nat) (s : PhoneState) :
  hoare (at_phase s) (loop_switch fuel) (ends_in (successors s)).
Proof.
  intros m Hs. unfold loop_switch. rewrite bind_run. cbn [get result final fst snd].
  rewrite Hs. destruct s.
  - intros _. apply loop_STATE_IDLE_phases. unfold in_phases. rewrite Hs. cbn. tauto.
  - apply (loop_STATE_DIAL_TONE_ends (fun _ => True)). exact Logic.I.
  - apply (loop_STATE_KEYPAD_ENTRY_ends (fun _ => True)). exact Logic.I.
  - apply (loop_STATE_CONNECTING_ends (fun _ => True)). exact Logic.I.
  - apply (loop_STATE_INCOMING_CALL_ends (fun _ => True)). exact Logic.I.
  - apply (loop_STATE_RESET_ends (fun _ => True)). exact Logic.I.
Qed.

Lemma loop_phases (fuel : nat) (s : PhoneState) :
  hoare (at_phase s) (loop fuel) (ends_in (successors s)).
Proof.
  pose proof activateScreensaver_at_phase.
  pose proof runScreensaver_at_phase.
  assert (Hstuck : forall m, at_phase s m -> @ends_in unit (successors s) None m).
  { intros m _ Hnone. destruct Hnone. reflexivity. }
  unfold loop.
  do 6 (eapply (hoare_bind _ (fun _ => at_phase s));
          [apply hoare_preserves; preserves_with ltac:(intros ? ?; assumption)
          |intros ?|exact Hstuck]).
  apply loop_switch_phases.
Qed.

(** X20: The phases one round of [loop] can lead to: from IDLE to IDLE,
    DIAL_TONE, INCOMING_CALL or RESET; from DIAL_TONE to KEYPAD_ENTRY only;
    from KEYPAD_ENTRY to CONNECTING or RESET; from CONNECTING to RESET only
    (the whole call is played inside that round); from INCOMING_CALL to
    RESET or IDLE; from RESET to IDLE only. *)
Theorem loop_round_transitions (fuel : nat) (m : Machine) :
  result (loop fuel m) <> None ->
  In (currentState (final (loop fuel m))) (successors (currentState m)).
Proof. intros Hr. apply (loop_phases fuel (currentState m) m); [reflexivity|exact Hr]. Qed.

(** On [fob_AA_machine] the round leads from IDLE to INCOMING_CALL. *)
Lemma loop_round_transitions_witness :
  result (loop 100 fob_AA_machine) <> None
  /\ In (currentState (final (loop 100 fob_AA_machine)))
       (successors (currentState fob_AA_machine)).
Proof.
  assert (H : result (loop 100 fob_AA_machine) <> None) by (vm_compute; discriminate).
  split; [exact H|]. apply (loop_round_transitions 100 fob_AA_machine H).
Defined.

(** ** The track of a call *)

Lemma framed_call_has_track : framed call_has_track.
Proof.
  intros m m' (_ & _ & _ & _ & Hs & Ht) Hm. unfold call_has_track, in_call in *.
  rewrite Hs, Ht. exact Hm.
Qed.

Lemma framed_not_in_call : framed not_in_call.
Proof.
  intros m m' (_ & _ & _ & _ & Hs & _) Hm. unfold not_in_call, in_call in *.
  rewrite Hs. exact Hm.
Qed.

Lemma framed_idle_with_track (v : Z) : framed (idle_with_track v).
Proof.
  intros m m' (_ & _ & _ & _ & Hs & Ht) Hm. unfold idle_with_track, not_in_call, in_call in *.
  rewrite Hs, Ht. exact Hm.
Qed.

#[export] Hint Resolve framed_call_has_track framed_not_in_call framed_idle_with_track
  : preserves.

Lemma not_in_call_has_track (m : Machine) : not_in_call m -> call_has_track m.
Proof. intros Hn Hc. destruct (Hn Hc). Qed.

Lemma call_has_track_reset (m : Machine) :
  call_has_track m -> call_has_track (set_currentState STATE_RESET m).
Proof. intros _ [H|H]; discriminate H. Qed.

Lemma not_in_call_reset (m : Machine) :
  not_in_call m -> not_in_call (set_currentState STATE_RESET m).
Proof. intros _ [H|H]; discriminate H. Qed.

#[export] Hint Resolve call_has_track_reset not_in_call_reset : preserves.

(** Closes an assignment that leaves the variables of the invariant alone
    or sets a phase outside a call. *)
Ltac outside_call :=
  intros ? ?;
  first [ assumption
        | unfold call_has_track, not_in_call, in_call; cbn; intros [?|?]; discriminate ].

Lemma activateScreensaver_call_has_track : preserves call_has_track activateScreensaver.
Proof. unfold activateScreensaver. preserves_with outside_call. Qed.

Lemma runScreensaver_call_has_track : preserves call_has_track runScreensaver.
Proof. unfold runScreensaver. preserves_with outside_call. Qed.

Lemma yields_hoare {A} (P : Machine -> Prop) (c : M A) (V : A -> Prop) :
  yields c V -> hoare P c (fun r _ => forall v, r = Some v -> V v).
Proof. intros H m _ v Hv. exact (H m v Hv). Qed.

(** [GetKeyPadNumber] returns a [uint8_t]. *)
Lemma GetKeyPadNumber_yields (fuel : nat) :
  yields (GetKeyPadNumber fuel) (fun v => 0 <= v <= 255).
Proof.
  assert (Hu : forall z, 0 <= to_uint8 z <= 255).
  { intros z. unfold to_uint8. pose proof (Z.mod_pos_bound z 256). lia. }
  unfold GetKeyPadNumber. cbv zeta.
  do 6 (eapply yields_bind; [apply yields_any|intros ? _]).
  eapply yields_bind; [apply yields_any|intros entered _].
  destruct entered as [number|]; [|apply yields_ret; lia].
  unfold GetKeyPadNumber_dial. cbv zeta.
  do 2 (eapply yields_bind; [apply yields_any|intros ? _]).
  destruct (_ =? 255).
  - do 7 (eapply yields_bind; [apply yields_any|intros ? _]). apply yields_ret. lia.
  - do 2 (eapply yields_bind; [apply yields_any|intros ? _]).
    destruct (negb _).
    + eapply yields_bind; [apply yields_any|intros ? _]. apply yields_ret. lia.
    + apply yields_ret. apply Hu.
Qed.

Lemma loop_STATE_IDLE_call_has_track (fuel : nat) :
  hoare not_in_call (loop_STATE_IDLE fuel) (fun _ => call_has_track).
Proof.
  unfold loop_STATE_IDLE.
  eapply (hoare_bind _ (fun _ => not_in_call));
    [apply hoare_preserves; preserves_tac|intros off|intros ?; apply not_in_call_has_track].
  destruct off.
  - eapply hoare_weaken;
      [apply (hoare_preserves not_in_call); preserves_with outside_call|auto
      |intros ? ?; apply not_in_call_has_track].
  - eapply (hoare_bind _ (fun _ => not_in_call));
      [apply hoare_preserves; preserves_tac|intros buttonIndex
      |intros ?; apply not_in_call_has_track].
    destruct (negb _); [|intros m Hm; apply not_in_call_has_track, Hm].
    eapply (hoare_bind _ (fun _ => not_in_call));
      [apply hoare_preserves; preserves_tac|intros found
      |intros ?; apply not_in_call_has_track].
    set (v := to_uint8 found).
    assert (Hsub : forall m, idle_with_track v m -> call_has_track m).
    { intros m [Hm _]. apply not_in_call_has_track, Hm. }
    eapply (hoare_bind _ (fun _ => idle_with_track v)); [|intros ?|intros ?; apply Hsub].
    { intros m Hm. split; [exact Hm|reflexivity]. }
    destruct (Z.ltb_spec v 255) as [Hv|Hv]; [|intros m Hm; apply Hsub, Hm].
    do 5 (eapply (hoare_bind _ (fun _ => idle_with_track v));
            [apply hoare_preserves; preserves_tac|intros ?|intros ?; apply Hsub]).
    intros m [_ Hm] _. cbn. rewrite Hm.
    unfold v, to_uint8 in *. pose proof (Z.mod_pos_bound found 256). lia.
Qed.

Lemma loop_STATE_KEYPAD_ENTRY_call_has_track (fuel : nat) :
  hoare not_in_call (loop_STATE_KEYPAD_ENTRY fuel) (fun _ => call_has_track).
Proof.
  unfold loop_STATE_KEYPAD_ENTRY.
  eapply hoare_bind.
  - apply hoare_conj.
    + apply (hoare_preserves not_in_call). preserves_tac.
    + apply yields_hoare, GetKeyPadNumber_yields.
  - intros found m [_ Hv]. cbv beta in Hv. specialize (Hv found eq_refl).
    rewrite bind_run. cbn.
    destruct (Z.eqb_spec found 255); cbn; intros [H|H]; try discriminate H.
    cbn. lia.
  - intros m [Hm _]. apply not_in_call_has_track, Hm.
Qed.

Lemma loop_switch_call_has_track (fuel : nat) :
  preserves call_has_track (loop_switch fuel).
Proof.
  intros m Hm. unfold loop_switch. rewrite bind_run. cbn [get result final fst snd].
  destruct (currentState m) eqn:Hs.
  - apply loop_STATE_IDLE_call_has_track. intros [H|H]; congruence.
  - apply not_in_call_has_track.
    assert (H : preserves not_in_call loop_STATE_DIAL_TONE)
      by (unfold loop_STATE_DIAL_TONE; cbv zeta; preserves_with outside_call).
    apply H. intros [H'|H']; congruence.
  - apply loop_STATE_KEYPAD_ENTRY_call_has_track. intros [H|H]; congruence.
  - assert (H : preserves call_has_track (loop_STATE_CONNECTING fuel))
      by (unfold loop_STATE_CONNECTING; preserves_with outside_call).
    apply H, Hm.
  - assert (H : preserves call_has_track (loop_STATE_INCOMING_CALL fuel))
      by (unfold loop_STATE_INCOMING_CALL; preserves_with outside_call).
    apply H, Hm.
  - apply not_in_call_has_track.
    assert (H : preserves not_in_call (loop_STATE_RESET fuel))
      by (unfold loop_STATE_RESET; preserves_with outside_call).
    apply H. intros [H'|H']; congruence.
Qed.

Lemma loop_call_has_track (fuel : nat) : preserves call_has_track (loop fuel).
Proof.
  pose proof activateScreensaver_call_has_track.
  pose proof runScreensaver_call_has_track.
  pose proof loop_switch_call_has_track.
  unfold loop. preserves_with outside_call.
Qed.

Lemma loops_call_has_track (fuel n : nat) : preserves call_has_track (loops fuel n).
Proof.
  induction n as [|n IH]; cbn [loops]; [apply preserves_ret|].
  apply preserves_bind; [apply loop_call_has_track|intros _; exact IH].
Qed.

Lemma scanAudioFXStorageNew_loop_call_has_track (todo : nat) :
  forall f, preserves call_has_track (scanAudioFXStorageNew_loop todo f).
Proof.
  induction todo as [|todo IH]; intros f; cbn [scanAudioFXStorageNew_loop]; cbv zeta;
    preserves_with outside_call.
Qed.

Lemma setup_call_has_track : preserves call_has_track setup.
Proof.
  pose proof scanAudioFXStorageNew_loop_call_has_track.
  unfold setup, scanAudioFXStorageNew. preserves_with outside_call.
Qed.

(** X21: A call always has a recording: from power-up, whatever the
    inputs, whenever the phase is INCOMING_CALL or CONNECTING the selected
    [trackNum] is a slot below 255, never the 255 of "nothing found". *)
Theorem call_always_has_a_track (fuel n : nat) (i : Inputs) :
  let m := final (sketch fuel n i) in
  currentState m = STATE_INCOMING_CALL \/ currentState m = STATE_CONNECTING ->
  0 <= loop_trackNum m < 255.
Proof.
  intros m.
  assert (H : call_has_track m).
  { unfold m, sketch. apply preserves_bind.
    - apply setup_call_has_track.
    - intros _. apply loops_call_has_track.
    - intros [H|H]; discriminate H. }
  exact H.
Qed.

(** With button A pressed twice the first round ends in INCOMING_CALL with
    slot 4 selected. *)
Lemma call_always_has_a_track_witness :
  let m := final (sketch 100 1 fob_AA_inputs) in
  (currentState m = STATE_INCOMING_CALL \/ currentState m = STATE_CONNECTING)
  /\ 0 <= loop_trackNum m < 255.
Proof.
  cbv zeta.
  assert (H : currentState (final (sketch 100 1 fob_AA_inputs)) = STATE_INCOMING_CALL
              \/ currentState (final (sketch 100 1 fob_AA_inputs)) = STATE_CONNECTING)
    by (left; vm_compute; reflexivity).
  split; [exact H|]. exact (call_always_has_a_track 100 1 fob_AA_inputs H).
Defined.

(** * Start-up and the RESET round *)

(** [while (isReceiverHookOff()) delay(10)]: [w] polls with the handset
    up, then the handset is on the hook. *)
Lemma loop_reset_wait_run (w : nat) :
  forall (fuel : nat) (hooks : list Level) (m : Machine),
    (w < fuel)%nat ->
    hookIn (inputs m) = replicate w LOW ++ HIGH :: hooks ->
    loop_reset_wait fuel m
    = (Some tt,
       set_inputs
         (set_hookIn hooks (set_clock (clock (inputs m) + 10 * Z.of_nat w) (inputs m))) m,
       replicate w (EvDelay 10)).
Proof.
  induction w as [|w IH]; intros fuel hooks m Hfuel Hhook;
    (destruct fuel as [|fuel]; [lia|]); cbn [loop_reset_wait replicate].
  - step by isReceiverHookOff_run. rewrite Hhook. cbn [replicate app hd tail is_low].
    cbn [ret]. destruct m as [? ? ? ? ? ? ? ? ? ? ? ? ? []]. cbn in *.
    rewrite Z.add_0_r. reflexivity.
  - step by isReceiverHookOff_run. rewrite Hhook. cbn [replicate app hd tail is_low].
    step by delay_run.
    rewrite (IH fuel hooks) by (lia || reflexivity).
    assert (Hc : clock (inputs m) + 10 + 10 * Z.of_nat w
                 = clock (inputs m) + 10 * Z.of_nat (S w)) by lia.
    rewrite <- Hc. reflexivity.
Qed.

(** X22: The RESET round.  With the handset still up for [w] polls the
    round stops the module, waits 10 ms per poll until the handset is on
    the hook, then resets the module and goes to IDLE with no track
    selected and the start-up message due again.  The answer of the module
    reset is not looked at: the phone goes to IDLE even when it fails. *)
Theorem reset_round_waits_for_handset
    (w fuel : nat) (hooks : list Level) (m : Machine) :
  currentState m = STATE_RESET ->
  (w < fuel)%nat ->
  hookIn (inputs m) = replicate w LOW ++ HIGH :: hooks ->
  let r := loop_switch fuel m in
  result r = Some tt
  /\ events r
     = EvStop :: replicate w (EvDelay 10) ++ [EvModuleReset (hd true (resetIn (inputs m)))]
  /\ currentState (final r) = STATE_IDLE
  /\ loop_trackNum (final r) = 255
  /\ startupComplete (final r) = false
  /\ hookIn (inputs (final r)) = hooks
  /\ clock (inputs (final r))
     = clock (inputs m) + 10 * Z.of_nat w + Z.of_nat (hd 1%nat (ticksIn (inputs m)))
  /\ lastActivityTime (final r) = to_uint32 (clock (inputs (final r))).
Proof.
  intros Hs Hfuel Hhook r.
  assert (Hrun : exists m',
    loop_switch fuel m
    = (Some tt, m',
       EvStop :: replicate w (EvDelay 10) ++ [EvModuleReset (hd true (resetIn (inputs m)))])
    /\ currentState m' = STATE_IDLE
    /\ loop_trackNum m' = 255
    /\ startupComplete m' = false
    /\ hookIn (inputs m') = hooks
    /\ clock (inputs m')
       = clock (inputs m) + 10 * Z.of_nat w + Z.of_nat (hd 1%nat (ticksIn (inputs m)))
    /\ lastActivityTime m' = to_uint32 (clock (inputs m'))).
  { rewrite loop_switch_run, Hs. unfold loop_STATE_RESET.
    step by sfx_stop_run.
    unfold bind at 1. rewrite (loop_reset_wait_run w fuel hooks m Hfuel Hhook).
    cbv beta iota.
    step by modify_run. step by modify_run. step by sfx_reset_run.
    step by millis_run. step by modify_run.
    cbn [modify app].
    eexists. split; [reflexivity|]. repeat split; reflexivity. }
  destruct Hrun as (m' & Hrun & H). unfold r. rewrite Hrun.
  cbn [result final events fst snd]. split; [reflexivity|]. split; [reflexivity|exact H].
Qed.

(** On [reset_machine] the handset is up for two polls and the module
    refuses the reset. *)
Lemma reset_round_waits_for_handset_witness :
  let r := loop_switch 3 reset_machine in
  result r = Some tt
  /\ events r = [EvStop; EvDelay 10; EvDelay 10; EvModuleReset false]
  /\ currentState (final r) = STATE_IDLE.
Proof.
  cbv zeta.
  destruct (reset_round_waits_for_handset 2 3 [LOW] reset_machine)
    as (H1 & H2 & H3 & _).
  - reflexivity.
  - lia.
  - reflexivity.
  - split; [exact H1|]. split; [exact H2|exact H3].
Defined.

(** X23: Without a sound module nothing starts: when the module does not
    answer the reset of [setup], the sketch shows "AudioFX" / "Not Found"
    and halts there.  The files are never listed, the directory stays
    empty and no round of [loop] runs, however long the sketch is left. *)
Theorem setup_halts_without_module (fuel n : nat) (i : Inputs) :
  hd true (resetIn i) = false ->
  let r := sketch fuel n i in
  result r = None
  /\ events r = no_module_log
  /\ shown (render Lcd_blank (events r)) = ("AudioFX         "%string, "Not Found       "%string)
  /\ totalFiles (final r) = 0
  /\ currentState (final r) = STATE_IDLE
  /\ clock (inputs (final r)) = clock i + messageWait.
Proof.
  intros Hreset r.
  assert (Hrun : exists m', sketch fuel n i = (None, m', no_module_log)
                            /\ totalFiles m' = 0 /\ currentState m' = STATE_IDLE
                            /\ clock (inputs m') = clock i + messageWait).
  { assert (Hsetup : setup (boot i)
                     = (None,
                        set_inputs
                          (set_resetIn (tail (resetIn i)) (set_clock (clock i + messageWait) i))
                          (boot i),
                        no_module_log)).
    { unfold setup.
      unfold bind at 1. unfold lcd_init at 1, emit at 1. cbv beta iota.
      unfold bind at 1. unfold lcd_backlight at 1, emit at 1. cbv beta iota.
      step by delay_run. step by sfx_reset_run.
      cbn [inputs boot set_inputs set_clock resetIn]. rewrite Hreset. cbn [negb].
      step by StillLCD_P_run. reflexivity. }
    unfold sketch. step by Hsetup.
    eexists. split; [reflexivity|]. repeat split; reflexivity. }
  destruct Hrun as (m' & Hrun & Ht & Hs & Hc). unfold r. rewrite Hrun.
  cbn [result final events fst snd].
  repeat split; assumption || reflexivity.
Qed.

Lemma setup_halts_without_module_witness :
  result (sketch 10 5 no_module_inputs) = None
  /\ events (sketch 10 5 no_module_inputs) = no_module_log.
Proof.
  destruct (setup_halts_without_module 10 5 no_module_inputs) as (H1 & H2 & _).
  - reflexivity.
  - split; [exact H1|exact H2].
Defined.

(** * The screensaver *)

Lemma exitScreensaver_run (m : Machine) :
  screensaverActive m = true ->
  exitScreensaver m
  = (Some tt,
     set_lastActivityTime (now m) (tick (set_screensaverActive false m)),
     [EvLcdClear]).
Proof.
  intros H. unfold exitScreensaver. step by get_run. rewrite H. cbn [negb].
  step by modify_run.
  unfold bind at 1. unfold lcd_clear at 1, emit at 1. cbv beta iota.
  step by millis_run. reflexivity.
Qed.

Lemma activateScreensaver_dim_run (m : Machine) :
  activateScreensaver_dim 255 255 m = (Some tt, Nat.iter 11 (later 50) m, dim_log).
Proof. reflexivity. Qed.

Lemma activateScreensaver_run (m : Machine) :
  activateScreensaver m
  = (Some tt,
     Nat.iter 11 (later 50)
       (set_screensaverDirection true
          (set_screensaverPosition 0
             (set_screensaverLastUpdate (now m) (tick (set_screensaverActive true m))))),
     dim_log ++ [EvLcdClear]).
Proof.
  unfold activateScreensaver.
  step by modify_run. step by millis_run. step by modify_run.
  unfold bind at 1. rewrite activateScreensaver_dim_run. cbv beta iota.
  reflexivity.
Qed.

Lemma saver_update_run (p : Z) (d : bool) (m : Machine) :
  (if d then
     modify (set_screensaverPosition (p + 1));;
     when (15 <? p + 1) (modify (set_screensaverDirection false))
   else
     modify (set_screensaverPosition (p - 1));;
     when (p - 1 <? 0) (modify (set_screensaverDirection true))) m
  = (Some tt, saver_moved p d m, []).
Proof.
  unfold saver_moved. destruct d.
  - destruct (15 <? p + 1); reflexivity.
  - destruct (p - 1 <? 0); reflexivity.
Qed.

Lemma saver_moved_position (p : Z) (d : bool) (m : Machine) :
  screensaverPosition (saver_moved p d m) = fst (saver_next p d).
Proof.
  unfold saver_moved, saver_next. destruct d.
  - destruct (15 <? p + 1); reflexivity.
  - destruct (p - 1 <? 0); reflexivity.
Qed.

Lemma saver_moved_direction (p : Z) (d : bool) (m : Machine) :
  screensaverDirection m = d ->
  screensaverDirection (saver_moved p d m) = snd (saver_next p d).
Proof.
  intros H. unfold saver_moved, saver_next. destruct d.
  - destruct (15 <? p + 1); [reflexivity|exact H].
  - destruct (p - 1 <? 0); [reflexivity|exact H].
Qed.

(** An animation step that is due: the frame is drawn, then the inputs
    are polled. *)
Lemma runScreensaver_step_run (m : Machine) :
  200 <= to_uint32 (now m - screensaverLastUpdate m) ->
  let p := screensaverPosition m in
  let m1 := saver_moved p (screensaverDirection m)
              (set_screensaverLastUpdate (now (tick m)) (tick (tick m))) in
  runScreensaver m
  = (result (saver_poll m1), final (saver_poll m1),
     saver_frame p (screensaverPosition m1) ++ events (saver_poll m1)).
Proof.
  intros H p m1. apply Z.ltb_ge in H. unfold runScreensaver.
  step by millis_run. step by get_run.
  change (screensaverLastUpdate (tick m)) with (screensaverLastUpdate m).
  fold (now m). rewrite H.
  step by millis_run. step by modify_run.
  change (screensaverPosition (tick m)) with (screensaverPosition m).
  change (screensaverDirection (tick m)) with (screensaverDirection m).
  fold p.
  unfold bind at 1. unfold lcd_setCursor at 1, emit at 1. cbv beta iota.
  unfold bind at 1. unfold lcd_print at 1, emit at 1. cbv beta iota.
  unfold bind at 1. unfold lcd_setCursor at 1, emit at 1. cbv beta iota.
  unfold bind at 1. unfold lcd_print at 1, emit at 1. cbv beta iota.
  unfold bind at 1. rewrite saver_update_run. cbv beta iota.
  step by get_run.
  unfold bind at 1. unfold lcd_setCursor at 1, emit at 1. cbv beta iota.
  unfold bind at 1. unfold lcd_print at 1, emit at 1. cbv beta iota.
  unfold bind at 1. unfold lcd_setCursor at 1, emit at 1. cbv beta iota.
  unfold bind at 1. unfold lcd_print at 1, emit at 1. cbv beta iota.
  change (to_uint32 (clock (inputs (tick (tick m))))) with (now (tick m)).
  fold m1.
  change (bind isReceiverHookOff _) with saver_poll.
  destruct (saver_poll m1) as [[r m2] log]. reflexivity.
Qed.

Lemma saver_poll_quiet (m : Machine) :
  hd HIGH (hookIn (inputs m)) = HIGH ->
  hd NO_KEY (keyIn (inputs m)) = NO_KEY ->
  saver_poll m
  = (Some tt,
     set_inputs
       (set_keyIn (tail (keyIn (inputs m))) (set_hookIn (tail (hookIn (inputs m))) (inputs m)))
       m,
     []).
Proof.
  intros Hhook Hkey. unfold saver_poll.
  step by isReceiverHookOff_run. rewrite Hhook. cbn [is_low].
  step by keypad_getKey_run.
  change (keyIn (inputs (set_inputs _ m))) with (keyIn (inputs m)).
  rewrite Hkey. reflexivity.
Qed.

Lemma saver_poll_lifted (m : Machine) :
  screensaverActive m = true ->
  hd HIGH (hookIn (inputs m)) = LOW ->
  exists m',
    saver_poll m = (Some tt, m', [EvLcdClear])
    /\ screensaverActive m' = false
    /\ same_tables m m'
    /\ keyIn (inputs m') = keyIn (inputs m).
Proof.
  intros Hact Hhook. unfold saver_poll.
  step by isReceiverHookOff_run. rewrite Hhook. cbn [is_low].
  rewrite exitScreensaver_run by exact Hact.
  eexists. split; [reflexivity|]. repeat split; reflexivity.
Qed.

Lemma saver_poll_key (m : Machine) :
  screensaverActive m = true ->
  hd HIGH (hookIn (inputs m)) = HIGH ->
  hd NO_KEY (keyIn (inputs m)) <> NO_KEY ->
  saver_poll m
  = (Some tt,
     let m2 := set_inputs
                 (set_keyIn (tail (keyIn (inputs m)))
                    (set_hookIn (tail (hookIn (inputs m))) (inputs m))) m in
     set_lastActivityTime (now m2) (tick (set_screensaverActive false m2)),
     [EvLcdClear]).
Proof.
  intros Hact Hhook Hkey. unfold saver_poll.
  step by isReceiverHookOff_run. rewrite Hhook. cbn [is_low].
  step by keypad_getKey_run.
  change (keyIn (inputs (set_inputs _ m))) with (keyIn (inputs m)).
  apply Ascii.eqb_neq in Hkey. rewrite Hkey. cbn [negb when].
  rewrite exitScreensaver_run by exact Hact. reflexivity.
Qed.

(** X24: One call of [runScreensaver].  Less than 200 ms after the last
    step nothing is drawn and no input is read.  When a step is due the
    star is erased and redrawn one column on (turning round past either
    edge); then, if the handset is on the hook and no key is pressed, the
    screensaver stays on; if the handset is lifted or a key is pressed the
    display is cleared and the screensaver is off. *)
Theorem runScreensaver_outcomes (m : Machine) :
  let p := screensaverPosition m in
  let d := screensaverDirection m in
  let r := runScreensaver m in
  (to_uint32 (now m - screensaverLastUpdate m) < 200 -> r = (Some tt, tick m, []))
  /\ (200 <= to_uint32 (now m - screensaverLastUpdate m) ->
      hd HIGH (hookIn (inputs m)) = HIGH ->
      hd NO_KEY (keyIn (inputs m)) = NO_KEY ->
      result r = Some tt
      /\ events r = saver_frame p (fst (saver_next p d))
      /\ screensaverPosition (final r) = fst (saver_next p d)
      /\ screensaverDirection (final r) = snd (saver_next p d)
      /\ screensaverLastUpdate (final r) = now (tick m)
      /\ screensaverActive (final r) = screensaverActive m)
  /\ (200 <= to_uint32 (now m - screensaverLastUpdate m) ->
      screensaverActive m = true ->
      hd HIGH (hookIn (inputs m)) = LOW \/ hd NO_KEY (keyIn (inputs m)) <> NO_KEY ->
      result r = Some tt
      /\ events r = saver_frame p (fst (saver_next p d)) ++ [EvLcdClear]
      /\ screensaverPosition (final r) = fst (saver_next p d)
      /\ screensaverDirection (final r) = snd (saver_next p d)
      /\ screensaverActive (final r) = false).
Proof.
  intros p d r. split; [|split].
  - intros H. apply Z.ltb_lt in H. unfold r, runScreensaver.
    step by millis_run. step by get_run.
    change (screensaverLastUpdate (tick m)) with (screensaverLastUpdate m).
    fold (now m). rewrite H. reflexivity.
  - intros Hdue Hhook Hkey. unfold r.
    rewrite (runScreensaver_step_run m Hdue). cbv zeta.
    rewrite saver_moved_position. fold p d.
    rewrite saver_poll_quiet.
    + cbn [result final events fst snd]. rewrite app_nil_r.
      split; [reflexivity|]. split; [reflexivity|].
      split; [apply saver_moved_position|].
      split; [apply saver_moved_direction; reflexivity|].
      unfold saver_moved. destruct d; [destruct (15 <? p + 1)|destruct (p - 1 <? 0)];
        split; reflexivity.
    + unfold saver_moved. destruct d; [destruct (15 <? p + 1)|destruct (p - 1 <? 0)];
        exact Hhook.
    + unfold saver_moved. destruct d; [destruct (15 <? p + 1)|destruct (p - 1 <? 0)];
        exact Hkey.
  - intros Hdue Hact Hin. unfold r.
    rewrite (runScreensaver_step_run m Hdue). cbv zeta.
    rewrite saver_moved_position. fold p d.
    set (m1 := saver_moved p d _).
    assert (Hact1 : screensaverActive m1 = true).
    { unfold m1, saver_moved.
      destruct d; [destruct (15 <? p + 1)|destruct (p - 1 <? 0)]; exact Hact. }
    assert (Hhook1 : hookIn (inputs m1) = hookIn (inputs m)).
    { unfold m1, saver_moved.
      destruct d; [destruct (15 <? p + 1)|destruct (p - 1 <? 0)]; reflexivity. }
    assert (Hkey1 : keyIn (inputs m1) = keyIn (inputs m)).
    { unfold m1, saver_moved.
      destruct d; [destruct (15 <? p + 1)|destruct (p - 1 <? 0)]; reflexivity. }
    assert (Hp1 : screensaverPosition m1 = fst (saver_next p d))
      by apply saver_moved_position.
    assert (Hd1 : screensaverDirection m1 = snd (saver_next p d))
      by (apply saver_moved_direction; reflexivity).
    destruct (hd HIGH (hookIn (inputs m))) eqn:Hhook.
    + destruct (saver_poll_lifted m1 Hact1) as (m' & Hrun & Hoff & Hsame & _).
      { rewrite Hhook1. exact Hhook. }
      rewrite Hrun. cbn [result final events fst snd].
      destruct Hsame as (_ & _ & Hp & Hd & _).
      split; [reflexivity|]. split; [reflexivity|].
      split; [rewrite Hp; exact Hp1|]. split; [rewrite Hd; exact Hd1|exact Hoff].
    + destruct Hin as [Hin|Hin]; [discriminate Hin|].
      rewrite (saver_poll_key m1 Hact1).
      * cbn [result final events fst snd].
        split; [reflexivity|]. split; [reflexivity|].
        split; [exact Hp1|]. split; [exact Hd1|reflexivity].
      * rewrite Hhook1. exact Hhook.
      * rewrite Hkey1. exact Hin.
Qed.

Lemma render_clear_last (dsp : Lcd) (log : list Event) :
  shown (render dsp (log ++ [EvLcdClear])) = blank_display.
Proof. rewrite render_app. reflexivity. Qed.

(** X25: a minute without activity starts the screensaver.  In a round of
    [loop] in IDLE with the start-up message shown, the screensaver off,
    more than [screensaverTimeout] (60 s) since the last activity, the
    handset on the hook, no fob press being tracked and the four fob lines
    released: [loop] steps the backlight down from 255 to 5 in eleven
    steps of 50 ms, never to 0, clears the display and starts the
    animation at column 0 moving right; nothing else is sent and the phase
    stays IDLE. *)
Theorem idle_minute_starts_screensaver (fuel : nat) (m : Machine) (dsp : Lcd) :
  startupComplete m = true ->
  screensaverActive m = false ->
  currentState m = STATE_IDLE ->
  screensaverTimeout < to_uint32 (now m - lastActivityTime m) ->
  hd HIGH (hookIn (inputs m)) = HIGH ->
  lastButtonPressed m = -1 ->
  all_released m ->
  let r := loop fuel m in
  result r = Some tt
  /\ events r = dim_log ++ [EvLcdClear]
  /\ shown (render dsp (events r)) = blank_display
  /\ currentState (final r) = STATE_IDLE
  /\ screensaverActive (final r) = true
  /\ screensaverPosition (final r) = 0
  /\ screensaverDirection (final r) = true
  /\ screensaverLastUpdate (final r) = now (tick m)
  /\ clock (inputs (final r)) = clock (inputs (tick (tick m))) + 550.
Proof.
  intros Hstart Hsaver Hidle Hdue Hhook Hlast Hall r.
  apply Z.ltb_lt in Hdue.
  assert (Hrun : exists m',
    loop fuel m = (Some tt, m', dim_log ++ [EvLcdClear])
    /\ currentState m' = STATE_IDLE
    /\ screensaverActive m' = true
    /\ screensaverPosition m' = 0
    /\ screensaverDirection m' = true
    /\ screensaverLastUpdate m' = now (tick m)
    /\ clock (inputs m') = clock (inputs (tick (tick m))) + 550).
  { unfold loop.
    step by get_run. rewrite Hstart. cbn [negb when].
    unfold bind at 1. cbn [ret]. cbv beta iota.
    step by get_run. rewrite Hsaver. cbn [when].
    unfold bind at 1. cbn [ret]. cbv beta iota.
    step by get_run. rewrite Hsaver. cbn [negb].
    unfold bind at 1 2. rewrite millis_run. cbv beta iota.
    fold (now m). rewrite Hdue. cbn [when].
    rewrite activateScreensaver_run. cbv beta iota.
    set (ma := Nat.iter 11 (later 50) _).
    rewrite loop_switch_run.
    change (currentState ma) with (currentState m). rewrite Hidle.
    unfold loop_STATE_IDLE.
    step by isReceiverHookOff_run.
    change (hookIn (inputs ma)) with (hookIn (inputs m)) at 1.
    rewrite Hhook. cbn [is_low].
    unfold bind at 1.
    rewrite CheckForIncomingCall_all_released by (exact Hlast || exact Hall).
    cbv beta iota. change (negb (-1 =? -1)) with false. cbv iota.
    cbn [ret app]. rewrite !app_nil_r.
    eexists. split; [reflexivity|].
    split; [exact Hidle|]. split; [reflexivity|]. split; [reflexivity|].
    split; [reflexivity|]. split; [reflexivity|].
    unfold ma. destruct m as [? ? ? ? ? ? ? ? ? ? ? ? ? []]. cbn. lia. }
  destruct Hrun as (m' & Hrun & H). unfold r. rewrite Hrun.
  cbn [result final events fst snd]. split; [reflexivity|]. split; [reflexivity|].
  split; [apply render_clear_last|exact H].
Qed.

Lemma all_released_cases (m : Machine) :
  hd HIGH (line 0 m) = HIGH -> hd HIGH (line 1 m) = HIGH ->
  hd HIGH (line 2 m) = HIGH -> hd HIGH (line 3 m) = HIGH ->
  all_released m.
Proof.
  intros H0 H1 H2 H3 k Hk. unfold numButtons in Hk.
  assert (Hcases : k = 0 \/ k = 1 \/ k = 2 \/ k = 3) by lia.
  destruct Hcases as [->|[->|[->| ->]]]; assumption.
Qed.

(** On [idle_minute_machine] 61 s have gone by since the start-up
    message. *)
Lemma idle_minute_starts_screensaver_witness :
  let r := loop 1 idle_minute_machine in
  result r = Some tt
  /\ events r = dim_log ++ [EvLcdClear]
  /\ screensaverActive (final r) = true.
Proof.
  cbv zeta.
  destruct (idle_minute_starts_screensaver 1 idle_minute_machine Lcd_blank)
    as (H1 & H2 & _ & _ & H5 & _).
  - vm_compute. reflexivity.
  - vm_compute. reflexivity.
  - vm_compute. reflexivity.
  - vm_compute. reflexivity.
  - vm_compute. reflexivity.
  - vm_compute. reflexivity.
  - apply all_released_cases; vm_compute; reflexivity.
  - split; [exact H1|]. split; [exact H2|exact H5].
Defined.

(** X26: A key press ends the screensaver and leaves the display blank.
    In an IDLE round with the screensaver on, an animation step due, the
    handset on the hook and a key pressed, [loop] draws the step, clears
    the display and switches the screensaver off; the key is used up.  The
    start-up message is not drawn again ([startupComplete] is still set),
    so the display shows nothing although the phone is idle. *)
Theorem key_press_wakes_to_blank_display (fuel : nat) (m : Machine) (dsp : Lcd) :
  startupComplete m = true ->
  screensaverActive m = true ->
  currentState m = STATE_IDLE ->
  ticksIn (inputs m) = [] ->
  200 <= to_uint32 (now m - screensaverLastUpdate m) ->
  hd HIGH (hookIn (inputs m)) = HIGH ->
  hd HIGH (tail (hookIn (inputs m))) = HIGH ->
  hd NO_KEY (keyIn (inputs m)) <> NO_KEY ->
  lastButtonPressed m = -1 ->
  all_released m ->
  let r := loop fuel m in
  result r = Some tt
  /\ shown (render dsp (events r)) = blank_display
  /\ currentState (final r) = STATE_IDLE
  /\ screensaverActive (final r) = false
  /\ startupComplete (final r) = true
  /\ keyIn (inputs (final r)) = tail (keyIn (inputs m))
  /\ List.filter is_module_command (events r) = [].
Proof.
  intros Hstart Hsaver Hidle Hticks Hdue Hhook Hhook2 Hkey Hlast Hall r.
  set (p := screensaverPosition m). set (d := screensaverDirection m).
  assert (Hrun : exists m',
    loop fuel m = (Some tt, m', saver_frame p (fst (saver_next p d)) ++ [EvLcdClear])
    /\ currentState m' = STATE_IDLE
    /\ screensaverActive m' = false
    /\ startupComplete m' = true
    /\ keyIn (inputs m') = tail (keyIn (inputs m))).
  { unfold loop.
    step by get_run. rewrite Hstart. cbn [negb when].
    unfold bind at 1. cbn [ret]. cbv beta iota.
    step by get_run. rewrite Hsaver. cbn [when].
    unfold bind at 1. rewrite (runScreensaver_step_run m Hdue). cbv zeta.
    rewrite saver_moved_position. fold p d.
    set (m1 := saver_moved p d _).
    assert (Hm1 : screensaverActive m1 = true
                  /\ hookIn (inputs m1) = hookIn (inputs m)
                  /\ keyIn (inputs m1) = keyIn (inputs m)
                  /\ currentState m1 = STATE_IDLE
                  /\ startupComplete m1 = true
                  /\ lastButtonPressed m1 = -1
                  /\ fobIn (inputs m1) = fobIn (inputs m)
                  /\ ticksIn (inputs m1) = []
                  /\ clock (inputs m1) = clock (inputs m) + 2).
    { unfold m1, saver_moved.
      destruct d; [destruct (15 <? p + 1)|destruct (p - 1 <? 0)];
        (split; [exact Hsaver|]); (split; [reflexivity|]); (split; [reflexivity|]);
        (split; [exact Hidle|]); (split; [exact Hstart|]); (split; [exact Hlast|]);
        (split; [reflexivity|]);
        (split; [cbn; rewrite Hticks; reflexivity|cbn; rewrite Hticks; cbn; lia]). }
    clearbody m1.
    destruct Hm1 as (Ha1 & Hh1 & Hk1 & Hs1 & Hc1 & Hl1 & Hf1 & Ht1 & Hclk1).
    rewrite (saver_poll_key m1 Ha1) by (rewrite ?Hh1, ?Hk1; assumption).
    cbv zeta. cbn [result final events fst snd]. cbv beta iota.
    set (m2 := set_inputs _ m1).
    set (m3 := set_lastActivityTime _ _).
    step by get_run.
    change (screensaverActive m3) with false. cbn [negb].
    unfold bind at 1 2. rewrite millis_run. cbv beta iota.
    assert (Hnot : (screensaverTimeout <? to_uint32 (now m3 - lastActivityTime m3)) = false).
    { apply Z.ltb_ge.
      change (lastActivityTime m3) with (now m2).
      unfold now. change (ticksIn (inputs m2)) with (ticksIn (inputs m1)) in *.
      unfold m3, m2, tick. cbn [inputs set_inputs set_lastActivityTime set_screensaverActive
        clock set_clock ticksIn set_ticksIn set_keyIn set_hookIn].
      rewrite Ht1. cbn [hd tail Z.of_nat].
      rewrite to_uint32_diff by (cbn; lia). unfold screensaverTimeout. cbn. lia. }
    fold (now m3). rewrite Hnot. cbn [when ret]. cbv beta iota.
    rewrite loop_switch_run.
    change (currentState (tick m3)) with (currentState m1). rewrite Hs1.
    unfold loop_STATE_IDLE.
    step by isReceiverHookOff_run.
    change (hookIn (inputs (tick m3))) with (tail (hookIn (inputs m1))) at 1.
    rewrite Hh1, Hhook2. cbn [is_low].
    unfold bind at 1.
    rewrite CheckForIncomingCall_all_released.
    - cbv beta iota. change (negb (-1 =? -1)) with false. cbv iota.
      cbn [ret app]. rewrite !app_nil_r.
      eexists. split; [reflexivity|].
      split; [exact Hs1|]. split; [reflexivity|]. split; [exact Hc1|].
      cbn. rewrite Hk1. reflexivity.
    - exact Hl1.
    - intros k Hk. specialize (Hall k Hk). unfold line in *.
      change (fobIn (inputs _)) with (fobIn (inputs m1)). rewrite Hf1. exact Hall. }
  destruct Hrun as (m' & Hrun & H1 & H2 & H3 & H4). unfold r. rewrite Hrun.
  cbn [result final events fst snd]. split; [reflexivity|].
  split; [apply render_clear_last|].
  split; [exact H1|]. split; [exact H2|]. split; [exact H3|]. split; [exact H4|].
  reflexivity.
Qed.

(** On [saver_key_machine] key 5 is pressed 300 ms into the screensaver. *)
Lemma key_press_wakes_to_blank_display_witness :
  let r := loop 1 saver_key_machine in
  result r = Some tt
  /\ shown (render Lcd_blank (events r)) = blank_display
  /\ screensaverActive (final r) = false.
Proof.
  cbv zeta.
  destruct (key_press_wakes_to_blank_display 1 saver_key_machine Lcd_blank)
    as (H1 & H2 & _ & H4 & _).
  - vm_compute. reflexivity.
  - vm_compute. reflexivity.
  - vm_compute. reflexivity.
  - vm_compute. reflexivity.
  - vm_compute. discriminate.
  - vm_compute. reflexivity.
  - vm_compute. reflexivity.
  - vm_compute. discriminate.
  - vm_compute. reflexivity.
  - apply all_released_cases; vm_compute; reflexivity.
  - split; [exact H1|]. split; [exact H2|exact H4].
Defined.

(** * The display helpers *)

Lemma strlcpy_chars (room : nat) :
  forall s, list_ascii_of_string (strlcpy room s) = take room (c_chars s).
Proof.
  induction room as [|room IH]; intros s.
  - destruct s; cbn; [reflexivity|]. rewrite take_0. reflexivity.
  - destruct s as [|c s]; [reflexivity|]. cbn [strlcpy c_chars].
    destruct (Ascii.eqb c NUL); [reflexivity|].
    cbn [list_ascii_of_string take]. rewrite IH. reflexivity.
Qed.

Lemma string_length_chars (s : string) :
  String.length s = length (list_ascii_of_string s).
Proof. induction s as [|c s IH]; [reflexivity|]. cbn. rewrite IH. reflexivity. Qed.

(** Printing [s] at column [k] of a row when it fits. *)
Lemma Lcd_write_fits (s : string) :
  forall (row : list ascii) (k : nat),
    length row = 16%nat ->
    (k + String.length s <= 16)%nat ->
    Lcd_write row (Z.of_nat k) s
    = take k row ++ list_ascii_of_string s ++ drop (k + String.length s) row.
Proof.
  induction s as [|c s IH]; intros row k Hrow Hfit.
  - cbn [Lcd_write list_ascii_of_string String.length app].
    rewrite Nat.add_0_r, take_drop. reflexivity.
  - cbn [Lcd_write list_ascii_of_string String.length] in *.
    assert (Hin : (0 <=? Z.of_nat k) && (Z.of_nat k <? 16) = true).
    { apply andb_true_iff. split; [apply Z.leb_le|apply Z.ltb_lt]; lia. }
    rewrite Hin, Nat2Z.id.
    replace (Z.of_nat k + 1) with (Z.of_nat (S k)) by lia.
    rewrite IH by (rewrite ?length_insert; lia).
    assert (Hk : (k < length row)%nat) by lia.
    rewrite (take_S_r _ _ c) by (apply list_lookup_insert_eq; exact Hk).
    rewrite take_insert_ge by lia.
    rewrite drop_insert_lt by lia.
    rewrite <- app_assoc. cbn [app].
    replace (S k + String.length s)%nat with (k + S (String.length s))%nat by lia.
    reflexivity.
Qed.

(** A row is blank, then a text cut by [strlcpy] is printed from its
    first column. *)
Lemma Lcd_write_blank (s : string) :
  string_of_list_ascii (Lcd_write (replicate 16 space) 0 (strlcpy 16 s)) = fit16 s.
Proof.
  unfold fit16. cbv zeta.
  assert (Hlen : (String.length (strlcpy 16 s) <= 16)%nat).
  { rewrite string_length_chars, strlcpy_chars, length_take. lia. }
  change (Lcd_write (replicate 16 space) 0 (strlcpy 16 s))
    with (Lcd_write (replicate 16 space) (Z.of_nat 0) (strlcpy 16 s)).
  rewrite (Lcd_write_fits (strlcpy 16 s) (replicate 16 space) 0 (length_replicate _ _) Hlen).
  rewrite take_0, drop_replicate. cbn [app Nat.add].
  rewrite string_length_chars, strlcpy_chars. reflexivity.
Qed.

(** X27: The display helpers cut every text to the 16 columns of a row.
    [StillLCD] (and [StillLCD_P], which is the same function on texts in
    program memory) replaces the whole display by the first 16 characters
    of each text, filled up with spaces;
    [displayLCDTopMessage_P] does the same to the first row and leaves the
    second row as it is.  Neither changes the state of the sketch. *)
Theorem display_helpers_fit_sixteen_columns
    (text1 text2 : string) (m : Machine) (dsp : Lcd) :
  length (row0 dsp) = 16%nat ->
  (result (StillLCD text1 text2 m) = Some tt
   /\ final (StillLCD text1 text2 m) = m
   /\ shown (render dsp (events (StillLCD text1 text2 m))) = (fit16 text1, fit16 text2))
  /\ (result (displayLCDTopMessage_P text1 m) = Some tt
      /\ final (displayLCDTopMessage_P text1 m) = m
      /\ shown (render dsp (events (displayLCDTopMessage_P text1 m)))
         = (fit16 text1, string_of_list_ascii (row1 dsp))).
Proof.
  intros Hrow. split.
  - split; [reflexivity|]. split; [reflexivity|].
    change (shown (render dsp (events (StillLCD text1 text2 m))))
      with (string_of_list_ascii (Lcd_write (replicate 16 space) 0 (strlcpy 16 text1)),
            string_of_list_ascii (Lcd_write (replicate 16 space) 0 (strlcpy 16 text2))).
    rewrite !Lcd_write_blank. reflexivity.
  - split; [reflexivity|]. split; [reflexivity|].
    change (shown (render dsp (events (displayLCDTopMessage_P text1 m))))
      with (string_of_list_ascii
              (Lcd_write (Lcd_write (row0 dsp) 0 "                ") 0 (strlcpy 16 text1)),
            string_of_list_ascii (row1 dsp)).
    change (Lcd_write (row0 dsp) 0 "                ")
      with (Lcd_write (row0 dsp) (Z.of_nat 0) "                ").
    rewrite (Lcd_write_fits "                " (row0 dsp) 0 Hrow) by (cbn; lia).
    rewrite take_0, drop_ge by (cbn; lia).
    change ([] ++ list_ascii_of_string "                " ++ []) with (replicate 16 space).
    rewrite Lcd_write_blank. reflexivity.
Qed.

(** "RingTone not found" has 18 characters. *)
Lemma display_helpers_fit_sixteen_columns_witness :
  shown (render Lcd_blank (events (StillLCD ringError blank demo_machine)))
  = ("RingTone not fou"%string, "                "%string).
Proof.
  destruct (display_helpers_fit_sixteen_columns ringError blank demo_machine Lcd_blank)
    as ((_ & _ & H) & _).
  - reflexivity.
  - rewrite H. reflexivity.
Defined.
